(** * bazel-metrics: the repository scanner, the metrics calculator and
      the benchmark runner

    A shallow embedding of [analyzer/pkg/scanner] (the directory walk, the
    BUILD-file target counter, the per-language package lists), of
    [analyzer/pkg/metrics] (language summaries, directory breakdown, report)
    and of [analyzer/pkg/benchmark] (the choice of the packages to benchmark,
    the search for [go.mod], the runs of [go test] and [bazel test]),
    followed by the properties proved about them.

    Conventions.
    - Go's [int] counters are modelled in [Z].  Every counter of the program
      counts files visited, regexp matches in a file held in memory or
      elements of a slice, so none of them comes near 2^63 and the 64-bit
      wrap-around is never exercised.
    - Go's [float64] is the kernel's binary64 type [float]; the percentages
      are computed with the same operations, in the same order, as the source.
    - Go strings are byte strings: [string].
    - Go maps are [gmap]s.  Where the order of a [range] over a map is
      observable (the directory breakdown) the model is a relation over all
      the orders the language allows.
    - [sort.Slice] is a relation, its documented contract, wherever a
      property holds of every sorted rearrangement; where the order of equal
      elements matters, it is the function the library of Go 1.19 runs.
    - What the machine answers (the file system the walk reads, [os.Stat],
      the commands the runner starts and the time they take) is an argument
      of the model, and the properties hold for every answer. *)

From Stdlib Require Import ZArith Floats Uint63 String Ascii List Lia.
From stdpp Require Import gmap strings list fin_maps sorting.

Local Open Scope Z_scope.

(** ** Go library functions used by the program *)

Module Float64.

(** [float64(n)] for an [int] [n]: the nearest binary64 number. *)
Definition of_int (z : Z) : float :=
  if z <? 0 then PrimFloat.opp (PrimFloat.of_uint63 (Uint63.of_Z (- z)))
  else PrimFloat.of_uint63 (Uint63.of_Z z).

(** The zero value of a [float64] field. *)
Definition zero : float := 0%float.

Definition hundred : float := 100%float.

(** Comparison on the extended number line; false when either side is NaN. *)
Definition le (x y : float) : Prop := PrimFloat.leb x y = true.

End Float64.

Module strings.

(** [strings.HasPrefix(s, prefix)] *)
Definition HasPrefix (s prefix : string) : bool := String.prefix prefix s.

(** [strings.HasSuffix(s, suffix)]:
    [len(s) >= len(suffix) && s[len(s)-len(suffix):] == suffix] *)
Definition HasSuffix (s suffix : string) : bool :=
  (String.length suffix <=? String.length s)%nat
  && String.eqb
       (String.substring (String.length s - String.length suffix)
                         (String.length suffix) s)
       suffix.

(** [strings.Split(s, sep)] for a one-byte separator: the pieces between
    the separators, at least one piece. *)
Fixpoint split_go (sep : ascii) (cur : string) (s : string) : list string :=
  match s with
  | EmptyString => [String.rev cur]
  | String c s' =>
      if Ascii.eqb c sep then String.rev cur :: split_go sep EmptyString s'
      else split_go sep (String c cur) s'
  end.

Definition Split (s : string) (sep : ascii) : list string :=
  split_go sep EmptyString s.

(** [strings.Join(elems, sep)] *)
Fixpoint Join (elems : list string) (sep : string) : string :=
  match elems with
  | [] => EmptyString
  | [e] => e
  | e :: rest => e +:+ sep +:+ Join rest sep
  end.

End strings.

Module filepath.

Definition Separator : ascii := "/"%char.

(** One step of [filepath.Clean]'s loop over the path elements: [out] is the
    stack of elements kept so far (top first).  Empty and [.] elements are
    dropped; [..] removes the element before it when there is one that is
    not itself [..], is kept in front of a relative path, and is dropped at
    the root of a rooted path. *)
Definition clean_step (rooted : bool) (out : list string) (e : string)
  : list string :=
  if String.eqb e "" || String.eqb e "." then out
  else if String.eqb e ".." then
    match out with
    | top :: out' =>
        if String.eqb top ".." then ".." :: out else out'
    | [] => if rooted then [] else [".."]
    end
  else e :: out.

(** [filepath.Clean(path)] with the Unix separator. *)
Definition Clean (path : string) : string :=
  if String.eqb path "" then "."
  else
    let rooted := strings.HasPrefix path "/" in
    let out := rev (foldl (clean_step rooted) [] (strings.Split path Separator)) in
    let body := strings.Join out "/" in
    if rooted then "/" +:+ body
    else if String.eqb body "" then "." else body.

(** [filepath.Base(path)]: the last element of the path, after removing
    trailing separators; [.] for the empty path and [/] for a path of
    separators only. *)
Fixpoint strip_trailing (r : string) : string :=
  match r with
  | String c r' => if Ascii.eqb c Separator then strip_trailing r' else r
  | EmptyString => EmptyString
  end.

Fixpoint last_element (r : string) (acc : string) : string :=
  match r with
  | String c r' =>
      if Ascii.eqb c Separator then acc else last_element r' (String c acc)
  | EmptyString => acc
  end.

Definition Base (path : string) : string :=
  if String.eqb path "" then "."
  else
    let e := last_element (strip_trailing (String.rev path)) EmptyString in
    if String.eqb e "" then "/" else e.

(** [filepath.Join(dir, name)] for a clean [dir] and a directory entry
    [name]: one separator between them, none added after the root [/]. *)
Definition Join (dir name : string) : string :=
  if strings.HasSuffix dir "/" then dir +:+ name else dir +:+ "/" +:+ name.

End filepath.

Module regexp.

(** The fragment of the regexp syntax that the scanner's nine patterns
    use, [(?m)^\s*NAME\s*\(]: a multi-line [^], a greedy [\s*] and literal
    bytes. *)
Inductive item :=
| BeginLine
| Spaces
| Byte (c : ascii).

(** The class [\s]: tab, newline, form feed, carriage return, space. *)
Definition isSpace (c : ascii) : bool :=
  match c with
  | "009" | "010" | "012" | "013" | " " => true
  | _ => false
  end%char.

(** [(?m)^] holds at the start of the text and after a newline; [prev] is
    the byte before the current position. *)
Definition atLineStart (prev : option ascii) : bool :=
  match prev with
  | None => true
  | Some c => Ascii.eqb c "010"
  end.

(** The length of the match of [p] that starts at the current position, by
    leftmost-first rules: [\s*] takes as many bytes as it can and gives
    them back one at a time when the rest does not match. *)
Fixpoint matchHere (p : list item) (prev : option ascii) (s : string)
  {struct p} : option nat :=
  match p with
  | [] => Some 0%nat
  | BeginLine :: p' => if atLineStart prev then matchHere p' prev s else None
  | Byte c :: p' =>
      match s with
      | String d s' =>
          if Ascii.eqb c d then S <$> matchHere p' (Some d) s' else None
      | EmptyString => None
      end
  | Spaces :: p' =>
      (fix star (prev : option ascii) (s : string) {struct s} : option nat :=
         match s with
         | String d s' =>
             if isSpace d then
               match star (Some d) s' with
               | Some n => Some (S n)
               | None => matchHere p' prev s
               end
             else matchHere p' prev s
         | EmptyString => matchHere p' prev s
         end) prev s
  end.

(** [len(re.FindAllString(text, -1))]: the number of successive
    non-overlapping matches, scanning from the left; [skip] bytes of the
    last match are still to be passed.  The patterns of the scanner contain
    literal bytes, so no match is empty. *)
Fixpoint countFrom (p : list item) (prev : option ascii) (s : string)
  (skip : nat) : nat :=
  match s with
  | EmptyString => 0
  | String c s' =>
      match skip with
      | S k => countFrom p (Some c) s' k
      | O =>
          match matchHere p prev s with
          | Some (S n) => S (countFrom p (Some c) s' n)
          | _ => countFrom p (Some c) s' 0
          end
      end
  end.

Definition countAll (p : list item) (text : string) : Z :=
  Z.of_nat (countFrom p None text 0).

(** [regexp.MustCompile(`(?m)^\s*NAME\s*\(`)] *)
Definition rule (name : string) : list item :=
  [BeginLine; Spaces] ++ map Byte (list_ascii_of_string name)
    ++ [Spaces; Byte "("%char].

End regexp.

Module bufio.

(** [bufio.MaxScanTokenSize] *)
Definition MaxScanTokenSize : Z := 64 * 1024.

(** [dropCR] on a line held in reverse. *)
Definition dropCR (rline : string) : string :=
  match rline with
  | String "013"%char r => String.rev r
  | _ => String.rev rline
  end.

(** The tokens a [bufio.Scanner] with the default [ScanLines] split delivers
    for the bytes [s], and whether it stopped with [ErrTooLong]: a line is
    cut at its newline, loses one trailing carriage return, and a last line
    without newline is delivered when it is not empty.  The scanner gives up
    when [MaxScanTokenSize] bytes are pending without a newline.  [rline] is
    the pending line in reverse and [n] its length. *)
Fixpoint scanLines (rline : string) (n : Z) (s : string) : list string * bool :=
  match s with
  | EmptyString => (if n =? 0 then [] else [dropCR rline], false)
  | String c s' =>
      if Ascii.eqb c "010" then
        let '(ls, e) := scanLines EmptyString 0 s' in (dropCR rline :: ls, e)
      else if MaxScanTokenSize <=? n + 1 then ([], true)
      else scanLines (String c rline) (n + 1) s'
  end.

End bufio.

Module bits.

(** [bits.Len(x)]: the number of bits needed to represent [x], 0 for 0. *)
Definition Len (x : nat) : nat := if (x =? 0)%nat then 0%nat else S (Nat.log2 x).

End bits.

Module sort.

(** [sort.Slice(s, less)] by its documented contract: the slice is
    rearranged so that no element is [less] than one before it.  The
    documentation does not promise a stable sort, and the relation admits
    every such rearrangement, whichever of them an implementation returns:
    what is proved from it holds of every implementation. *)
Definition Slice {A : Type} (less : A -> A -> bool) (s s' : list A) : Prop :=
  s ≡ₚ s' /\ StronglySorted (fun a b => less b a = false) s'.

(** ** [sort.Slice] as the library runs it

    The pattern-defeating quicksort of Go 1.19 and later ([zsortfunc.go]),
    for the properties that depend on the order of equal elements.  The
    slice is a list that the functions pass on; an index is a [nat].  The
    result is [None] where the run would index outside the slice, and where
    it leaves the part of the algorithm that is modelled: [heapSort_func],
    [breakPatterns_func] and the choice of the pivot and the shifting of
    [partialInsertionSort_func] for 50 elements and more. *)
Section zsortfunc.
Context {A : Type} (less : A -> A -> bool).

(** [data.Less(i, j)] and [data.Swap(i, j)]: the [less] function on the
    elements at the two indices, and their exchange. *)
Definition Less (data : list A) (i j : nat) : option bool :=
  x ← data !! i; y ← data !! j; Some (less x y).

Definition Swap (data : list A) (i j : nat) : option (list A) :=
  x ← data !! i; y ← data !! j; Some (<[j := x]> (<[i := y]> data)).

(** The inner loop of [insertionSort_func],
    [for j := i; j > a && data.Less(j, j-1); j-- { data.Swap(j, j-1) }]. *)
Fixpoint insertionSort_inner (data : list A) (a j : nat) : option (list A) :=
  match j with
  | O => Some data
  | S j' =>
      if (a <? j)%nat then
        lt ← Less data j j';
        if lt : bool then data ← Swap data j j'; insertionSort_inner data a j'
        else Some data
      else Some data
  end.

(** [n] iterations of the outer loop, [for i := a + 1; i < b; i++]. *)
Fixpoint insertionSort_outer (n : nat) (data : list A) (a i : nat)
  : option (list A) :=
  match n with
  | O => Some data
  | S n => data ← insertionSort_inner data a i; insertionSort_outer n data a (S i)
  end.

Definition insertionSort_func (data : list A) (a b : nat) : option (list A) :=
  insertionSort_outer (b - (a + 1)) data a (a + 1).

Inductive sortedHint := unknownHint | increasingHint | decreasingHint.

(** [order2_func]: the two indices with the smaller element first, and the
    count of swaps. *)
Definition order2_func (data : list A) (a b swaps : nat)
  : option (nat * nat * nat) :=
  lt ← Less data b a;
  Some (if lt : bool then (b, a, S swaps) else (a, b, swaps)).

(** [median_func]: the index of the median of three elements. *)
Definition median_func (data : list A) (a b c swaps : nat) : option (nat * nat) :=
  '(a, b, swaps) ← order2_func data a b swaps;
  '(b, c, swaps) ← order2_func data b c swaps;
  '(a, b, swaps) ← order2_func data a b swaps;
  Some (b, swaps).

(** [choosePivot_func]: a static pivot below 8 elements, the median of
    three below 50 ([shortestNinther]). *)
Definition choosePivot_func (data : list A) (a b : nat)
  : option (nat * sortedHint) :=
  let l := (b - a)%nat in
  let i := (a + l / 4 * 1)%nat in
  let j := (a + l / 4 * 2)%nat in
  let k := (a + l / 4 * 3)%nat in
  '(j, swaps) ←
    (if (8 <=? l)%nat then
       if (50 <=? l)%nat then None else median_func data i j k 0
     else Some (j, 0%nat));
  Some (j, match swaps with
           | 0%nat => increasingHint
           | 12%nat => decreasingHint
           | _ => unknownHint
           end).

(** [reverseRange_func]:
    [i := a; j := b - 1; for i < j { data.Swap(i, j); i++; j-- }]. *)
Fixpoint reverseRange_loop (n : nat) (data : list A) (i j : nat)
  : option (list A) :=
  if (i <? j)%nat then
    match n with
    | O => None
    | S n => data ← Swap data i j; reverseRange_loop n data (S i) (j - 1)
    end
  else Some data.

Definition reverseRange_func (data : list A) (a b : nat) : option (list A) :=
  reverseRange_loop (b - a) data a (b - 1).

(** The scan of [partialInsertionSort_func],
    [for i < b && !data.Less(i, i-1) { i++ }]. *)
Fixpoint skipOrdered (n : nat) (data : list A) (i b : nat) : option nat :=
  if (i <? b)%nat then
    lt ← Less data i (i - 1);
    if lt : bool then Some i
    else match n with
         | O => None
         | S n => skipOrdered n data (S i) b
         end
  else Some i.

(** [partialInsertionSort_func] below 50 elements ([shortestShifting]): it
    answers whether the slice is sorted and moves nothing. *)
Definition partialInsertionSort_func (data : list A) (a b : nat) : option bool :=
  i ← skipOrdered (b - a) data (a + 1) b;
  if (i =? b)%nat then Some true
  else if (b - a <? 50)%nat then Some false
  else None.

(** The two scans of a partition, [for i <= j && cond(i) { i++ }] and
    [for i <= j && cond(j) { j-- }]. *)
Fixpoint scanUp (n : nat) (cond : nat -> option bool) (i j : nat) : option nat :=
  if (i <=? j)%nat then
    c ← cond i;
    if c : bool then
      match n with
      | O => None
      | S n => scanUp n cond (S i) j
      end
    else Some i
  else Some i.

Fixpoint scanDown (cond : nat -> option bool) (i j : nat) : option nat :=
  if (i <=? j)%nat then
    c ← cond j;
    if c : bool then
      match j with
      | O => None
      | S j' => scanDown cond i j'
      end
    else Some j
  else Some j.

(** The second loop of [partition_func]; the pivot is at [a]. *)
Fixpoint partition_loop (n : nat) (data : list A) (a i j : nat)
  : option (list A * nat) :=
  i ← scanUp (S j - i) (fun i => Less data i a) i j;
  j ← scanDown (fun j => negb <$> Less data j a) i j;
  if (j <? i)%nat then Some (data, j)
  else
    match n with
    | O => None
    | S n => data ← Swap data i j; partition_loop n data a (S i) (j - 1)
    end.

(** [partition_func]: the elements [less] than the pivot before it, the
    others after it; the new index of the pivot and whether the slice was
    partitioned already. *)
Definition partition_func (data : list A) (a b pivot : nat)
  : option (list A * nat * bool) :=
  data ← Swap data a pivot;
  let i := (a + 1)%nat in
  let j := (b - 1)%nat in
  i ← scanUp (S j - i) (fun i => Less data i a) i j;
  j ← scanDown (fun j => negb <$> Less data j a) i j;
  if (j <? i)%nat then
    data ← Swap data j a; Some (data, j, true)
  else
    data ← Swap data i j;
    '(data, j) ← partition_loop (b - a) data a (S i) (j - 1);
    data ← Swap data j a; Some (data, j, false).

(** [partitionEqual_func]: the elements equal to the pivot first. *)
Fixpoint partitionEqual_loop (n : nat) (data : list A) (a i j : nat)
  : option (list A * nat) :=
  i ← scanUp (S j - i) (fun i => negb <$> Less data a i) i j;
  j ← scanDown (fun j => Less data a j) i j;
  if (j <? i)%nat then Some (data, i)
  else
    match n with
    | O => None
    | S n => data ← Swap data i j; partitionEqual_loop n data a (S i) (j - 1)
    end.

Definition partitionEqual_func (data : list A) (a b pivot : nat)
  : option (list A * nat) :=
  data ← Swap data a pivot;
  partitionEqual_loop (b - a) data a (a + 1) (b - 1).

(** [pdqsort_func(data, a, b, limit)]: one step of [fuel] for an iteration
    of the loop and for a recursive call; each of them has fewer elements to
    sort than the one before.  At most 12 elements ([maxInsertion]) are
    sorted by insertion. *)
Fixpoint pdqsort_func (fuel : nat) (data : list A) (a b limit : nat)
  (wasBalanced wasPartitioned : bool) : option (list A) :=
  match fuel with
  | O => None
  | S fuel =>
      let length := (b - a)%nat in
      if (length <=? 12)%nat then insertionSort_func data a b
      else if (limit =? 0)%nat then None
      else if negb wasBalanced then None
      else
        '(pivot, hint) ← choosePivot_func data a b;
        '(data, pivot, hint) ←
          match hint with
          | decreasingHint =>
              data ← reverseRange_func data a b;
              Some (data, ((b - 1) - (pivot - a))%nat, increasingHint)
          | _ => Some (data, pivot, hint)
          end;
        sorted ←
          match hint with
          | increasingHint =>
              if wasBalanced && wasPartitioned
              then partialInsertionSort_func data a b
              else Some false
          | _ => Some false
          end;
        if sorted : bool then Some data
        else
          equal ← (if (0 <? a)%nat then negb <$> Less data (a - 1) pivot
                   else Some false);
          if equal : bool then
            '(data, mid) ← partitionEqual_func data a b pivot;
            pdqsort_func fuel data mid b limit wasBalanced wasPartitioned
          else
            '(data, mid, alreadyPartitioned) ← partition_func data a b pivot;
            let leftLen := (mid - a)%nat in
            let rightLen := (b - mid)%nat in
            let balanceThreshold := (length / 8)%nat in
            if (leftLen <? rightLen)%nat then
              data ← pdqsort_func fuel data a mid limit true true;
              pdqsort_func fuel data (mid + 1) b limit
                (balanceThreshold <=? leftLen)%nat alreadyPartitioned
            else
              data ← pdqsort_func fuel data (mid + 1) b limit true true;
              pdqsort_func fuel data a mid limit
                (balanceThreshold <=? rightLen)%nat alreadyPartitioned
  end.

(** [sort.Slice(x, less)]:
    [pdqsort_func(lessSwap{less, swap}, 0, length, bits.Len(uint(length)))]. *)
Definition Slice_func (x : list A) : option (list A) :=
  let length := length x in
  pdqsort_func (S length) x 0 length (bits.Len length) true true.

End zsortfunc.

End sort.

(** ** The file system the walk reads *)

Module fs.

(** What opening and reading a file gives. *)
Inductive content :=
| OpenFails                        (* [os.Open] returns an error *)
| Bytes (data : string)            (* the file reads to its end *)
| BytesThenError (data : string).  (* the reader fails after [data] *)

(** A directory entry as [filepath.Walk] sees it through [Lstat]: anything
    that is not a directory is a [File]; [NoStat] is an entry whose [Lstat]
    fails.  The entries of a directory are listed in the order in which
    [Walk] visits them (by name).  A directory that cannot be read is a
    directory without entries. *)
#[local] Unset Elimination Schemes.
Inductive node :=
| File (name : string) (c : content)
| Dir (name : string) (entries : list node)
| NoStat (name : string).
#[local] Set Elimination Schemes.

End fs.

(** ** Package [scanner] *)

Module scanner.

(** [type Language string] with its three constants. *)
Inductive Language := LangGo | LangPython | LangRust.

Definition Language_string (l : Language) : string :=
  match l with
  | LangGo => "go"
  | LangPython => "python"
  | LangRust => "rust"
  end.

Module Package.
Record t := mk {
  Path : string;
  RelPath : string;
  Language : scanner.Language;
  HasBuildFile : bool;
  HasTestFiles : bool;
  SourceFileCount : Z;
  TestFileCount : Z;
  TestTargetCount : Z;
  LibraryTargets : Z;
  BinaryTargets : Z;
}.

(** [&Package{Path: dir, RelPath: relDir, Language: lang}] *)
Definition new (dir relDir : string) (lang : scanner.Language) : t :=
  mk dir relDir lang false false 0 0 0 0 0.

(** Assignment to one field: [p.F = v]. *)
Definition set_HasBuildFile (v : bool) (p : t) : t :=
  mk (Path p) (RelPath p) (Language p) v (HasTestFiles p) (SourceFileCount p) (TestFileCount p) (TestTargetCount p) (LibraryTargets p) (BinaryTargets p).
Definition set_HasTestFiles (v : bool) (p : t) : t :=
  mk (Path p) (RelPath p) (Language p) (HasBuildFile p) v (SourceFileCount p) (TestFileCount p) (TestTargetCount p) (LibraryTargets p) (BinaryTargets p).
Definition set_SourceFileCount (v : Z) (p : t) : t :=
  mk (Path p) (RelPath p) (Language p) (HasBuildFile p) (HasTestFiles p) v (TestFileCount p) (TestTargetCount p) (LibraryTargets p) (BinaryTargets p).
Definition set_TestFileCount (v : Z) (p : t) : t :=
  mk (Path p) (RelPath p) (Language p) (HasBuildFile p) (HasTestFiles p) (SourceFileCount p) v (TestTargetCount p) (LibraryTargets p) (BinaryTargets p).
Definition set_TestTargetCount (v : Z) (p : t) : t :=
  mk (Path p) (RelPath p) (Language p) (HasBuildFile p) (HasTestFiles p) (SourceFileCount p) (TestFileCount p) v (LibraryTargets p) (BinaryTargets p).
Definition set_LibraryTargets (v : Z) (p : t) : t :=
  mk (Path p) (RelPath p) (Language p) (HasBuildFile p) (HasTestFiles p) (SourceFileCount p) (TestFileCount p) (TestTargetCount p) v (BinaryTargets p).
Definition set_BinaryTargets (v : Z) (p : t) : t :=
  mk (Path p) (RelPath p) (Language p) (HasBuildFile p) (HasTestFiles p) (SourceFileCount p) (TestFileCount p) (TestTargetCount p) (LibraryTargets p) v.
End Package.

Module ScanResult.
Record t := mk {
  RepoPath : string;
  GoPackages : list Package.t;
  PythonPackages : list Package.t;
  RustPackages : list Package.t;
  TotalBUILDs : Z;
  TotalGoFiles : Z;
  TotalGoTests : Z;
  TotalGoTestRules : Z;
  TotalPythonFiles : Z;
  TotalPythonTests : Z;
  TotalPyTestRules : Z;
  TotalRustFiles : Z;
  TotalRustTests : Z;
  TotalRustTestRules : Z;
}.

Definition new (repoPath : string) : t :=
  mk repoPath [] [] [] 0 0 0 0 0 0 0 0 0 0.

(** Assignment to one field: [r.F = f(r.F)]. *)
Definition with_GoPackages (f : list Package.t -> list Package.t) (r : t) : t :=
  mk (RepoPath r) (f (GoPackages r)) (PythonPackages r) (RustPackages r) (TotalBUILDs r) (TotalGoFiles r) (TotalGoTests r) (TotalGoTestRules r) (TotalPythonFiles r) (TotalPythonTests r) (TotalPyTestRules r) (TotalRustFiles r) (TotalRustTests r) (TotalRustTestRules r).
Definition with_PythonPackages (f : list Package.t -> list Package.t) (r : t) : t :=
  mk (RepoPath r) (GoPackages r) (f (PythonPackages r)) (RustPackages r) (TotalBUILDs r) (TotalGoFiles r) (TotalGoTests r) (TotalGoTestRules r) (TotalPythonFiles r) (TotalPythonTests r) (TotalPyTestRules r) (TotalRustFiles r) (TotalRustTests r) (TotalRustTestRules r).
Definition with_RustPackages (f : list Package.t -> list Package.t) (r : t) : t :=
  mk (RepoPath r) (GoPackages r) (PythonPackages r) (f (RustPackages r)) (TotalBUILDs r) (TotalGoFiles r) (TotalGoTests r) (TotalGoTestRules r) (TotalPythonFiles r) (TotalPythonTests r) (TotalPyTestRules r) (TotalRustFiles r) (TotalRustTests r) (TotalRustTestRules r).
Definition with_TotalBUILDs (f : Z -> Z) (r : t) : t :=
  mk (RepoPath r) (GoPackages r) (PythonPackages r) (RustPackages r) (f (TotalBUILDs r)) (TotalGoFiles r) (TotalGoTests r) (TotalGoTestRules r) (TotalPythonFiles r) (TotalPythonTests r) (TotalPyTestRules r) (TotalRustFiles r) (TotalRustTests r) (TotalRustTestRules r).
Definition with_TotalGoFiles (f : Z -> Z) (r : t) : t :=
  mk (RepoPath r) (GoPackages r) (PythonPackages r) (RustPackages r) (TotalBUILDs r) (f (TotalGoFiles r)) (TotalGoTests r) (TotalGoTestRules r) (TotalPythonFiles r) (TotalPythonTests r) (TotalPyTestRules r) (TotalRustFiles r) (TotalRustTests r) (TotalRustTestRules r).
Definition with_TotalGoTests (f : Z -> Z) (r : t) : t :=
  mk (RepoPath r) (GoPackages r) (PythonPackages r) (RustPackages r) (TotalBUILDs r) (TotalGoFiles r) (f (TotalGoTests r)) (TotalGoTestRules r) (TotalPythonFiles r) (TotalPythonTests r) (TotalPyTestRules r) (TotalRustFiles r) (TotalRustTests r) (TotalRustTestRules r).
Definition with_TotalGoTestRules (f : Z -> Z) (r : t) : t :=
  mk (RepoPath r) (GoPackages r) (PythonPackages r) (RustPackages r) (TotalBUILDs r) (TotalGoFiles r) (TotalGoTests r) (f (TotalGoTestRules r)) (TotalPythonFiles r) (TotalPythonTests r) (TotalPyTestRules r) (TotalRustFiles r) (TotalRustTests r) (TotalRustTestRules r).
Definition with_TotalPythonFiles (f : Z -> Z) (r : t) : t :=
  mk (RepoPath r) (GoPackages r) (PythonPackages r) (RustPackages r) (TotalBUILDs r) (TotalGoFiles r) (TotalGoTests r) (TotalGoTestRules r) (f (TotalPythonFiles r)) (TotalPythonTests r) (TotalPyTestRules r) (TotalRustFiles r) (TotalRustTests r) (TotalRustTestRules r).
Definition with_TotalPythonTests (f : Z -> Z) (r : t) : t :=
  mk (RepoPath r) (GoPackages r) (PythonPackages r) (RustPackages r) (TotalBUILDs r) (TotalGoFiles r) (TotalGoTests r) (TotalGoTestRules r) (TotalPythonFiles r) (f (TotalPythonTests r)) (TotalPyTestRules r) (TotalRustFiles r) (TotalRustTests r) (TotalRustTestRules r).
Definition with_TotalPyTestRules (f : Z -> Z) (r : t) : t :=
  mk (RepoPath r) (GoPackages r) (PythonPackages r) (RustPackages r) (TotalBUILDs r) (TotalGoFiles r) (TotalGoTests r) (TotalGoTestRules r) (TotalPythonFiles r) (TotalPythonTests r) (f (TotalPyTestRules r)) (TotalRustFiles r) (TotalRustTests r) (TotalRustTestRules r).
Definition with_TotalRustFiles (f : Z -> Z) (r : t) : t :=
  mk (RepoPath r) (GoPackages r) (PythonPackages r) (RustPackages r) (TotalBUILDs r) (TotalGoFiles r) (TotalGoTests r) (TotalGoTestRules r) (TotalPythonFiles r) (TotalPythonTests r) (TotalPyTestRules r) (f (TotalRustFiles r)) (TotalRustTests r) (TotalRustTestRules r).
Definition with_TotalRustTests (f : Z -> Z) (r : t) : t :=
  mk (RepoPath r) (GoPackages r) (PythonPackages r) (RustPackages r) (TotalBUILDs r) (TotalGoFiles r) (TotalGoTests r) (TotalGoTestRules r) (TotalPythonFiles r) (TotalPythonTests r) (TotalPyTestRules r) (TotalRustFiles r) (f (TotalRustTests r)) (TotalRustTestRules r).
Definition with_TotalRustTestRules (f : Z -> Z) (r : t) : t :=
  mk (RepoPath r) (GoPackages r) (PythonPackages r) (RustPackages r) (TotalBUILDs r) (TotalGoFiles r) (TotalGoTests r) (TotalGoTestRules r) (TotalPythonFiles r) (TotalPythonTests r) (TotalPyTestRules r) (TotalRustFiles r) (TotalRustTests r) (f (TotalRustTestRules r)).
End ScanResult.

Module buildTargets.
Record t := mk {
  goTests : Z; goLibs : Z; goBins : Z;
  pyTests : Z; pyLibs : Z; pyBins : Z;
  rustTests : Z; rustLibs : Z; rustBins : Z;
}.
End buildTargets.

Module Scanner.
Record t := mk {
  repoPath : string;
  skipDirs : gmap string bool;
  goTestRegex : list regexp.item;
  goLibRegex : list regexp.item;
  goBinRegex : list regexp.item;
  pyTestRegex : list regexp.item;
  pyLibRegex : list regexp.item;
  pyBinRegex : list regexp.item;
  rustTestRegex : list regexp.item;
  rustLibRegex : list regexp.item;
  rustBinRegex : list regexp.item;
}.
End Scanner.

Definition NewScanner (repoPath : string) : Scanner.t :=
  Scanner.mk repoPath
    (list_to_map
       [(".git", true); ("bazel-bin", true); ("bazel-out", true);
        ("bazel-testlogs", true); ("node_modules", true); (".cache", true);
        ("vendor", true); ("__pycache__", true); ("target", true);
        (".venv", true); ("venv", true)])
    (regexp.rule "go_test") (regexp.rule "go_library") (regexp.rule "go_binary")
    (regexp.rule "py_test") (regexp.rule "py_library") (regexp.rule "py_binary")
    (regexp.rule "rust_test") (regexp.rule "rust_library")
    (regexp.rule "rust_binary").

Module dirPackages.
Record t := mk {
  path : string;
  relPath : string;
  hasBuild : bool;
  targets : option buildTargets.t;
  goPkg : option Package.t;
  pythonPkg : option Package.t;
  rustPkg : option Package.t;
}.

Definition new (dir relDir : string) : t :=
  mk dir relDir false None None None None.

(** Assignment to one field: [dp.f = v]. *)
Definition set_hasBuild (v : bool) (dp : t) : t :=
  mk (path dp) (relPath dp) v (targets dp) (goPkg dp) (pythonPkg dp) (rustPkg dp).
Definition set_targets (v : option buildTargets.t) (dp : t) : t :=
  mk (path dp) (relPath dp) (hasBuild dp) v (goPkg dp) (pythonPkg dp) (rustPkg dp).
Definition set_goPkg (v : option Package.t) (dp : t) : t :=
  mk (path dp) (relPath dp) (hasBuild dp) (targets dp) v (pythonPkg dp) (rustPkg dp).
Definition set_pythonPkg (v : option Package.t) (dp : t) : t :=
  mk (path dp) (relPath dp) (hasBuild dp) (targets dp) (goPkg dp) v (rustPkg dp).
Definition set_rustPkg (v : option Package.t) (dp : t) : t :=
  mk (path dp) (relPath dp) (hasBuild dp) (targets dp) (goPkg dp) (pythonPkg dp) v.
End dirPackages.

Inductive error := ErrOpen | ErrRead | ErrTooLong.

(** The text [parseBuildFile] rebuilds from the scanner's lines:
    every line followed by a newline. *)
Definition joinLines (lines : list string) : string :=
  foldl (fun content line => content +:+ line +:+ String "010"%char EmptyString)
        EmptyString lines.

Definition countTargets (s : Scanner.t) (text : string) : buildTargets.t :=
  buildTargets.mk
    (regexp.countAll (Scanner.goTestRegex s) text)
    (regexp.countAll (Scanner.goLibRegex s) text)
    (regexp.countAll (Scanner.goBinRegex s) text)
    (regexp.countAll (Scanner.pyTestRegex s) text)
    (regexp.countAll (Scanner.pyLibRegex s) text)
    (regexp.countAll (Scanner.pyBinRegex s) text)
    (regexp.countAll (Scanner.rustTestRegex s) text)
    (regexp.countAll (Scanner.rustLibRegex s) text)
    (regexp.countAll (Scanner.rustBinRegex s) text).

(** [parseBuildFile]: [(nil, err)] when the file does not open, otherwise
    the counts over the lines read and the scanner's error, if any. *)
Definition parseBuildFile (s : Scanner.t) (c : fs.content)
  : option buildTargets.t * option error :=
  match c with
  | fs.OpenFails => (None, Some ErrOpen)
  | fs.Bytes data =>
      let '(lines, tooLong) := bufio.scanLines EmptyString 0 data in
      (Some (countTargets s (joinLines lines)),
       if tooLong then Some ErrTooLong else None)
  | fs.BytesThenError data =>
      let '(lines, tooLong) := bufio.scanLines EmptyString 0 data in
      (Some (countTargets s (joinLines lines)),
       if tooLong then Some ErrTooLong else Some ErrRead)
  end.

(** A file handed to the walk function: [dir] is
    [filepath.Dir(path)], [below] the directories from the repository root
    down to [dir], [filename] is [filepath.Base(path)]. *)
Record visit := mkVisit {
  dir : string;
  below : list string;
  filename : string;
  content : fs.content;
}.

(** [filepath.Rel(s.repoPath, dir)] for a directory of the walk. *)
Definition Rel (below : list string) : string :=
  match below with
  | [] => "."
  | _ => strings.Join below "/"
  end.

Record walkState := mkState {
  dirMap : gmap string dirPackages.t;
  result : ScanResult.t;
}.

Definition isBuildFile (filename : string) : bool :=
  String.eqb filename "BUILD" || String.eqb filename "BUILD.bazel".

(** The four blocks of the walk function's body for a file; each
    updates the directory's entry and the running totals. *)
Definition onBuildFile (s : Scanner.t) (v : visit)
  (a : dirPackages.t * ScanResult.t) : dirPackages.t * ScanResult.t :=
  let '(dp, result) := a in
  if isBuildFile (filename v) then
    let dp := dirPackages.set_hasBuild true dp in
    let result := ScanResult.with_TotalBUILDs (fun n => n + 1) result in
    match parseBuildFile s (content v) with
    | (Some targets, None) => (dirPackages.set_targets (Some targets) dp, result)
    | _ => (dp, result)
    end
  else (dp, result).

Definition onGoFile (relDir : string) (v : visit)
  (a : dirPackages.t * ScanResult.t) : dirPackages.t * ScanResult.t :=
  let '(dp, result) := a in
  if strings.HasSuffix (filename v) ".go" then
    let pkg := match dirPackages.goPkg dp with
               | Some pkg => pkg
               | None => Package.new (dir v) relDir LangGo
               end in
    if strings.HasSuffix (filename v) "_test.go" then
      (dirPackages.set_goPkg
         (Some (Package.set_TestFileCount (Package.TestFileCount pkg + 1)
                  (Package.set_HasTestFiles true pkg))) dp,
       ScanResult.with_TotalGoTests (fun n => n + 1) result)
    else
      (dirPackages.set_goPkg
         (Some (Package.set_SourceFileCount (Package.SourceFileCount pkg + 1) pkg)) dp,
       ScanResult.with_TotalGoFiles (fun n => n + 1) result)
  else (dp, result).

Definition onPythonFile (relDir : string) (v : visit)
  (a : dirPackages.t * ScanResult.t) : dirPackages.t * ScanResult.t :=
  let '(dp, result) := a in
  if strings.HasSuffix (filename v) ".py" then
    let pkg := match dirPackages.pythonPkg dp with
               | Some pkg => pkg
               | None => Package.new (dir v) relDir LangPython
               end in
    if strings.HasSuffix (filename v) "_test.py"
       || strings.HasPrefix (filename v) "test_"
       || strings.HasSuffix (filename v) "_tests.py" then
      (dirPackages.set_pythonPkg
         (Some (Package.set_TestFileCount (Package.TestFileCount pkg + 1)
                  (Package.set_HasTestFiles true pkg))) dp,
       ScanResult.with_TotalPythonTests (fun n => n + 1) result)
    else
      (dirPackages.set_pythonPkg
         (Some (Package.set_SourceFileCount (Package.SourceFileCount pkg + 1) pkg)) dp,
       ScanResult.with_TotalPythonFiles (fun n => n + 1) result)
  else (dp, result).

Definition onRustFile (relDir : string) (v : visit)
  (a : dirPackages.t * ScanResult.t) : dirPackages.t * ScanResult.t :=
  let '(dp, result) := a in
  if strings.HasSuffix (filename v) ".rs" then
    let pkg := match dirPackages.rustPkg dp with
               | Some pkg => pkg
               | None => Package.new (dir v) relDir LangRust
               end in
    (dirPackages.set_rustPkg
       (Some (Package.set_SourceFileCount (Package.SourceFileCount pkg + 1) pkg)) dp,
     ScanResult.with_TotalRustFiles (fun n => n + 1) result)
  else (dp, result).

(** The walk function on a file. *)
Definition visitFile (s : Scanner.t) (st : walkState) (v : visit) : walkState :=
  let relDir := Rel (below v) in
  let relDir := if String.eqb relDir "" then "." else relDir in
  let dp := match dirMap st !! dir v with
            | Some dp => dp
            | None => dirPackages.new (dir v) relDir
            end in
  let '(dp, result) :=
    onRustFile relDir v
      (onPythonFile relDir v
         (onGoFile relDir v
            (onBuildFile s v (dp, result st)))) in
  mkState (<[dir v := dp]> (dirMap st)) result.

(** What [filepath.Walk] hands to the walk function, and what the function
    answers. *)
Inductive walkEntry :=
| Failed                     (* [err != nil] *)
| Directory (base : string)  (* [info.IsDir()], [filepath.Base(path)] *)
| Regular (v : visit).

Inductive walkAction := Continue | SkipDir.

Definition skipDir (s : Scanner.t) (base : string) : bool :=
  strings.HasPrefix base "."
  || default false (Scanner.skipDirs s !! base)
  || strings.HasPrefix base "bazel-".

Definition walkFn (s : Scanner.t) (st : walkState) (e : walkEntry)
  : walkState * walkAction :=
  match e with
  | Failed => (st, Continue)
  | Directory base => if skipDir s base then (st, SkipDir) else (st, Continue)
  | Regular v => (visitFile s st v, Continue)
  end.

(** [filepath.Walk] below the root: the walk function is called on every
    entry, before the entries of a directory, which are left out when it
    answers [SkipDir]. *)
Fixpoint walk (fn : walkState -> walkEntry -> walkState * walkAction)
  (dir : string) (below : list string) (n : fs.node) (st : walkState)
  : walkState :=
  match n with
  | fs.NoStat _ => fst (fn st Failed)
  | fs.File name c => fst (fn st (Regular (mkVisit dir below name c)))
  | fs.Dir name entries =>
      let '(st, a) := fn st (Directory name) in
      match a with
      | SkipDir => st
      | Continue =>
          foldl (fun st e => walk fn (filepath.Join dir name) (below ++ [name]) e st)
                st entries
      end
  end.

(** [filepath.Walk(s.repoPath, fn)] on a repository directory with the
    entries [root].  The walk function sees the root under the path as it
    was given, and the entries of the root under [filepath.Join] of that
    path and their names, which is a clean path: the directory of the files
    of the root is [filepath.Clean(s.repoPath)].  The repository path names
    a directory; a path that names a file, a symbolic link or nothing is not
    modelled. *)
Definition Walk (s : Scanner.t) (root : list fs.node)
  (fn : walkState -> walkEntry -> walkState * walkAction) (st : walkState)
  : walkState :=
  let '(st, a) := fn st (Directory (filepath.Base (Scanner.repoPath s))) in
  match a with
  | SkipDir => st
  | Continue =>
      foldl (fun st e => walk fn (filepath.Clean (Scanner.repoPath s)) [] e st) st root
  end.

(** One iteration of [for _, dp := range dirMap], in three blocks. *)
Definition assignGo (dp : dirPackages.t) (result : ScanResult.t) : ScanResult.t :=
  match dirPackages.goPkg dp with
  | Some pkg =>
      let pkg := Package.set_HasBuildFile (dirPackages.hasBuild dp) pkg in
      let '(pkg, result) :=
        match dirPackages.targets dp with
        | Some t =>
            (Package.set_BinaryTargets (buildTargets.goBins t)
               (Package.set_LibraryTargets (buildTargets.goLibs t)
                  (Package.set_TestTargetCount (buildTargets.goTests t) pkg)),
             ScanResult.with_TotalGoTestRules
               (fun n => n + buildTargets.goTests t) result)
        | None => (pkg, result)
        end in
      ScanResult.with_GoPackages (fun l => l ++ [pkg]) result
  | None => result
  end.

Definition assignPython (dp : dirPackages.t) (result : ScanResult.t) : ScanResult.t :=
  match dirPackages.pythonPkg dp with
  | Some pkg =>
      let pkg := Package.set_HasBuildFile (dirPackages.hasBuild dp) pkg in
      let '(pkg, result) :=
        match dirPackages.targets dp with
        | Some t =>
            (Package.set_BinaryTargets (buildTargets.pyBins t)
               (Package.set_LibraryTargets (buildTargets.pyLibs t)
                  (Package.set_TestTargetCount (buildTargets.pyTests t) pkg)),
             ScanResult.with_TotalPyTestRules
               (fun n => n + buildTargets.pyTests t) result)
        | None => (pkg, result)
        end in
      ScanResult.with_PythonPackages (fun l => l ++ [pkg]) result
  | None => result
  end.

Definition assignRust (dp : dirPackages.t) (result : ScanResult.t) : ScanResult.t :=
  match dirPackages.rustPkg dp with
  | Some pkg =>
      let pkg := Package.set_HasBuildFile (dirPackages.hasBuild dp) pkg in
      let '(pkg, result) :=
        match dirPackages.targets dp with
        | Some t =>
            let pkg :=
              Package.set_BinaryTargets (buildTargets.rustBins t)
                (Package.set_LibraryTargets (buildTargets.rustLibs t)
                   (Package.set_TestTargetCount (buildTargets.rustTests t) pkg)) in
            let result :=
              ScanResult.with_TotalRustTestRules
                (fun n => n + buildTargets.rustTests t) result in
            if 0 <? buildTargets.rustTests t then
              (Package.set_TestFileCount (buildTargets.rustTests t)
                 (Package.set_HasTestFiles true pkg),
               ScanResult.with_TotalRustTests
                 (fun n => n + buildTargets.rustTests t) result)
            else (pkg, result)
        | None => (pkg, result)
        end in
      ScanResult.with_RustPackages (fun l => l ++ [pkg]) result
  | None => result
  end.

Definition assign (result : ScanResult.t) (dp : dirPackages.t) : ScanResult.t :=
  assignRust dp (assignPython dp (assignGo dp result)).

(** The [less] function of the three final sorts. *)
Definition lessRelPath (a b : Package.t) : bool :=
  String.ltb (Package.RelPath a) (Package.RelPath b).

Definition newState (s : Scanner.t) : walkState :=
  mkState ∅ (ScanResult.new (Scanner.repoPath s)).

(** The state at the end of the walk. *)
Definition walked (s : Scanner.t) (root : list fs.node) : walkState :=
  Walk s root (walkFn s) (newState s).

(** [Scanner.Scan] on a repository directory with the entries [root]: every
    result the run can return.  [dps] is the order in which [range] yields
    the entries of [dirMap], which the language leaves open, and each
    package list is some outcome of [sort.Slice].  The error result is always
    [nil]: the walk function answers [nil] or [SkipDir] only, so
    [filepath.Walk] returns [nil]. *)
Definition ScanReturns (s : Scanner.t) (root : list fs.node)
  (res : ScanResult.t) : Prop :=
  exists (dps : list dirPackages.t) (go py rust : list Package.t),
    let st := walked s root in
    let r := foldl assign (result st) dps in
    dps ≡ₚ (map_to_list (dirMap st)).*2
    /\ sort.Slice lessRelPath (ScanResult.GoPackages r) go
    /\ sort.Slice lessRelPath (ScanResult.PythonPackages r) py
    /\ sort.Slice lessRelPath (ScanResult.RustPackages r) rust
    /\ res = ScanResult.with_RustPackages (fun _ => rust)
              (ScanResult.with_PythonPackages (fun _ => py)
                 (ScanResult.with_GoPackages (fun _ => go) r)).

(** One run of [Scan], computed: [range] follows the map's own order and
    the sort is a merge sort. *)
Definition byRelPath (a b : Package.t) : Prop := lessRelPath b a = false.

#[export] Instance byRelPath_dec : RelDecision byRelPath.
Proof. intros a b. unfold byRelPath. apply _. Defined.

Definition Scan (s : Scanner.t) (root : list fs.node) : ScanResult.t :=
  let st := walked s root in
  let r := foldl assign (result st) (map_to_list (dirMap st)).*2 in
  ScanResult.with_RustPackages (merge_sort byRelPath)
    (ScanResult.with_PythonPackages (merge_sort byRelPath)
       (ScanResult.with_GoPackages (merge_sort byRelPath) r)).

End scanner.

(** ** Package [metrics] *)

Module metrics.

Import scanner.

Module LanguageSummary.
Record t := mk {
  Language : string;
  BazelizationPct : float;
  TestCoveragePct : float;
  BazelizedTestsPct : float;
  TotalPackages : Z;
  TotalSourceFiles : Z;
  TotalTestFiles : Z;
  PackagesWithBuild : Z;
  PackagesWithTests : Z;
  TotalTestTargets : Z;
}.

(** Assignment to one field. *)
Definition set_BazelizationPct (v : float) (x : t) : t :=
  mk (Language x) v (TestCoveragePct x) (BazelizedTestsPct x) (TotalPackages x) (TotalSourceFiles x) (TotalTestFiles x) (PackagesWithBuild x) (PackagesWithTests x) (TotalTestTargets x).
Definition set_TestCoveragePct (v : float) (x : t) : t :=
  mk (Language x) (BazelizationPct x) v (BazelizedTestsPct x) (TotalPackages x) (TotalSourceFiles x) (TotalTestFiles x) (PackagesWithBuild x) (PackagesWithTests x) (TotalTestTargets x).
Definition set_BazelizedTestsPct (v : float) (x : t) : t :=
  mk (Language x) (BazelizationPct x) (TestCoveragePct x) v (TotalPackages x) (TotalSourceFiles x) (TotalTestFiles x) (PackagesWithBuild x) (PackagesWithTests x) (TotalTestTargets x).
Definition set_TotalPackages (v : Z) (x : t) : t :=
  mk (Language x) (BazelizationPct x) (TestCoveragePct x) (BazelizedTestsPct x) v (TotalSourceFiles x) (TotalTestFiles x) (PackagesWithBuild x) (PackagesWithTests x) (TotalTestTargets x).
Definition set_TotalSourceFiles (v : Z) (x : t) : t :=
  mk (Language x) (BazelizationPct x) (TestCoveragePct x) (BazelizedTestsPct x) (TotalPackages x) v (TotalTestFiles x) (PackagesWithBuild x) (PackagesWithTests x) (TotalTestTargets x).
Definition set_TotalTestFiles (v : Z) (x : t) : t :=
  mk (Language x) (BazelizationPct x) (TestCoveragePct x) (BazelizedTestsPct x) (TotalPackages x) (TotalSourceFiles x) v (PackagesWithBuild x) (PackagesWithTests x) (TotalTestTargets x).
Definition set_PackagesWithBuild (v : Z) (x : t) : t :=
  mk (Language x) (BazelizationPct x) (TestCoveragePct x) (BazelizedTestsPct x) (TotalPackages x) (TotalSourceFiles x) (TotalTestFiles x) v (PackagesWithTests x) (TotalTestTargets x).
Definition set_PackagesWithTests (v : Z) (x : t) : t :=
  mk (Language x) (BazelizationPct x) (TestCoveragePct x) (BazelizedTestsPct x) (TotalPackages x) (TotalSourceFiles x) (TotalTestFiles x) (PackagesWithBuild x) v (TotalTestTargets x).
Definition set_TotalTestTargets (v : Z) (x : t) : t :=
  mk (Language x) (BazelizationPct x) (TestCoveragePct x) (BazelizedTestsPct x) (TotalPackages x) (TotalSourceFiles x) (TotalTestFiles x) (PackagesWithBuild x) (PackagesWithTests x) v.
End LanguageSummary.

Module Summary.
Record t := mk {
  BazelizationPct : float;
  TestCoveragePct : float;
  BazelizedTestsPct : float;
  TotalPackages : Z;
  TotalBuildFiles : Z;
  TotalTestFiles : Z;
  TotalGoFiles : Z;
  PackagesWithBuild : Z;
  PackagesWithTests : Z;
  TotalGoTestTargets : Z;
}.

(** The zero value. *)
Definition zero : t := mk Float64.zero Float64.zero Float64.zero 0 0 0 0 0 0 0.
End Summary.

Module DirectoryMetrics.
Record t := mk {
  Name : string;
  TotalPackages : Z;
  BazelizedPackages : Z;
  PackagesWithTests : Z;
  BazelizationPct : float;
  TestCoveragePct : float;
}.

(** [&DirectoryMetrics{Name: topDir}] *)
Definition new (topDir : string) : t := mk topDir 0 0 0 Float64.zero Float64.zero.

(** Assignment to one field. *)
Definition set_TotalPackages (v : Z) (x : t) : t :=
  mk (Name x) v (BazelizedPackages x) (PackagesWithTests x) (BazelizationPct x) (TestCoveragePct x).
Definition set_BazelizedPackages (v : Z) (x : t) : t :=
  mk (Name x) (TotalPackages x) v (PackagesWithTests x) (BazelizationPct x) (TestCoveragePct x).
Definition set_PackagesWithTests (v : Z) (x : t) : t :=
  mk (Name x) (TotalPackages x) (BazelizedPackages x) v (BazelizationPct x) (TestCoveragePct x).
Definition set_BazelizationPct (v : float) (x : t) : t :=
  mk (Name x) (TotalPackages x) (BazelizedPackages x) (PackagesWithTests x) v (TestCoveragePct x).
Definition set_TestCoveragePct (v : float) (x : t) : t :=
  mk (Name x) (TotalPackages x) (BazelizedPackages x) (PackagesWithTests x) (BazelizationPct x) v.
End DirectoryMetrics.

Module PackageInfo.
Record t := mk {
  Path : string;
  Language : string;
  HasBuildFile : bool;
  HasTestFiles : bool;
  TestFileCount : Z;
  TestTargetCount : Z;
  SourceFileCount : Z;
}.
End PackageInfo.

Module PackageBenchmark.
Record t := mk {
  Path : string;
  GoTestMs : Z;
  BazelTestColdMs : Z;
  BazelTestWarmMs : Z;
}.
End PackageBenchmark.

Module SpeedReport.
Record t := mk {
  Packages : list PackageBenchmark.t;
}.
End SpeedReport.

Module Report.
Record t := mk {
  Timestamp : string;
  RepoPath : string;
  Summary : metrics.Summary.t;
  DirectoryBreakdown : list DirectoryMetrics.t;
  Packages : list PackageInfo.t;
  SpeedComparison : option SpeedReport.t;
  Languages : list string;
  LanguageSummaries : gmap string LanguageSummary.t;
  GoPackages : list PackageInfo.t;
  PythonPackages : list PackageInfo.t;
  RustPackages : list PackageInfo.t;
}.

(** Assignment to one field. *)
Definition set_Summary (v : metrics.Summary.t) (x : t) : t :=
  mk (Timestamp x) (RepoPath x) v (DirectoryBreakdown x) (Packages x) (SpeedComparison x) (Languages x) (LanguageSummaries x) (GoPackages x) (PythonPackages x) (RustPackages x).
Definition set_DirectoryBreakdown (v : list DirectoryMetrics.t) (x : t) : t :=
  mk (Timestamp x) (RepoPath x) (Summary x) v (Packages x) (SpeedComparison x) (Languages x) (LanguageSummaries x) (GoPackages x) (PythonPackages x) (RustPackages x).
Definition set_Packages (v : list PackageInfo.t) (x : t) : t :=
  mk (Timestamp x) (RepoPath x) (Summary x) (DirectoryBreakdown x) v (SpeedComparison x) (Languages x) (LanguageSummaries x) (GoPackages x) (PythonPackages x) (RustPackages x).
Definition set_SpeedComparison (v : option SpeedReport.t) (x : t) : t :=
  mk (Timestamp x) (RepoPath x) (Summary x) (DirectoryBreakdown x) (Packages x) v (Languages x) (LanguageSummaries x) (GoPackages x) (PythonPackages x) (RustPackages x).
Definition set_Languages (v : list string) (x : t) : t :=
  mk (Timestamp x) (RepoPath x) (Summary x) (DirectoryBreakdown x) (Packages x) (SpeedComparison x) v (LanguageSummaries x) (GoPackages x) (PythonPackages x) (RustPackages x).
Definition set_LanguageSummaries (v : gmap string LanguageSummary.t) (x : t) : t :=
  mk (Timestamp x) (RepoPath x) (Summary x) (DirectoryBreakdown x) (Packages x) (SpeedComparison x) (Languages x) v (GoPackages x) (PythonPackages x) (RustPackages x).
Definition set_GoPackages (v : list PackageInfo.t) (x : t) : t :=
  mk (Timestamp x) (RepoPath x) (Summary x) (DirectoryBreakdown x) (Packages x) (SpeedComparison x) (Languages x) (LanguageSummaries x) v (PythonPackages x) (RustPackages x).
Definition set_PythonPackages (v : list PackageInfo.t) (x : t) : t :=
  mk (Timestamp x) (RepoPath x) (Summary x) (DirectoryBreakdown x) (Packages x) (SpeedComparison x) (Languages x) (LanguageSummaries x) (GoPackages x) v (RustPackages x).
Definition set_RustPackages (v : list PackageInfo.t) (x : t) : t :=
  mk (Timestamp x) (RepoPath x) (Summary x) (DirectoryBreakdown x) (Packages x) (SpeedComparison x) (Languages x) (LanguageSummaries x) (GoPackages x) (PythonPackages x) v.
End Report.

(** [float64(count) / float64(total) * 100] *)
Definition percent (count total : Z) : float :=
  PrimFloat.mul (PrimFloat.div (Float64.of_int count) (Float64.of_int total))
                Float64.hundred.

(** The body of the first loop of [calculateLanguageSummary]. *)
Definition countPackage (summary : LanguageSummary.t) (pkg : Package.t)
  : LanguageSummary.t :=
  let summary :=
    LanguageSummary.set_TotalSourceFiles
      (LanguageSummary.TotalSourceFiles summary + Package.SourceFileCount pkg)
      summary in
  let summary :=
    LanguageSummary.set_TotalTestFiles
      (LanguageSummary.TotalTestFiles summary + Package.TestFileCount pkg)
      summary in
  let summary :=
    LanguageSummary.set_TotalTestTargets
      (LanguageSummary.TotalTestTargets summary + Package.TestTargetCount pkg)
      summary in
  let summary :=
    if Package.HasBuildFile pkg then
      LanguageSummary.set_PackagesWithBuild
        (LanguageSummary.PackagesWithBuild summary + 1) summary
    else summary in
  if Package.HasTestFiles pkg then
    LanguageSummary.set_PackagesWithTests
      (LanguageSummary.PackagesWithTests summary + 1) summary
  else summary.

(** The second loop: the packages with tests that also have test targets. *)
Definition packagesWithBazelizedTests (packages : list Package.t) : Z :=
  foldl (fun n pkg =>
           if Package.HasTestFiles pkg && (0 <? Package.TestTargetCount pkg)
           then n + 1 else n)
        0 packages.

Definition calculateLanguageSummary (lang : string) (packages : list Package.t)
  : LanguageSummary.t :=
  let summary :=
    LanguageSummary.mk lang Float64.zero Float64.zero Float64.zero
      (Z.of_nat (length packages)) 0 0 0 0 0 in
  let summary := foldl countPackage summary packages in
  let summary :=
    if 0 <? LanguageSummary.TotalPackages summary then
      LanguageSummary.set_TestCoveragePct
        (percent (LanguageSummary.PackagesWithTests summary)
                 (LanguageSummary.TotalPackages summary))
        (LanguageSummary.set_BazelizationPct
           (percent (LanguageSummary.PackagesWithBuild summary)
                    (LanguageSummary.TotalPackages summary))
           summary)
    else summary in
  if 0 <? LanguageSummary.PackagesWithTests summary then
    LanguageSummary.set_BazelizedTestsPct
      (percent (packagesWithBazelizedTests packages)
               (LanguageSummary.PackagesWithTests summary))
      summary
  else summary.

Definition getTopLevelDir (path : string) : string :=
  let path := filepath.Clean path in
  match strings.Split path filepath.Separator with
  | part :: _ => part
  | [] => ""
  end.

(** The body of the grouping loop of [calculateDirectoryBreakdown]. *)
Definition groupPackage (dirMap : gmap string DirectoryMetrics.t)
  (pkg : Package.t) : gmap string DirectoryMetrics.t :=
  let topDir := getTopLevelDir (Package.RelPath pkg) in
  let topDir :=
    if String.eqb topDir "" || String.eqb topDir "." then "(root)" else topDir in
  let dm := match dirMap !! topDir with
            | Some dm => dm
            | None => DirectoryMetrics.new topDir
            end in
  let dm := DirectoryMetrics.set_TotalPackages
              (DirectoryMetrics.TotalPackages dm + 1) dm in
  let dm := if Package.HasBuildFile pkg then
              DirectoryMetrics.set_BazelizedPackages
                (DirectoryMetrics.BazelizedPackages dm + 1) dm
            else dm in
  let dm := if Package.HasTestFiles pkg then
              DirectoryMetrics.set_PackagesWithTests
                (DirectoryMetrics.PackagesWithTests dm + 1) dm
            else dm in
  <[topDir := dm]> dirMap.

(** The body of the second loop: the two percentages of one entry. *)
Definition withPercentages (dm : DirectoryMetrics.t) : DirectoryMetrics.t :=
  if 0 <? DirectoryMetrics.TotalPackages dm then
    DirectoryMetrics.set_TestCoveragePct
      (percent (DirectoryMetrics.PackagesWithTests dm)
               (DirectoryMetrics.TotalPackages dm))
      (DirectoryMetrics.set_BazelizationPct
         (percent (DirectoryMetrics.BazelizedPackages dm)
                  (DirectoryMetrics.TotalPackages dm))
         dm)
  else dm.

(** The [less] function of the final sort: more packages first. *)
Definition lessTotal (a b : DirectoryMetrics.t) : bool :=
  DirectoryMetrics.TotalPackages b <? DirectoryMetrics.TotalPackages a.

(** A run of [calculateDirectoryBreakdown]: [encounter] is the order in
    which [range] yields the entries of the map, [result] the slice after
    [sort.Slice]. *)
Definition breakdownRun (packages : list Package.t)
  (encounter result : list DirectoryMetrics.t) : Prop :=
  encounter ≡ₚ (map_to_list (foldl groupPackage ∅ packages)).*2
  /\ sort.Slice lessTotal (withPercentages <$> encounter) result.

(** The same run with [sort.Slice] as the library runs it. *)
Definition breakdownRun_func (packages : list Package.t)
  (encounter result : list DirectoryMetrics.t) : Prop :=
  encounter ≡ₚ (map_to_list (foldl groupPackage ∅ packages)).*2
  /\ sort.Slice_func lessTotal (withPercentages <$> encounter) = Some result.

Definition calculateDirectoryBreakdownReturns (packages : list Package.t)
  (result : list DirectoryMetrics.t) : Prop :=
  exists encounter, breakdownRun packages encounter result.

(** One run, computed: the map's own order and a merge sort. *)
Definition byTotal (a b : DirectoryMetrics.t) : Prop := lessTotal b a = false.

#[export] Instance byTotal_dec : RelDecision byTotal.
Proof. intros a b. unfold byTotal. apply _. Defined.

Definition calculateDirectoryBreakdown (packages : list Package.t)
  : list DirectoryMetrics.t :=
  merge_sort byTotal
    (withPercentages <$> (map_to_list (foldl groupPackage ∅ packages)).*2).

Definition packageInfo (lang : string) (pkg : Package.t) : PackageInfo.t :=
  PackageInfo.mk (Package.RelPath pkg) lang (Package.HasBuildFile pkg)
    (Package.HasTestFiles pkg) (Package.TestFileCount pkg)
    (Package.TestTargetCount pkg) (Package.SourceFileCount pkg).

(** The three language blocks of [Calculate]. *)
Definition calculateGo (scanResult : ScanResult.t) (report : Report.t) : Report.t :=
  if (0 <? length (ScanResult.GoPackages scanResult))%nat then
    let report := Report.set_Languages (Report.Languages report ++ ["go"]) report in
    let goSummary := calculateLanguageSummary "go" (ScanResult.GoPackages scanResult) in
    let report :=
      Report.set_LanguageSummaries
        (<["go" := goSummary]> (Report.LanguageSummaries report)) report in
    let goPackages := packageInfo "go" <$> ScanResult.GoPackages scanResult in
    let report := Report.set_Packages (Report.Packages report ++ goPackages) report in
    let report := Report.set_GoPackages goPackages report in
    Report.set_Summary
      (Summary.mk
         (LanguageSummary.BazelizationPct goSummary)
         (LanguageSummary.TestCoveragePct goSummary)
         (LanguageSummary.BazelizedTestsPct goSummary)
         (LanguageSummary.TotalPackages goSummary)
         (ScanResult.TotalBUILDs scanResult)
         (LanguageSummary.TotalTestFiles goSummary)
         (LanguageSummary.TotalSourceFiles goSummary)
         (LanguageSummary.PackagesWithBuild goSummary)
         (LanguageSummary.PackagesWithTests goSummary)
         (LanguageSummary.TotalTestTargets goSummary))
      report
  else report.

Definition calculatePython (scanResult : ScanResult.t) (report : Report.t) : Report.t :=
  if (0 <? length (ScanResult.PythonPackages scanResult))%nat then
    let report := Report.set_Languages (Report.Languages report ++ ["python"]) report in
    let pySummary :=
      calculateLanguageSummary "python" (ScanResult.PythonPackages scanResult) in
    let report :=
      Report.set_LanguageSummaries
        (<["python" := pySummary]> (Report.LanguageSummaries report)) report in
    Report.set_PythonPackages
      (packageInfo "python" <$> ScanResult.PythonPackages scanResult) report
  else report.

Definition calculateRust (scanResult : ScanResult.t) (report : Report.t) : Report.t :=
  if (0 <? length (ScanResult.RustPackages scanResult))%nat then
    let report := Report.set_Languages (Report.Languages report ++ ["rust"]) report in
    let rustSummary :=
      calculateLanguageSummary "rust" (ScanResult.RustPackages scanResult) in
    let report :=
      Report.set_LanguageSummaries
        (<["rust" := rustSummary]> (Report.LanguageSummaries report)) report in
    Report.set_RustPackages
      (packageInfo "rust" <$> ScanResult.RustPackages scanResult) report
  else report.

(** [Calculate] up to the directory breakdown; [now] is the time stamp. *)
Definition calculateLanguages (now : string) (scanResult : ScanResult.t) : Report.t :=
  let report :=
    Report.mk now (ScanResult.RepoPath scanResult) Summary.zero [] [] None []
              ∅ [] [] [] in
  calculateRust scanResult (calculatePython scanResult (calculateGo scanResult report)).

(** Every report [Calculate] can return. *)
Definition CalculateReturns (now : string) (scanResult : ScanResult.t)
  (report : Report.t) : Prop :=
  exists breakdown,
    calculateDirectoryBreakdownReturns (ScanResult.GoPackages scanResult) breakdown
    /\ report = Report.set_DirectoryBreakdown breakdown
                  (calculateLanguages now scanResult).

(** One run of [Calculate], computed. *)
Definition Calculate (now : string) (scanResult : ScanResult.t) : Report.t :=
  Report.set_DirectoryBreakdown
    (calculateDirectoryBreakdown (ScanResult.GoPackages scanResult))
    (calculateLanguages now scanResult).

End metrics.

(** ** Package [benchmark] *)

Module benchmark.

Import scanner metrics.

Module Runner.
Record t := mk {
  repoPath : string;
  scanResult : ScanResult.t;
  maxTests : Z;
}.
End Runner.

Definition NewRunner (repoPath : string) (result : ScanResult.t) (maxTests : Z)
  : Runner.t :=
  let maxTests := if maxTests <=? 0 then 5 else maxTests in
  Runner.mk repoPath result maxTests.

(** The test of the first loop of [selectCandidates]. *)
Definition isCandidate (pkg : Package.t) : bool :=
  Package.HasTestFiles pkg && (0 <? Package.TestTargetCount pkg)
  && (0 <? Package.TestFileCount pkg) && (Package.TestFileCount pkg <=? 20).

(** The inner loop of the selection sort, from [j] on; an index out of
    range is a run-time panic, [None].  [fuel] bounds the iterations. *)
Fixpoint minIndex (fuel : nat) (candidates : list Package.t) (minIdx j : nat)
  : option nat :=
  if (j <? length candidates)%nat then
    match fuel with
    | O => None
    | S fuel =>
        cj ← candidates !! j;
        cm ← candidates !! minIdx;
        minIndex fuel candidates
          (if Package.TestFileCount cj <? Package.TestFileCount cm then j else minIdx)
          (S j)
    end
  else Some minIdx.

(** [candidates[i], candidates[minIdx] = candidates[minIdx], candidates[i]]:
    both elements are read, then the two assignments are made from left to
    right. *)
Definition swap (candidates : list Package.t) (i minIdx : nat)
  : option (list Package.t) :=
  ci ← candidates !! i;
  cm ← candidates !! minIdx;
  Some (<[minIdx := ci]> (<[i := cm]> candidates)).

(** The outer loop of the selection sort, from [i] on. *)
Fixpoint selectionSort (fuel : nat) (maxTests : Z) (candidates : list Package.t)
  (i : nat) : option (list Package.t) :=
  if (Z.of_nat i <? Z.of_nat (length candidates) - 1) && (Z.of_nat i <? maxTests) then
    match fuel with
    | O => None
    | S fuel =>
        minIdx ← minIndex (length candidates) candidates i (S i);
        candidates ← swap candidates i minIdx;
        selectionSort fuel maxTests candidates (S i)
    end
  else Some candidates.

Definition selectCandidates (r : Runner.t) : option (list Package.t) :=
  let candidates :=
    List.filter isCandidate (ScanResult.GoPackages (Runner.scanResult r)) in
  selectionSort (length candidates) (Runner.maxTests r) candidates 0.

(** [path[:i+1]] for the index [i] of the last separator of [path], the
    empty string when the path has none. *)
Fixpoint dirPrefix (path : string) : string :=
  match path with
  | EmptyString => EmptyString
  | String c rest =>
      match dirPrefix rest with
      | EmptyString =>
          if Ascii.eqb c filepath.Separator then String c EmptyString else EmptyString
      | prefix => String c prefix
      end
  end.

(** [filepath.Dir(path)]: the path without its last element, cleaned. *)
Definition Dir (path : string) : string := filepath.Clean (dirPrefix path).

(** [filepath.Join(elem...)]: the elements from the first one that is not
    empty, joined by separators and cleaned. *)
Fixpoint Join (elem : list string) : string :=
  match elem with
  | [] => EmptyString
  | e :: rest =>
      if String.eqb e "" then Join rest
      else filepath.Clean (strings.Join elem "/")
  end.

(** The loop of [findGoModDir], from [dir] on; [stat path] tells whether
    [os.Stat(path)] returns no error.  [fuel] bounds the iterations, and
    [None] is a loop that has not ended within them. *)
Fixpoint findGoModDirFrom (fuel : nat) (stat : string -> bool) (repoPath dir : string)
  : option string :=
  match fuel with
  | O => None
  | S fuel =>
      if stat (Join [dir; "go.mod"]) then Some dir
      else
        let parent := Dir dir in
        if String.eqb parent dir || negb (strings.HasPrefix parent repoPath)
        then Some EmptyString
        else findGoModDirFrom fuel stat repoPath parent
  end.

(** [findGoModDir]: every round but the last two shortens the directory,
    so the length of the path bounds the rounds. *)
Definition findGoModDir (r : Runner.t) (stat : string -> bool) (pkgPath : string)
  : option string :=
  findGoModDirFrom (S (S (String.length pkgPath))) stat (Runner.repoPath r) pkgPath.

(** The commands the runner starts.  [GoTest dir pkg]: [go test -count=1]
    with [CGO_ENABLED=0] in the directory [dir], on the import path of the
    package relative to [dir]. *)
Inductive command :=
| GoTest (dir : string) (pkg : Package.t)
| BazelTest (dir target : string)
| BazelClean (dir : string).

(** What the runner leaves behind: the state of the machine and the lines
    written to the standard error. *)
Record state (W : Type) := mkMachine {
  world : W;
  stderr : list string;
}.
Arguments mkMachine {W}.
Arguments world {W}.
Arguments stderr {W}.

Section commands.
Context {W : Type}.

(** [os.Stat(path)] returns no error. *)
Variable stat : string -> W -> bool.

(** [cmd.Run()] between two readings of the clock: the elapsed
    milliseconds and the command's error, if any. *)
Variable exec : command -> W -> W * (Z * option string).

Definition run (c : command) (st : state W) : state W * (Z * option string) :=
  let '(w, out) := exec c (world st) in (mkMachine w (stderr st), out).

Definition warn (line : string) (st : state W) : state W :=
  mkMachine (world st) (stderr st ++ [line]).

(** [runGoTest]: the error of the command is dropped. *)
Definition runGoTest (r : Runner.t) (pkg : Package.t) (st : state W)
  : option (state W * (Z * option string)) :=
  goModDir ← findGoModDir r (fun path => stat path (world st)) (Package.Path pkg);
  let goModDir := if String.eqb goModDir "" then Runner.repoPath r else goModDir in
  let '(st, (elapsed, _)) := run (GoTest goModDir pkg) st in
  Some (st, (elapsed, None)).

Definition runBazelTest (r : Runner.t) (pkg : Package.t) (st : state W)
  : state W * (Z * option string) :=
  let target := "//" +:+ Package.RelPath pkg +:+ ":all" in
  run (BazelTest (Runner.repoPath r) target) st.

Definition cleanBazelCache (r : Runner.t) (st : state W) : state W :=
  fst (run (BazelClean (Runner.repoPath r)) st).

Definition benchmarkPackage (r : Runner.t) (pkg : Package.t) (st : state W)
  : option (state W * (option PackageBenchmark.t * option string)) :=
  '(st, (goTestTime, err)) ← runGoTest r pkg st;
  match err with
  | Some e => Some (st, (None, Some ("go test failed: " +:+ e)))
  | None =>
      let st := cleanBazelCache r st in
      let '(st, (bazelColdTime, err)) := runBazelTest r pkg st in
      let st :=
        match err with
        | Some e =>
            warn ("Warning: bazel test had issues for " +:+ Package.RelPath pkg
                    +:+ ": " +:+ e +:+ String "010"%char "") st
        | None => st
        end in
      let '(st, (bazelWarmTime, err)) := runBazelTest r pkg st in
      let st :=
        match err with
        | Some e =>
            warn ("Warning: bazel test warm run had issues for "
                    +:+ Package.RelPath pkg +:+ ": " +:+ e +:+ String "010"%char "") st
        | None => st
        end in
      Some (st, (Some (PackageBenchmark.mk (Package.RelPath pkg) goTestTime
                         bazelColdTime bazelWarmTime), None))
  end.

(** The body of the loop of [Run]; [append(report.Packages, *benchmark)]
    with a nil [benchmark] is a run-time panic, [None]. *)
Definition benchmarkStep (r : Runner.t)
  (acc : option (state W * list PackageBenchmark.t)) (pkg : Package.t)
  : option (state W * list PackageBenchmark.t) :=
  '(st, packages) ← acc;
  out ← benchmarkPackage r pkg st;
  match out with
  | (st, (_, Some e)) =>
      Some (warn ("Warning: failed to benchmark " +:+ Package.RelPath pkg +:+ ": "
                    +:+ e +:+ String "010"%char "") st, packages)
  | (st, (Some benchmark, None)) => Some (st, packages ++ [benchmark])
  | (st, (None, None)) => None
  end.

(** [Run]: [None] is a run-time panic, or a loop that has not ended. *)
Definition Run (r : Runner.t) (st : state W)
  : option (state W * (SpeedReport.t * option string)) :=
  candidates ← selectCandidates r;
  if (length candidates =? 0)%nat then Some (st, (SpeedReport.mk [], None))
  else
    candidates ←
      (if Runner.maxTests r <? Z.of_nat (length candidates) then
         if Runner.maxTests r <? 0 then None
         else Some (take (Z.to_nat (Runner.maxTests r)) candidates)
       else Some candidates);
    '(st, packages) ← foldl (benchmarkStep r) (Some (st, [])) candidates;
    Some (st, (SpeedReport.mk packages, None)).

End commands.

End benchmark.

Import scanner metrics.

(** * The vocabulary of the properties

    What the statements below are written with: counts over lists, the
    files a walk visits, what a directory contains, the fields the loops
    of the program leave in a package, and the repositories of the
    examples. *)

(** ** Binary64 numbers *)

(** A shift record whose round and sticky bits are clear: nothing has been
    lost by the shifts so far. *)
Definition exactRecord (mrs : shr_record) : Prop := shr_r mrs = false /\ shr_s mrs = false.

(** The significand of 100: [100 = m100 * 2^-46]. *)
Definition m100 : positive := 7036874417766400.

(** ** Counts and groups *)

(** The number of elements of [l] that satisfy [f]. *)
Definition countIf {A : Type} (f : A -> bool) (l : list A) : Z :=
  Z.of_nat (length (List.filter f l)).

(** The test of the second loop of [calculateLanguageSummary]. *)
Definition hasBazelizedTests (p : Package.t) : bool :=
  Package.HasTestFiles p && (0 <? Package.TestTargetCount p).

(** [a] has the key [k]. *)
Definition keyed {A : Type} (key : A -> string) (k : string) (a : A) : bool :=
  String.eqb (key a) k.

(** One step of a loop that keeps, in a map, one value per key: the value
    of [a]'s key, [init a] when the key is new, takes the step [step]. *)
Definition upd {A V : Type} (key : A -> string) (init : A -> V) (step : V -> A -> V)
  (m : gmap string V) (a : A) : gmap string V :=
  <[key a := step (default (init a) (m !! key a)) a]> m.

(** The label of the group a package falls into. *)
Definition topDir (p : Package.t) : string :=
  let t := getTopLevelDir (Package.RelPath p) in
  if String.eqb t "" || String.eqb t "." then "(root)" else t.

(** What one package adds to the entry of its group. *)
Definition addMember (dm : DirectoryMetrics.t) (p : Package.t) : DirectoryMetrics.t :=
  let dm := DirectoryMetrics.set_TotalPackages (DirectoryMetrics.TotalPackages dm + 1) dm in
  let dm := if Package.HasBuildFile p then
              DirectoryMetrics.set_BazelizedPackages
                (DirectoryMetrics.BazelizedPackages dm + 1) dm
            else dm in
  if Package.HasTestFiles p then
    DirectoryMetrics.set_PackagesWithTests (DirectoryMetrics.PackagesWithTests dm + 1) dm
  else dm.

(** The map of the grouping loop. *)
Definition groups (packages : list Package.t) : gmap string DirectoryMetrics.t :=
  foldl groupPackage ∅ packages.

(** The sum of the [TotalPackages] fields. *)
Definition sumTotals (l : list DirectoryMetrics.t) : Z :=
  foldr (fun dm acc => DirectoryMetrics.TotalPackages dm + acc) 0 l.

(** The packages of the group [k]. *)
Definition members (k : string) (packages : list Package.t) : list Package.t :=
  List.filter (keyed topDir k) packages.

(** More packages first. *)
Definition descending (l : list DirectoryMetrics.t) : Prop :=
  StronglySorted (fun a b => DirectoryMetrics.TotalPackages b <= DirectoryMetrics.TotalPackages a) l.

(** Fewer packages first. *)
Definition ascending (l : list DirectoryMetrics.t) : Prop :=
  StronglySorted
    (fun a b => DirectoryMetrics.TotalPackages a <= DirectoryMetrics.TotalPackages b) l.

(** The entries with the total [k], in their order. *)
Definition tied (k : Z) (l : list DirectoryMetrics.t) : list DirectoryMetrics.t :=
  List.filter (fun dm => DirectoryMetrics.TotalPackages dm =? k) l.

(** Entries with equal totals stand in the result as they stood when the
    loop over the map met them. *)
Definition tiesKeepOrder (encounter result : list DirectoryMetrics.t) : Prop :=
  forall k, tied k result = tied k (withPercentages <$> encounter).

(** ** Sorting by insertion *)

(** [x] behind the elements [rpre] (the nearest first), moved to the left
    past the elements it is [less] than. *)
Fixpoint moveLeft {A : Type} (less : A -> A -> bool) (x : A) (rpre : list A)
  : list A :=
  match rpre with
  | y :: r => if less x y then y :: moveLeft less x r else x :: rpre
  | [] => [x]
  end.

(** The elements of [l], each moved to the left in its turn. *)
Definition insertionSorted {A : Type} (less : A -> A -> bool) (l : list A)
  : list A :=
  rev (foldl (fun rpre x => moveLeft less x rpre) [] l).

(** ** The files of a walk *)

(** Induction on directory trees. *)
Definition node_ind' (P : fs.node -> Prop)
  (HF : forall name c, P (fs.File name c))
  (HD : forall name entries, Forall P entries -> P (fs.Dir name entries))
  (HN : forall name, P (fs.NoStat name)) : forall n, P n :=
  fix F (n : fs.node) : P n :=
    match n with
    | fs.File name c => HF name c
    | fs.Dir name entries =>
        HD name entries
          ((fix G (es : list fs.node) : Forall P es :=
              match es with
              | [] => @List.Forall_nil _ P
              | e :: es' => @List.Forall_cons _ P e es' (F e) (G es')
              end) entries)
    | fs.NoStat name => HN name
    end.

(** The files the walk hands to the walk function, in order. *)
Fixpoint visitsOf (s : Scanner.t) (dir : string) (below : list string)
  (n : fs.node) : list visit :=
  match n with
  | fs.NoStat _ => []
  | fs.File name c => [mkVisit dir below name c]
  | fs.Dir name entries =>
      if skipDir s name then []
      else flat_map (visitsOf s (filepath.Join dir name) (below ++ [name])) entries
  end.

(** The files of the whole walk. *)
Definition visits (s : Scanner.t) (root : list fs.node) : list visit :=
  if skipDir s (filepath.Base (Scanner.repoPath s)) then []
  else flat_map (visitsOf s (filepath.Clean (Scanner.repoPath s)) []) root.

(** The relative path of the directory of a file, as the walk function
    computes it. *)
Definition relDirOf (v : visit) : string :=
  let relDir := Rel (below v) in
  if String.eqb relDir "" then "." else relDir.

(** The targets of a BUILD file, when [parseBuildFile] returns no error. *)
Definition parsed (s : Scanner.t) (v : visit) : option buildTargets.t :=
  match parseBuildFile s (content v) with
  | (Some targets, None) => Some targets
  | _ => None
  end.

(** The tests the walk function makes on a file name. *)
Definition isGo (v : visit) : bool := strings.HasSuffix (filename v) ".go".

Definition isGoTest (v : visit) : bool := strings.HasSuffix (filename v) "_test.go".

Definition isPython (v : visit) : bool := strings.HasSuffix (filename v) ".py".

Definition isPythonTest (v : visit) : bool :=
  strings.HasSuffix (filename v) "_test.py"
  || strings.HasPrefix (filename v) "test_"
  || strings.HasSuffix (filename v) "_tests.py".

Definition isRust (v : visit) : bool := strings.HasSuffix (filename v) ".rs".

Definition isManifest (v : visit) : bool := isBuildFile (filename v).

(** A package entry after one more file of its language. *)
Definition addFile (test : visit -> bool) (pkg : Package.t) (v : visit) : Package.t :=
  if test v then
    Package.set_TestFileCount (Package.TestFileCount pkg + 1)
      (Package.set_HasTestFiles true pkg)
  else Package.set_SourceFileCount (Package.SourceFileCount pkg + 1) pkg.

(** A field holding the package of one language, after one more file. *)
Definition slotStep (sel test : visit -> bool) (lang : Language)
  (o : option Package.t) (v : visit) : option Package.t :=
  if sel v then
    Some (addFile test (default (Package.new (dir v) (relDirOf v) lang) o) v)
  else o.

(** The entry of a directory after one more of its files. *)
Definition dpStep (s : Scanner.t) (dp : dirPackages.t) (v : visit) : dirPackages.t :=
  dirPackages.mk (dirPackages.path dp) (dirPackages.relPath dp)
    (dirPackages.hasBuild dp || isManifest v)
    (if isManifest v then
       match parsed s v with Some t => Some t | None => dirPackages.targets dp end
     else dirPackages.targets dp)
    (slotStep isGo isGoTest LangGo (dirPackages.goPkg dp) v)
    (slotStep isPython isPythonTest LangPython (dirPackages.pythonPkg dp) v)
    (slotStep isRust (fun _ => false) LangRust (dirPackages.rustPkg dp) v).

(** The totals of the result after one more file. *)
Definition resStep (r : ScanResult.t) (v : visit) : ScanResult.t :=
  let r := if isManifest v then ScanResult.with_TotalBUILDs (fun n => n + 1) r else r in
  let r := if isGo v then
             if isGoTest v then ScanResult.with_TotalGoTests (fun n => n + 1) r
             else ScanResult.with_TotalGoFiles (fun n => n + 1) r
           else r in
  let r := if isPython v then
             if isPythonTest v then ScanResult.with_TotalPythonTests (fun n => n + 1) r
             else ScanResult.with_TotalPythonFiles (fun n => n + 1) r
           else r in
  if isRust v then ScanResult.with_TotalRustFiles (fun n => n + 1) r else r.

(** The files of the directory [d] among the visits. *)
Definition inDir (d : string) (vs : list visit) : list visit :=
  List.filter (keyed dir d) vs.

(** The source files and the test files of a language: [sel] recognises
    the language, [test] its test files. *)
Definition selSource (sel test : visit -> bool) (v : visit) : bool :=
  sel v && negb (test v).

Definition selTest (sel test : visit -> bool) (v : visit) : bool := sel v && test v.

(** What the walk has recorded in a package entry after the files [vs]. *)
Definition recorded (sel test : visit -> bool) (lang : Language)
  (vs : list visit) (p : Package.t) : Prop :=
  (exists v0, In v0 vs /\ sel v0 = true
              /\ Package.Path p = dir v0 /\ Package.RelPath p = relDirOf v0)
  /\ Package.Language p = lang
  /\ Package.HasBuildFile p = false
  /\ Package.TestTargetCount p = 0
  /\ Package.LibraryTargets p = 0
  /\ Package.BinaryTargets p = 0
  /\ Package.SourceFileCount p = countIf (selSource sel test) vs
  /\ Package.TestFileCount p = countIf (selTest sel test) vs
  /\ Package.HasTestFiles p = (0 <? countIf (selTest sel test) vs).

(** The targets attached to a directory after the files [vs]: those of the
    last BUILD file that parsed. *)
Definition tgtStep (s : Scanner.t) (o : option buildTargets.t) (v : visit)
  : option buildTargets.t :=
  if isManifest v then match parsed s v with Some t => Some t | None => o end else o.

(** ** The loop over the directory map *)

(** The package of a language as the loop over the map completes it. *)
Definition attach (tests libs bins : buildTargets.t -> Z) (dp : dirPackages.t)
  (pkg : Package.t) : Package.t :=
  let pkg := Package.set_HasBuildFile (dirPackages.hasBuild dp) pkg in
  match dirPackages.targets dp with
  | Some t =>
      Package.set_BinaryTargets (bins t)
        (Package.set_LibraryTargets (libs t)
           (Package.set_TestTargetCount (tests t) pkg))
  | None => pkg
  end.

Definition finalGo (dp : dirPackages.t) : option Package.t :=
  attach buildTargets.goTests buildTargets.goLibs buildTargets.goBins dp <$> dirPackages.goPkg dp.

Definition finalPython (dp : dirPackages.t) : option Package.t :=
  attach buildTargets.pyTests buildTargets.pyLibs buildTargets.pyBins dp <$> dirPackages.pythonPkg dp.

(** The tests a Rust package is credited with: its [rust_test] targets. *)
Definition creditTests (pkg : Package.t) : Package.t :=
  if 0 <? Package.TestTargetCount pkg then
    Package.set_TestFileCount (Package.TestTargetCount pkg)
      (Package.set_HasTestFiles true pkg)
  else pkg.

Definition finalRust (dp : dirPackages.t) : option Package.t :=
  (fun pkg =>
     let pkg' := attach buildTargets.rustTests buildTargets.rustLibs
                   buildTargets.rustBins dp pkg in
     match dirPackages.targets dp with
     | Some _ => creditTests pkg'
     | None => pkg'
     end) <$> dirPackages.rustPkg dp.

(** What a directory adds to the total of test targets of a language. *)
Definition testRules (tests : buildTargets.t -> Z)
  (slot : dirPackages.t -> option Package.t) (dp : dirPackages.t) : Z :=
  match slot dp, dirPackages.targets dp with
  | Some _, Some t => tests t
  | _, _ => 0
  end.

(** What a directory adds to [TotalRustTests]. *)
Definition rustCredit (dp : dirPackages.t) : Z :=
  match dirPackages.rustPkg dp, dirPackages.targets dp with
  | Some _, Some t => if 0 <? buildTargets.rustTests t then buildTargets.rustTests t else 0
  | _, _ => 0
  end.

(** The sum of [f] over [l]. *)
Definition sumZ {A} (f : A -> Z) (l : list A) : Z := foldr (fun a acc => f a + acc) 0 l.

(** ** Packages and directories *)

(** The files of the package's directory, and the targets attached to it. *)
Definition filesOf (s : Scanner.t) (root : list fs.node) (P : Package.t) : list visit :=
  inDir (Package.Path P) (visits s root).

Definition targetsOf (s : Scanner.t) (root : list fs.node) (P : Package.t)
  : option buildTargets.t :=
  foldl (tgtStep s) None (filesOf s root P).

(** The facts common to the three languages, before the Rust rule. *)
Definition describes (s : Scanner.t) (root : list fs.node)
  (sel test : visit -> bool) (lang : Language)
  (tests libs bins : buildTargets.t -> Z) (P : Package.t) : Prop :=
  (exists v0, In v0 (filesOf s root P) /\ sel v0 = true /\ Package.RelPath P = relDirOf v0)
  /\ Package.Language P = lang
  /\ Package.HasBuildFile P = existsb isManifest (filesOf s root P)
  /\ Package.SourceFileCount P = countIf (selSource sel test) (filesOf s root P)
  /\ Package.TestFileCount P = countIf (selTest sel test) (filesOf s root P)
  /\ Package.HasTestFiles P = (0 <? countIf (selTest sel test) (filesOf s root P))
  /\ Package.TestTargetCount P = from_option tests 0 (targetsOf s root P)
  /\ Package.LibraryTargets P = from_option libs 0 (targetsOf s root P)
  /\ Package.BinaryTargets P = from_option bins 0 (targetsOf s root P).

(** [reached s root dir below entries]: the walk enters the directory with
    path [dir], [below] the repository root, and finds [entries] there. *)
Inductive reached (s : Scanner.t) (root : list fs.node)
  : string -> list string -> list fs.node -> Prop :=
| reached_root :
    skipDir s (filepath.Base (Scanner.repoPath s)) = false ->
    reached s root (filepath.Clean (Scanner.repoPath s)) [] root
| reached_sub dir below entries name sub :
    reached s root dir below entries ->
    In (fs.Dir name sub) entries ->
    skipDir s name = false ->
    reached s root (filepath.Join dir name) (below ++ [name]) sub.

(** [dir] directly contains a file called [name], with content [c]. *)
Definition contains (s : Scanner.t) (root : list fs.node) (d name : string)
  (c : fs.content) : Prop :=
  exists bl entries,
    reached s root d bl entries /\ In (fs.File name c) entries.

(** The directory has a BUILD file: a file with one of the two names. *)
Definition hasManifest (s : Scanner.t) (root : list fs.node) (d : string) : Prop :=
  exists name c, contains s root d name c /\ isBuildFile name = true.

(** One of the directory's BUILD files parses without error. *)
Definition manifestParses (s : Scanner.t) (root : list fs.node) (d : string) : Prop :=
  exists name c,
    contains s root d name c /\ isBuildFile name = true
    /\ snd (parseBuildFile s c) = None.

(** The packages of the three lists. *)
Definition allPackages (res : ScanResult.t) : list Package.t :=
  ScanResult.GoPackages res ++ ScanResult.PythonPackages res
    ++ ScanResult.RustPackages res.

(** ** The repositories and the files of the examples *)


(** A directory with both BUILD files and a Go file. *)
Definition repo_two_manifests : list fs.node :=
  [fs.File "BUILD" (fs.Bytes ""); fs.File "BUILD.bazel" (fs.Bytes "");
   fs.File "main.go" (fs.Bytes "")].

(** A crate with one [rust_test] target and a crate without a BUILD file. *)
Definition repo_rust : list fs.node :=
  [fs.Dir "crate" [fs.File "BUILD.bazel" (fs.Bytes "rust_test(");
                   fs.File "lib.rs" (fs.Bytes "")];
   fs.Dir "tool" [fs.File "main.rs" (fs.Bytes "")]].

(** Five Go packages: the root, three below [svc], one of them with a
    BUILD file, and one below [lib]. *)
Definition repo_breakdown : list fs.node :=
  [fs.File "main.go" (fs.Bytes "");
   fs.Dir "svc" [fs.File "a.go" (fs.Bytes "");
                 fs.Dir "api" [fs.File "BUILD" (fs.Bytes ""); fs.File "b.go" (fs.Bytes "")];
                 fs.Dir "db" [fs.File "c.go" (fs.Bytes ""); fs.File "c_test.go" (fs.Bytes "")]];
   fs.Dir "lib" [fs.File "d.go" (fs.Bytes "")]].

(** Both BUILD files, and no Go file. *)
Definition repo_python_only : list fs.node :=
  [fs.File "BUILD" (fs.Bytes ""); fs.File "BUILD.bazel" (fs.Bytes "");
   fs.File "tool.py" (fs.Bytes "")].

(** ** Names and the exclusion rule *)

(** No separator in a name. *)
Fixpoint noSeparator (name : string) : bool :=
  match name with
  | EmptyString => true
  | String c name' => negb (Ascii.eqb c filepath.Separator) && noSeparator name'
  end.

(** The directory names of a tree are names: they contain no separator. *)
Fixpoint dirNamesOk (n : fs.node) : bool :=
  match n with
  | fs.Dir name entries => noSeparator name && forallb dirNamesOk entries
  | _ => true
  end.

(** The names [NewScanner] lists in [skipDirs]. *)
Definition denylist : list string :=
  [".git"; "bazel-bin"; "bazel-out"; "bazel-testlogs"; "node_modules"; ".cache";
   "vendor"; "__pycache__"; "target"; ".venv"; "venv"].

(** The exclusion rule of the walk, on a name. *)
Definition excludedName (seg : string) : Prop :=
  strings.HasPrefix seg "." = true
  \/ In seg denylist
  \/ strings.HasPrefix seg "bazel-" = true.

(** The tree without the directories the walk skips. *)
Fixpoint pruneNode (s : Scanner.t) (n : fs.node) : list fs.node :=
  match n with
  | fs.Dir name entries =>
      if skipDir s name then [] else [fs.Dir name (flat_map (pruneNode s) entries)]
  | _ => [n]
  end.

(** The repository without the directories the walk skips. *)
Definition prune (s : Scanner.t) (root : list fs.node) : list fs.node :=
  flat_map (pruneNode s) root.

(** Go files in a directory, in two excluded directories below it and in
    a hidden directory. *)
Definition repo_nested : list fs.node :=
  [fs.Dir "svc" [fs.File "main.go" (fs.Bytes "");
                 fs.Dir "vendor" [fs.File "dep.go" (fs.Bytes "")];
                 fs.Dir "bazel-cache" [fs.File "gen.go" (fs.Bytes "")]];
   fs.Dir ".git" [fs.File "hook.py" (fs.Bytes "")]].

(** The double quote and the line feed. *)
Definition dquote : string := String "034"%char EmptyString.

Definition newline : string := String "010"%char EmptyString.

(** The three lines [load("@rules")], [go_test(] and an indented [go_test(]. *)
Definition manifest_two_tests : string :=
  "load(" +:+ dquote +:+ "@rules" +:+ dquote +:+ ")" +:+ newline
  +:+ "go_test(" +:+ newline
  +:+ "  go_test(" +:+ newline.

(** The Go test-role count [parseBuildFile] returns for a file that reads
    as [text]. *)
Definition goTestCount (repoPath text : string) : option Z * option error :=
  let '(targets, err) := parseBuildFile (NewScanner repoPath) (fs.Bytes text) in
  (buildTargets.goTests <$> targets, err).

(** Two Go packages in two top-level directories, and the entries of the
    breakdown for them. *)
Definition pkg_a : Package.t := Package.mk "/repo/a" "a" LangGo false false 1 0 0 0 0.

Definition pkg_b : Package.t := Package.mk "/repo/b" "b" LangGo false false 1 0 0 0 0.

Definition entry_a : DirectoryMetrics.t :=
  DirectoryMetrics.mk "a" 1 0 0 Float64.zero Float64.zero.

Definition entry_b : DirectoryMetrics.t :=
  DirectoryMetrics.mk "b" 1 0 0 Float64.zero Float64.zero.

(** Thirteen top-level directories: a Go package in each of [a] to [l],
    two in [m]. *)
Definition pkgAt (relPath : string) : Package.t :=
  Package.mk ("/repo/" +:+ relPath) relPath LangGo false false 1 0 0 0 0.

Definition packages_thirteen : list Package.t :=
  pkgAt <$> ["a"; "b"; "c"; "d"; "e"; "f"; "g"; "h"; "i"; "j"; "k"; "l"; "m"; "m/sub"].

Definition names_thirteen : list string :=
  ["a"; "b"; "c"; "d"; "e"; "f"; "g"; "h"; "i"; "j"; "k"; "l"; "m"].

(** The entry of the breakdown for a directory with [total] packages, none
    of them with a BUILD file or with tests, and the entry for one of the
    thirteen directories. *)
Definition entryOf (name : string) (total : Z) : DirectoryMetrics.t :=
  DirectoryMetrics.mk name total 0 0 Float64.zero Float64.zero.

Definition entryNamed (name : string) : DirectoryMetrics.t :=
  entryOf name (if String.eqb name "m" then 2 else 1).

(** The thirteen entries in the order of their names, and in the order in
    which the library's sort leaves them. *)
Definition encounter_thirteen : list DirectoryMetrics.t :=
  entryNamed <$> names_thirteen.

Definition result_thirteen : list DirectoryMetrics.t :=
  entryNamed <$> ["m"; "g"; "c"; "d"; "e"; "f"; "a"; "h"; "i"; "j"; "k"; "l"; "b"].

(** ** Percentages *)

(** A number from 0 to 100. *)
Definition inRange (x : float) : Prop :=
  PrimFloat.leb 0 x = true /\ PrimFloat.leb x 100 = true
  /\ PrimFloat.is_nan x = false.

(** [pct] is the percentage that [count] is of [total], 0 for an empty whole. *)
Definition percentageOf (pct : float) (count total : Z) : Prop :=
  0 <= count <= total
  /\ inRange pct
  /\ (0 < total ->
      pct = PrimFloat.mul 100 (PrimFloat.div (Float64.of_int count) (Float64.of_int total)))
  /\ (total = 0 -> pct = Float64.zero).

(** The two percentages of a language summary, and those of an entry of
    the directory breakdown. *)
Definition summaryPercentages (s : LanguageSummary.t) : Prop :=
  percentageOf (LanguageSummary.BazelizationPct s)
    (LanguageSummary.PackagesWithBuild s) (LanguageSummary.TotalPackages s)
  /\ percentageOf (LanguageSummary.TestCoveragePct s)
       (LanguageSummary.PackagesWithTests s) (LanguageSummary.TotalPackages s).

Definition entryPercentages (dm : DirectoryMetrics.t) : Prop :=
  percentageOf (DirectoryMetrics.BazelizationPct dm)
    (DirectoryMetrics.BazelizedPackages dm) (DirectoryMetrics.TotalPackages dm)
  /\ percentageOf (DirectoryMetrics.TestCoveragePct dm)
       (DirectoryMetrics.PackagesWithTests dm) (DirectoryMetrics.TotalPackages dm).

(** ** The vocabulary of the further properties *)

(** *** Packages *)

(** The facts of [describes] that do not depend on the language. *)
Definition wellCounted (P : Package.t) : Prop :=
  (Package.HasTestFiles P = true <-> 0 < Package.TestFileCount P)
  /\ 0 <= Package.SourceFileCount P /\ 0 <= Package.TestFileCount P
  /\ 1 <= Package.SourceFileCount P + Package.TestFileCount P
  /\ 0 <= Package.TestTargetCount P /\ 0 <= Package.LibraryTargets P
  /\ 0 <= Package.BinaryTargets P
  /\ (0 < Package.TestTargetCount P + Package.LibraryTargets P + Package.BinaryTargets P ->
      Package.HasBuildFile P = true).

(** The files a walk has recorded in a field holding a package. *)
Definition slotCount (f : Package.t -> Z) (o : option Package.t) : Z :=
  from_option f 0 o.

(** *** Directories and paths *)

(** The directory names of a tree are file names: not empty, no separator. *)
Fixpoint dirNamesProper (n : fs.node) : bool :=
  match n with
  | fs.Dir name entries =>
      negb (String.eqb name "") && noSeparator name && forallb dirNamesProper entries
  | _ => true
  end.

(** [dir] for the directory reached from the root through [below]. *)
Definition dirOf (repoPath : string) (below : list string) : string :=
  foldl filepath.Join repoPath below.

(** Ascending relative paths, none twice. *)
Definition strictlyAscending (l : list Package.t) : Prop :=
  StronglySorted (fun a b => lessRelPath a b = true) l.

(** The directories named by a relative path. *)
Definition segments (relPath : string) : list string :=
  if String.eqb relPath "." then [] else strings.Split relPath filepath.Separator.

(** A file the walk function counts: a BUILD file or a source file of one
    of the three languages. *)
Definition isCounted (v : visit) : bool :=
  isManifest v || isGo v || isPython v || isRust v.

(** *** The lines of a BUILD file and the rule patterns *)

(** A string without a line feed. *)
Fixpoint noNewline (s : string) : bool :=
  match s with
  | EmptyString => true
  | String c s' => negb (Ascii.eqb c "010") && noNewline s'
  end.

(** The last byte of a string is a carriage return. *)
Fixpoint endsWithCR (s : string) : bool :=
  match s with
  | EmptyString => false
  | String c EmptyString => Ascii.eqb c "013"
  | String _ s' => endsWithCR s'
  end.

(** A line a [bufio.Scanner] delivers as it stands: no line feed in it, no
    carriage return at its end, and short enough for the buffer. *)
Definition plainLine (line : string) : Prop :=
  noNewline line = true /\ endsWithCR line = false
  /\ Z.of_nat (String.length line) < bufio.MaxScanTokenSize.

(** The lines, each followed by a carriage return and a line feed. *)
Definition joinCRLF (lines : list string) : string :=
  foldr (fun line text => line +:+ String "013" (String "010" text)) EmptyString lines.

(** [n] times the byte [c]. *)
Fixpoint replicateByte (n : nat) (c : ascii) : string :=
  match n with
  | O => EmptyString
  | S n' => String c (replicateByte n' c)
  end.

(** White space only. *)
Fixpoint allSpace (s : string) : bool :=
  match s with
  | EmptyString => true
  | String c s' => regexp.isSpace c && allSpace s'
  end.

(** A name that starts with a byte that is no white space. *)
Definition startsNonSpace (s : string) : bool :=
  match s with
  | EmptyString => false
  | String c _ => negb (regexp.isSpace c)
  end.

(** [s] reads: white space, the name, white space, an opening parenthesis;
    [n] bytes up to and including the parenthesis. *)
Definition ruleAt (name s : string) (n : nat) : Prop :=
  exists ws ws' rest,
    s = ws +:+ name +:+ ws' +:+ String "(" rest
    /\ allSpace ws = true /\ allSpace ws' = true
    /\ n = (String.length ws + String.length name + String.length ws' + 1)%nat.

(** *** Reports *)

(** The packages of a language of the report. *)
Definition languagePackages (res : ScanResult.t) (lang : string) : list Package.t :=
  if String.eqb lang "go" then ScanResult.GoPackages res
  else if String.eqb lang "python" then ScanResult.PythonPackages res
  else if String.eqb lang "rust" then ScanResult.RustPackages res
  else [].

Definition hasPackages (res : ScanResult.t) (lang : string) : bool :=
  match languagePackages res lang with [] => false | _ => true end.

(** The three totals the scan keeps for a language. *)
Definition scanTotals (res : ScanResult.t) (lang : string) : Z * Z * Z :=
  if String.eqb lang "go" then
    (ScanResult.TotalGoFiles res, ScanResult.TotalGoTests res,
     ScanResult.TotalGoTestRules res)
  else if String.eqb lang "python" then
    (ScanResult.TotalPythonFiles res, ScanResult.TotalPythonTests res,
     ScanResult.TotalPyTestRules res)
  else
    (ScanResult.TotalRustFiles res, ScanResult.TotalRustTests res,
     ScanResult.TotalRustTestRules res).

(** A path element that [filepath.Clean] keeps as it is. *)
Definition plainElement (n : string) : Prop :=
  n <> "" /\ noSeparator n = true /\ n <> "." /\ n <> "..".

(** The label of the group of a relative path whose segments are [segs]. *)
Definition groupLabel (segs : list string) : string :=
  match segs with
  | [] => "(root)"
  | seg :: _ => seg
  end.

(** *** The benchmark runner *)

(** The candidates within the first [n] places are in ascending order of
    their test files, and no candidate after them has fewer. *)
Definition smallestFirst (n : nat) (l : list Package.t) : Prop :=
  forall i j a b,
    (i < n)%nat -> (i < j)%nat -> l !! i = Some a -> l !! j = Some b ->
    Package.TestFileCount a <= Package.TestFileCount b.

(** No more test files than: the order of the selection sort. *)
Definition fewerTests (a b : Package.t) : Prop :=
  Package.TestFileCount a <= Package.TestFileCount b.

(** The [n]th directory above [dir], as [filepath.Dir] gives it. *)
Definition ancestor (n : nat) (dir : string) : string :=
  Nat.iter n benchmark.Dir dir.

(** The bytes of the elements of a path that are not empty, and a
    separator for each. *)
Definition pathWeight (elems : list string) : nat :=
  foldr (fun e n => if String.eqb e "" then n else (String.length e + 1 + n)%nat) 0%nat elems.

(** *** A repository with three languages *)

(** Two Go packages with tests and [go_test] targets, a Python package and
    a crate. *)
Definition repo_mixed : list fs.node :=
  [fs.Dir "api" [fs.File "BUILD.bazel"
                   (fs.Bytes ("go_library(" +:+ newline +:+ "go_test(" +:+ newline));
                 fs.File "a.go" (fs.Bytes "");
                 fs.File "a_test.go" (fs.Bytes "");
                 fs.File "b_test.go" (fs.Bytes "")];
   fs.Dir "cli" [fs.File "BUILD" (fs.Bytes "go_test(");
                 fs.File "main.go" (fs.Bytes "");
                 fs.File "main_test.go" (fs.Bytes "")];
   fs.Dir "py" [fs.File "BUILD" (fs.Bytes "py_test(");
                fs.File "tool.py" (fs.Bytes "");
                fs.File "tool_test.py" (fs.Bytes "")];
   fs.Dir "rs" [fs.File "BUILD.bazel" (fs.Bytes "rust_test(");
                fs.File "lib.rs" (fs.Bytes "")]].

(** The language of the packages of each list. *)
Definition languageTags (res : ScanResult.t) : Prop :=
  Forall (fun P => Package.Language P = LangGo) (ScanResult.GoPackages res)
  /\ Forall (fun P => Package.Language P = LangPython) (ScanResult.PythonPackages res)
  /\ Forall (fun P => Package.Language P = LangRust) (ScanResult.RustPackages res).

(** The paths of a list of the report, in strictly ascending byte order. *)
Definition ascendingPaths (l : list PackageInfo.t) : Prop :=
  StronglySorted (fun a b => String.ltb (PackageInfo.Path a) (PackageInfo.Path b) = true) l.

(** * Binary64 arithmetic

    What the percentages need of the rounding of binary64 division and
    multiplication, from the definitions of [SpecFloat]. *)

(** Binary64 rounding: bounds on the results of [binary_round_aux]. *)

Lemma digits2_pos_bounds (p : positive) :
  2 ^ (Zpos (digits2_pos p) - 1) <= Zpos p < 2 ^ Zpos (digits2_pos p).
Proof.
  induction p as [p IH|p IH|]; simpl digits2_pos.
  - rewrite Pos2Z.inj_succ. replace (Z.succ (Zpos (digits2_pos p)) - 1)
      with (Z.succ (Zpos (digits2_pos p) - 1)) by lia.
    rewrite !Z.pow_succ_r by lia. lia.
  - rewrite Pos2Z.inj_succ. replace (Z.succ (Zpos (digits2_pos p)) - 1)
      with (Z.succ (Zpos (digits2_pos p) - 1)) by lia.
    rewrite !Z.pow_succ_r by lia. lia.
  - simpl. lia.
Qed.

Lemma digits2_pos_unique (p : positive) (d : Z) :
  2 ^ (d - 1) <= Zpos p < 2 ^ d -> Zpos (digits2_pos p) = d.
Proof.
  intros [H1 H2]. pose proof (digits2_pos_bounds p) as [H3 H4].
  assert (0 < d).
  { destruct (Z.le_gt_cases d 0) as [Hd|Hd]; [|lia].
    assert (2 ^ d <= 2 ^ 0) by (apply Z.pow_le_mono_r; lia). simpl in *. lia. }
  destruct (Z.lt_trichotomy (Zpos (digits2_pos p)) d) as [Hlt|[Heq|Hgt]]; [|done|].
  - assert (2 ^ Zpos (digits2_pos p) <= 2 ^ (d - 1)) by (apply Z.pow_le_mono_r; lia). lia.
  - assert (2 ^ d <= 2 ^ (Zpos (digits2_pos p) - 1)) by (apply Z.pow_le_mono_r; lia). lia.
Qed.

(** Shifting right. *)
Lemma iter_pos_nat {A} (f : A -> A) (p : positive) (x : A) :
  SpecFloat.iter_pos f p x = Nat.iter (Pos.to_nat p) f x.
Proof.
  revert x. induction p as [p IH|p IH|]; intros x.
  - rewrite Pos2Nat.inj_xI. simpl SpecFloat.iter_pos. rewrite !IH.
    rewrite <- Nat.iter_add, <- Nat.iter_succ_r. f_equal. lia.
  - rewrite Pos2Nat.inj_xO. simpl SpecFloat.iter_pos. rewrite !IH.
    rewrite <- Nat.iter_add. f_equal. lia.
  - reflexivity.
Qed.

Lemma shr_1_m mrs : 0 <= shr_m mrs -> shr_m (shr_1 mrs) = shr_m mrs / 2.
Proof.
  destruct mrs as [m r s]. cbn [shr_m]. intros Hm.
  destruct m as [|[p|p|]|p]; cbn [shr_1 shr_m]; try lia.
  - reflexivity.
  - apply Z.div_unique with 1; lia.
  - apply Z.div_unique with 0; lia.
  - reflexivity.
Qed.

Lemma shr_iter_m (k : nat) mrs :
  0 <= shr_m mrs ->
  shr_m (Nat.iter k shr_1 mrs) = shr_m mrs / 2 ^ Z.of_nat k.
Proof.
  intros Hm. induction k as [|k IH].
  - simpl. by rewrite Z.div_1_r.
  - rewrite Nat2Z.inj_succ, Z.pow_succ_r by lia. simpl Nat.iter.
    rewrite shr_1_m, IH.
    + rewrite Z.div_div by lia. f_equal. lia.
    + rewrite IH. apply Z.div_pos; lia.
Qed.

Lemma shr_1_exact mrs :
  0 <= shr_m mrs -> exactRecord mrs -> (2 | shr_m mrs) -> exactRecord (shr_1 mrs).
Proof.
  destruct mrs as [m r s]. unfold exactRecord. cbn [shr_m shr_r shr_s].
  intros Hm [Hr Hs] [q Hq]. subst r s.
  destruct m as [|[p|p|]|p]; cbn; try done; lia.
Qed.

Lemma shr_iter_exact (k : nat) mrs :
  0 <= shr_m mrs -> exactRecord mrs -> (2 ^ Z.of_nat k | shr_m mrs) ->
  exactRecord (Nat.iter k shr_1 mrs).
Proof.
  intros Hm Hex. induction k as [|k IH]; intros Hdiv; [done|].
  simpl Nat.iter. rewrite Nat2Z.inj_succ, Z.pow_succ_r in Hdiv by lia.
  destruct Hdiv as [q Hq].
  apply shr_1_exact.
  - rewrite shr_iter_m by done. apply Z.div_pos; lia.
  - apply IH. exists (q * 2). lia.
  - rewrite shr_iter_m by done. exists q. rewrite Hq.
    replace (q * (2 * 2 ^ Z.of_nat k)) with ((q * 2) * 2 ^ Z.of_nat k) by ring.
    rewrite Z.div_mul by lia. ring.
Qed.

Lemma loc_of_exact mrs : exactRecord mrs -> loc_of_shr_record mrs = loc_Exact.
Proof. destruct mrs as [m r s]. intros [Hr Hs]. simpl in *. by subst. Qed.

Lemma round_nearest_even_bounds m l :
  m <= round_nearest_even m l <= m + 1.
Proof.
  unfold round_nearest_even. destruct l as [|[]]; try lia. destruct (Z.even m); lia.
Qed.

Lemma shr_record_of_loc_m m l : shr_m (shr_record_of_loc m l) = m.
Proof. destruct l as [|[]]; reflexivity. Qed.

Lemma shr_record_of_loc_exact m : exactRecord (shr_record_of_loc m loc_Exact).
Proof. split; reflexivity. Qed.

(** In the normal range [shr_fexp] shifts a mantissa of [d] digits by
    [d - 53] positions. *)
Lemma shr_fexp_normal (m : positive) (e : Z) (l : location) :
  let d := Zpos (digits2_pos m) in
  53 <= d -> -1074 <= e + (d - 53) ->
  shr_fexp prec emax (Zpos m) e l
  = (Nat.iter (Z.to_nat (d - 53)) shr_1 (shr_record_of_loc (Zpos m) l),
     e + (d - 53)).
Proof.
  intros d Hd He. unfold shr_fexp, fexp, SpecFloat.emin, Zdigits2. fold d.
  change (3 - emax - prec) with (-1074). change prec with 53.
  rewrite Z.max_l by lia.
  replace (d + e - 53 - e) with (d - 53) by lia.
  unfold shr. destruct (d - 53) as [|p|p] eqn:E; try lia.
  - simpl. by rewrite Z.add_0_r.
  - rewrite iter_pos_nat. reflexivity.
Qed.

Lemma pow2_lt_inv (a b : Z) : 0 <= b -> 2 ^ a < 2 ^ b -> a < b.
Proof.
  intros Hb H. destruct (Z.lt_ge_cases a b) as [|Hge]; [done|].
  assert (2 ^ b <= 2 ^ a) by (apply Z.pow_le_mono_r; lia). lia.
Qed.

(** Rounding to nearest does not step over a number of the format. *)
Lemma binary_round_aux_le (m : positive) (e : Z) (l : location)
  (Mb : positive) (Eb : Z) :
  let d := Zpos (digits2_pos m) in
  53 <= d -> -1074 <= e + (d - 53) ->
  Zpos (digits2_pos Mb) = 53 -> Eb <= 971 -> e <= Eb ->
  (Zpos m < Zpos Mb * 2 ^ (Eb - e)
   \/ (Zpos m = Zpos Mb * 2 ^ (Eb - e) /\ l = loc_Exact)) ->
  exists m' e',
    binary_round_aux prec emax false (Zpos m) e l = S754_finite false m' e'
    /\ Zpos (digits2_pos m') = 53
    /\ e + (d - 53) <= e'
    /\ (e' < Eb \/ (e' = Eb /\ (m' <= Mb)%positive)).
Proof.
  intros d Hd He HMb HEb HeEb Hle.
  set (n := d - 53). set (e1 := e + n).
  pose proof (digits2_pos_bounds m) as [Hm1 Hm2]. fold d in Hm1, Hm2.
  pose proof (digits2_pos_bounds Mb) as [HMb1 HMb2]. rewrite HMb in HMb1, HMb2.
  change (53 - 1) with 52 in HMb1.
  assert (Hn : 0 <= n) by (unfold n; lia).
  assert (Hpn : 0 < 2 ^ n) by (apply Z.pow_pos_nonneg; lia).
  assert (Hd2 : 2 ^ d = 2 ^ n * 2 ^ 53).
  { rewrite <- Z.pow_add_r by lia. f_equal. unfold n. lia. }
  assert (Hd1 : 2 ^ (d - 1) = 2 ^ n * 2 ^ 52).
  { rewrite <- Z.pow_add_r by lia. f_equal. unfold n. lia. }
  (* the first shift *)
  unfold binary_round_aux. rewrite (shr_fexp_normal m e l Hd He). fold d n e1.
  set (mrs1 := Nat.iter (Z.to_nat n) shr_1 (shr_record_of_loc (Zpos m) l)).
  assert (Hm1' : shr_m mrs1 = Zpos m / 2 ^ n).
  { unfold mrs1. rewrite shr_iter_m, shr_record_of_loc_m, Z2Nat.id by
      (rewrite ?shr_record_of_loc_m; lia). reflexivity. }
  assert (Hlo : 2 ^ 52 <= shr_m mrs1).
  { rewrite Hm1'. apply Z.div_le_lower_bound; lia. }
  assert (Hhi : shr_m mrs1 < 2 ^ 53).
  { rewrite Hm1'. apply Z.div_lt_upper_bound; lia. }
  (* the bound is in the same binade or above *)
  assert (He1 : e1 <= Eb).
  { assert (Zpos m <= Zpos Mb * 2 ^ (Eb - e)) as Hle' by (destruct Hle; lia).
    assert (0 < 2 ^ (Eb - e)) by (apply Z.pow_pos_nonneg; lia).
    assert (2 ^ (d - 1) < 2 ^ (53 + (Eb - e))).
    { rewrite Z.pow_add_r by lia. nia. }
    apply pow2_lt_inv in H0; [|lia]. unfold e1, n. lia. }
  set (m2 := round_nearest_even (shr_m mrs1) (loc_of_shr_record mrs1)).
  pose proof (round_nearest_even_bounds (shr_m mrs1) (loc_of_shr_record mrs1)) as Hm2b.
  fold m2 in Hm2b.
  assert (Hm2le : e1 = Eb -> m2 <= Zpos Mb).
  { intros HE. assert (Eb - e = n) as Hn' by (unfold e1 in HE; lia).
    rewrite Hn' in Hle. destruct Hle as [Hlt|[Heq ->]].
    - assert (shr_m mrs1 < Zpos Mb); [|lia].
      rewrite Hm1'. apply Z.div_lt_upper_bound; lia.
    - assert (exactRecord mrs1) as Hex.
      { unfold mrs1. apply shr_iter_exact.
        - cbn. lia.
        - apply shr_record_of_loc_exact.
        - cbn [shr_record_of_loc shr_m]. rewrite Z2Nat.id by lia.
          exists (Zpos Mb). exact Heq. }
      unfold m2. rewrite (loc_of_exact _ Hex). cbn [round_nearest_even].
      rewrite Hm1', Heq, Z.div_mul by lia. lia. }
  destruct m2 as [|m2p|m2p] eqn:Em2; try lia.
  assert (Hd2p : Zpos (digits2_pos m2p) = 53 \/ (Zpos m2p = 2 ^ 53)).
  { destruct (Z.eq_dec (Zpos m2p) (2 ^ 53)) as [|Hne]; [by right|left].
    apply digits2_pos_unique. change (53 - 1) with 52. lia. }
  destruct Hd2p as [Hd53|H2p].
  - (* no carry *)
    rewrite (shr_fexp_normal m2p e1 loc_Exact) by (rewrite Hd53; unfold e1; lia).
    rewrite Hd53. change (53 - 53) with 0. change (Z.to_nat 0) with 0%nat.
    cbn [Nat.iter shr_record_of_loc shr_m]. rewrite Z.add_0_r.
    change (emax - prec) with 971.
    assert ((e1 <=? 971) = true) as -> by (apply Z.leb_le; lia).
    exists m2p, e1. split; [reflexivity|]. split; [exact Hd53|]. split; [lia|].
    destruct (Z.eq_dec e1 Eb) as [HE|HE]; [right|left; lia].
    split; [exact HE|]. specialize (Hm2le HE). lia.
  - (* the mantissa became 2^53 *)
    assert (Hd54 : Zpos (digits2_pos m2p) = 54).
    { apply digits2_pos_unique. rewrite H2p. change (54 - 1) with 53.
      split; [lia|]. apply Z.pow_lt_mono_r; lia. }
    assert (He1' : e1 < Eb).
    { destruct (Z.eq_dec e1 Eb) as [HE|HE]; [|lia]. specialize (Hm2le HE). lia. }
    rewrite (shr_fexp_normal m2p e1 loc_Exact) by (rewrite Hd54; unfold e1; lia).
    rewrite Hd54. change (54 - 53) with 1. change (Z.to_nat 1) with 1%nat.
    cbn [Nat.iter]. rewrite shr_1_m by (cbn; lia).
    cbn [shr_record_of_loc shr_m]. rewrite H2p.
    change (2 ^ 53 / 2) with (Zpos 4503599627370496).
    change (emax - prec) with 971.
    assert ((e1 + 1 <=? 971) = true) as -> by (apply Z.leb_le; lia).
    exists 4503599627370496%positive, (e1 + 1). split; [reflexivity|].
    split; [reflexivity|]. split; [lia|].
    destruct (Z.eq_dec (e1 + 1) Eb) as [HE|HE]; [right|left; lia].
    split; [exact HE|]. change (2 ^ 52) with 4503599627370496 in HMb1. lia.
Qed.

(** A mantissa of 53 digits is kept as it is. *)
Lemma binary_round_aux_exact (m : positive) (e : Z) :
  Zpos (digits2_pos m) = 53 -> -1074 <= e <= 971 ->
  binary_round_aux prec emax false (Zpos m) e loc_Exact = S754_finite false m e.
Proof.
  intros Hd He. unfold binary_round_aux.
  rewrite (shr_fexp_normal m e loc_Exact) by (rewrite Hd; lia).
  rewrite Hd. change (53 - 53) with 0. change (Z.to_nat 0) with 0%nat.
  unfold Nat.iter.
  cbn [nat_rect shr_record_of_loc shr_m loc_of_shr_record round_nearest_even].
  rewrite Z.add_0_r.
  rewrite (shr_fexp_normal m e loc_Exact) by (rewrite Hd; lia).
  rewrite Hd. change (53 - 53) with 0. change (Z.to_nat 0) with 0%nat.
  unfold Nat.iter. cbn [nat_rect shr_record_of_loc shr_m]. rewrite Z.add_0_r.
  change (emax - prec) with 971.
  assert ((e <=? 971) = true) as -> by (apply Z.leb_le; lia). reflexivity.
Qed.

Lemma iter_xO (p k : positive) : Zpos (Pos.iter xO p k) = Zpos p * 2 ^ Zpos k.
Proof.
  induction k as [|k IH] using Pos.peano_ind.
  - simpl. lia.
  - rewrite Pos.iter_succ, Pos2Z.inj_succ, Z.pow_succ_r by lia.
    rewrite Pos2Z.inj_xO, IH. ring.
Qed.

(** Positive integers below 2^53 convert without rounding. *)
Lemma binary_normalize_exact (p : positive) :
  Zpos p < 2 ^ 53 ->
  exists m e,
    binary_normalize prec emax (Zpos p) 0 false = S754_finite false m e
    /\ Zpos (digits2_pos m) = 53
    /\ e = Zpos (digits2_pos p) - 53
    /\ -52 <= e <= 0
    /\ Zpos m = Zpos p * 2 ^ (- e).
Proof.
  intros Hp. pose proof (digits2_pos_bounds p) as [H1 H2].
  set (d := Zpos (digits2_pos p)) in *.
  assert (Hd : 1 <= d <= 53).
  { split; [unfold d; lia|].
    assert (2 ^ (d - 1) < 2 ^ 53) as H by lia. apply pow2_lt_inv in H; lia. }
  cbn [binary_normalize]. unfold binary_round, fexp, SpecFloat.emin. fold d.
  change (3 - emax - prec) with (-1074). change prec with 53.
  rewrite Z.add_0_r, Z.max_l by lia.
  unfold shl_align. rewrite Z.sub_0_r.
  destruct (d - 53) as [|k|k] eqn:E; try lia.
  - exists p, 0. rewrite binary_round_aux_exact by (fold d; lia).
    fold d. repeat split; try lia.
  - assert (Hk : Zpos k = 53 - d) by lia.
    assert (Hm : Zpos (Pos.iter xO p k) = Zpos p * 2 ^ (53 - d))
      by (rewrite iter_xO, Hk; reflexivity).
    assert (Hdm : Zpos (digits2_pos (Pos.iter xO p k)) = 53).
    { apply digits2_pos_unique. rewrite Hm. change (53 - 1) with 52.
      assert (0 < 2 ^ (53 - d)) by (apply Z.pow_pos_nonneg; lia).
      replace (2 ^ 52) with (2 ^ (d - 1) * 2 ^ (53 - d))
        by (rewrite <- Z.pow_add_r by lia; f_equal; lia).
      replace (2 ^ 53) with (2 ^ d * 2 ^ (53 - d))
        by (rewrite <- Z.pow_add_r by lia; f_equal; lia).
      nia. }
    exists (Pos.iter xO p k), (Zneg k).
    rewrite binary_round_aux_exact by (rewrite ?Hdm; lia).
    split; [reflexivity|]. split; [exact Hdm|]. split; [lia|]. split; [lia|].
    rewrite Hm. f_equal. f_equal. lia.
Qed.

Lemma digits2_pos_mono (p q : positive) :
  (p <= q)%positive -> Zpos (digits2_pos p) <= Zpos (digits2_pos q).
Proof.
  intros H. pose proof (digits2_pos_bounds p) as [H1 _].
  pose proof (digits2_pos_bounds q) as [_ H2].
  assert (2 ^ (Zpos (digits2_pos p) - 1) < 2 ^ Zpos (digits2_pos q)) as H3 by lia.
  apply pow2_lt_inv in H3; lia.
Qed.

(** The quotient of two numbers of the format, the first not above the
    second, rounds to a number not above 1. *)
Lemma SFdiv_le_one (mx my : positive) (ex ey : Z) :
  Zpos (digits2_pos mx) = 53 -> Zpos (digits2_pos my) = 53 ->
  -52 <= ex -> ex <= ey -> ey <= 0 ->
  Zpos mx <= Zpos my * 2 ^ (ey - ex) ->
  exists m e,
    SF64div (S754_finite false mx ex) (S754_finite false my ey)
    = S754_finite false m e
    /\ Zpos (digits2_pos m) = 53
    /\ -105 <= e
    /\ (e < -52 \/ (e = -52 /\ (m <= 4503599627370496)%positive)).
Proof.
  intros Hdx Hdy Hex Hexy Hey Hle.
  pose proof (digits2_pos_bounds mx) as [Hx1 Hx2]. rewrite Hdx in Hx1, Hx2.
  pose proof (digits2_pos_bounds my) as [Hy1 Hy2]. rewrite Hdy in Hy1, Hy2.
  change (53 - 1) with 52 in *.
  unfold SF64div, SFdiv, SFdiv_core_binary, Zdigits2. rewrite Hdx, Hdy.
  unfold fexp, SpecFloat.emin. change (3 - emax - prec) with (-1074).
  change prec with 53.
  replace (53 + ex - (53 + ey)) with (ex - ey) by lia.
  rewrite Z.max_l, Z.min_l by lia.
  replace (ex - ey - (ex - ey - 53)) with 53 by lia.
  rewrite Z.shiftl_mul_pow2 by lia.
  set (a := Zpos mx * 2 ^ 53).
  pose proof (Z_div_mod a (Zpos my) eq_refl) as Hdm.
  destruct (Z.div_eucl a (Zpos my)) as [q r] eqn:Edm. destruct Hdm as [Ha Hr].
  set (K := 2 ^ (ey - ex)) in *.
  assert (HK : 0 < K) by (apply Z.pow_pos_nonneg; lia).
  assert (Hq1 : 2 ^ 52 <= q) by (unfold a in Ha; nia).
  assert (Hq2 : q < 2 ^ 54).
  { change (2 ^ 54) with (2 ^ 53 * 2). unfold a in Ha. nia. }
  destruct q as [|qp|qp]; try (exfalso; lia).
  assert (Hdq : 53 <= Zpos (digits2_pos qp)).
  { pose proof (digits2_pos_bounds qp) as [_ Hq].
    assert (2 ^ 52 < 2 ^ Zpos (digits2_pos qp)) as H by lia.
    apply pow2_lt_inv in H; lia. }
  assert (Hpow : 4503599627370496 * 2 ^ (-52 - (ex - ey - 53)) = K * 2 ^ 53).
  { replace (-52 - (ex - ey - 53)) with ((ey - ex) + 1) by lia.
    rewrite Z.pow_add_r by lia. fold K.
    change (2 ^ 1) with 2. change (2 ^ 53) with 9007199254740992. lia. }
  assert (Hmain : Zpos qp < 4503599627370496 * 2 ^ (-52 - (ex - ey - 53))
                  \/ (Zpos qp = 4503599627370496 * 2 ^ (-52 - (ex - ey - 53))
                      /\ new_location (Zpos my) r = loc_Exact)).
  { rewrite Hpow. unfold a in Ha.
    change (2 ^ 53) with 9007199254740992 in *.
    change (2 ^ 52) with 4503599627370496 in *.
    destruct (Z.eq_dec r 0) as [->|Hr0].
    - destruct (Z.eq_dec (Zpos qp) (K * 9007199254740992)) as [Heq|Hne].
      + right. split; [exact Heq|].
        unfold new_location, new_location_even, new_location_odd.
        destruct (Z.even (Zpos my)); reflexivity.
      + left. nia.
    - left. nia. }
  assert (Hc1 : -1074 <= ex - ey - 53 + (Zpos (digits2_pos qp) - 53)) by lia.
  assert (Hc2 : -52 <= 971) by lia.
  assert (Hc3 : ex - ey - 53 <= -52) by lia.
  pose proof (binary_round_aux_le qp (ex - ey - 53) (new_location (Zpos my) r)
                4503599627370496 (-52)) as HL.
  cbv zeta in HL.
  specialize (HL Hdq Hc1 eq_refl Hc2 Hc3 Hmain).
  destruct HL as (m & e & Hres & Hdm' & He1 & He2).
  exists m, e. split; [|split; [exact Hdm'|split; [|exact He2]]].
  - cbv beta iota zeta delta [xorb]. exact Hres.
  - clear -He1 Hex Hey Hexy Hdq. lia.
Qed.

(** A number of the format not above 1, times 100, rounds to a number not
    above 100. *)
Lemma SFmul_hundred_le (m : positive) (e : Z) :
  Zpos (digits2_pos m) = 53 -> -105 <= e ->
  (e < -52 \/ (e = -52 /\ (m <= 4503599627370496)%positive)) ->
  exists m' e',
    SF64mul (S754_finite false m e) (S754_finite false m100 (-46))
    = S754_finite false m' e'
    /\ (e' < -46 \/ (e' = -46 /\ (m' <= m100)%positive)).
Proof.
  intros Hd He Hle.
  assert (Hle' : e < -52 \/ (e = -52 /\ Zpos m <= 4503599627370496)).
  { destruct Hle as [H|[H H']]; [left; exact H|right; split; [exact H|]].
    exact (Pos2Z.pos_le_pos _ _ H'). }
  clear Hle. rename Hle' into Hle.
  pose proof (digits2_pos_bounds m) as [H1 H2]. rewrite Hd in H1, H2.
  change (2 ^ (53 - 1)) with 4503599627370496 in H1.
  change (2 ^ 53) with 9007199254740992 in H2.
  assert (Hprod : 2 ^ 104 <= Zpos (m * m100)).
  { rewrite Pos2Z.inj_mul.
    change (2 ^ 104) with (4503599627370496 * 4503599627370496).
    change (Zpos m100) with 7036874417766400. clear -H1. nia. }
  assert (Hdp : 53 <= Zpos (digits2_pos (m * m100))).
  { pose proof (digits2_pos_bounds (m * m100)) as [_ Hq].
    assert (2 ^ 104 < 2 ^ Zpos (digits2_pos (m * m100))) as H
      by (clear -Hq Hprod; lia).
    apply pow2_lt_inv in H; [|done]. clear -H. lia. }
  assert (Hdp' : 105 <= Zpos (digits2_pos (m * m100))).
  { pose proof (digits2_pos_bounds (m * m100)) as [_ Hq].
    assert (2 ^ 104 < 2 ^ Zpos (digits2_pos (m * m100))) as H
      by (clear -Hq Hprod; lia).
    apply pow2_lt_inv in H; [|done]. clear -H. lia. }
  assert (Hme : Zpos m <= 2 ^ (- e)).
  { destruct Hle as [Hlt|[-> Hm]].
    - assert (53 <= - e) as H0 by (clear -Hlt; lia).
      pose proof (Z.pow_le_mono_r 2 53 (- e) eq_refl H0) as H.
      change (2 ^ 53) with 9007199254740992 in H. clear -H H2. lia.
    - change (2 ^ (- -52)) with 4503599627370496. exact Hm. }
  assert (Hmain : Zpos (m * m100) < Zpos m100 * 2 ^ (-46 - (e + -46))
                  \/ (Zpos (m * m100) = Zpos m100 * 2 ^ (-46 - (e + -46))
                      /\ loc_Exact = loc_Exact)).
  { replace (-46 - (e + -46)) with (- e) by (clear; lia). rewrite Pos2Z.inj_mul.
    set (P := 2 ^ (- e)) in *. change (Zpos m100) with 7036874417766400.
    destruct (Z.eq_dec (Zpos m) P) as [Heq|Hne].
    - right. split; [|reflexivity]. rewrite Heq. clear. lia.
    - left. clear -Hme Hne. nia. }
  assert (Hc1 : -1074 <= e + -46 + (Zpos (digits2_pos (m * m100)) - 53))
    by (clear -He Hdp'; lia).
  assert (Hc2 : -46 <= 971) by (clear; lia).
  assert (Hc3 : e + -46 <= -46) by (clear -Hle; lia).
  pose proof (binary_round_aux_le (m * m100) (e + -46) loc_Exact m100 (-46)) as HL.
  cbv zeta in HL.
  specialize (HL Hdp Hc1 eq_refl Hc2 Hc3 Hmain).
  destruct HL as (m' & e' & Hres & _ & _ & He2).
  exists m', e'. split; [|exact He2].
  unfold SF64mul, SFmul. cbv beta iota zeta delta [xorb]. exact Hres.
Qed.

Lemma SFleb_finite (m1 m2 : positive) (e1 e2 : Z) :
  (e1 < e2 \/ (e1 = e2 /\ (m1 <= m2)%positive)) ->
  SFleb (S754_finite false m1 e1) (S754_finite false m2 e2) = true.
Proof.
  unfold SFleb, SFcompare. intros [Hlt|[-> Hle]].
  - apply Z.compare_lt_iff in Hlt. rewrite Hlt. reflexivity.
  - rewrite Z.compare_refl. change (Pos.compare_cont Eq m1 m2) with (m1 ?= m2)%positive.
    destruct (m1 ?= m2)%positive eqn:E; try reflexivity.
    apply Pos.compare_gt_iff in E. lia.
Qed.

(** [float64(z)] for a count below 2^53. *)
Lemma of_int_zero : Prim2SF (Float64.of_int 0) = S754_zero false.
Proof. reflexivity. Qed.

Lemma of_int_pos (z : Z) :
  0 < z < 2 ^ 53 ->
  Prim2SF (Float64.of_int z) = binary_normalize prec emax z 0 false.
Proof.
  intros Hz. unfold Float64.of_int.
  assert ((z <? 0) = false) as -> by (apply Z.ltb_ge; lia).
  rewrite of_uint63_spec, Uint63.of_Z_spec.
  rewrite Z.mod_small; [reflexivity|].
  assert (2 ^ 53 < wB) by reflexivity. lia.
Qed.

Lemma Prim2SF_hundred : Prim2SF Float64.hundred = S754_finite false m100 (-46).
Proof. reflexivity. Qed.

Lemma Prim2SF_zero : Prim2SF 0%float = S754_zero false.
Proof. reflexivity. Qed.

(** The percentage of a part of a whole lies between 0 and 100. *)
Lemma percent_range (count total : Z) :
  0 <= count <= total -> 0 < total < 2 ^ 53 ->
  PrimFloat.leb 0 (percent count total) = true
  /\ PrimFloat.leb (percent count total) 100 = true.
Proof.
  intros Hc Ht. rewrite !FloatAxioms.leb_spec. unfold percent.
  rewrite FloatAxioms.mul_spec, FloatAxioms.div_spec, Prim2SF_hundred.
  change (Prim2SF 100) with (S754_finite false m100 (-46)).
  rewrite Prim2SF_zero.
  rewrite (of_int_pos total Ht).
  destruct total as [|pt|pt]; [exfalso; clear -Ht; lia| |exfalso; clear -Ht; lia].
  destruct (binary_normalize_exact pt (proj2 Ht))
    as (my & ey & -> & Hdy & Hey & Hey' & Hmy).
  destruct (Z.eq_dec count 0) as [->|Hc0].
  { rewrite of_int_zero. split; reflexivity. }
  assert (Hcount : 0 < count < 2 ^ 53) by (clear -Hc Hc0 Ht; lia).
  rewrite (of_int_pos count Hcount).
  destruct count as [|pc|pc]; [exfalso; clear -Hc0; lia| |exfalso; clear -Hc; lia].
  destruct (binary_normalize_exact pc (proj2 Hcount))
    as (mx & ex & -> & Hdx & Hex & Hex' & Hmx).
  assert (Hdig : Zpos (digits2_pos pc) <= Zpos (digits2_pos pt))
    by (apply digits2_pos_mono; change (Zpos pc <= Zpos pt); exact (proj2 Hc)).
  assert (Hexy : ex <= ey) by (clear -Hdig Hex Hey; lia).
  assert (Hquot : Zpos mx <= Zpos my * 2 ^ (ey - ex)).
  { rewrite Hmx, Hmy.
    assert (Hp1 : 0 < 2 ^ (- ey)) by (apply Z.pow_pos_nonneg; clear -Hey'; lia).
    assert (Hp2 : 2 ^ (- ex) = 2 ^ (- ey) * 2 ^ (ey - ex)).
    { rewrite <- Z.pow_add_r by (clear -Hey' Hexy; lia).
      f_equal. clear; lia. }
    assert (Hp3 : 0 < 2 ^ (ey - ex)) by (apply Z.pow_pos_nonneg; clear -Hexy; lia).
    rewrite Hp2. set (P := 2 ^ (- ey)) in *. set (Q := 2 ^ (ey - ex)) in *.
    assert (Hcp : Zpos pc <= Zpos pt) by (clear -Hc; lia).
    clear -Hcp Hp1 Hp3. nia. }
  destruct (SFdiv_le_one mx my ex ey Hdx Hdy (proj1 Hex') Hexy (proj2 Hey') Hquot)
    as (m & e & -> & Hdm & He & Hle).
  destruct (SFmul_hundred_le m e Hdm He Hle) as (m' & e' & -> & Hle').
  split; [reflexivity|]. exact (SFleb_finite _ _ _ _ Hle').
Qed.

Lemma percent_not_nan (count total : Z) :
  0 <= count <= total -> 0 < total < 2 ^ 53 ->
  PrimFloat.is_nan (percent count total) = false.
Proof.
  intros Hc Ht. destruct (percent_range count total Hc Ht) as [H _].
  unfold PrimFloat.is_nan. rewrite FloatAxioms.eqb_spec. rewrite FloatAxioms.leb_spec in H.
  destruct (Prim2SF (percent count total)) as [s|s| |s m e]; try reflexivity.
  - destruct s; reflexivity.
  - discriminate.
  - unfold SFeqb, SFcompare. rewrite Z.compare_refl.
    change (Pos.compare_cont Eq m m) with (m ?= m)%positive.
    rewrite Pos.compare_refl. destruct s; reflexivity.
Qed.

(** * The metrics calculator *)

(** The product of binary64 numbers is commutative. *)
Module Float64Facts.

Lemma SFmul_comm x y : SF64mul x y = SF64mul y x.
Proof.
  unfold SF64mul, SFmul.
  destruct x as [sx|sx| |sx mx ex], y as [sy|sy| |sy my ey]; try reflexivity;
    rewrite ?(xorb_comm sx sy); try reflexivity.
  rewrite (Pos.mul_comm mx my), (Z.add_comm ex ey). reflexivity.
Qed.

Lemma mul_comm (x y : float) : PrimFloat.mul x y = PrimFloat.mul y x.
Proof. apply Prim2SF_inj. rewrite !FloatAxioms.mul_spec. apply SFmul_comm. Qed.

End Float64Facts.

(** ** Counts *)

Lemma countIf_cons {A} (f : A -> bool) p l :
  countIf f (p :: l) = (if f p then 1 else 0) + countIf f l.
Proof. unfold countIf. simpl. destruct (f p); simpl length; lia. Qed.

Lemma countIf_app {A} (f : A -> bool) l1 l2 : countIf f (l1 ++ l2) = countIf f l1 + countIf f l2.
Proof. unfold countIf. rewrite List.filter_app, length_app. lia. Qed.

Lemma countIf_nonneg {A} (f : A -> bool) l : 0 <= countIf f l.
Proof. unfold countIf. lia. Qed.

Lemma countIf_le_length {A} (f : A -> bool) l : countIf f l <= Z.of_nat (length l).
Proof. unfold countIf. pose proof (List.filter_length_le f l). lia. Qed.

Lemma packagesWithBazelizedTests_from n l :
  foldl (fun n pkg => if hasBazelizedTests pkg then n + 1 else n) n l
  = n + countIf hasBazelizedTests l.
Proof.
  revert n. induction l as [|p l IH]; intros n; simpl.
  - unfold countIf. simpl. lia.
  - rewrite IH, countIf_cons. destruct (hasBazelizedTests p); lia.
Qed.

Lemma packagesWithBazelizedTests_count l :
  packagesWithBazelizedTests l = countIf hasBazelizedTests l.
Proof. unfold packagesWithBazelizedTests. apply (packagesWithBazelizedTests_from 0). Qed.

(** ** The first loop of [calculateLanguageSummary] *)

Section first_loop.
Import LanguageSummary.

Lemma countPackage_fold s l :
  let s' := foldl countPackage s l in
  Language s' = Language s
  /\ BazelizationPct s' = BazelizationPct s
  /\ TestCoveragePct s' = TestCoveragePct s
  /\ BazelizedTestsPct s' = BazelizedTestsPct s
  /\ TotalPackages s' = TotalPackages s
  /\ PackagesWithBuild s' = PackagesWithBuild s + countIf Package.HasBuildFile l
  /\ PackagesWithTests s' = PackagesWithTests s + countIf Package.HasTestFiles l.
Proof.
  revert s. induction l as [|p l IH]; intros s; simpl.
  - unfold countIf; simpl. repeat split; lia.
  - destruct (IH (countPackage s p)) as (H1 & H2 & H3 & H4 & H5 & H6 & H7).
    rewrite H1, H2, H3, H4, H5, H6, H7, !countIf_cons.
    unfold countPackage.
    destruct (Package.HasBuildFile p), (Package.HasTestFiles p); simpl;
      repeat split; lia.
Qed.
End first_loop.

(** ** Loops that keep one value per key in a map *)

Section keyed_fold.
Context {A V : Type} (key : A -> string) (init : A -> V) (step : V -> A -> V).

Lemma keyed_fold_lookup (l : list A) (m : gmap string V) (k : string) :
  foldl (upd key init step) m l !! k
  = match List.filter (keyed key k) l with
    | [] => m !! k
    | a0 :: _ => Some (foldl step (default (init a0) (m !! k)) (List.filter (keyed key k) l))
    end.
Proof.
  revert m. induction l as [|a l IH]; intros m; simpl; [reflexivity|].
  rewrite IH. clear IH.
  assert (Hk : keyed key k a = String.eqb (key a) k) by reflexivity.
  assert (Hu : (upd key init step) m a = <[key a := step (default (init a) (m !! key a)) a]> m)
    by reflexivity.
  rewrite Hu, Hk. clear Hu Hk.
  destruct (String.eqb_spec (key a) k) as [<-|Hne].
  - rewrite lookup_insert_eq. simpl.
    destruct (List.filter (keyed key (key a)) l); reflexivity.
  - rewrite lookup_insert_ne by done. reflexivity.
Qed.

Lemma keyed_fold_None (l : list A) (k : string) :
  foldl (upd key init step) ∅ l !! k = None <-> List.filter (keyed key k) l = [].
Proof.
  rewrite keyed_fold_lookup. destruct (List.filter (keyed key k) l); [|split; discriminate].
  rewrite lookup_empty. done.
Qed.
End keyed_fold.

Lemma foldl_ext_eq {A B} (f g : A -> B -> A) (l : list B) (a : A) :
  (forall a b, f a b = g a b) -> foldl f a l = foldl g a l.
Proof.
  intros H. revert a. induction l as [|b l IH]; intros a; simpl; [done|].
  rewrite H. apply IH.
Qed.

(** ** The grouping loop of [calculateDirectoryBreakdown] *)

Section breakdown.
Import DirectoryMetrics.

Lemma groupPackage_upd m p :
  groupPackage m p = upd topDir (fun p => new (topDir p)) addMember m p.
Proof. reflexivity. Qed.

Lemma groups_upd l :
  groups l = foldl (upd topDir (fun p => new (topDir p)) addMember) ∅ l.
Proof. apply foldl_ext_eq, groupPackage_upd. Qed.

Lemma addMember_fold dm l :
  let dm' := foldl addMember dm l in
  Name dm' = Name dm
  /\ TotalPackages dm' = TotalPackages dm + Z.of_nat (length l)
  /\ BazelizedPackages dm' = BazelizedPackages dm + countIf Package.HasBuildFile l
  /\ PackagesWithTests dm' = PackagesWithTests dm + countIf Package.HasTestFiles l
  /\ BazelizationPct dm' = BazelizationPct dm
  /\ TestCoveragePct dm' = TestCoveragePct dm.
Proof.
  revert dm. induction l as [|p l IH]; intros dm; simpl.
  - unfold countIf; simpl. repeat split; lia.
  - destruct (IH (addMember dm p)) as (H1 & H2 & H3 & H4 & H5 & H6).
    rewrite H1, H2, H3, H4, H5, H6, !countIf_cons. unfold addMember.
    destruct (Package.HasBuildFile p), (Package.HasTestFiles p); simpl;
      repeat split; lia.
Qed.

(** The entry of a group: its label and the three counts of its members. *)
Lemma groups_lookup l k dm :
  groups l !! k = Some dm ->
  members k l <> []
  /\ Name dm = k
  /\ TotalPackages dm = Z.of_nat (length (members k l))
  /\ BazelizedPackages dm = countIf Package.HasBuildFile (members k l)
  /\ PackagesWithTests dm = countIf Package.HasTestFiles (members k l)
  /\ BazelizationPct dm = Float64.zero
  /\ TestCoveragePct dm = Float64.zero.
Proof.
  rewrite groups_upd, keyed_fold_lookup, lookup_empty. fold (members k l).
  destruct (members k l) as [|p0 la] eqn:E; [discriminate|].
  intros [= <-]. split; [discriminate|].
  assert (Hk : topDir p0 = k).
  { assert (In p0 (members k l)) as Hin by (rewrite E; left; reflexivity).
    apply List.filter_In in Hin as [_ Hin]. by apply String.eqb_eq in Hin. }
  destruct (addMember_fold (new (topDir p0)) (p0 :: la))
    as (H1 & H2 & H3 & H4 & H5 & H6).
  change (foldl addMember (new (topDir p0)) (p0 :: la))
    with (foldl addMember (addMember (new (topDir p0)) p0) la) in *.
  rewrite H1, H2, H3, H4, H5, H6. simpl. repeat split; try lia; done.
Qed.

Lemma groups_lookup_Some l p :
  In p l -> is_Some (groups l !! topDir p).
Proof.
  intros Hin. destruct (groups l !! topDir p) eqn:E; [eauto|].
  rewrite groups_upd in E. apply keyed_fold_None in E.
  assert (In p (List.filter (keyed topDir (topDir p)) l)) as Hp.
  { apply List.filter_In. split; [done|]. apply String.eqb_refl. }
  rewrite E in Hp. destruct Hp.
Qed.

Lemma sumTotals_perm : Proper ((≡ₚ) ==> (=)) sumTotals.
Proof.
  intros l1 l2 H. induction H; simpl; lia.
Qed.

#[local] Existing Instance sumTotals_perm.

Lemma sumTotals_cons dm l : sumTotals (dm :: l) = TotalPackages dm + sumTotals l.
Proof. reflexivity. Qed.

Lemma addMember_TotalPackages dm p :
  TotalPackages (addMember dm p) = TotalPackages dm + 1.
Proof.
  unfold addMember. destruct (Package.HasBuildFile p), (Package.HasTestFiles p); reflexivity.
Qed.

Lemma sumTotals_groupPackage (m : gmap string t) p :
  sumTotals (map_to_list (groupPackage m p)).*2 = sumTotals (map_to_list m).*2 + 1.
Proof.
  rewrite groupPackage_upd. unfold upd.
  destruct (m !! topDir p) as [dm|] eqn:E.
  - rewrite <- (insert_delete_eq m).
    rewrite map_to_list_insert by apply lookup_delete_eq.
    rewrite <- (map_to_list_delete m _ _ E).
    rewrite !fmap_cons, !sumTotals_cons. cbn [snd default from_option].
    rewrite addMember_TotalPackages. unfold id. ring.
  - rewrite map_to_list_insert by done.
    rewrite !fmap_cons, !sumTotals_cons. cbn [snd default from_option].
    rewrite addMember_TotalPackages. change (TotalPackages (new (topDir p))) with 0.
    ring.
Qed.

Lemma sumTotals_groups_from (m : gmap string t) l :
  sumTotals (map_to_list (foldl groupPackage m l)).*2
  = sumTotals (map_to_list m).*2 + Z.of_nat (length l).
Proof.
  revert m. induction l as [|p l IH]; intros m; simpl foldl.
  - simpl. lia.
  - rewrite IH, sumTotals_groupPackage. simpl length. lia.
Qed.

Lemma sumTotals_groups l :
  sumTotals (map_to_list (groups l)).*2 = Z.of_nat (length l).
Proof.
  unfold groups. rewrite sumTotals_groups_from, map_to_list_empty. reflexivity.
Qed.

Lemma withPercentages_TotalPackages dm :
  TotalPackages (withPercentages dm) = TotalPackages dm.
Proof. unfold withPercentages. destruct (0 <? TotalPackages dm); reflexivity. Qed.

Lemma sumTotals_withPercentages l :
  sumTotals (withPercentages <$> l) = sumTotals l.
Proof.
  induction l as [|dm l IH]; [done|].
  rewrite fmap_cons, !sumTotals_cons, IH, withPercentages_TotalPackages. done.
Qed.

Lemma breakdownRun_sum packages encounter result :
  breakdownRun packages encounter result ->
  sumTotals result = Z.of_nat (length packages).
Proof.
  intros [Henc [Hperm _]].
  rewrite <- Hperm, sumTotals_withPercentages, Henc. apply sumTotals_groups.
Qed.
End breakdown.

(** ** The sort of [calculateDirectoryBreakdown] *)

Section breakdown_order.
Import DirectoryMetrics.

Lemma byTotal_iff a b : byTotal a b <-> TotalPackages b <= TotalPackages a.
Proof. unfold byTotal, lessTotal. rewrite Z.ltb_ge. done. Qed.

Lemma lessTotal_false_iff a b :
  lessTotal b a = false <-> TotalPackages b <= TotalPackages a.
Proof. apply byTotal_iff. Qed.

Lemma byTotal_trans : Transitive byTotal.
Proof. intros a b c. rewrite !byTotal_iff. lia. Qed.

#[local] Existing Instance byTotal_trans.

Lemma byTotal_total : Total byTotal.
Proof. intros a b. rewrite !byTotal_iff. lia. Qed.

#[local] Existing Instance byTotal_total.

Lemma StronglySorted_iff {A} (R1 R2 : A -> A -> Prop) l :
  (forall a b, R1 a b <-> R2 a b) -> StronglySorted R1 l <-> StronglySorted R2 l.
Proof.
  intros H. split; induction 1; constructor; auto;
    (eapply Forall_impl; [eassumption|]); intros; by apply H.
Qed.

Lemma Slice_lessTotal l l' :
  sort.Slice lessTotal l l' <-> l ≡ₚ l' /\ descending l'.
Proof.
  unfold sort.Slice, descending.
  rewrite (StronglySorted_iff _ (fun a b => TotalPackages b <= TotalPackages a)); [done|].
  intros a b. apply lessTotal_false_iff.
Qed.

Lemma merge_sort_Slice l : sort.Slice lessTotal l (merge_sort byTotal l).
Proof.
  split.
  - symmetry. apply merge_sort_Permutation.
  - apply (StronglySorted_merge_sort byTotal).
Qed.

Lemma calculateDirectoryBreakdown_run packages :
  breakdownRun packages (map_to_list (foldl groupPackage ∅ packages)).*2
    (calculateDirectoryBreakdown packages).
Proof. split; [done|]. apply merge_sort_Slice. Qed.

Lemma calculateDirectoryBreakdown_returns packages :
  calculateDirectoryBreakdownReturns packages (calculateDirectoryBreakdown packages).
Proof. eexists. apply calculateDirectoryBreakdown_run. Qed.
End breakdown_order.

(** [Calculate], computed, is one of the runs. *)
Lemma Calculate_returns now scanResult :
  CalculateReturns now scanResult (Calculate now scanResult).
Proof.
  exists (calculateDirectoryBreakdown (ScanResult.GoPackages scanResult)).
  split; [apply calculateDirectoryBreakdown_returns|reflexivity].
Qed.

(** ** The insertion sort of [sort.Slice] *)

Section insertion_sort.
Context {A : Type} (less : A -> A -> bool).

Lemma adjacent_lookups (l : list A) y x post :
  (l ++ y :: x :: post) !! length l = Some y
  /\ (l ++ y :: x :: post) !! S (length l) = Some x.
Proof.
  split; [by apply list_lookup_middle|].
  rewrite (cons_middle y), app_assoc. apply list_lookup_middle.
  rewrite length_app. simpl. lia.
Qed.

Lemma Less_adjacent (l : list A) y x post :
  sort.Less less (l ++ y :: x :: post) (S (length l)) (length l) = Some (less x y).
Proof.
  destruct (adjacent_lookups l y x post) as [H1 H2].
  unfold sort.Less. rewrite H2. simpl. rewrite H1. reflexivity.
Qed.

Lemma Swap_adjacent (l : list A) y x post :
  sort.Swap (l ++ y :: x :: post) (S (length l)) (length l)
  = Some (l ++ x :: y :: post).
Proof.
  destruct (adjacent_lookups l y x post) as [H1 H2].
  unfold sort.Swap. rewrite H2. simpl. rewrite H1. simpl. f_equal.
  rewrite !insert_app_r_alt by (rewrite ?length_insert, ?length_app; simpl; lia).
  replace (S (length l) - length l)%nat with 1%nat by lia.
  replace (length l - length l)%nat with 0%nat by lia. reflexivity.
Qed.

Lemma moveLeft_length x rpre : length (moveLeft less x rpre) = S (length rpre).
Proof.
  induction rpre as [|y r IH]; simpl; [reflexivity|].
  destruct (less x y); simpl; [by rewrite IH|reflexivity].
Qed.

Lemma moveLeft_Permutation x rpre : moveLeft less x rpre ≡ₚ x :: rpre.
Proof.
  induction rpre as [|y r IH]; simpl; [reflexivity|].
  destruct (less x y); [|reflexivity]. rewrite IH. apply perm_swap.
Qed.

(** The inner loop moves the element at [length rpre] to the left. *)
Lemma insertionSort_inner_spec rpre x post :
  sort.insertionSort_inner less (rev rpre ++ x :: post) 0 (length rpre)
  = Some (rev (moveLeft less x rpre) ++ post).
Proof.
  revert post. induction rpre as [|y r IH]; intros post; [reflexivity|].
  cbn [length sort.insertionSort_inner Nat.ltb Nat.leb].
  cbn [rev]. rewrite <- app_assoc. cbn [app].
  rewrite <- (length_rev r), Less_adjacent. cbn [mbind option_bind].
  cbn [moveLeft]. destruct (less x y).
  - rewrite Swap_adjacent. cbn [mbind option_bind].
    rewrite (length_rev r), IH. cbn [rev]. by rewrite <- app_assoc.
  - cbn [rev]. by rewrite <- !app_assoc.
Qed.

Lemma insertionSort_outer_spec rest rpre :
  sort.insertionSort_outer less (length rest) (rev rpre ++ rest) 0 (length rpre)
  = Some (rev (foldl (fun rpre x => moveLeft less x rpre) rpre rest)).
Proof.
  revert rpre. induction rest as [|x rest IH]; intros rpre.
  - simpl. by rewrite app_nil_r.
  - cbn [length sort.insertionSort_outer foldl].
    rewrite insertionSort_inner_spec. cbn [mbind option_bind].
    rewrite <- (moveLeft_length x rpre). apply IH.
Qed.

Lemma insertionSort_func_spec l :
  sort.insertionSort_func less l 0 (length l) = Some (insertionSorted less l).
Proof.
  unfold sort.insertionSort_func, insertionSorted. destruct l as [|x rest]; [reflexivity|].
  replace (length (x :: rest) - (0 + 1))%nat with (length rest) by (simpl; lia).
  exact (insertionSort_outer_spec rest [x]).
Qed.

(** At most 12 elements are sorted by insertion. *)
Lemma Slice_func_short l :
  (length l <= 12)%nat -> sort.Slice_func less l = Some (insertionSorted less l).
Proof.
  intros Hlen. unfold sort.Slice_func. cbn [sort.pdqsort_func].
  rewrite Nat.sub_0_r. apply Nat.leb_le in Hlen. rewrite Hlen.
  apply insertionSort_func_spec.
Qed.

Lemma insertionSorted_Permutation l : insertionSorted less l ≡ₚ l.
Proof.
  unfold insertionSorted. rewrite <- Permutation_rev.
  assert (H : forall rpre, foldl (fun rpre x => moveLeft less x rpre) rpre l ≡ₚ rev l ++ rpre).
  { induction l as [|x rest IH]; intros rpre; [reflexivity|].
    cbn [foldl rev]. by rewrite IH, moveLeft_Permutation, <- app_assoc. }
  rewrite H, app_nil_r. symmetry. apply Permutation_rev.
Qed.
End insertion_sort.

(** ** The insertion sort with the [less] function of the breakdown *)

Lemma moveLeft_ascending x rpre :
  ascending rpre -> ascending (moveLeft lessTotal x rpre).
Proof.
  unfold ascending. induction rpre as [|y r IH]; intros Hs; simpl.
  - repeat constructor.
  - apply StronglySorted_cons in Hs as [Hy Hr].
    unfold lessTotal at 1. destruct (Z.ltb_spec (DirectoryMetrics.TotalPackages y)
                                        (DirectoryMetrics.TotalPackages x)) as [Hlt|Hge].
    + apply StronglySorted_cons. split; [|by apply IH].
      rewrite (moveLeft_Permutation lessTotal x r). constructor; [lia|exact Hy].
    + apply StronglySorted_cons. split.
      * constructor; [exact Hge|]. eapply Forall_impl; [exact Hy|]. simpl. lia.
      * by apply StronglySorted_cons.
Qed.

Lemma ascending_rev l : ascending l -> descending (rev l).
Proof.
  unfold ascending, descending. induction 1 as [|x l Hl IH Hx]; simpl; [constructor|].
  apply StronglySorted_app_2; [|exact IH|repeat constructor].
  intros a b Ha Hb. apply list_elem_of_singleton in Hb as ->.
  apply list_elem_of_In in Ha. apply in_rev in Ha.
  rewrite List.Forall_forall in Hx. by apply Hx.
Qed.

Lemma insertionSorted_descending l : descending (insertionSorted lessTotal l).
Proof.
  unfold insertionSorted. apply ascending_rev.
  assert (H : forall rpre, ascending rpre ->
                ascending (foldl (fun rpre x => moveLeft lessTotal x rpre) rpre l)).
  { induction l as [|x rest IH]; intros rpre Hs; [exact Hs|].
    simpl. by apply IH, moveLeft_ascending. }
  apply H. constructor.
Qed.

Lemma moveLeft_tied k x rpre :
  tied k (moveLeft lessTotal x rpre) = tied k (x :: rpre).
Proof.
  unfold tied. induction rpre as [|y r IH]; [reflexivity|].
  cbn [moveLeft]. unfold lessTotal at 1.
  destruct (Z.ltb_spec (DirectoryMetrics.TotalPackages y)
              (DirectoryMetrics.TotalPackages x)) as [Hlt|Hge]; [|reflexivity].
  cbn [List.filter] in *. rewrite IH.
  destruct (Z.eqb_spec (DirectoryMetrics.TotalPackages x) k),
           (Z.eqb_spec (DirectoryMetrics.TotalPackages y) k); try reflexivity; lia.
Qed.

(** Sorting by insertion is stable. *)
Lemma insertionSorted_tied k l : tied k (insertionSorted lessTotal l) = tied k l.
Proof.
  unfold insertionSorted.
  assert (H : forall rpre,
             tied k (foldl (fun rpre x => moveLeft lessTotal x rpre) rpre l)
             = tied k (rev l ++ rpre)).
  { induction l as [|x rest IH]; intros rpre; [reflexivity|].
    cbn [foldl rev]. rewrite IH. unfold tied at 1 2.
    rewrite !List.filter_app. fold (tied k (moveLeft lessTotal x rpre)).
    rewrite moveLeft_tied. unfold tied. by rewrite <- !List.filter_app, <- app_assoc. }
  unfold tied at 1. rewrite List.filter_rev. fold (tied k (foldl (fun rpre x => moveLeft lessTotal x rpre) [] l)).
  rewrite H, app_nil_r. unfold tied. by rewrite List.filter_rev, rev_involutive.
Qed.

(** * The scanner: the walk and the package lists *)

(** *** The walk calls the walk function on the files of [visits], in order *)

Lemma foldl_flat_map {A B C} (f : A -> C -> A) (g : B -> list C) (l : list B) (a : A) :
  foldl f a (flat_map g l) = foldl (fun a b => foldl f a (g b)) a l.
Proof.
  revert a. induction l as [|b l IH]; intros a; simpl; [done|].
  rewrite foldl_app. apply IH.
Qed.

Lemma foldl_ext_Forall {A B} (f g : A -> B -> A) (l : list B) (a : A) :
  Forall (fun b => forall a, f a b = g a b) l -> foldl f a l = foldl g a l.
Proof.
  intros H. revert a. induction H as [|b l Hb _ IH]; intros a; simpl; [done|].
  rewrite Hb. apply IH.
Qed.

Lemma walk_visitsOf s n : forall dir below st,
  walk (walkFn s) dir below n st = foldl (visitFile s) st (visitsOf s dir below n).
Proof.
  induction n as [name c|name entries IH|name] using node_ind'; intros dir below st;
    simpl; try reflexivity.
  destruct (skipDir s name); simpl; [reflexivity|].
  rewrite foldl_flat_map. apply foldl_ext_Forall.
  eapply Forall_impl; [exact IH|]. intros e He a. apply He.
Qed.

Lemma walked_visits s root :
  walked s root = foldl (visitFile s) (newState s) (visits s root).
Proof.
  unfold walked, Walk, visits. simpl.
  destruct (skipDir s (filepath.Base (Scanner.repoPath s))); simpl; [reflexivity|].
  rewrite foldl_flat_map. apply foldl_ext_eq. intros a e. apply walk_visitsOf.
Qed.

(** *** The walk function, split into its effect on the directory's entry
    and its effect on the totals *)

Lemma blocks_split s v dp r :
  onRustFile (relDirOf v) v
    (onPythonFile (relDirOf v) v
       (onGoFile (relDirOf v) v (onBuildFile s v (dp, r))))
  = (dpStep s dp v, resStep r v).
Proof.
  unfold onBuildFile, onGoFile, onPythonFile, onRustFile, dpStep, resStep, slotStep,
    addFile, parsed, isManifest, isGo, isGoTest, isPython, isPythonTest, isRust.
  destruct dp as [pa rp hb tg g p r0]. simpl.
  destruct (isBuildFile (filename v)); simpl;
    [destruct (parseBuildFile s (content v)) as [[t|] [e|]]; simpl|];
    rewrite ?orb_true_r, ?orb_false_r;
    destruct (strings.HasSuffix (filename v) ".go"); simpl;
    try destruct (strings.HasSuffix (filename v) "_test.go"); simpl;
    destruct (strings.HasSuffix (filename v) ".py"); simpl;
    try destruct (strings.HasSuffix (filename v) "_test.py"
                  || strings.HasPrefix (filename v) "test_"
                  || strings.HasSuffix (filename v) "_tests.py"); simpl;
    destruct (strings.HasSuffix (filename v) ".rs"); simpl; reflexivity.
Qed.

Lemma visitFile_split s st v :
  visitFile s st v
  = mkState
      (upd dir (fun v => dirPackages.new (dir v) (relDirOf v)) (dpStep s) (dirMap st) v)
      (resStep (result st) v).
Proof.
  unfold visitFile. fold (relDirOf v).
  rewrite blocks_split. unfold upd.
  destruct (dirMap st !! dir v); reflexivity.
Qed.

Lemma foldl_visitFile s vs st :
  foldl (visitFile s) st vs
  = mkState
      (foldl (upd dir (fun v => dirPackages.new (dir v) (relDirOf v)) (dpStep s))
             (dirMap st) vs)
      (foldl resStep (result st) vs).
Proof.
  revert st. induction vs as [|v vs IH]; intros st; simpl.
  - destruct st; reflexivity.
  - rewrite IH, visitFile_split. reflexivity.
Qed.

Lemma walked_dirMap s root d :
  dirMap (walked s root) !! d
  = match inDir d (visits s root) with
    | [] => None
    | v0 :: _ =>
        Some (foldl (dpStep s) (dirPackages.new (dir v0) (relDirOf v0))
                    (inDir d (visits s root)))
    end.
Proof.
  rewrite walked_visits, foldl_visitFile. simpl dirMap.
  rewrite keyed_fold_lookup. unfold newState, dirMap. rewrite lookup_empty.
  reflexivity.
Qed.

Lemma walked_result s root :
  result (walked s root)
  = foldl resStep (ScanResult.new (Scanner.repoPath s)) (visits s root).
Proof. rewrite walked_visits, foldl_visitFile. reflexivity. Qed.

Lemma countIf_nil {A} (f : A -> bool) : countIf f [] = 0.
Proof. reflexivity. Qed.

Lemma countIf_snoc {A} (f : A -> bool) l a :
  countIf f (l ++ [a]) = countIf f l + (if f a then 1 else 0).
Proof. rewrite countIf_app, countIf_cons, countIf_nil. lia. Qed.

Lemma countIf_zero_iff {A} (f : A -> bool) l :
  countIf f l = 0 <-> List.filter f l = [].
Proof.
  unfold countIf. destruct (List.filter f l); simpl; split; intros; try done; lia.
Qed.

Lemma foldl_snoc {A B} (f : A -> B -> A) a l b :
  foldl f a (l ++ [b]) = f (foldl f a l) b.
Proof. rewrite foldl_app. reflexivity. Qed.

Lemma foldl_proj {A B C} (f : A -> B -> A) (g : C -> B -> C) (proj : A -> C) l a :
  (forall a b, proj (f a b) = g (proj a) b) ->
  proj (foldl f a l) = foldl g (proj a) l.
Proof.
  intros H. revert a. induction l as [|b l IH]; intros a; simpl; [done|].
  rewrite IH, H. done.
Qed.

(** *** One directory's entry after its files *)

Section slot.
Context (sel test : visit -> bool) (lang : Language).

Lemma slot_fold vs :
  match foldl (slotStep sel test lang) None vs with
  | None => List.filter sel vs = []
  | Some p => recorded sel test lang vs p
  end.
Proof.
  induction vs as [|v vs IH] using rev_ind; [reflexivity|].
  rewrite foldl_snoc. unfold slotStep at 1.
  destruct (sel v) eqn:Hsel.
  - unfold recorded. rewrite !countIf_snoc. unfold selSource at 2, selTest at 2 4.
    rewrite Hsel. simpl andb.
    destruct (foldl (slotStep sel test lang) None vs) as [p|].
    + destruct IH as ((v0 & Hin & Hs & Hp & Hr) & HL & HB & HT & HLi & HBi & HS & HTe & HH).
      simpl default. unfold addFile.
      pose proof (countIf_nonneg (selTest sel test) vs).
      destruct (test v); simpl;
        (split; [exists v0; rewrite in_app_iff; auto|]);
        rewrite ?HS, ?HTe, ?HH; repeat split; try done; try lia.
    + assert (countIf (selSource sel test) vs = 0) as ->.
      { apply countIf_zero_iff. clear -IH. induction vs as [|a l IHl]; [done|].
        simpl in *. unfold selSource at 1. destruct (sel a); [done|]. simpl. auto. }
      assert (countIf (selTest sel test) vs = 0) as ->.
      { apply countIf_zero_iff. clear -IH. induction vs as [|a l IHl]; [done|].
        simpl in *. unfold selTest at 1. destruct (sel a); [done|]. simpl. auto. }
      simpl default. unfold addFile.
      destruct (test v); simpl;
        (split; [exists v; rewrite in_app_iff; simpl; auto|]); repeat split; done.
  - rewrite List.filter_app. simpl. rewrite Hsel, app_nil_r.
    destruct (foldl (slotStep sel test lang) None vs) as [p|]; [|done].
    unfold recorded in *. rewrite !countIf_snoc. unfold selSource at 2, selTest at 2 4.
    rewrite Hsel. simpl andb. rewrite !Z.add_0_r.
    destruct IH as ((v0 & Hin & Hs & Hp & Hr) & IH). split; [|exact IH].
    exists v0. rewrite in_app_iff. auto.
Qed.
End slot.

Section entry.
Context (s : Scanner.t).

Lemma dpStep_hasBuild dp vs :
  dirPackages.hasBuild (foldl (dpStep s) dp vs)
  = dirPackages.hasBuild dp || existsb isManifest vs.
Proof.
  revert dp. induction vs as [|v vs IH]; intros dp; simpl.
  - by rewrite orb_false_r.
  - rewrite IH. simpl. by rewrite orb_assoc.
Qed.

Lemma dpStep_targets dp vs :
  dirPackages.targets (foldl (dpStep s) dp vs)
  = foldl (tgtStep s) (dirPackages.targets dp) vs.
Proof. apply (foldl_proj (dpStep s) (tgtStep s)). reflexivity. Qed.

Lemma dpStep_goPkg dp vs :
  dirPackages.goPkg (foldl (dpStep s) dp vs)
  = foldl (slotStep isGo isGoTest LangGo) (dirPackages.goPkg dp) vs.
Proof. apply (foldl_proj (dpStep s) (slotStep isGo isGoTest LangGo)). reflexivity. Qed.

Lemma dpStep_pythonPkg dp vs :
  dirPackages.pythonPkg (foldl (dpStep s) dp vs)
  = foldl (slotStep isPython isPythonTest LangPython) (dirPackages.pythonPkg dp) vs.
Proof.
  apply (foldl_proj (dpStep s) (slotStep isPython isPythonTest LangPython)). reflexivity.
Qed.

Lemma dpStep_rustPkg dp vs :
  dirPackages.rustPkg (foldl (dpStep s) dp vs)
  = foldl (slotStep isRust (fun _ => false) LangRust) (dirPackages.rustPkg dp) vs.
Proof.
  apply (foldl_proj (dpStep s) (slotStep isRust (fun _ => false) LangRust)). reflexivity.
Qed.

Lemma tgtStep_fold_Some vs t :
  foldl (tgtStep s) None vs = Some t ->
  exists v, In v vs /\ isManifest v = true /\ parsed s v = Some t.
Proof.
  induction vs as [|v vs IH] using rev_ind; [discriminate|].
  rewrite foldl_snoc. unfold tgtStep at 1.
  destruct (isManifest v) eqn:Hm; [destruct (parsed s v) as [t'|] eqn:Hp|].
  - intros [= ->]. exists v. rewrite in_app_iff. simpl. auto.
  - intros H. destruct (IH H) as (v0 & Hin & H0). exists v0.
    rewrite in_app_iff. auto.
  - intros H. destruct (IH H) as (v0 & Hin & H0). exists v0.
    rewrite in_app_iff. auto.
Qed.

Lemma existsb_In {A} (f : A -> bool) l :
  existsb f l = true <-> exists a, In a l /\ f a = true.
Proof. apply existsb_exists. Qed.
End entry.

(** *** The loop over the directory map *)

Section assign.
Import dirPackages.

Lemma sumZ_app {A} (f : A -> Z) l1 l2 : sumZ f (l1 ++ l2) = sumZ f l1 + sumZ f l2.
Proof. induction l1 as [|a l IH]; simpl; lia. Qed.

Lemma sumZ_perm {A} (f : A -> Z) l1 l2 : l1 ≡ₚ l2 -> sumZ f l1 = sumZ f l2.
Proof. induction 1; simpl; lia. Qed.

Lemma assign_fields r dp :
  let r' := assign r dp in
  ScanResult.RepoPath r' = ScanResult.RepoPath r
  /\ ScanResult.GoPackages r' = ScanResult.GoPackages r ++ option_list (finalGo dp)
  /\ ScanResult.PythonPackages r' = ScanResult.PythonPackages r ++ option_list (finalPython dp)
  /\ ScanResult.RustPackages r' = ScanResult.RustPackages r ++ option_list (finalRust dp)
  /\ ScanResult.TotalBUILDs r' = ScanResult.TotalBUILDs r
  /\ ScanResult.TotalGoFiles r' = ScanResult.TotalGoFiles r
  /\ ScanResult.TotalGoTests r' = ScanResult.TotalGoTests r
  /\ ScanResult.TotalGoTestRules r'
     = ScanResult.TotalGoTestRules r + testRules buildTargets.goTests goPkg dp
  /\ ScanResult.TotalPythonFiles r' = ScanResult.TotalPythonFiles r
  /\ ScanResult.TotalPythonTests r' = ScanResult.TotalPythonTests r
  /\ ScanResult.TotalPyTestRules r'
     = ScanResult.TotalPyTestRules r + testRules buildTargets.pyTests pythonPkg dp
  /\ ScanResult.TotalRustFiles r' = ScanResult.TotalRustFiles r
  /\ ScanResult.TotalRustTests r' = ScanResult.TotalRustTests r + rustCredit dp
  /\ ScanResult.TotalRustTestRules r'
     = ScanResult.TotalRustTestRules r + testRules buildTargets.rustTests rustPkg dp.
Proof.
  unfold assign, assignGo, assignPython, assignRust, finalGo, finalPython, finalRust,
    testRules, rustCredit, attach, creditTests.
  destruct dp as [pa rp hb [t|] [g|] [p|] [ru|]]; simpl;
    try destruct (0 <? buildTargets.rustTests t) eqn:E; simpl;
    rewrite ?app_nil_r, ?Z.add_0_r; repeat split; reflexivity.
Qed.
End assign.

Lemma omap_snoc_option {A B} (f : A -> option B) l a :
  omap f (l ++ [a]) = omap f l ++ option_list (f a).
Proof.
  rewrite omap_app. simpl. destruct (f a); reflexivity.
Qed.

Lemma assign_fold r dps :
  let r' := foldl assign r dps in
  ScanResult.RepoPath r' = ScanResult.RepoPath r
  /\ ScanResult.GoPackages r' = ScanResult.GoPackages r ++ omap finalGo dps
  /\ ScanResult.PythonPackages r' = ScanResult.PythonPackages r ++ omap finalPython dps
  /\ ScanResult.RustPackages r' = ScanResult.RustPackages r ++ omap finalRust dps
  /\ ScanResult.TotalBUILDs r' = ScanResult.TotalBUILDs r
  /\ ScanResult.TotalGoFiles r' = ScanResult.TotalGoFiles r
  /\ ScanResult.TotalGoTests r' = ScanResult.TotalGoTests r
  /\ ScanResult.TotalPythonFiles r' = ScanResult.TotalPythonFiles r
  /\ ScanResult.TotalPythonTests r' = ScanResult.TotalPythonTests r
  /\ ScanResult.TotalRustFiles r' = ScanResult.TotalRustFiles r
  /\ ScanResult.TotalRustTests r' = ScanResult.TotalRustTests r + sumZ rustCredit dps.
Proof.
  induction dps as [|dp dps IH] using rev_ind; simpl.
  - rewrite !app_nil_r. repeat split; lia.
  - rewrite foldl_snoc.
    destruct (assign_fields (foldl assign r dps) dp)
      as (A1 & A2 & A3 & A4 & A5 & A6 & A7 & _ & A9 & A10 & _ & A12 & A13 & _).
    destruct IH as (I1 & I2 & I3 & I4 & I5 & I6 & I7 & I9 & I10 & I12 & I13).
    rewrite A1, A2, A3, A4, A5, A6, A7, A9, A10, A12, A13.
    rewrite I1, I2, I3, I4, I5, I6, I7, I9, I10, I12, I13.
    rewrite !omap_snoc_option, !app_assoc, sumZ_app. simpl.
    repeat split; try reflexivity; lia.
Qed.

(** The totals of the walk. *)
Lemma resStep_fields r v :
  let r' := resStep r v in
  ScanResult.RepoPath r' = ScanResult.RepoPath r
  /\ ScanResult.GoPackages r' = ScanResult.GoPackages r
  /\ ScanResult.PythonPackages r' = ScanResult.PythonPackages r
  /\ ScanResult.RustPackages r' = ScanResult.RustPackages r
  /\ ScanResult.TotalBUILDs r'
     = ScanResult.TotalBUILDs r + (if isManifest v then 1 else 0)
  /\ ScanResult.TotalGoFiles r'
     = ScanResult.TotalGoFiles r + (if selSource isGo isGoTest v then 1 else 0)
  /\ ScanResult.TotalGoTests r'
     = ScanResult.TotalGoTests r + (if selTest isGo isGoTest v then 1 else 0)
  /\ ScanResult.TotalPythonFiles r'
     = ScanResult.TotalPythonFiles r + (if selSource isPython isPythonTest v then 1 else 0)
  /\ ScanResult.TotalPythonTests r'
     = ScanResult.TotalPythonTests r + (if selTest isPython isPythonTest v then 1 else 0)
  /\ ScanResult.TotalRustFiles r'
     = ScanResult.TotalRustFiles r + (if isRust v then 1 else 0)
  /\ ScanResult.TotalRustTests r' = ScanResult.TotalRustTests r.
Proof.
  unfold resStep, selSource, selTest.
  destruct (isManifest v), (isGo v), (isGoTest v), (isPython v), (isPythonTest v),
    (isRust v); simpl; rewrite ?Z.add_0_r; repeat split; reflexivity.
Qed.

Lemma resStep_fold r vs :
  let r' := foldl resStep r vs in
  ScanResult.RepoPath r' = ScanResult.RepoPath r
  /\ ScanResult.GoPackages r' = ScanResult.GoPackages r
  /\ ScanResult.PythonPackages r' = ScanResult.PythonPackages r
  /\ ScanResult.RustPackages r' = ScanResult.RustPackages r
  /\ ScanResult.TotalBUILDs r' = ScanResult.TotalBUILDs r + countIf isManifest vs
  /\ ScanResult.TotalGoFiles r'
     = ScanResult.TotalGoFiles r + countIf (selSource isGo isGoTest) vs
  /\ ScanResult.TotalGoTests r'
     = ScanResult.TotalGoTests r + countIf (selTest isGo isGoTest) vs
  /\ ScanResult.TotalPythonFiles r'
     = ScanResult.TotalPythonFiles r + countIf (selSource isPython isPythonTest) vs
  /\ ScanResult.TotalPythonTests r'
     = ScanResult.TotalPythonTests r + countIf (selTest isPython isPythonTest) vs
  /\ ScanResult.TotalRustFiles r' = ScanResult.TotalRustFiles r + countIf isRust vs
  /\ ScanResult.TotalRustTests r' = ScanResult.TotalRustTests r.
Proof.
  induction vs as [|v vs IH] using rev_ind; simpl.
  - rewrite !countIf_nil. repeat split; try reflexivity; lia.
  - rewrite foldl_snoc, !countIf_snoc.
    destruct IH as (I1 & I2 & I3 & I4 & I5 & I6 & I7 & I8 & I9 & I10 & I11).
    destruct (resStep_fields (foldl resStep r vs) v)
      as (A1 & A2 & A3 & A4 & A5 & A6 & A7 & A8 & A9 & A10 & A11).
    rewrite A1, A2, A3, A4, A5, A6, A7, A8, A9, A10, A11.
    rewrite I1, I2, I3, I4, I5, I6, I7, I8, I9, I10, I11.
    repeat split; try reflexivity; lia.
Qed.

(** *** The sorts of [Scan] *)

Lemma ltb_false_iff (x y : string) : String.ltb x y = false <-> String.le y x.
Proof.
  unfold String.le, String.ltb, String.leb.
  rewrite (String.compare_antisym y x).
  destruct (String.compare x y); simpl; split; intros; try done.
Qed.

Lemma byRelPath_iff a b :
  byRelPath a b <-> String.le (Package.RelPath a) (Package.RelPath b).
Proof. apply ltb_false_iff. Qed.

Lemma byRelPath_trans : Transitive byRelPath.
Proof. intros a b c. rewrite !byRelPath_iff. apply transitivity. Qed.

#[local] Existing Instance byRelPath_trans.

Lemma byRelPath_total : Total byRelPath.
Proof. intros a b. rewrite !byRelPath_iff. apply total, _. Qed.

#[local] Existing Instance byRelPath_total.

Lemma merge_sort_Slice_RelPath l : sort.Slice lessRelPath l (merge_sort byRelPath l).
Proof.
  split.
  - symmetry. apply merge_sort_Permutation.
  - apply (StronglySorted_merge_sort byRelPath).
Qed.

(** [Scan] is one of the runs. *)
Lemma Scan_returns s root : ScanReturns s root (Scan s root).
Proof.
  exists (map_to_list (dirMap (walked s root))).*2.
  eexists _, _, _. cbv zeta.
  split; [reflexivity|].
  split; [apply merge_sort_Slice_RelPath|].
  split; [apply merge_sort_Slice_RelPath|].
  split; [apply merge_sort_Slice_RelPath|].
  reflexivity.
Qed.

Lemma inDir_In d vs v : In v (inDir d vs) <-> In v vs /\ dir v = d.
Proof.
  unfold inDir. rewrite List.filter_In. unfold keyed. by rewrite String.eqb_eq.
Qed.

(** The entries of the directory map at the end of the walk. *)
Lemma entry_facts s root d dp :
  dirMap (walked s root) !! d = Some dp ->
  let vd := inDir d (visits s root) in
  vd <> []
  /\ dirPackages.hasBuild dp = existsb isManifest vd
  /\ dirPackages.targets dp = foldl (tgtStep s) None vd
  /\ dirPackages.goPkg dp = foldl (slotStep isGo isGoTest LangGo) None vd
  /\ dirPackages.pythonPkg dp = foldl (slotStep isPython isPythonTest LangPython) None vd
  /\ dirPackages.rustPkg dp = foldl (slotStep isRust (fun _ => false) LangRust) None vd.
Proof.
  rewrite walked_dirMap. intros H vd. fold vd in H.
  destruct vd as [|v0 vd'] eqn:E; [discriminate|]. injection H as <-.
  split; [discriminate|].
  rewrite dpStep_hasBuild, dpStep_targets, dpStep_goPkg, dpStep_pythonPkg, dpStep_rustPkg.
  repeat split; reflexivity.
Qed.

(** Every run of [Scan], read off the visits. *)
Lemma ScanReturns_inv s root res :
  ScanReturns s root res ->
  exists dps,
    dps ≡ₚ (map_to_list (dirMap (walked s root))).*2
    /\ (forall dp, In dp dps <-> exists d, dirMap (walked s root) !! d = Some dp)
    /\ ScanResult.GoPackages res ≡ₚ omap finalGo dps
    /\ ScanResult.PythonPackages res ≡ₚ omap finalPython dps
    /\ ScanResult.RustPackages res ≡ₚ omap finalRust dps
    /\ ScanResult.RepoPath res = Scanner.repoPath s
    /\ ScanResult.TotalBUILDs res = countIf isManifest (visits s root)
    /\ ScanResult.TotalGoFiles res = countIf (selSource isGo isGoTest) (visits s root)
    /\ ScanResult.TotalGoTests res = countIf (selTest isGo isGoTest) (visits s root)
    /\ ScanResult.TotalPythonFiles res
       = countIf (selSource isPython isPythonTest) (visits s root)
    /\ ScanResult.TotalPythonTests res
       = countIf (selTest isPython isPythonTest) (visits s root)
    /\ ScanResult.TotalRustFiles res = countIf isRust (visits s root)
    /\ ScanResult.TotalRustTests res = sumZ rustCredit dps.
Proof.
  intros (dps & go & py & rust & Hdps & [Hgo _] & [Hpy _] & [Hrust _] & ->).
  exists dps. split; [exact Hdps|]. split.
  { intros dp. rewrite <- list_elem_of_In, Hdps, list_elem_of_fmap. split.
    - intros ([d dp'] & -> & Hin). apply elem_of_map_to_list in Hin. eauto.
    - intros [d Hd]. exists (d, dp). split; [done|]. by apply elem_of_map_to_list. }
  destruct (assign_fold (result (walked s root)) dps)
    as (A1 & A2 & A3 & A4 & A5 & A6 & A7 & A8 & A9 & A10 & A11).
  rewrite walked_result in *.
  destruct (resStep_fold (ScanResult.new (Scanner.repoPath s)) (visits s root))
    as (R1 & R2 & R3 & R4 & R5 & R6 & R7 & R8 & R9 & R10 & R11).
  rewrite A2 in Hgo. rewrite A3 in Hpy. rewrite A4 in Hrust.
  rewrite R2 in Hgo. rewrite R3 in Hpy. rewrite R4 in Hrust.
  simpl in Hgo, Hpy, Hrust. simpl.
  rewrite A1, A5, A6, A7, A8, A9, A10, A11, R1, R5, R6, R7, R8, R9, R10, R11. simpl.
  repeat split; try done; lia.
Qed.

(** *** What a finished package says about its directory *)

Section package_facts.
Context (s : Scanner.t) (root : list fs.node).

Lemma attach_describes sel test lang tests libs bins d dp pkg :
  dirMap (walked s root) !! d = Some dp ->
  foldl (slotStep sel test lang) None (inDir d (visits s root)) = Some pkg ->
  describes s root sel test lang tests libs bins (attach tests libs bins dp pkg).
Proof.
  intros Hd Hslot.
  destruct (entry_facts s root d dp Hd) as (Hne & Hb & Ht & _).
  pose proof (slot_fold sel test lang (inDir d (visits s root))) as Hrec.
  rewrite Hslot in Hrec.
  destruct Hrec as ((v0 & Hin & Hs & Hp & Hr) & HL & HB & HT & HLi & HBi & HS & HTe & HH).
  assert (Hpath : Package.Path (attach tests libs bins dp pkg) = d).
  { apply inDir_In in Hin as [_ <-]. rewrite <- Hp. unfold attach.
    destruct (dirPackages.targets dp); reflexivity. }
  unfold describes, filesOf, targetsOf, filesOf. rewrite Hpath, <- Ht, <- Hb.
  split; [exists v0; split; [done|]; split; [done|]|];
    unfold attach; destruct (dirPackages.targets dp); simpl; repeat split; done.
Qed.

Lemma In_omap {A B} (f : A -> option B) l b :
  In b (omap f l) <-> exists a, In a l /\ f a = Some b.
Proof.
  rewrite <- list_elem_of_In, list_elem_of_omap.
  split; intros (a & Ha & Hf); exists a; split; try done; by apply list_elem_of_In.
Qed.

Lemma go_package res P :
  ScanReturns s root res -> In P (ScanResult.GoPackages res) ->
  describes s root isGo isGoTest LangGo
    buildTargets.goTests buildTargets.goLibs buildTargets.goBins P.
Proof.
  intros Hres Hin. destruct (ScanReturns_inv s root res Hres) as (dps & _ & Hdps & Hgo & _).
  apply (Permutation_in _ Hgo) in Hin. apply In_omap in Hin.
  destruct Hin as (dp & Hdp & Hfin).
  apply Hdps in Hdp as [d Hd].
  destruct (entry_facts s root d dp Hd) as (_ & _ & _ & Hslot & _).
  unfold finalGo in Hfin. destruct (dirPackages.goPkg dp) as [pkg|] eqn:E; [|done].
  injection Hfin as <-. by eapply attach_describes.
Qed.

Lemma python_package res P :
  ScanReturns s root res -> In P (ScanResult.PythonPackages res) ->
  describes s root isPython isPythonTest LangPython
    buildTargets.pyTests buildTargets.pyLibs buildTargets.pyBins P.
Proof.
  intros Hres Hin.
  destruct (ScanReturns_inv s root res Hres) as (dps & _ & Hdps & _ & Hpy & _).
  apply (Permutation_in _ Hpy) in Hin. apply In_omap in Hin.
  destruct Hin as (dp & Hdp & Hfin).
  apply Hdps in Hdp as [d Hd].
  destruct (entry_facts s root d dp Hd) as (_ & _ & _ & _ & Hslot & _).
  unfold finalPython in Hfin. destruct (dirPackages.pythonPkg dp) as [pkg|] eqn:E; [|done].
  injection Hfin as <-. by eapply attach_describes.
Qed.

(** A Rust package: the common facts hold of the package before the Rust
    rule, which credits it with its test targets. *)
Lemma rust_package res P :
  ScanReturns s root res -> In P (ScanResult.RustPackages res) ->
  exists P0,
    describes s root isRust (fun _ => false) LangRust
      buildTargets.rustTests buildTargets.rustLibs buildTargets.rustBins P0
    /\ Package.Path P0 = Package.Path P
    /\ P = match targetsOf s root P0 with Some _ => creditTests P0 | None => P0 end.
Proof.
  intros Hres Hin.
  destruct (ScanReturns_inv s root res Hres) as (dps & _ & Hdps & _ & _ & Hru & _).
  apply (Permutation_in _ Hru) in Hin. apply In_omap in Hin.
  destruct Hin as (dp & Hdp & Hfin).
  apply Hdps in Hdp as [d Hd].
  destruct (entry_facts s root d dp Hd) as (_ & _ & Ht & _ & _ & Hslot).
  unfold finalRust in Hfin. destruct (dirPackages.rustPkg dp) as [pkg|] eqn:E; [|done].
  injection Hfin as <-.
  set (P0 := attach buildTargets.rustTests buildTargets.rustLibs buildTargets.rustBins dp pkg).
  exists P0.
  assert (HP0 : describes s root isRust (fun _ => false) LangRust
             buildTargets.rustTests buildTargets.rustLibs buildTargets.rustBins P0)
    by (by eapply attach_describes).
  split; [exact HP0|].
  assert (Hpath : Package.Path P0 = d).
  { destruct HP0 as ((v0 & Hv0 & _) & _).
    pose proof (slot_fold isRust (fun _ => false) LangRust (inDir d (visits s root))) as Hrec.
    rewrite <- Hslot in Hrec. destruct Hrec as ((v1 & Hin1 & _ & Hp1 & _) & _).
    apply inDir_In in Hin1 as [_ <-]. rewrite <- Hp1. unfold P0, attach.
    destruct (dirPackages.targets dp); reflexivity. }
  assert (Htg : targetsOf s root P0 = dirPackages.targets dp).
  { unfold targetsOf, filesOf. rewrite Hpath. done. }
  rewrite Htg. split; [|reflexivity].
  destruct (dirPackages.targets dp); [|reflexivity].
  unfold creditTests. destruct (0 <? Package.TestTargetCount P0); reflexivity.
Qed.
End package_facts.

(** *** The directories the walk enters *)

Section reached.
Context (s : Scanner.t) (root : list fs.node).

Lemma visitsOf_reached n : forall d bl entries v,
  reached s root d bl entries -> In n entries ->
  In v (visitsOf s d bl n) ->
  exists entries',
    reached s root (dir v) (below v) entries'
    /\ In (fs.File (filename v) (content v)) entries'.
Proof.
  induction n as [name c|name sub IH|name] using node_ind';
    intros d bl entries v Hr Hin Hv; simpl in Hv.
  - destruct Hv as [<-|[]]. simpl. eauto.
  - destruct (skipDir s name) eqn:Hskip; [destruct Hv|].
    apply in_flat_map in Hv as (e & He & Hv).
    rewrite List.Forall_forall in IH.
    eapply (IH e He); [|exact He|exact Hv].
    by eapply reached_sub.
  - destruct Hv.
Qed.

Lemma reached_visits d bl entries :
  reached s root d bl entries ->
  forall n v, In n entries -> In v (visitsOf s d bl n) -> In v (visits s root).
Proof.
  induction 1 as [Hroot|d bl entries name sub Hr IH Hin Hskip]; intros n v Hn Hv.
  - unfold visits. rewrite Hroot. apply in_flat_map. eauto.
  - apply (IH (fs.Dir name sub) v Hin). simpl. rewrite Hskip.
    apply in_flat_map. eauto.
Qed.

(** The visits are the files of the directories the walk enters. *)
Lemma visits_spec v :
  In v (visits s root)
  <-> exists entries,
        reached s root (dir v) (below v) entries
        /\ In (fs.File (filename v) (content v)) entries.
Proof.
  split.
  - unfold visits. destruct (skipDir s (filepath.Base (Scanner.repoPath s))) eqn:E;
      [intros []|].
    intros Hv. apply in_flat_map in Hv as (n & Hn & Hv).
    eapply visitsOf_reached; [|exact Hn|exact Hv]. by constructor.
  - intros (entries & Hr & Hin).
    eapply reached_visits; [exact Hr|exact Hin|]. simpl. left. by destruct v.
Qed.

Lemma reached_below d bl entries :
  reached s root d bl entries -> Forall (fun n => skipDir s n = false) bl.
Proof.
  induction 1; [constructor|]. apply Forall_app. split; [done|].
  by repeat constructor.
Qed.
End reached.

Lemma contains_visit s root d name c :
  contains s root d name c
  <-> exists v, In v (visits s root)
                /\ dir v = d /\ filename v = name /\ content v = c.
Proof.
  split.
  - intros (bl & entries & Hr & Hin).
    exists (mkVisit d bl name c). split; [|done].
    apply visits_spec. simpl. eauto.
  - intros (v & Hv & <- & <- & <-). apply visits_spec in Hv as (entries & Hr & Hin).
    exists (below v), entries. done.
Qed.

Lemma existsb_isManifest_iff s root d :
  existsb isManifest (inDir d (visits s root)) = true <-> hasManifest s root d.
Proof.
  rewrite existsb_exists. unfold hasManifest. split.
  - intros (v & Hin & Hm). apply inDir_In in Hin as [Hin Hd].
    exists (filename v), (content v). split; [|exact Hm].
    apply contains_visit. eauto.
  - intros (name & c & Hc & Hm). apply contains_visit in Hc as (v & Hv & Hd & Hn & Hc).
    exists v. split; [by apply inDir_In|]. unfold isManifest. by rewrite Hn.
Qed.

Lemma parsed_Some_iff s v t :
  parsed s v = Some t -> snd (parseBuildFile s (content v)) = None.
Proof.
  unfold parsed. destruct (parseBuildFile s (content v)) as [[t'|] [e|]]; done.
Qed.

Lemma targets_None s root d :
  ~ manifestParses s root d -> foldl (tgtStep s) None (inDir d (visits s root)) = None.
Proof.
  intros Hno. destruct (foldl (tgtStep s) None (inDir d (visits s root))) as [t|] eqn:E;
    [|done].
  exfalso. apply Hno. apply tgtStep_fold_Some in E as (v & Hin & Hm & Hp).
  apply inDir_In in Hin as [Hin Hd].
  exists (filename v), (content v). split; [apply contains_visit; eauto|].
  split; [exact Hm|]. by eapply parsed_Some_iff.
Qed.

(** *** Every file of a language gives its directory a package *)

Section package_exists.
Context (s : Scanner.t) (root : list fs.node).

Lemma slot_fold_Some sel test lang vs v :
  In v vs -> sel v = true -> is_Some (foldl (slotStep sel test lang) None vs).
Proof.
  intros Hin Hsel. pose proof (slot_fold sel test lang vs) as H.
  destruct (foldl (slotStep sel test lang) None vs); [eauto|].
  assert (In v (List.filter sel vs)) as Hf by (by apply List.filter_In).
  rewrite H in Hf. destruct Hf.
Qed.

Lemma entry_exists v :
  In v (visits s root) -> is_Some (dirMap (walked s root) !! dir v).
Proof.
  intros Hin. rewrite walked_dirMap.
  destruct (inDir (dir v) (visits s root)) eqn:E; [|eauto].
  assert (In v (inDir (dir v) (visits s root))) as H by (by apply inDir_In).
  rewrite E in H. destruct H.
Qed.

Lemma go_package_exists res v :
  ScanReturns s root res -> In v (visits s root) -> isGo v = true ->
  exists P, In P (ScanResult.GoPackages res) /\ Package.Path P = dir v.
Proof.
  intros Hres Hin Hgo.
  destruct (ScanReturns_inv s root res Hres) as (dps & _ & Hdps & Hperm & _).
  destruct (entry_exists v Hin) as [dp Hdp].
  destruct (entry_facts s root _ dp Hdp) as (_ & _ & _ & Hslot & _).
  destruct (slot_fold_Some isGo isGoTest LangGo (inDir (dir v) (visits s root)) v)
    as [pkg Hpkg]; [by apply inDir_In|done|].
  exists (attach buildTargets.goTests buildTargets.goLibs buildTargets.goBins dp pkg).
  split.
  - apply (Permutation_in _ (Permutation_sym Hperm)), In_omap.
    exists dp. split; [apply Hdps; eauto|]. unfold finalGo.
    rewrite Hslot, Hpkg. reflexivity.
  - pose proof (slot_fold isGo isGoTest LangGo (inDir (dir v) (visits s root))) as Hrec.
    rewrite Hpkg in Hrec. destruct Hrec as ((v0 & Hin0 & _ & Hp & _) & _).
    apply inDir_In in Hin0 as [_ <-]. rewrite <- Hp. unfold attach.
    destruct (dirPackages.targets dp); reflexivity.
Qed.

Lemma python_package_exists res v :
  ScanReturns s root res -> In v (visits s root) -> isPython v = true ->
  exists P, In P (ScanResult.PythonPackages res) /\ Package.Path P = dir v.
Proof.
  intros Hres Hin Hpy.
  destruct (ScanReturns_inv s root res Hres) as (dps & _ & Hdps & _ & Hperm & _).
  destruct (entry_exists v Hin) as [dp Hdp].
  destruct (entry_facts s root _ dp Hdp) as (_ & _ & _ & _ & Hslot & _).
  destruct (slot_fold_Some isPython isPythonTest LangPython
              (inDir (dir v) (visits s root)) v)
    as [pkg Hpkg]; [by apply inDir_In|done|].
  exists (attach buildTargets.pyTests buildTargets.pyLibs buildTargets.pyBins dp pkg).
  split.
  - apply (Permutation_in _ (Permutation_sym Hperm)), In_omap.
    exists dp. split; [apply Hdps; eauto|]. unfold finalPython.
    rewrite Hslot, Hpkg. reflexivity.
  - pose proof (slot_fold isPython isPythonTest LangPython
                  (inDir (dir v) (visits s root))) as Hrec.
    rewrite Hpkg in Hrec. destruct Hrec as ((v0 & Hin0 & _ & Hp & _) & _).
    apply inDir_In in Hin0 as [_ <-]. rewrite <- Hp. unfold attach.
    destruct (dirPackages.targets dp); reflexivity.
Qed.

Lemma creditTests_Path P : Package.Path (creditTests P) = Package.Path P.
Proof. unfold creditTests. by destruct (0 <? Package.TestTargetCount P). Qed.

Lemma rust_package_exists res v :
  ScanReturns s root res -> In v (visits s root) -> isRust v = true ->
  exists P, In P (ScanResult.RustPackages res) /\ Package.Path P = dir v.
Proof.
  intros Hres Hin Hrs.
  destruct (ScanReturns_inv s root res Hres) as (dps & _ & Hdps & _ & _ & Hperm & _).
  destruct (entry_exists v Hin) as [dp Hdp].
  destruct (entry_facts s root _ dp Hdp) as (_ & _ & _ & _ & _ & Hslot).
  destruct (slot_fold_Some isRust (fun _ => false) LangRust
              (inDir (dir v) (visits s root)) v)
    as [pkg Hpkg]; [by apply inDir_In|done|].
  destruct (finalRust dp) as [P|] eqn:HP;
    [|unfold finalRust in HP; rewrite Hslot, Hpkg in HP; discriminate].
  exists P. split.
  - apply (Permutation_in _ (Permutation_sym Hperm)), In_omap.
    exists dp. split; [apply Hdps; eauto|exact HP].
  - pose proof (slot_fold isRust (fun _ => false) LangRust
                  (inDir (dir v) (visits s root))) as Hrec.
    rewrite Hpkg in Hrec. destruct Hrec as ((v0 & Hin0 & _ & Hp & _) & _).
    apply inDir_In in Hin0 as [_ <-]. rewrite <- Hp.
    unfold finalRust in HP. rewrite Hslot, Hpkg in HP. simpl in HP.
    injection HP as <-. unfold attach.
    destruct (dirPackages.targets dp); rewrite ?creditTests_Path; reflexivity.
Qed.
End package_exists.

(** * The properties of a scan and of its report *)

(** *** C2: the flag of a BUILD file *)

(** The facts of a package of any language that C2 needs. *)
Lemma package_manifest s root res P :
  ScanReturns s root res -> In P (allPackages res) ->
  (Package.HasBuildFile P = true <-> hasManifest s root (Package.Path P))
  /\ (~ manifestParses s root (Package.Path P) ->
      Package.TestTargetCount P = 0 /\ Package.LibraryTargets P = 0
      /\ Package.BinaryTargets P = 0).
Proof.
  intros Hres Hin. unfold allPackages in Hin. rewrite !in_app_iff in Hin.
  assert (Hgen : forall sel test lang tests libs bins P0,
             describes s root sel test lang tests libs bins P0 ->
             (Package.HasBuildFile P0 = true <-> hasManifest s root (Package.Path P0))
             /\ (~ manifestParses s root (Package.Path P0) ->
                 Package.TestTargetCount P0 = 0 /\ Package.LibraryTargets P0 = 0
                 /\ Package.BinaryTargets P0 = 0)).
  { intros sel test lang tests libs bins P0 (_ & _ & Hb & _ & _ & _ & Ht & Hl & Hbi).
    split.
    - rewrite Hb. apply existsb_isManifest_iff.
    - intros Hno. unfold targetsOf, filesOf in *.
      rewrite (targets_None s root _ Hno) in Ht, Hl, Hbi. done. }
  destruct Hin as [Hin|[Hin|Hin]].
  - eapply Hgen. by eapply go_package.
  - eapply Hgen. by eapply python_package.
  - destruct (rust_package s root res P Hres Hin) as (P0 & HP0 & Hpath & ->).
    destruct (Hgen _ _ _ _ _ _ _ HP0) as [H1 H2].
    destruct (targetsOf s root P0) eqn:E.
    + unfold creditTests in *.
      destruct (0 <? Package.TestTargetCount P0); simpl in *; split; done.
    + split; done.
Qed.





(** *** C5: the Rust rule *)

Lemma selTest_never sel vs : countIf (selTest sel (fun _ => false)) vs = 0.
Proof.
  apply countIf_zero_iff. induction vs as [|v vs IH]; [done|].
  simpl. unfold selTest at 1. by rewrite andb_false_r.
Qed.

Lemma rust_package_rule s root res P :
  ScanReturns s root res -> In P (ScanResult.RustPackages res) ->
  Package.TestTargetCount P
  = from_option buildTargets.rustTests 0 (targetsOf s root P)
  /\ (0 < Package.TestTargetCount P ->
      Package.HasTestFiles P = true
      /\ Package.TestFileCount P = Package.TestTargetCount P)
  /\ (Package.TestTargetCount P <= 0 ->
      Package.HasTestFiles P = false /\ Package.TestFileCount P = 0)
  /\ (~ manifestParses s root (Package.Path P) ->
      Package.TestTargetCount P = 0
      /\ Package.HasTestFiles P = false /\ Package.TestFileCount P = 0).
Proof.
  intros Hres Hin.
  destruct (rust_package s root res P Hres Hin) as (P0 & HP0 & Hpath & HP).
  destruct HP0 as (_ & _ & _ & _ & Htf & Hht & Htt & _).
  rewrite selTest_never in Htf, Hht. simpl in Hht.
  assert (Htg : targetsOf s root P = targetsOf s root P0).
  { unfold targetsOf, filesOf. by rewrite Hpath. }
  assert (Hnone : ~ manifestParses s root (Package.Path P) -> targetsOf s root P0 = None).
  { intros Hno. rewrite <- Htg. unfold targetsOf, filesOf. by apply targets_None. }
  rewrite Htg. clear Htg. rewrite <- Hpath in *.
  destruct (targetsOf s root P0) as [t|] eqn:E; subst P.
  - assert (Hcontra : ~ ~ manifestParses s root (Package.Path P0))
      by (intros Hno; by specialize (Hnone Hno)).
    unfold creditTests. destruct (0 <? Package.TestTargetCount P0) eqn:E0; simpl.
    + apply Z.ltb_lt in E0.
      split; [done|]. split; [done|]. split; [lia|]. intros Hno. by destruct Hcontra.
    + apply Z.ltb_ge in E0.
      split; [done|]. split; [lia|]. split; [done|]. intros Hno. by destruct Hcontra.
  - simpl in Htt. split; [done|]. split; [lia|]. split; done.
Qed.

Lemma rust_credit_entry s root d dp :
  dirMap (walked s root) !! d = Some dp ->
  sumZ Package.TestFileCount (option_list (finalRust dp)) = rustCredit dp.
Proof.
  intros Hd.
  destruct (entry_facts s root d dp Hd) as (_ & _ & _ & _ & _ & Hslot).
  pose proof (slot_fold isRust (fun _ => false) LangRust (inDir d (visits s root))) as Hrec.
  rewrite <- Hslot in Hrec. unfold finalRust, rustCredit.
  destruct (dirPackages.rustPkg dp) as [pkg|]; [|reflexivity].
  destruct Hrec as (_ & _ & _ & _ & _ & _ & _ & Htf & _).
  rewrite selTest_never in Htf. unfold attach, creditTests.
  destruct (dirPackages.targets dp) as [t|]; simpl.
  - destruct (0 <? buildTargets.rustTests t); simpl; lia.
  - lia.
Qed.

Lemma rust_credit_sum s root dps :
  (forall dp, In dp dps -> exists d, dirMap (walked s root) !! d = Some dp) ->
  sumZ Package.TestFileCount (omap finalRust dps) = sumZ rustCredit dps.
Proof.
  induction dps as [|dp dps IH]; intros Hall; [reflexivity|].
  change (omap finalRust (dp :: dps))
    with (omap finalRust ([dp] ++ dps)).
  rewrite omap_app, sumZ_app, IH by (intros; apply Hall; by right).
  destruct (Hall dp (or_introl eq_refl)) as [d Hd].
  change (sumZ rustCredit (dp :: dps)) with (rustCredit dp + sumZ rustCredit dps).
  rewrite <- (rust_credit_entry s root d dp Hd). f_equal.
Qed.

(** C5: after a scan, every Rust package has as test-target count the
    [rust_test] count of the BUILD file parsed for its directory, 0 without
    one.  When that count is positive the package has [HasTestFiles] true
    and a test-file count equal to it; otherwise, and in particular when no
    BUILD file of the directory parses, [HasTestFiles] is false and the
    test-file count is 0.  The global total of Rust test files is the sum
    of these test-file counts: each package adds its credit to it. *)
Theorem rust_tests_follow_targets
  (repoPath : string) (root : list fs.node) (res : ScanResult.t) :
  let s := NewScanner repoPath in
  ScanReturns s root res ->
  (forall P, In P (ScanResult.RustPackages res) ->
     Package.TestTargetCount P
     = from_option buildTargets.rustTests 0 (targetsOf s root P)
     /\ (0 < Package.TestTargetCount P ->
         Package.HasTestFiles P = true
         /\ Package.TestFileCount P = Package.TestTargetCount P)
     /\ (Package.TestTargetCount P <= 0 ->
         Package.HasTestFiles P = false /\ Package.TestFileCount P = 0)
     /\ (~ manifestParses s root (Package.Path P) ->
         Package.TestTargetCount P = 0
         /\ Package.HasTestFiles P = false /\ Package.TestFileCount P = 0))
  /\ ScanResult.TotalRustTests res
     = sumZ Package.TestFileCount (ScanResult.RustPackages res).
Proof.
  intros s Hres. split.
  - intros P Hin. by apply (rust_package_rule s root res).
  - destruct (ScanReturns_inv s root res Hres)
      as (dps & _ & Hdps & _ & _ & Hru & _ & _ & _ & _ & _ & _ & _ & Htot).
    rewrite Htot, (sumZ_perm _ _ _ Hru). symmetry. apply (rust_credit_sum s root).
    intros dp Hin. by apply Hdps.
Qed.

(** In [repo_rust] the crate with a [rust_test] target is credited with one
    test file, the other crate with none. *)
Lemma rust_tests_follow_targets_witness :
  let s := NewScanner "/repo" in
  let res := Scan s repo_rust in
  (ScanReturns s repo_rust res
   /\ ScanResult.RustPackages res
      = [Package.mk "/repo/crate" "crate" LangRust true true 1 1 1 0 0;
         Package.mk "/repo/tool" "tool" LangRust false false 1 0 0 0 0]
   /\ ScanResult.TotalRustTests res = 1)
  /\ (forall P, In P (ScanResult.RustPackages res) ->
       Package.TestTargetCount P
       = from_option buildTargets.rustTests 0 (targetsOf s repo_rust P)
       /\ (0 < Package.TestTargetCount P ->
           Package.HasTestFiles P = true
           /\ Package.TestFileCount P = Package.TestTargetCount P)
       /\ (Package.TestTargetCount P <= 0 ->
           Package.HasTestFiles P = false /\ Package.TestFileCount P = 0)
       /\ (~ manifestParses s repo_rust (Package.Path P) ->
           Package.TestTargetCount P = 0
           /\ Package.HasTestFiles P = false /\ Package.TestFileCount P = 0))
  /\ ScanResult.TotalRustTests res
     = sumZ Package.TestFileCount (ScanResult.RustPackages res).
Proof.
  intros s res. split.
  - split; [apply Scan_returns|]. vm_compute. split; reflexivity.
  - exact (rust_tests_follow_targets "/repo" repo_rust res (Scan_returns s repo_rust)).
Defined.

(** *** C9: files whose name starts with a dot *)

Lemma Permutation_singleton_eq {A} (x : A) l : l ≡ₚ [x] -> l = [x].
Proof. intros H. symmetry in H. by apply Permutation_singleton_l in H. Qed.

Lemma walked_single_file s name c :
  skipDir s (filepath.Base (Scanner.repoPath s)) = false ->
  let d := filepath.Clean (Scanner.repoPath s) in
  let v := mkVisit d [] name c in
  visits s [fs.File name c] = [v]
  /\ map_to_list (dirMap (walked s [fs.File name c]))
     = [(d, dpStep s (dirPackages.new d ".") v)].
Proof.
  intros Hskip d v.
  assert (Hv : visits s [fs.File name c] = [v]).
  { unfold visits. rewrite Hskip. reflexivity. }
  split; [exact Hv|].
  rewrite walked_visits, Hv, foldl_visitFile. simpl. unfold upd. simpl.
  rewrite lookup_empty. simpl. rewrite insert_empty. apply map_to_list_singleton.
Qed.

(** C9: the exclusion by a leading dot is a rule for directories only.
    A name that starts with a dot excludes a directory, but every file of
    a directory the walk enters, whatever its first character, goes through
    the three suffix rules: with the suffix [.go] it gives its directory a
    Go package, with [.py] a Python package, with [.rs] a Rust package, and
    it is counted among the files of the package and in the totals of its
    language.  The name [.helper.go] counts as a Go source file, and a
    repository that holds this one file has one Go package, for its root
    directory, with one source file. *)
Theorem dot_files_are_classified
  (repoPath : string) (root : list fs.node) (res : ScanResult.t) :
  let s := NewScanner repoPath in
  ScanReturns s root res ->
  (forall name, strings.HasPrefix name "." = true -> skipDir s name = true)
  /\ (forall d name c,
        contains s root d name c ->
        (strings.HasSuffix name ".go" = true ->
         exists P, In P (ScanResult.GoPackages res) /\ Package.Path P = d)
        /\ (strings.HasSuffix name ".py" = true ->
            exists P, In P (ScanResult.PythonPackages res) /\ Package.Path P = d)
        /\ (strings.HasSuffix name ".rs" = true ->
            exists P, In P (ScanResult.RustPackages res) /\ Package.Path P = d))
  /\ (forall P, In P (ScanResult.GoPackages res) ->
      Package.SourceFileCount P = countIf (selSource isGo isGoTest) (filesOf s root P)
      /\ Package.TestFileCount P = countIf (selTest isGo isGoTest) (filesOf s root P))
  /\ (forall P, In P (ScanResult.PythonPackages res) ->
      Package.SourceFileCount P
      = countIf (selSource isPython isPythonTest) (filesOf s root P)
      /\ Package.TestFileCount P
         = countIf (selTest isPython isPythonTest) (filesOf s root P))
  /\ (forall P, In P (ScanResult.RustPackages res) ->
      Package.SourceFileCount P = countIf isRust (filesOf s root P))
  /\ ScanResult.TotalGoFiles res = countIf (selSource isGo isGoTest) (visits s root)
  /\ ScanResult.TotalGoTests res = countIf (selTest isGo isGoTest) (visits s root)
  /\ ScanResult.TotalPythonFiles res
     = countIf (selSource isPython isPythonTest) (visits s root)
  /\ ScanResult.TotalPythonTests res
     = countIf (selTest isPython isPythonTest) (visits s root)
  /\ ScanResult.TotalRustFiles res = countIf isRust (visits s root)
  /\ (forall d bl c, selSource isGo isGoTest (mkVisit d bl ".helper.go" c) = true)
  /\ (forall c,
        root = [fs.File ".helper.go" c] ->
        skipDir s (filepath.Base repoPath) = false ->
        ScanResult.GoPackages res
        = [Package.mk (filepath.Clean repoPath) "." LangGo false false 1 0 0 0 0]
        /\ ScanResult.TotalGoFiles res = 1).
Proof.
  intros s Hres.
  destruct (ScanReturns_inv s root res Hres)
    as (dps & Hperm & Hdps & Hgo & _ & _ & _ & _ & Hfiles & Hgt & Hpf & Hpt & Hrf & _).
  split; [|split; [|split; [|split; [|split]]]].
  - intros name Hdot. unfold skipDir. by rewrite Hdot.
  - intros d name c Hc. apply contains_visit in Hc as (v & Hv & <- & <- & <-).
    split; [|split]; intros Hsuf.
    + by apply (go_package_exists s root res v).
    + by apply (python_package_exists s root res v).
    + by apply (rust_package_exists s root res v).
  - intros P HP. destruct (go_package s root res P Hres HP) as (_ & _ & _ & H1 & H2 & _).
    done.
  - intros P HP.
    destruct (python_package s root res P Hres HP) as (_ & _ & _ & H1 & H2 & _).
    done.
  - intros P HP.
    destruct (rust_package s root res P Hres HP) as (P0 & HP0 & Hpath & ->).
    destruct HP0 as (_ & _ & _ & H1 & _).
    assert (Hsrc : Package.SourceFileCount
                     match targetsOf s root P0 with
                     | Some _ => creditTests P0
                     | None => P0
                     end = Package.SourceFileCount P0).
    { destruct (targetsOf s root P0); [|reflexivity]. unfold creditTests.
      by destruct (0 <? Package.TestTargetCount P0). }
    rewrite Hsrc, H1. unfold filesOf. rewrite Hpath.
    unfold countIf. do 2 f_equal. apply filter_ext. intros v. unfold selSource.
    by rewrite andb_true_r.
  - split; [exact Hfiles|]. split; [exact Hgt|]. split; [exact Hpf|].
    split; [exact Hpt|]. split; [exact Hrf|]. split; [reflexivity|].
    intros c -> Hskip.
    destruct (walked_single_file s ".helper.go" c Hskip) as [Hv Hmap].
    rewrite Hfiles, Hv. split; [|reflexivity].
    rewrite Hmap in Hperm. simpl in Hperm.
    apply Permutation_singleton_eq in Hperm. subst dps.
    apply Permutation_singleton_eq. rewrite Hgo. reflexivity.
Qed.

(** Two repositories: one given with a trailing separator that holds the
    one file [.helper.go] in its root, and one with three dot-files in a
    directory [tools]. *)
Lemma dot_files_are_classified_witness :
  let c := fs.Bytes "package helper" in
  let one := [fs.File ".helper.go" c] in
  let tree := [fs.Dir "tools" [fs.File ".gen.rs" c; fs.File ".helper.go" c;
                               fs.File ".lint.py" c]] in
  let s := NewScanner "/repo" in
  (skipDir (NewScanner "/repo/") (filepath.Base "/repo/") = false
   /\ ScanResult.GoPackages (Scan (NewScanner "/repo/") one)
      = [Package.mk "/repo" "." LangGo false false 1 0 0 0 0]
   /\ ScanResult.TotalGoFiles (Scan (NewScanner "/repo/") one) = 1)
  /\ (contains s tree "/repo/tools" ".helper.go" c
      /\ exists P, In P (ScanResult.GoPackages (Scan s tree))
                   /\ Package.Path P = "/repo/tools")
  /\ (contains s tree "/repo/tools" ".lint.py" c
      /\ exists P, In P (ScanResult.PythonPackages (Scan s tree))
                   /\ Package.Path P = "/repo/tools")
  /\ (contains s tree "/repo/tools" ".gen.rs" c
      /\ exists P, In P (ScanResult.RustPackages (Scan s tree))
                   /\ Package.Path P = "/repo/tools").
Proof.
  intros c one tree s.
  assert (Hskip : skipDir (NewScanner "/repo/") (filepath.Base "/repo/") = false)
    by (vm_compute; reflexivity).
  assert (Htools : reached s tree "/repo/tools" ["tools"]
                     [fs.File ".gen.rs" c; fs.File ".helper.go" c; fs.File ".lint.py" c]).
  { apply (reached_sub s tree "/repo" [] tree "tools").
    - apply (reached_root s tree). vm_compute. reflexivity.
    - left. reflexivity.
    - vm_compute. reflexivity. }
  assert (Hin : forall name,
             In (fs.File name c)
                [fs.File ".gen.rs" c; fs.File ".helper.go" c; fs.File ".lint.py" c] ->
             contains s tree "/repo/tools" name c).
  { intros name H. exists ["tools"]. eexists. split; [exact Htools|exact H]. }
  assert (Hgo : contains s tree "/repo/tools" ".helper.go" c)
    by (apply Hin; right; left; reflexivity).
  assert (Hpy : contains s tree "/repo/tools" ".lint.py" c)
    by (apply Hin; right; right; left; reflexivity).
  assert (Hrs : contains s tree "/repo/tools" ".gen.rs" c)
    by (apply Hin; left; reflexivity).
  pose proof (dot_files_are_classified "/repo/" one (Scan (NewScanner "/repo/") one)
                (Scan_returns (NewScanner "/repo/") one))
    as (_ & _ & _ & _ & _ & _ & _ & _ & _ & _ & _ & Hone).
  pose proof (dot_files_are_classified "/repo" tree (Scan s tree) (Scan_returns s tree))
    as (_ & Htree & _).
  split; [|split; [|split]].
  - split; [exact Hskip|]. exact (Hone c eq_refl Hskip).
  - split; [exact Hgo|]. exact (proj1 (Htree _ _ _ Hgo) eq_refl).
  - split; [exact Hpy|]. exact (proj1 (proj2 (Htree _ _ _ Hpy)) eq_refl).
  - split; [exact Hrs|]. exact (proj2 (proj2 (Htree _ _ _ Hrs)) eq_refl).
Defined.

(** *** C10: the total of BUILD files *)

Lemma countIf_two {A} (f : A -> bool) l a b :
  In a l -> In b l -> a <> b -> f a = true -> f b = true -> 2 <= countIf f l.
Proof.
  intros Ha Hb Hne Hfa Hfb.
  apply in_split in Ha as (l1 & l2 & ->).
  rewrite countIf_app, countIf_cons, Hfa.
  assert (In b l1 \/ In b l2) as [H|H].
  { rewrite in_app_iff in Hb. simpl in Hb. destruct Hb as [?|[?|?]]; [auto|done|auto]. }
  - apply in_split in H as (l3 & l4 & ->).
    rewrite countIf_app, countIf_cons, Hfb.
    pose proof (countIf_nonneg f l3). pose proof (countIf_nonneg f l4).
    pose proof (countIf_nonneg f l2). lia.
  - apply in_split in H as (l3 & l4 & ->).
    rewrite countIf_app, countIf_cons, Hfb.
    pose proof (countIf_nonneg f l3). pose proof (countIf_nonneg f l4).
    pose proof (countIf_nonneg f l1). lia.
Qed.

Lemma countIf_split {A} (f g : A -> bool) l :
  countIf f l = countIf f (List.filter g l) + countIf f (List.filter (fun a => negb (g a)) l).
Proof.
  induction l as [|a l IH]; [reflexivity|].
  simpl. destruct (g a); simpl; rewrite !countIf_cons, IH; lia.
Qed.

Lemma calculateLanguages_Summary now res :
  metrics.Summary.TotalBuildFiles (Report.Summary (calculateLanguages now res))
  = match ScanResult.GoPackages res with
    | [] => 0
    | _ => ScanResult.TotalBUILDs res
    end.
Proof.
  unfold calculateLanguages, calculateRust, calculatePython, calculateGo.
  destruct (ScanResult.GoPackages res), (ScanResult.PythonPackages res),
    (ScanResult.RustPackages res); reflexivity.
Qed.

(** C10, as the program has it: [TotalBUILDs] of a scan counts the BUILD
    files the walk visits, file by file, so a directory that contains both
    a [BUILD] and a [BUILD.bazel] adds at least 2 to it, while each of
    its packages has the one flag [HasBuildFile] set.  The report's
    [TotalBuildFiles] is this total when the scan has Go packages and 0
    when it has none. *)
Theorem build_file_total_counts_files
  (repoPath now : string) (root : list fs.node) (res : ScanResult.t)
  (report : Report.t) :
  let s := NewScanner repoPath in
  ScanReturns s root res ->
  CalculateReturns now res report ->
  ScanResult.TotalBUILDs res = countIf isManifest (visits s root)
  /\ (forall d,
        countIf isManifest (visits s root)
        = countIf isManifest (inDir d (visits s root))
          + countIf isManifest
              (List.filter (fun v => negb (keyed dir d v)) (visits s root)))
  /\ (forall d c1 c2,
        contains s root d "BUILD" c1 -> contains s root d "BUILD.bazel" c2 ->
        2 <= countIf isManifest (inDir d (visits s root)))
  /\ (forall P, In P (allPackages res) ->
        (Package.HasBuildFile P = true <-> hasManifest s root (Package.Path P)))
  /\ metrics.Summary.TotalBuildFiles (Report.Summary report)
     = match ScanResult.GoPackages res with
       | [] => 0
       | _ => ScanResult.TotalBUILDs res
       end.
Proof.
  intros s Hres (bd & _ & ->).
  destruct (ScanReturns_inv s root res Hres) as (dps & _ & _ & _ & _ & _ & _ & Hb & _).
  split; [exact Hb|]. split; [|split; [|split]].
  - intros d. apply countIf_split.
  - intros d c1 c2 H1 H2.
    apply contains_visit in H1 as (v1 & Hv1 & Hd1 & Hn1 & _).
    apply contains_visit in H2 as (v2 & Hv2 & Hd2 & Hn2 & _).
    apply (countIf_two isManifest _ v1 v2).
    + by apply inDir_In.
    + by apply inDir_In.
    + intros ->. rewrite Hn1 in Hn2. discriminate.
    + unfold isManifest. by rewrite Hn1.
    + unfold isManifest. by rewrite Hn2.
  - intros P HP. by apply (package_manifest s root res P).
  - apply calculateLanguages_Summary.
Qed.

(** In [repo_two_manifests] the scan counts 2 BUILD files for the one
    directory, and so does the report: there is a Go package. *)
Lemma build_file_total_counts_files_witness :
  let s := NewScanner "/repo" in
  let res := Scan s repo_two_manifests in
  let report := Calculate "2026-01-01T00:00:00Z" res in
  (ScanResult.TotalBUILDs res = 2
   /\ metrics.Summary.TotalBuildFiles (Report.Summary report) = 2
   /\ ScanResult.GoPackages res = [Package.mk "/repo" "." LangGo true false 1 0 0 0 0])
  /\ ScanResult.TotalBUILDs res = countIf isManifest (visits s repo_two_manifests)
  /\ (forall d,
        countIf isManifest (visits s repo_two_manifests)
        = countIf isManifest (inDir d (visits s repo_two_manifests))
          + countIf isManifest
              (List.filter (fun v => negb (keyed dir d v)) (visits s repo_two_manifests)))
  /\ (forall d c1 c2,
        contains s repo_two_manifests d "BUILD" c1 ->
        contains s repo_two_manifests d "BUILD.bazel" c2 ->
        2 <= countIf isManifest (inDir d (visits s repo_two_manifests)))
  /\ (forall P, In P (allPackages res) ->
        (Package.HasBuildFile P = true
         <-> hasManifest s repo_two_manifests (Package.Path P)))
  /\ metrics.Summary.TotalBuildFiles (Report.Summary report)
     = match ScanResult.GoPackages res with
       | [] => 0
       | _ => ScanResult.TotalBUILDs res
       end.
Proof.
  intros s res report. split; [vm_compute; repeat split; reflexivity|].
  apply (build_file_total_counts_files "/repo" "2026-01-01T00:00:00Z"
           repo_two_manifests res report).
  - apply Scan_returns.
  - exists (calculateDirectoryBreakdown (ScanResult.GoPackages res)).
    split; [apply calculateDirectoryBreakdown_returns|reflexivity].
Defined.

(** A directory with both BUILD files in a repository without Go files:
    the scan counts 2, the report says 0. *)
Lemma report_total_zero_without_go :
  let s := NewScanner "/repo" in
  let res := Scan s repo_python_only in
  let report := Calculate "2026-01-01T00:00:00Z" res in
  ScanReturns s repo_python_only res
  /\ CalculateReturns "2026-01-01T00:00:00Z" res report
  /\ contains s repo_python_only "/repo" "BUILD" (fs.Bytes "")
  /\ contains s repo_python_only "/repo" "BUILD.bazel" (fs.Bytes "")
  /\ ScanResult.TotalBUILDs res = 2
  /\ metrics.Summary.TotalBuildFiles (Report.Summary report) = 0.
Proof.
  intros s res report.
  split; [apply Scan_returns|].
  split; [eexists; split; [apply calculateDirectoryBreakdown_returns|reflexivity]|].
  split; [exists [], repo_python_only; split; [by constructor|simpl; auto]|].
  split; [exists [], repo_python_only; split; [by constructor|simpl; auto]|].
  split; reflexivity.
Qed.

(** *** Paths and their segments *)

Lemma rev_app_rev_app (s cur : string) :
  String.rev_app (String.rev_app s cur) "" = String.rev_app cur s.
Proof.
  revert cur. induction s as [|a s IH]; intros cur; simpl; [reflexivity|].
  rewrite IH. reflexivity.
Qed.

Lemma split_go_noSeparator (s cur : string) :
  noSeparator s = true ->
  strings.split_go filepath.Separator cur s = [String.rev_app cur s].
Proof.
  revert cur. induction s as [|a s IH]; intros cur H; simpl in *.
  - reflexivity.
  - apply andb_true_iff in H as [Ha Hs]. apply negb_true_iff in Ha.
    rewrite Ha, IH by done. reflexivity.
Qed.

Lemma split_go_segment (s rest cur : string) :
  noSeparator s = true ->
  strings.split_go filepath.Separator cur (s +:+ String filepath.Separator rest)
  = String.rev_app cur s :: strings.split_go filepath.Separator "" rest.
Proof.
  revert cur. induction s as [|a s IH]; intros cur H; simpl in *.
  - reflexivity.
  - apply andb_true_iff in H as [Ha Hs]. apply negb_true_iff in Ha.
    rewrite Ha, IH by done. reflexivity.
Qed.

Lemma Split_Join (segs : list string) :
  segs <> [] -> Forall (fun n => noSeparator n = true) segs ->
  strings.Split (strings.Join segs "/") filepath.Separator = segs.
Proof.
  intros Hne Hall. unfold strings.Split.
  induction Hall as [|e rest He Hrest IH]; [done|].
  destruct rest as [|e' rest'].
  - simpl. by rewrite split_go_noSeparator.
  - change (strings.Join (e :: e' :: rest') "/")
      with (e +:+ String filepath.Separator (strings.Join (e' :: rest') "/")).
    rewrite split_go_segment by done. simpl String.rev_app.
    f_equal. by apply IH.
Qed.

(** *** C7: excluded directories *)

Lemma skipDirs_lookup repoPath seg :
  default false (Scanner.skipDirs (NewScanner repoPath) !! seg) = true
  <-> In seg denylist.
Proof.
  split.
  - destruct (Scanner.skipDirs (NewScanner repoPath) !! seg) as [b|] eqn:E; [|done].
    simpl. intros ->. apply elem_of_list_to_map_2 in E.
    apply list_elem_of_In in E. simpl in E. unfold denylist. simpl.
    repeat (destruct E as [E|E]; [injection E as <-; tauto|]). destruct E.
  - unfold denylist. simpl. intros H.
    repeat (destruct H as [<-|H]; [vm_compute; reflexivity|]). destruct H.
Qed.

Lemma skipDir_excluded repoPath seg :
  skipDir (NewScanner repoPath) seg = true <-> excludedName seg.
Proof.
  unfold skipDir, excludedName. rewrite !orb_true_iff, skipDirs_lookup. tauto.
Qed.

Lemma flat_map_flat_map {A B C} (f : A -> list B) (g : B -> list C) l :
  flat_map g (flat_map f l) = flat_map (fun a => flat_map g (f a)) l.
Proof.
  induction l as [|a l IH]; simpl; [done|]. by rewrite flat_map_app, IH.
Qed.

Lemma flat_map_ext_Forall {A B} (f g : A -> list B) l :
  Forall (fun a => f a = g a) l -> flat_map f l = flat_map g l.
Proof. induction 1 as [|a l Ha _ IH]; simpl; [done|]. by rewrite Ha, IH. Qed.

Lemma visitsOf_prune s n : forall d bl,
  flat_map (visitsOf s d bl) (pruneNode s n) = visitsOf s d bl n.
Proof.
  induction n as [name c|name entries IH|name] using node_ind'; intros d bl; simpl;
    try reflexivity.
  destruct (skipDir s name) eqn:E; simpl; [reflexivity|].
  rewrite E, app_nil_r, flat_map_flat_map. apply flat_map_ext_Forall.
  eapply Forall_impl; [exact IH|]. intros e He. apply He.
Qed.

Lemma visits_prune s root : visits s (prune s root) = visits s root.
Proof.
  unfold visits, prune.
  destruct (skipDir s (filepath.Base (Scanner.repoPath s))); [reflexivity|].
  rewrite flat_map_flat_map. apply flat_map_ext. intros n. apply visitsOf_prune.
Qed.

Lemma walked_prune s root : walked s (prune s root) = walked s root.
Proof. by rewrite !walked_visits, visits_prune. Qed.

Lemma reached_names s root d bl entries :
  forallb dirNamesOk root = true ->
  reached s root d bl entries ->
  forallb dirNamesOk entries = true /\ Forall (fun n => noSeparator n = true) bl.
Proof.
  intros Hroot. induction 1 as [|d bl entries name sub Hr [IH1 IH2] Hin Hskip].
  - split; [done|constructor].
  - rewrite forallb_forall in IH1. specialize (IH1 _ Hin). simpl in IH1.
    apply andb_true_iff in IH1 as [Hname Hsub]. split; [done|].
    apply Forall_app. split; [done|]. by repeat constructor.
Qed.

Lemma package_relPath s root res P :
  ScanReturns s root res -> In P (allPackages res) ->
  exists v, In v (visits s root) /\ Package.RelPath P = relDirOf v.
Proof.
  intros Hres Hin. unfold allPackages in Hin. rewrite !in_app_iff in Hin.
  assert (Hgen : forall sel test lang tests libs bins P0,
             describes s root sel test lang tests libs bins P0 ->
             exists v, In v (visits s root) /\ Package.RelPath P0 = relDirOf v).
  { intros sel test lang tests libs bins P0 ((v0 & Hv0 & _ & Hr) & _).
    exists v0. split; [|done]. by apply inDir_In in Hv0 as [? _]. }
  destruct Hin as [Hin|[Hin|Hin]].
  - eapply Hgen. by eapply go_package.
  - eapply Hgen. by eapply python_package.
  - destruct (rust_package s root res P Hres Hin) as (P0 & HP0 & _ & ->).
    destruct (Hgen _ _ _ _ _ _ _ HP0) as (v & Hv & Hr). exists v. split; [done|].
    rewrite <- Hr. unfold creditTests.
    destruct (targetsOf s root P0), (0 <? Package.TestTargetCount P0); reflexivity.
Qed.

(** C7, as the program has it: in a repository whose directory names
    contain no separator, the relative path of every package of a scan is
    either [.], the path of the repository root, or made of segments none
    of which starts with a dot, is on the denylist of [NewScanner] or
    starts with [bazel-].  What lies below an excluded directory
    contributes nothing: the scan of the repository and the scan of the
    repository without its excluded directories have the same results. *)
Theorem excluded_directories_hold_no_packages
  (repoPath : string) (root : list fs.node) (res : ScanResult.t) :
  let s := NewScanner repoPath in
  forallb dirNamesOk root = true ->
  ScanReturns s root res ->
  (forall P, In P (allPackages res) ->
     Package.RelPath P = "."
     \/ Forall (fun seg => ~ excludedName seg)
          (strings.Split (Package.RelPath P) filepath.Separator))
  /\ (forall res', ScanReturns s (prune s root) res' <-> ScanReturns s root res')
  /\ Scan s (prune s root) = Scan s root.
Proof.
  intros s Hok Hres. split; [|split].
  - intros P HP.
    destruct (package_relPath s root res P Hres HP) as (v & Hv & ->).
    apply visits_spec in Hv as (entries & Hr & _).
    pose proof (reached_below s root _ _ _ Hr) as Hskip.
    destruct (reached_names s root _ _ _ Hok Hr) as [_ Hnames].
    unfold relDirOf, Rel. destruct (below v) as [|e bl] eqn:E; [by left|].
    destruct (String.eqb_spec (strings.Join (e :: bl) "/") ""); [by left|].
    right. rewrite Split_Join by done.
    eapply Forall_impl; [exact Hskip|]. intros seg Hseg Hex.
    apply (skipDir_excluded repoPath) in Hex. unfold s in Hseg. congruence.
  - intros res'. unfold ScanReturns. by rewrite walked_prune.
  - unfold Scan. by rewrite walked_prune.
Qed.

(** In [repo_nested] the Go files below [vendor], [bazel-cache] and [.git]
    are left out: one package, [svc], with one source file. *)
Lemma excluded_directories_hold_no_packages_witness :
  let s := NewScanner "/repo" in
  let res := Scan s repo_nested in
  ScanResult.GoPackages res = [Package.mk "/repo/svc" "svc" LangGo false false 1 0 0 0 0]
  /\ (forall P, In P (allPackages res) ->
     Package.RelPath P = "."
     \/ Forall (fun seg => ~ excludedName seg)
          (strings.Split (Package.RelPath P) filepath.Separator))
  /\ (forall res', ScanReturns s (prune s repo_nested) res' <-> ScanReturns s repo_nested res')
  /\ Scan s (prune s repo_nested) = Scan s repo_nested.
Proof.
  intros s res. split; [vm_compute; reflexivity|].
  apply (excluded_directories_hold_no_packages "/repo" repo_nested res).
  - vm_compute. reflexivity.
  - apply Scan_returns.
Defined.

(** The package of the repository root has the relative path [.], whose
    one segment starts with a dot. *)
Lemma root_package_path_is_dot :
  let s := NewScanner "/repo" in
  let root := [fs.File "main.go" (fs.Bytes "")] in
  let res := Scan s root in
  forallb dirNamesOk root = true
  /\ ScanReturns s root res
  /\ exists P, In P (allPackages res)
               /\ Exists (fun seg => strings.HasPrefix seg "." = true)
                    (strings.Split (Package.RelPath P) filepath.Separator).
Proof.
  intros s root res. split; [vm_compute; reflexivity|]. split; [apply Scan_returns|].
  exists (Package.mk "/repo" "." LangGo false false 1 0 0 0 0).
  split; [vm_compute; left; reflexivity|]. vm_compute. left. reflexivity.
Qed.

(** *** C3: counting rule invocations *)

(** C3, as the program has it: for a BUILD file made of the lines
    [load("@rules")], [go_test(] and an indented [go_test(],
    [parseBuildFile] returns a Go test count of 2; for a file whose one
    line is [# go_test(], with or without a line end or leading blanks, it
    returns 0: the pattern asks for the rule name after nothing but white
    space from the start of the line, and no match of it starts at a
    comment sign. *)
Theorem rule_lines_counted_comment_lines_not (repoPath : string) :
  goTestCount repoPath manifest_two_tests = (Some 2, None)
  /\ goTestCount repoPath "# go_test(" = (Some 0, None)
  /\ goTestCount repoPath ("# go_test(" +:+ newline) = (Some 0, None)
  /\ goTestCount repoPath ("  # go_test(" +:+ newline) = (Some 0, None)
  /\ (forall prev rest,
        regexp.matchHere (Scanner.goTestRegex (NewScanner repoPath)) prev
          (String "#"%char rest) = None).
Proof.
  split; [vm_compute; reflexivity|]. split; [vm_compute; reflexivity|].
  split; [vm_compute; reflexivity|]. split; [vm_compute; reflexivity|].
  intros prev rest. simpl. destruct (regexp.atLineStart prev); reflexivity.
Qed.

(** The one line [# go_test(] gives a count of 0, not of 1. *)
Lemma commented_rule_is_not_counted :
  goTestCount "/repo" "# go_test(" = (Some 0, None)
  /\ goTestCount "/repo" "# go_test(" <> (Some 1, None).
Proof. split; [vm_compute; reflexivity|]. vm_compute. discriminate. Qed.

Lemma countIf_mono {A} (f g : A -> bool) l :
  (forall a, f a = true -> g a = true) -> countIf f l <= countIf g l.
Proof.
  intros H. induction l as [|a l IH]; [reflexivity|].
  rewrite !countIf_cons. destruct (f a) eqn:E.
  - rewrite (H a E). lia.
  - destruct (g a); lia.
Qed.

(** *** The fields of a language summary *)

Lemma calculateLanguageSummary_fields lang packages :
  let s := calculateLanguageSummary lang packages in
  let total := Z.of_nat (length packages) in
  let withBuild := countIf Package.HasBuildFile packages in
  let withTests := countIf Package.HasTestFiles packages in
  LanguageSummary.Language s = lang
  /\ LanguageSummary.TotalPackages s = total
  /\ LanguageSummary.PackagesWithBuild s = withBuild
  /\ LanguageSummary.PackagesWithTests s = withTests
  /\ LanguageSummary.BazelizationPct s
     = (if 0 <? total then percent withBuild total else Float64.zero)
  /\ LanguageSummary.TestCoveragePct s
     = (if 0 <? total then percent withTests total else Float64.zero)
  /\ LanguageSummary.BazelizedTestsPct s
     = (if 0 <? withTests
        then percent (countIf hasBazelizedTests packages) withTests
        else Float64.zero).
Proof.
  intros s total withBuild withTests. unfold s, calculateLanguageSummary.
  destruct (countPackage_fold
              (LanguageSummary.mk lang Float64.zero Float64.zero Float64.zero
                 (Z.of_nat (length packages)) 0 0 0 0 0) packages)
    as (H1 & H2 & H3 & H4 & H5 & H6 & H7).
  set (s0 := foldl countPackage _ packages) in *.
  simpl in H1, H2, H3, H4, H5, H6, H7.
  rewrite packagesWithBazelizedTests_count.
  rewrite Z.add_0_l in H6, H7.
  fold total in H5. fold withBuild in H6. fold withTests in H7.
  rewrite H5, H6, H7.
  destruct (0 <? total); simpl; rewrite ?H7;
    destruct (0 <? withTests); simpl;
    rewrite ?H1, ?H2, ?H3, ?H4, ?H5, ?H6, ?H7; repeat split; reflexivity.
Qed.

(** *** C1: the bazelized-tests percentage *)

(** C1: for every language, the bazelized-tests percentage of
    [calculateLanguageSummary] is, in binary64 arithmetic, 100 times the
    quotient of [n], the number of packages with [HasTestFiles] true and a
    test-target count above 0, by [d], the number of packages with
    [HasTestFiles] true, and it is 0 when [d] is 0.  Every package counted
    in [n] is counted in [d], and a package without test files changes
    nothing in [n], whatever its test-target count. *)
Theorem bazelized_tests_percentage (lang : string) (packages : list Package.t) :
  let n := countIf hasBazelizedTests packages in
  let d := countIf Package.HasTestFiles packages in
  LanguageSummary.BazelizedTestsPct (calculateLanguageSummary lang packages)
  = (if d =? 0 then Float64.zero
     else PrimFloat.mul 100 (PrimFloat.div (Float64.of_int n) (Float64.of_int d)))
  /\ packagesWithBazelizedTests packages = n
  /\ LanguageSummary.PackagesWithTests (calculateLanguageSummary lang packages) = d
  /\ (forall p, hasBazelizedTests p = true -> Package.HasTestFiles p = true)
  /\ n <= d
  /\ (forall p l1 l2,
        Package.HasTestFiles p = false ->
        packagesWithBazelizedTests (l1 ++ p :: l2)
        = packagesWithBazelizedTests (l1 ++ l2)).
Proof.
  intros n d.
  destruct (calculateLanguageSummary_fields lang packages)
    as (_ & _ & _ & H4 & _ & _ & H7).
  pose proof (countIf_nonneg Package.HasTestFiles packages) as Hd.
  assert (Hsub : forall p, hasBazelizedTests p = true -> Package.HasTestFiles p = true).
  { intros p. unfold hasBazelizedTests. by intros [? _]%andb_true_iff. }
  split; [|split; [|split; [|split; [|split]]]].
  - rewrite H7. fold n. fold d. fold d in Hd.
    destruct (Z.eqb_spec d 0) as [Hz|Hne].
    + rewrite Hz. reflexivity.
    + assert ((0 <? d) = true) as -> by (apply Z.ltb_lt; lia).
      unfold percent. apply Float64Facts.mul_comm.
  - apply packagesWithBazelizedTests_count.
  - exact H4.
  - exact Hsub.
  - by apply countIf_mono.
  - intros p l1 l2 Hp.
    rewrite !packagesWithBazelizedTests_count, !countIf_app, countIf_cons.
    unfold hasBazelizedTests at 2. rewrite Hp. simpl. lia.
Qed.

(** *** C6: the order of the directory breakdown *)

(** C6, as the program has it: the directory breakdown holds the entries
    of the grouping map, sorted by [TotalPackages] in descending order, and
    the comparison has no second key: it leaves entries with equal totals
    unordered.  [sort.Slice] is not a stable sort.  For at most 12 entries
    the library sorts by insertion: the run returns, its result is sorted,
    and entries with equal totals keep the order in which the loop over the
    map met them. *)
Theorem breakdown_sorted_descending
  (packages : list Package.t) (encounter : list DirectoryMetrics.t) :
  encounter ≡ₚ (map_to_list (foldl groupPackage ∅ packages)).*2 ->
  (forall result,
     breakdownRun packages encounter result ->
     descending result /\ result ≡ₚ withPercentages <$> encounter)
  /\ (forall a b,
        DirectoryMetrics.TotalPackages a = DirectoryMetrics.TotalPackages b ->
        lessTotal a b = false /\ lessTotal b a = false)
  /\ ((length encounter <= 12)%nat ->
      exists result,
        breakdownRun_func packages encounter result
        /\ breakdownRun packages encounter result
        /\ tiesKeepOrder encounter result).
Proof.
  intros Henc. split; [|split].
  - intros result [_ Hsort]. apply Slice_lessTotal in Hsort as [Hperm Hdesc].
    split; [exact Hdesc|by symmetry].
  - intros a b Hab. unfold lessTotal. rewrite Hab, Z.ltb_irrefl. done.
  - intros Hlen. exists (insertionSorted lessTotal (withPercentages <$> encounter)).
    split; [|split].
    + split; [exact Henc|]. apply Slice_func_short. by rewrite length_fmap.
    + split; [exact Henc|]. apply Slice_lessTotal. split.
      * symmetry. apply insertionSorted_Permutation.
      * apply insertionSorted_descending.
    + intros k. apply insertionSorted_tied.
Qed.

(** Two directories with one package each, met by the loop over the map in
    the order [b], [a]: the sort leaves them in this order. *)
Lemma breakdown_sorted_descending_witness :
  [entry_b; entry_a] ≡ₚ (map_to_list (foldl groupPackage ∅ [pkg_a; pkg_b])).*2
  /\ sort.Slice_func lessTotal (withPercentages <$> [entry_b; entry_a])
     = Some [entry_b; entry_a]
  /\ (forall result,
        breakdownRun [pkg_a; pkg_b] [entry_b; entry_a] result ->
        descending result /\ result ≡ₚ withPercentages <$> [entry_b; entry_a])
  /\ (forall a b,
        DirectoryMetrics.TotalPackages a = DirectoryMetrics.TotalPackages b ->
        lessTotal a b = false /\ lessTotal b a = false)
  /\ exists result,
       breakdownRun_func [pkg_a; pkg_b] [entry_b; entry_a] result
       /\ breakdownRun [pkg_a; pkg_b] [entry_b; entry_a] result
       /\ tiesKeepOrder [entry_b; entry_a] result.
Proof.
  assert (Henc : [entry_b; entry_a]
                 ≡ₚ (map_to_list (foldl groupPackage ∅ [pkg_a; pkg_b])).*2).
  { vm_compute. apply perm_swap. }
  destruct (breakdown_sorted_descending [pkg_a; pkg_b] [entry_b; entry_a] Henc)
    as (H1 & H2 & H3).
  split; [exact Henc|]. split; [vm_compute; reflexivity|].
  split; [exact H1|]. split; [exact H2|].
  apply H3. simpl. lia.
Defined.

(** Every order in which the loop over the map can meet the thirteen
    directories: the entries are determined by their names. *)
Lemma thirteen_names encounter :
  encounter ≡ₚ (map_to_list (foldl groupPackage ∅ packages_thirteen)).*2 ->
  encounter = entryNamed <$> (DirectoryMetrics.Name <$> encounter)
  /\ DirectoryMetrics.Name <$> encounter ≡ₚ names_thirteen.
Proof.
  intros Hperm. split.
  - rewrite <- list_fmap_compose.
    rewrite <- (list_fmap_id encounter) at 1.
    apply Forall_fmap_ext_1. rewrite Hperm.
    vm_compute. repeat constructor.
  - rewrite Hperm. vm_compute. solve_Permutation.
Qed.

Lemma other_name (ns : list string) p j n :
  NoDup ns -> ns !! p = Some "m" -> j <> p -> ns !! j = Some n ->
  String.eqb n "m" = false.
Proof.
  intros Hnd Hp Hj Hn. apply String.eqb_neq. intros ->.
  apply Hj. by apply (NoDup_lookup ns j p "m").
Qed.

(** The name at the place 0 also stands at the place [j]. *)
Ltac twice Hnd j :=
  exfalso;
  let H := fresh in
  pose proof (NoDup_lookup _ 0%nat j _ Hnd eq_refl eq_refl) as H;
  discriminate H.

(** Unless the entry of [m] is met first, the library's sort changes the
    order of the entries of one package. *)
Lemma thirteen_ties_reordered ns result :
  ns ≡ₚ names_thirteen -> ns !! 0%nat <> Some "m" ->
  sort.Slice_func lessTotal (withPercentages <$> (entryNamed <$> ns)) = Some result ->
  tied 1 result <> tied 1 (withPercentages <$> (entryNamed <$> ns)).
Proof.
  intros Hperm Hfirst Hrun.
  assert (Hnd : NoDup ns).
  { rewrite Hperm. apply (bool_decide_unpack (NoDup names_thirteen)).
    vm_compute. exact I. }
  assert (Hm : "m" ∈ ns).
  { rewrite Hperm. apply (bool_decide_unpack ("m" ∈ names_thirteen)).
    vm_compute. exact I. }
  pose proof (Permutation_length Hperm) as Hlen.
  do 13 (destruct ns as [|? ns]; [discriminate Hlen|]).
  destruct ns; [|discriminate Hlen]. clear Hlen Hperm.
  apply list_elem_of_lookup in Hm as [p Hp].
  destruct p as [|p]; [by rewrite Hp in Hfirst|]. clear Hfirst.
  cbn [fmap list_fmap] in *. unfold entryNamed in *.
  do 12 (destruct p as [|p];
    [ match type of Hp with
      | ?l !! ?q = _ => pose proof (fun j n => other_name l q j n Hnd Hp) as Hne
      end;
      injection Hp as ->;
      rewrite ?(Hne 0%nat _ ltac:(lia) eq_refl), ?(Hne 1%nat _ ltac:(lia) eq_refl),
        ?(Hne 2%nat _ ltac:(lia) eq_refl), ?(Hne 3%nat _ ltac:(lia) eq_refl),
        ?(Hne 4%nat _ ltac:(lia) eq_refl), ?(Hne 5%nat _ ltac:(lia) eq_refl),
        ?(Hne 6%nat _ ltac:(lia) eq_refl), ?(Hne 7%nat _ ltac:(lia) eq_refl),
        ?(Hne 8%nat _ ltac:(lia) eq_refl), ?(Hne 9%nat _ ltac:(lia) eq_refl),
        ?(Hne 10%nat _ ltac:(lia) eq_refl), ?(Hne 11%nat _ ltac:(lia) eq_refl),
        ?(Hne 12%nat _ ltac:(lia) eq_refl) in *;
      clear Hne;
      vm_compute in Hrun; injection Hrun as <-;
      vm_compute; intros Heq; injection Heq; intros; subst;
      first [ twice Hnd 1%nat | twice Hnd 2%nat | twice Hnd 3%nat | twice Hnd 4%nat
            | twice Hnd 5%nat | twice Hnd 6%nat | twice Hnd 7%nat | twice Hnd 8%nat
            | twice Hnd 9%nat | twice Hnd 10%nat | twice Hnd 11%nat | twice Hnd 12%nat ]
    |]).
  destruct p; discriminate Hp.
Qed.

(** Thirteen directories: the loop over the map meets the twelve with one
    package in the order of their names and then the one with two.  The
    library's sort moves the last entry to the front by a partition around
    the entry of [g], which leaves [g] before and [b] behind the other
    entries of one package: entries with equal totals have changed places.
    So it is in whichever order the loop meets the thirteen, unless it
    meets the entry of two packages first. *)
Lemma ties_reordered_among_thirteen_groups :
  breakdownRun_func packages_thirteen encounter_thirteen result_thirteen
  /\ breakdownRun packages_thirteen encounter_thirteen result_thirteen
  /\ tied 1 (withPercentages <$> encounter_thirteen)
     = entryNamed <$> ["a"; "b"; "c"; "d"; "e"; "f"; "g"; "h"; "i"; "j"; "k"; "l"]
  /\ tied 1 result_thirteen
     = entryNamed <$> ["g"; "c"; "d"; "e"; "f"; "a"; "h"; "i"; "j"; "k"; "l"; "b"]
  /\ ~ tiesKeepOrder encounter_thirteen result_thirteen
  /\ (forall encounter result,
        breakdownRun_func packages_thirteen encounter result ->
        encounter !! 0%nat <> Some (entryNamed "m") ->
        ~ tiesKeepOrder encounter result).
Proof.
  assert (Henc : encounter_thirteen
                 ≡ₚ (map_to_list (foldl groupPackage ∅ packages_thirteen)).*2).
  { vm_compute. solve_Permutation. }
  assert (Hrun : sort.Slice_func lessTotal (withPercentages <$> encounter_thirteen)
                 = Some result_thirteen) by (vm_compute; reflexivity).
  split; [split; [exact Henc|exact Hrun]|].
  split.
  { split; [exact Henc|]. apply Slice_lessTotal. split.
    - vm_compute. solve_Permutation.
    - repeat constructor; vm_compute; discriminate. }
  split; [vm_compute; reflexivity|]. split; [vm_compute; reflexivity|].
  split.
  { intros Hties. specialize (Hties 1). vm_compute in Hties. discriminate Hties. }
  intros encounter result [Hperm Hsort] Hfirst Hties.
  destruct (thirteen_names encounter Hperm) as [Heq Hnames].
  set (ns := DirectoryMetrics.Name <$> encounter) in *. clearbody ns. subst encounter.
  apply (thirteen_ties_reordered ns result Hnames); [|exact Hsort|exact (Hties 1)].
  intros H0. apply Hfirst. by rewrite list_lookup_fmap, H0.
Qed.

(** *** C8: the breakdown covers the Go packages *)

Lemma calculateLanguages_go now res :
  Report.LanguageSummaries (calculateLanguages now res) !! "go"
  = match ScanResult.GoPackages res with
    | [] => None
    | _ => Some (calculateLanguageSummary "go" (ScanResult.GoPackages res))
    end.
Proof.
  unfold calculateLanguages, calculateRust, calculatePython, calculateGo.
  destruct (ScanResult.GoPackages res), (ScanResult.PythonPackages res),
    (ScanResult.RustPackages res); simpl;
    rewrite ?lookup_insert_ne by done; rewrite ?lookup_insert_eq, ?lookup_empty;
    reflexivity.
Qed.

Lemma breakdownRun_entries packages encounter result dm :
  breakdownRun packages encounter result -> In dm result ->
  exists dm0,
    groups packages !! DirectoryMetrics.Name dm0 = Some dm0
    /\ dm = withPercentages dm0.
Proof.
  intros [Henc [Hperm _]] Hin.
  apply (Permutation_in _ (Permutation_sym Hperm)) in Hin.
  apply list_elem_of_In, list_elem_of_fmap in Hin as (dm0 & -> & Hin).
  rewrite Henc in Hin. apply list_elem_of_fmap in Hin as ([k dm1] & -> & Hin).
  apply elem_of_map_to_list in Hin. exists dm1. split; [|done]. simpl.
  fold (groups packages) in Hin.
  destruct (groups_lookup packages k dm1 Hin) as (_ & -> & _). done.
Qed.

(** C8: the [TotalPackages] fields of the directory breakdown of a report
    add up to the number of Go packages of the scan, which is the
    [TotalPackages] of the Go summary.  The entries partition the Go
    packages: each entry counts the packages whose first path segment,
    [(root)] for the repository root, is the entry's name, every package
    has an entry, and no two entries share a name. *)
Theorem breakdown_partitions_go_packages
  (now : string) (scanResult : ScanResult.t) (report : Report.t) :
  CalculateReturns now scanResult report ->
  let packages := ScanResult.GoPackages scanResult in
  sumTotals (Report.DirectoryBreakdown report) = Z.of_nat (length packages)
  /\ LanguageSummary.TotalPackages (calculateLanguageSummary "go" packages)
     = Z.of_nat (length packages)
  /\ (forall summary,
        Report.LanguageSummaries report !! "go" = Some summary ->
        sumTotals (Report.DirectoryBreakdown report)
        = LanguageSummary.TotalPackages summary)
  /\ (forall dm, In dm (Report.DirectoryBreakdown report) ->
        DirectoryMetrics.TotalPackages dm
        = Z.of_nat (length (members (DirectoryMetrics.Name dm) packages)))
  /\ (forall p, In p packages ->
        exists dm, In dm (Report.DirectoryBreakdown report)
                   /\ DirectoryMetrics.Name dm = topDir p)
  /\ NoDup (DirectoryMetrics.Name <$> Report.DirectoryBreakdown report).
Proof.
  intros (bd & (enc & Hrun) & ->) packages. simpl Report.DirectoryBreakdown.
  pose proof (breakdownRun_sum _ _ _ Hrun) as Hsum. fold packages in Hsum.
  destruct (calculateLanguageSummary_fields "go" packages) as (_ & Htot & _).
  split; [exact Hsum|]. split; [exact Htot|]. split; [|split; [|split]].
  - intros summary. simpl Report.LanguageSummaries. rewrite calculateLanguages_go.
    fold packages. destruct packages; [discriminate|]. intros [= <-].
    by rewrite Hsum, Htot.
  - intros dm Hin.
    destruct (breakdownRun_entries _ _ _ dm Hrun Hin) as (dm0 & Hdm0 & ->).
    destruct (groups_lookup _ _ _ Hdm0) as (_ & _ & Ht & _).
    rewrite withPercentages_TotalPackages, Ht.
    unfold withPercentages. destruct (0 <? _); reflexivity.
  - intros p Hp. destruct (groups_lookup_Some packages p Hp) as [dm0 Hdm0].
    exists (withPercentages dm0).
    destruct (groups_lookup _ _ _ Hdm0) as (_ & Hname & _).
    split.
    + destruct Hrun as [Henc [Hperm _]]. apply (Permutation_in _ Hperm).
      apply list_elem_of_In, list_elem_of_fmap. exists dm0. split; [done|].
      rewrite Henc. apply list_elem_of_fmap. exists (topDir p, dm0). split; [done|].
      by apply elem_of_map_to_list.
    + rewrite <- Hname. unfold withPercentages. destruct (0 <? _); reflexivity.
  - destruct Hrun as [Henc [Hperm _]]. rewrite <- Hperm, Henc.
    assert (Hkeys : (DirectoryMetrics.Name <$>
                       (withPercentages <$>
                          (map_to_list (foldl groupPackage ∅ packages)).*2))
                    = (map_to_list (foldl groupPackage ∅ packages)).*1).
    { rewrite <- !list_fmap_compose. apply list_fmap_ext.
      intros i [k dm0] Hl. simpl.
      apply list_elem_of_lookup_2, elem_of_map_to_list in Hl.
      destruct (groups_lookup _ _ _ Hl) as (_ & Hname & _).
      rewrite <- Hname. unfold withPercentages. destruct (0 <? _); reflexivity. }
    fold packages. rewrite Hkeys. apply NoDup_fst_map_to_list.
Qed.

(** In [repo_breakdown] the five Go packages fall into three groups, of
    3, 1 and 1 packages. *)
Lemma breakdown_partitions_go_packages_witness :
  let res := Scan (NewScanner "/repo") repo_breakdown in
  let report := Calculate "2026-01-01T00:00:00Z" res in
  let packages := ScanResult.GoPackages res in
  (CalculateReturns "2026-01-01T00:00:00Z" res report
   /\ Z.of_nat (length packages) = 5
   /\ DirectoryMetrics.Name <$> Report.DirectoryBreakdown report = ["svc"; "(root)"; "lib"]
   /\ DirectoryMetrics.TotalPackages <$> Report.DirectoryBreakdown report = [3; 1; 1])
  /\ sumTotals (Report.DirectoryBreakdown report) = Z.of_nat (length packages)
  /\ LanguageSummary.TotalPackages (calculateLanguageSummary "go" packages)
     = Z.of_nat (length packages)
  /\ (forall summary,
        Report.LanguageSummaries report !! "go" = Some summary ->
        sumTotals (Report.DirectoryBreakdown report)
        = LanguageSummary.TotalPackages summary)
  /\ (forall dm, In dm (Report.DirectoryBreakdown report) ->
        DirectoryMetrics.TotalPackages dm
        = Z.of_nat (length (members (DirectoryMetrics.Name dm) packages)))
  /\ (forall p, In p packages ->
        exists dm, In dm (Report.DirectoryBreakdown report)
                   /\ DirectoryMetrics.Name dm = topDir p)
  /\ NoDup (DirectoryMetrics.Name <$> Report.DirectoryBreakdown report).
Proof.
  intros res report packages. split.
  - split; [apply Calculate_returns|]. vm_compute. repeat split; reflexivity.
  - exact (breakdown_partitions_go_packages "2026-01-01T00:00:00Z" res report
             (Calculate_returns "2026-01-01T00:00:00Z" res)).
Defined.

(** *** C4: the percentages *)

Lemma inRange_zero : inRange Float64.zero.
Proof. repeat split; reflexivity. Qed.

Lemma percentageOf_guarded (count total : Z) :
  0 <= count <= total -> total < 2 ^ 53 ->
  percentageOf (if 0 <? total then percent count total else Float64.zero) count total.
Proof.
  intros Hc Ht. split; [exact Hc|].
  destruct (Z.ltb_spec 0 total) as [Hpos|Hzero].
  - destruct (percent_range count total) as [H1 H2]; [lia..|].
    split; [|split].
    + split; [exact H1|]. split; [exact H2|]. apply percent_not_nan; lia.
    + intros _. unfold percent. apply Float64Facts.mul_comm.
    + lia.
  - split; [apply inRange_zero|]. split; [lia|reflexivity].
Qed.

(** The quotient is rounded, and then the product: 7 of 25 come out a
    little above 28, which is the value of 100 times 7, divided by 25. *)
Remark percent_rounds_twice :
  PrimFloat.ltb 28 (percent 7 25) = true
  /\ PrimFloat.eqb (PrimFloat.div (PrimFloat.mul 100 (Float64.of_int 7)) (Float64.of_int 25))
       28 = true.
Proof. split; vm_compute; reflexivity. Qed.

Lemma summary_percentages lang packages :
  Z.of_nat (length packages) < 2 ^ 53 ->
  summaryPercentages (calculateLanguageSummary lang packages).
Proof.
  intros Hlen.
  destruct (calculateLanguageSummary_fields lang packages)
    as (_ & Ht & Hb & Hw & Hbp & Htp & _).
  unfold summaryPercentages. rewrite Ht, Hb, Hw, Hbp, Htp.
  split; apply percentageOf_guarded; try done.
  - split; [apply countIf_nonneg|apply countIf_le_length].
  - split; [apply countIf_nonneg|apply countIf_le_length].
Qed.

Lemma members_length k packages :
  Z.of_nat (length (members k packages)) <= Z.of_nat (length packages).
Proof. unfold members. pose proof (List.filter_length_le (keyed topDir k) packages). lia. Qed.

Lemma entry_percentages packages encounter result dm :
  Z.of_nat (length packages) < 2 ^ 53 ->
  breakdownRun packages encounter result -> In dm result ->
  entryPercentages dm /\ 0 < DirectoryMetrics.TotalPackages dm.
Proof.
  intros Hlen Hrun Hin.
  destruct (breakdownRun_entries _ _ _ dm Hrun Hin) as (dm0 & Hdm0 & ->).
  destruct (groups_lookup _ _ _ Hdm0) as (Hne & _ & Ht & Hb & Hw & Hbp & Htp).
  pose proof (members_length (DirectoryMetrics.Name dm0) packages) as Hml.
  set (ms := members (DirectoryMetrics.Name dm0) packages) in *.
  assert (Hpos : 0 < DirectoryMetrics.TotalPackages dm0).
  { rewrite Ht. destruct ms; [done|]. simpl length. lia. }
  assert (Hcb : 0 <= DirectoryMetrics.BazelizedPackages dm0
                <= DirectoryMetrics.TotalPackages dm0).
  { rewrite Hb, Ht. split; [apply countIf_nonneg|apply countIf_le_length]. }
  assert (Hcw : 0 <= DirectoryMetrics.PackagesWithTests dm0
                <= DirectoryMetrics.TotalPackages dm0).
  { rewrite Hw, Ht. split; [apply countIf_nonneg|apply countIf_le_length]. }
  pose proof (percentageOf_guarded _ _ Hcb ltac:(lia)) as Pb.
  pose proof (percentageOf_guarded _ _ Hcw ltac:(lia)) as Pw.
  unfold entryPercentages, withPercentages.
  destruct (0 <? DirectoryMetrics.TotalPackages dm0) eqn:E.
  - split; [split|]; done.
  - apply Z.ltb_ge in E. lia.
Qed.

Lemma calculateLanguages_lookup now res lang s :
  Report.LanguageSummaries (calculateLanguages now res) !! lang = Some s ->
  exists name packages,
    In (name, packages)
       [("go", ScanResult.GoPackages res); ("python", ScanResult.PythonPackages res);
        ("rust", ScanResult.RustPackages res)]
    /\ lang = name /\ packages <> [] /\ s = calculateLanguageSummary name packages.
Proof.
  unfold calculateLanguages, calculateRust, calculatePython, calculateGo.
  destruct (ScanResult.GoPackages res) as [|g gs] eqn:Eg,
    (ScanResult.PythonPackages res) as [|p ps] eqn:Ep,
    (ScanResult.RustPackages res) as [|r rs] eqn:Er; simpl;
    rewrite ?lookup_insert, ?lookup_empty;
    repeat case_decide; try discriminate; subst; intros [= <-];
    try (exists "go", (g :: gs); simpl; by auto);
    try (exists "python", (p :: ps); simpl; by auto);
    try (exists "rust", (r :: rs); simpl; by auto).
Qed.

(** C4: the bazelization and test-coverage percentages of every language
    summary, and of every entry of the directory breakdown of a report,
    lie between 0 and 100 and are no NaN.  When the total of packages is
    positive they are, in binary64 arithmetic, 100 times the quotient of
    the respective count by the total; when it is 0 they are 0, and no
    division takes place.  The numbers of packages are below 2^53, so that
    their conversion to binary64 is exact. *)
Theorem percentages_between_0_and_100
  (now : string) (scanResult : ScanResult.t) (report : Report.t)
  (lang : string) (packages : list Package.t) :
  Z.of_nat (length packages) < 2 ^ 53 ->
  Z.of_nat (length (ScanResult.GoPackages scanResult)) < 2 ^ 53 ->
  Z.of_nat (length (ScanResult.PythonPackages scanResult)) < 2 ^ 53 ->
  Z.of_nat (length (ScanResult.RustPackages scanResult)) < 2 ^ 53 ->
  CalculateReturns now scanResult report ->
  summaryPercentages (calculateLanguageSummary lang packages)
  /\ LanguageSummary.TotalPackages (calculateLanguageSummary lang packages)
     = Z.of_nat (length packages)
  /\ LanguageSummary.PackagesWithBuild (calculateLanguageSummary lang packages)
     = countIf Package.HasBuildFile packages
  /\ LanguageSummary.PackagesWithTests (calculateLanguageSummary lang packages)
     = countIf Package.HasTestFiles packages
  /\ (forall l s, Report.LanguageSummaries report !! l = Some s -> summaryPercentages s)
  /\ (forall dm, In dm (Report.DirectoryBreakdown report) ->
        entryPercentages dm /\ 0 < DirectoryMetrics.TotalPackages dm).
Proof.
  intros Hlen Hgo Hpy Hru (bd & (enc & Hrun) & ->).
  destruct (calculateLanguageSummary_fields lang packages) as (_ & Ht & Hb & Hw & _).
  split; [by apply summary_percentages|]. split; [exact Ht|]. split; [exact Hb|].
  split; [exact Hw|]. split.
  - intros l s Hl. simpl in Hl.
    apply calculateLanguages_lookup in Hl as (name & pk & Hin & -> & _ & ->).
    apply summary_percentages. simpl in Hin.
    destruct Hin as [[= <- <-]|[[= <- <-]|[[= <- <-]|[]]]]; done.
  - intros dm Hin. simpl in Hin. exact (entry_percentages _ _ _ _ Hgo Hrun Hin).
Qed.

(** In [repo_breakdown] one Go package of five has a BUILD file: 20 per
    cent; below [svc] it is one of three. *)
Lemma percentages_between_0_and_100_witness :
  let now := "2026-01-01T00:00:00Z" in
  let res := Scan (NewScanner "/repo") repo_breakdown in
  let report := Calculate now res in
  let packages := ScanResult.GoPackages res in
  (Z.of_nat (length packages) < 2 ^ 53
   /\ Z.of_nat (length (ScanResult.PythonPackages res)) < 2 ^ 53
   /\ Z.of_nat (length (ScanResult.RustPackages res)) < 2 ^ 53
   /\ CalculateReturns now res report
   /\ LanguageSummary.BazelizationPct (calculateLanguageSummary "go" packages) = 20%float
   /\ DirectoryMetrics.BazelizationPct <$> Report.DirectoryBreakdown report
      = [percent 1 3; Float64.zero; Float64.zero])
  /\ summaryPercentages (calculateLanguageSummary "go" packages)
  /\ LanguageSummary.TotalPackages (calculateLanguageSummary "go" packages)
     = Z.of_nat (length packages)
  /\ LanguageSummary.PackagesWithBuild (calculateLanguageSummary "go" packages)
     = countIf Package.HasBuildFile packages
  /\ LanguageSummary.PackagesWithTests (calculateLanguageSummary "go" packages)
     = countIf Package.HasTestFiles packages
  /\ (forall l s, Report.LanguageSummaries report !! l = Some s -> summaryPercentages s)
  /\ (forall dm, In dm (Report.DirectoryBreakdown report) ->
        entryPercentages dm /\ 0 < DirectoryMetrics.TotalPackages dm).
Proof.
  intros now res report packages.
  assert (Hgo : Z.of_nat (length packages) < 2 ^ 53) by (vm_compute; reflexivity).
  assert (Hpy : Z.of_nat (length (ScanResult.PythonPackages res)) < 2 ^ 53)
    by (vm_compute; reflexivity).
  assert (Hru : Z.of_nat (length (ScanResult.RustPackages res)) < 2 ^ 53)
    by (vm_compute; reflexivity).
  split.
  - split; [exact Hgo|]. split; [exact Hpy|]. split; [exact Hru|].
    split; [apply Calculate_returns|]. vm_compute. split; reflexivity.
  - exact (percentages_between_0_and_100 now res report "go" packages
             Hgo Hgo Hpy Hru (Calculate_returns now res)).
Defined.

(** * The scanner: what every scan keeps *)

(** *** What every package of a scan satisfies *)

Lemma countIf_sel_split sel test (vs : list visit) :
  countIf (selSource sel test) vs + countIf (selTest sel test) vs = countIf sel vs.
Proof.
  induction vs as [|v vs IH]; [reflexivity|].
  rewrite !countIf_cons, <- IH. unfold selSource, selTest.
  destruct (sel v), (test v); simpl; lia.
Qed.

Lemma countIf_pos {A} (f : A -> bool) l a :
  In a l -> f a = true -> 1 <= countIf f l.
Proof.
  intros Hin Hf. apply in_split in Hin as (l1 & l2 & ->).
  rewrite countIf_app, countIf_cons, Hf.
  pose proof (countIf_nonneg f l1). pose proof (countIf_nonneg f l2). lia.
Qed.

Lemma countAll_nonneg p text : 0 <= regexp.countAll p text.
Proof. unfold regexp.countAll. lia. Qed.

Lemma parsed_nonneg s v t :
  parsed s v = Some t ->
  0 <= buildTargets.goTests t /\ 0 <= buildTargets.goLibs t /\ 0 <= buildTargets.goBins t
  /\ 0 <= buildTargets.pyTests t /\ 0 <= buildTargets.pyLibs t /\ 0 <= buildTargets.pyBins t
  /\ 0 <= buildTargets.rustTests t /\ 0 <= buildTargets.rustLibs t
  /\ 0 <= buildTargets.rustBins t.
Proof.
  unfold parsed, parseBuildFile.
  destruct (content v) as [|data|data]; [discriminate| |];
    destruct (bufio.scanLines "" 0 data) as [lines [|]]; try discriminate;
    intros [= <-]; simpl; repeat split; apply countAll_nonneg.
Qed.

Lemma targetsOf_Some s root P t :
  targetsOf s root P = Some t ->
  existsb isManifest (filesOf s root P) = true
  /\ exists v, parsed s v = Some t.
Proof.
  unfold targetsOf. intros H. apply tgtStep_fold_Some in H as (v & Hin & Hm & Hp).
  split; [|eauto]. apply existsb_In. eauto.
Qed.

Lemma describes_wellCounted s root sel test lang tests libs bins P :
  (forall v t, parsed s v = Some t -> 0 <= tests t /\ 0 <= libs t /\ 0 <= bins t) ->
  describes s root sel test lang tests libs bins P -> wellCounted P.
Proof.
  intros Hnn ((v0 & Hv0 & Hsel & _) & _ & Hb & Hsf & Htf & Hht & Htt & Hl & Hbi).
  pose proof (countIf_nonneg (selSource sel test) (filesOf s root P)) as N1.
  pose proof (countIf_nonneg (selTest sel test) (filesOf s root P)) as N2.
  pose proof (countIf_sel_split sel test (filesOf s root P)) as Hsum.
  pose proof (countIf_pos sel _ _ Hv0 Hsel) as Hpos.
  unfold wellCounted. rewrite Hht, Hsf, Htf, Htt, Hl, Hbi, Hb.
  split; [apply Z.ltb_lt|]. split; [done|]. split; [done|]. split; [lia|].
  destruct (targetsOf s root P) as [t|] eqn:E; simpl.
  - apply targetsOf_Some in E as (Hex & v & Hv). destruct (Hnn v t Hv) as (? & ? & ?).
    repeat split; try lia. done.
  - repeat split; lia.
Qed.

Lemma creditTests_wellCounted P0 : wellCounted P0 -> wellCounted (creditTests P0).
Proof.
  unfold creditTests, wellCounted.
  destruct (0 <? Package.TestTargetCount P0) eqn:E; [|done].
  apply Z.ltb_lt in E. simpl. intros (H1 & H2 & H3 & H4 & H5 & H6 & H7 & H8).
  repeat split; try lia; try done.
Qed.

Lemma package_wellCounted s root res P :
  ScanReturns s root res -> In P (allPackages res) -> wellCounted P.
Proof.
  intros Hres Hin. unfold allPackages in Hin. rewrite !in_app_iff in Hin.
  destruct Hin as [Hin|[Hin|Hin]].
  - eapply describes_wellCounted; [|by eapply go_package].
    intros v t Hp. destruct (parsed_nonneg s v t Hp) as (?&?&?&?&?&?&?&?&?). done.
  - eapply describes_wellCounted; [|by eapply python_package].
    intros v t Hp. destruct (parsed_nonneg s v t Hp) as (?&?&?&?&?&?&?&?&?). done.
  - destruct (rust_package s root res P Hres Hin) as (P0 & HP0 & _ & ->).
    assert (wellCounted P0) as HW.
    { eapply describes_wellCounted; [|exact HP0].
      intros v t Hp. destruct (parsed_nonneg s v t Hp) as (?&?&?&?&?&?&?&?&?). done. }
    destruct (targetsOf s root P0); [by apply creditTests_wellCounted|done].
Qed.

(** *** The totals of a scan are the sums over its packages *)

Lemma sumZ_cons {A} (f : A -> Z) a l : sumZ f (a :: l) = f a + sumZ f l.
Proof. reflexivity. Qed.

Lemma sumZ_omap {A B} (f : B -> Z) (g : A -> option B) l :
  sumZ f (omap g l) = sumZ (fun a => sumZ f (option_list (g a))) l.
Proof.
  induction l as [|a l IH]; [reflexivity|].
  rewrite sumZ_cons, <- IH.
  change (omap g (a :: l))
    with (match g a with Some y => y :: omap g l | None => omap g l end).
  destruct (g a) as [b|]; rewrite ?sumZ_cons.
  - change (sumZ f (option_list (Some b))) with (f b + 0). lia.
  - change (sumZ f (option_list None)) with 0. lia.
Qed.

Lemma sumZ_ext_In {A} (f g : A -> Z) l :
  (forall a, In a l -> f a = g a) -> sumZ f l = sumZ g l.
Proof.
  induction l as [|a l IH]; intros H; [reflexivity|].
  rewrite !sumZ_cons, (H a), IH; [done| |by left]. intros; apply H; by right.
Qed.

Lemma sumZ_countIf {A} (f : A -> bool) l :
  sumZ (fun a => if f a then 1 else 0) l = countIf f l.
Proof.
  induction l as [|a l IH]; [reflexivity|]. by rewrite sumZ_cons, countIf_cons, IH.
Qed.

Section keyed_sums.
Context {A V : Type} (key : A -> string) (init : A -> V) (step : V -> A -> V).
Context (mu : V -> Z) (w : A -> Z).
Hypothesis mu_init : forall a, mu (init a) = 0.
Hypothesis mu_step : forall v a, mu (step v a) = mu v + w a.

Lemma sumZ_insert (m : gmap string V) k x :
  m !! k = None ->
  sumZ mu (map_to_list (<[k:=x]> m)).*2 = mu x + sumZ mu (map_to_list m).*2.
Proof.
  intros H.
  by rewrite (sumZ_perm mu _ _ (fmap_Permutation snd _ _ (map_to_list_insert m k x H))).
Qed.

Lemma sumZ_lookup (m : gmap string V) k x :
  m !! k = Some x ->
  sumZ mu (map_to_list m).*2 = mu x + sumZ mu (map_to_list (delete k m)).*2.
Proof.
  intros H.
  by rewrite <- (sumZ_perm mu _ _ (fmap_Permutation snd _ _ (map_to_list_delete m k x H))).
Qed.

Lemma keyed_sum_upd (m : gmap string V) a :
  sumZ mu (map_to_list (upd key init step m a)).*2
  = sumZ mu (map_to_list m).*2 + w a.
Proof.
  unfold upd. destruct (m !! key a) as [v|] eqn:E.
  - rewrite <- (insert_delete_eq m), sumZ_insert by apply lookup_delete_eq.
    rewrite (sumZ_lookup m _ _ E). cbn [default from_option]. rewrite mu_step.
    unfold id. lia.
  - rewrite sumZ_insert by done. cbn [default from_option].
    rewrite mu_step, mu_init. lia.
Qed.

Lemma keyed_sum l (m : gmap string V) :
  sumZ mu (map_to_list (foldl (upd key init step) m l)).*2
  = sumZ mu (map_to_list m).*2 + sumZ w l.
Proof.
  revert m. induction l as [|a l IH]; intros m; simpl foldl.
  - simpl. lia.
  - rewrite IH, keyed_sum_upd, sumZ_cons. lia.
Qed.
End keyed_sums.

Lemma slotStep_source sel test lang o v :
  slotCount Package.SourceFileCount (slotStep sel test lang o v)
  = slotCount Package.SourceFileCount o + (if selSource sel test v then 1 else 0).
Proof.
  unfold slotStep, selSource, addFile.
  destruct (sel v), (test v), o; simpl; lia.
Qed.

Lemma slotStep_test sel test lang o v :
  slotCount Package.TestFileCount (slotStep sel test lang o v)
  = slotCount Package.TestFileCount o + (if selTest sel test v then 1 else 0).
Proof.
  unfold slotStep, selTest, addFile.
  destruct (sel v), (test v), o; simpl; lia.
Qed.

Lemma attach_source tests libs bins dp pkg :
  Package.SourceFileCount (attach tests libs bins dp pkg) = Package.SourceFileCount pkg.
Proof. unfold attach. destruct (dirPackages.targets dp); reflexivity. Qed.

Lemma attach_test tests libs bins dp pkg :
  Package.TestFileCount (attach tests libs bins dp pkg) = Package.TestFileCount pkg.
Proof. unfold attach. destruct (dirPackages.targets dp); reflexivity. Qed.

Lemma finalGo_source dp :
  sumZ Package.SourceFileCount (option_list (finalGo dp))
  = slotCount Package.SourceFileCount (dirPackages.goPkg dp).
Proof.
  unfold finalGo. destruct (dirPackages.goPkg dp) as [pkg|]; [|reflexivity].
  simpl. rewrite attach_source. lia.
Qed.

Lemma finalGo_test dp :
  sumZ Package.TestFileCount (option_list (finalGo dp))
  = slotCount Package.TestFileCount (dirPackages.goPkg dp).
Proof.
  unfold finalGo. destruct (dirPackages.goPkg dp) as [pkg|]; [|reflexivity].
  simpl. rewrite attach_test. lia.
Qed.

Lemma finalPython_source dp :
  sumZ Package.SourceFileCount (option_list (finalPython dp))
  = slotCount Package.SourceFileCount (dirPackages.pythonPkg dp).
Proof.
  unfold finalPython. destruct (dirPackages.pythonPkg dp) as [pkg|]; [|reflexivity].
  simpl. rewrite attach_source. lia.
Qed.

Lemma finalPython_test dp :
  sumZ Package.TestFileCount (option_list (finalPython dp))
  = slotCount Package.TestFileCount (dirPackages.pythonPkg dp).
Proof.
  unfold finalPython. destruct (dirPackages.pythonPkg dp) as [pkg|]; [|reflexivity].
  simpl. rewrite attach_test. lia.
Qed.

Lemma finalRust_source dp :
  sumZ Package.SourceFileCount (option_list (finalRust dp))
  = slotCount Package.SourceFileCount (dirPackages.rustPkg dp).
Proof.
  unfold finalRust, creditTests.
  destruct (dirPackages.rustPkg dp) as [pkg|]; [|reflexivity].
  simpl. destruct (dirPackages.targets dp) eqn:E.
  - destruct (0 <? _); simpl; rewrite attach_source; lia.
  - rewrite attach_source. lia.
Qed.

(** The sum of a count over the entries of the directory map is the count
    over the files of the walk. *)
Lemma walked_sum s root (mu : dirPackages.t -> Z) (w : visit -> bool) :
  (forall d r, mu (dirPackages.new d r) = 0) ->
  (forall dp v, mu (dpStep s dp v) = mu dp + (if w v then 1 else 0)) ->
  sumZ mu (map_to_list (dirMap (walked s root))).*2 = countIf w (visits s root).
Proof.
  intros Hinit Hstep. rewrite walked_visits, foldl_visitFile. simpl dirMap.
  rewrite (keyed_sum dir (fun v => dirPackages.new (dir v) (relDirOf v)) (dpStep s)
             mu (fun v => if w v then 1 else 0)); [|by intros|done].
  rewrite map_to_list_empty, sumZ_countIf. reflexivity.
Qed.

Lemma packages_sum s root dps (pkgs : list Package.t) (final : dirPackages.t -> option Package.t)
  (f : Package.t -> Z) (slot : dirPackages.t -> option Package.t) (w : visit -> bool) :
  dps ≡ₚ (map_to_list (dirMap (walked s root))).*2 ->
  pkgs ≡ₚ omap final dps ->
  (forall dp, sumZ f (option_list (final dp)) = slotCount f (slot dp)) ->
  (forall d r, slot (dirPackages.new d r) = None) ->
  (forall dp v, slotCount f (slot (dpStep s dp v))
                = slotCount f (slot dp) + (if w v then 1 else 0)) ->
  sumZ f pkgs = countIf w (visits s root).
Proof.
  intros Hdps Hp Hfinal Hnew Hstep.
  rewrite (sumZ_perm _ _ _ Hp), sumZ_omap.
  rewrite (sumZ_ext_In _ (fun dp => slotCount f (slot dp))) by (intros; apply Hfinal).
  rewrite (sumZ_perm _ _ _ Hdps).
  apply (walked_sum s root (fun dp => slotCount f (slot dp)) w).
  - intros d r. by rewrite Hnew.
  - exact Hstep.
Qed.

Lemma scan_file_totals s root res :
  ScanReturns s root res ->
  ScanResult.TotalGoFiles res = sumZ Package.SourceFileCount (ScanResult.GoPackages res)
  /\ ScanResult.TotalGoTests res = sumZ Package.TestFileCount (ScanResult.GoPackages res)
  /\ ScanResult.TotalPythonFiles res
     = sumZ Package.SourceFileCount (ScanResult.PythonPackages res)
  /\ ScanResult.TotalPythonTests res
     = sumZ Package.TestFileCount (ScanResult.PythonPackages res)
  /\ ScanResult.TotalRustFiles res
     = sumZ Package.SourceFileCount (ScanResult.RustPackages res).
Proof.
  intros Hres.
  destruct (ScanReturns_inv s root res Hres)
    as (dps & Hdps & _ & Hgo & Hpy & Hru & _ & _ & T1 & T2 & T3 & T4 & T5 & _).
  rewrite T1, T2, T3, T4, T5.
  split; [|split; [|split; [|split]]]; symmetry.
  - apply (packages_sum s root dps _ finalGo _ dirPackages.goPkg); try done.
    + apply finalGo_source.
    + intros dp v. apply slotStep_source.
  - apply (packages_sum s root dps _ finalGo _ dirPackages.goPkg); try done.
    + apply finalGo_test.
    + intros dp v. apply slotStep_test.
  - apply (packages_sum s root dps _ finalPython _ dirPackages.pythonPkg); try done.
    + apply finalPython_source.
    + intros dp v. apply slotStep_source.
  - apply (packages_sum s root dps _ finalPython _ dirPackages.pythonPkg); try done.
    + apply finalPython_test.
    + intros dp v. apply slotStep_test.
  - apply (packages_sum s root dps _ finalRust _ dirPackages.rustPkg); try done.
    + apply finalRust_source.
    + intros dp v. simpl. rewrite slotStep_source. unfold selSource.
      by rewrite andb_true_r.
Qed.

(** *** The totals of test rules *)

Lemma resStep_rules r v :
  ScanResult.TotalGoTestRules (resStep r v) = ScanResult.TotalGoTestRules r
  /\ ScanResult.TotalPyTestRules (resStep r v) = ScanResult.TotalPyTestRules r
  /\ ScanResult.TotalRustTestRules (resStep r v) = ScanResult.TotalRustTestRules r.
Proof.
  unfold resStep.
  destruct (isManifest v), (isGo v), (isGoTest v), (isPython v), (isPythonTest v),
    (isRust v); repeat split; reflexivity.
Qed.

Lemma resStep_fold_rules r vs :
  ScanResult.TotalGoTestRules (foldl resStep r vs) = ScanResult.TotalGoTestRules r
  /\ ScanResult.TotalPyTestRules (foldl resStep r vs) = ScanResult.TotalPyTestRules r
  /\ ScanResult.TotalRustTestRules (foldl resStep r vs) = ScanResult.TotalRustTestRules r.
Proof.
  revert r. induction vs as [|v vs IH]; intros r; [done|]. simpl.
  destruct (IH (resStep r v)) as (-> & -> & ->). apply resStep_rules.
Qed.

Lemma assign_fold_rules r dps :
  ScanResult.TotalGoTestRules (foldl assign r dps)
  = ScanResult.TotalGoTestRules r
    + sumZ (testRules buildTargets.goTests dirPackages.goPkg) dps
  /\ ScanResult.TotalPyTestRules (foldl assign r dps)
     = ScanResult.TotalPyTestRules r
       + sumZ (testRules buildTargets.pyTests dirPackages.pythonPkg) dps
  /\ ScanResult.TotalRustTestRules (foldl assign r dps)
     = ScanResult.TotalRustTestRules r
       + sumZ (testRules buildTargets.rustTests dirPackages.rustPkg) dps.
Proof.
  revert r. induction dps as [|dp dps IH]; intros r.
  - simpl. repeat split; lia.
  - simpl foldl. destruct (IH (assign r dp)) as (-> & -> & ->).
    destruct (assign_fields r dp)
      as (_ & _ & _ & _ & _ & _ & _ & H1 & _ & _ & H2 & _ & _ & H3).
    rewrite H1, H2, H3, !sumZ_cons. repeat split; lia.
Qed.

Lemma ScanReturns_rules s root res :
  ScanReturns s root res ->
  exists dps,
    dps ≡ₚ (map_to_list (dirMap (walked s root))).*2
    /\ ScanResult.GoPackages res ≡ₚ omap finalGo dps
    /\ ScanResult.PythonPackages res ≡ₚ omap finalPython dps
    /\ ScanResult.RustPackages res ≡ₚ omap finalRust dps
    /\ ScanResult.TotalGoTestRules res
       = sumZ (testRules buildTargets.goTests dirPackages.goPkg) dps
    /\ ScanResult.TotalPyTestRules res
       = sumZ (testRules buildTargets.pyTests dirPackages.pythonPkg) dps
    /\ ScanResult.TotalRustTestRules res
       = sumZ (testRules buildTargets.rustTests dirPackages.rustPkg) dps.
Proof.
  intros (dps & go & py & rust & Hdps & [Hgo _] & [Hpy _] & [Hrust _] & ->).
  exists dps. split; [exact Hdps|].
  destruct (assign_fold (result (walked s root)) dps) as (_ & A2 & A3 & A4 & _).
  destruct (assign_fold_rules (result (walked s root)) dps) as (B1 & B2 & B3).
  rewrite walked_result in *.
  destruct (resStep_fold (ScanResult.new (Scanner.repoPath s)) (visits s root))
    as (_ & R2 & R3 & R4 & _).
  destruct (resStep_fold_rules (ScanResult.new (Scanner.repoPath s)) (visits s root))
    as (C1 & C2 & C3).
  rewrite A2, R2 in Hgo. rewrite A3, R3 in Hpy. rewrite A4, R4 in Hrust.
  simpl in Hgo, Hpy, Hrust. simpl.
  rewrite B1, B2, B3, C1, C2, C3. simpl.
  repeat split; try done; lia.
Qed.

(** In an entry of the directory map the packages carry no targets yet. *)
Lemma entry_slots_fresh s root d dp :
  dirMap (walked s root) !! d = Some dp ->
  (forall pkg, dirPackages.goPkg dp = Some pkg -> Package.TestTargetCount pkg = 0)
  /\ (forall pkg, dirPackages.pythonPkg dp = Some pkg -> Package.TestTargetCount pkg = 0)
  /\ (forall pkg, dirPackages.rustPkg dp = Some pkg -> Package.TestTargetCount pkg = 0).
Proof.
  intros Hd.
  destruct (entry_facts s root d dp Hd) as (_ & _ & _ & Hg & Hp & Hr).
  pose proof (slot_fold isGo isGoTest LangGo (inDir d (visits s root))) as Sg.
  pose proof (slot_fold isPython isPythonTest LangPython (inDir d (visits s root))) as Sp.
  pose proof (slot_fold isRust (fun _ => false) LangRust (inDir d (visits s root))) as Sr.
  rewrite <- Hg in Sg. rewrite <- Hp in Sp. rewrite <- Hr in Sr.
  repeat split; intros pkg E; rewrite E in *.
  - by destruct Sg as (_ & _ & _ & H & _).
  - by destruct Sp as (_ & _ & _ & H & _).
  - by destruct Sr as (_ & _ & _ & H & _).
Qed.

Lemma attach_targets tests libs bins dp pkg :
  Package.TestTargetCount pkg = 0 ->
  Package.TestTargetCount (attach tests libs bins dp pkg)
  = match dirPackages.targets dp with Some t => tests t | None => 0 end.
Proof. unfold attach. destruct (dirPackages.targets dp); simpl; done. Qed.

Lemma rules_entry s root d dp :
  dirMap (walked s root) !! d = Some dp ->
  sumZ Package.TestTargetCount (option_list (finalGo dp))
  = testRules buildTargets.goTests dirPackages.goPkg dp
  /\ sumZ Package.TestTargetCount (option_list (finalPython dp))
     = testRules buildTargets.pyTests dirPackages.pythonPkg dp
  /\ sumZ Package.TestTargetCount (option_list (finalRust dp))
     = testRules buildTargets.rustTests dirPackages.rustPkg dp.
Proof.
  intros Hd. destruct (entry_slots_fresh s root d dp Hd) as (Fg & Fp & Fr).
  unfold finalGo, finalPython, finalRust, testRules, creditTests.
  split; [|split].
  - destruct (dirPackages.goPkg dp) as [pkg|]; [|reflexivity]. simpl.
    rewrite attach_targets by auto. destruct (dirPackages.targets dp); lia.
  - destruct (dirPackages.pythonPkg dp) as [pkg|]; [|reflexivity]. simpl.
    rewrite attach_targets by auto. destruct (dirPackages.targets dp); lia.
  - destruct (dirPackages.rustPkg dp) as [pkg|]; [|reflexivity]. simpl.
    pose proof (attach_targets buildTargets.rustTests buildTargets.rustLibs
                  buildTargets.rustBins dp pkg (Fr _ eq_refl)) as Ha.
    destruct (dirPackages.targets dp) as [t|].
    + destruct (0 <? _); simpl; rewrite Ha; lia.
    + rewrite Ha. lia.
Qed.

Lemma scan_rule_totals s root res :
  ScanReturns s root res ->
  ScanResult.TotalGoTestRules res
  = sumZ Package.TestTargetCount (ScanResult.GoPackages res)
  /\ ScanResult.TotalPyTestRules res
     = sumZ Package.TestTargetCount (ScanResult.PythonPackages res)
  /\ ScanResult.TotalRustTestRules res
     = sumZ Package.TestTargetCount (ScanResult.RustPackages res).
Proof.
  intros Hres.
  destruct (ScanReturns_rules s root res Hres)
    as (dps & Hdps & Hgo & Hpy & Hru & -> & -> & ->).
  assert (Hin : forall dp, In dp dps -> exists d, dirMap (walked s root) !! d = Some dp).
  { intros dp Hin. apply list_elem_of_In in Hin. rewrite Hdps in Hin.
    apply list_elem_of_fmap in Hin as ([d dp'] & -> & Hin).
    apply elem_of_map_to_list in Hin. eauto. }
  rewrite (sumZ_perm _ _ _ Hgo), (sumZ_perm _ _ _ Hpy), (sumZ_perm _ _ _ Hru), !sumZ_omap.
  repeat split; symmetry; apply sumZ_ext_In; intros dp Hdp;
    destruct (Hin dp Hdp) as [d Hd]; by destruct (rules_entry s root d dp Hd) as (? & ? & ?).
Qed.

(** *** Paths and relative paths *)

Lemma reached_dirOf s root d bl entries :
  reached s root d bl entries ->
  d = dirOf (filepath.Clean (Scanner.repoPath s)) bl.
Proof.
  induction 1 as [|d bl entries name sub Hr IH Hin Hskip]; [reflexivity|].
  unfold dirOf. rewrite foldl_snoc. by rewrite IH.
Qed.

Lemma reached_proper s root d bl entries :
  forallb dirNamesProper root = true ->
  reached s root d bl entries ->
  forallb dirNamesProper entries = true
  /\ Forall (fun n => n <> "" /\ noSeparator n = true) bl.
Proof.
  intros Hroot. induction 1 as [|d bl entries name sub Hr [IH1 IH2] Hin Hskip].
  - split; [done|constructor].
  - rewrite forallb_forall in IH1. specialize (IH1 _ Hin). simpl in IH1.
    apply andb_true_iff in IH1 as [Hname Hsub].
    apply andb_true_iff in Hname as [Hne Hsep]. split; [done|].
    apply Forall_app. split; [done|]. repeat constructor; [|done].
    intros ->. discriminate.
Qed.

Lemma skipDir_dot s : skipDir s "." = true.
Proof. reflexivity. Qed.

(** Under proper names the relative path tells the directories passed. *)
Lemma Rel_inj s bl bl' :
  Forall (fun n => n <> "" /\ noSeparator n = true) bl ->
  Forall (fun n => n <> "" /\ noSeparator n = true) bl' ->
  Forall (fun n => skipDir s n = false) bl ->
  Forall (fun n => skipDir s n = false) bl' ->
  Rel bl = Rel bl' -> bl = bl'.
Proof.
  intros P1 P2 S1 S2 H.
  assert (Hsplit : forall l, Forall (fun n => n <> "" /\ noSeparator n = true) l ->
                     l <> [] -> strings.Split (Rel l) filepath.Separator = l).
  { intros l Hl Hne. destruct l as [|a l]; [done|]. unfold Rel.
    apply Split_Join; [done|]. eapply Forall_impl; [exact Hl|]. by intros ? [_ ?]. }
  assert (Hdot : forall l, Forall (fun n => skipDir s n = false) l ->
                   Forall (fun n => n <> "" /\ noSeparator n = true) l ->
                   l <> [] -> Rel l <> ".").
  { intros l Hs Hl Hne E. pose proof (Hsplit l Hl Hne) as Hsp. rewrite E in Hsp.
    change (strings.Split "." filepath.Separator) with ["."] in Hsp. subst l.
    apply Forall_cons in Hs as [Hs _]. by rewrite skipDir_dot in Hs. }
  destruct bl as [|a bl], bl' as [|a' bl']; [done| | |].
  - exfalso. apply (Hdot (a' :: bl')); done.
  - exfalso. apply (Hdot (a :: bl)); done.
  - rewrite <- (Hsplit (a :: bl)), <- (Hsplit (a' :: bl')) by done. by rewrite H.
Qed.

Lemma Rel_nonempty bl :
  Forall (fun n => n <> "" /\ noSeparator n = true) bl -> Rel bl <> "".
Proof.
  intros Hl E. destruct bl as [|a bl]; [discriminate|].
  assert (strings.Split (Rel (a :: bl)) filepath.Separator = a :: bl) as Hsp.
  { unfold Rel. apply Split_Join; [done|]. eapply Forall_impl; [exact Hl|]. by intros ? [_ ?]. }
  rewrite E in Hsp. change (strings.Split "" filepath.Separator) with [""] in Hsp.
  injection Hsp as <- _. apply Forall_cons in Hl as [[Hne _] _]. done.
Qed.

Section visits_paths.
Context (s : Scanner.t) (root : list fs.node).
Hypothesis Hnames : forallb dirNamesProper root = true.

Lemma visit_paths v :
  In v (visits s root) ->
  dir v = dirOf (filepath.Clean (Scanner.repoPath s)) (below v)
  /\ relDirOf v = Rel (below v)
  /\ Forall (fun n => n <> "" /\ noSeparator n = true) (below v)
  /\ Forall (fun n => skipDir s n = false) (below v).
Proof.
  intros Hv. apply visits_spec in Hv as (entries & Hr & _).
  destruct (reached_proper s root _ _ _ Hnames Hr) as [_ Hp].
  split; [by eapply reached_dirOf|]. split; [|split; [done|by eapply reached_below]].
  unfold relDirOf. pose proof (Rel_nonempty _ Hp) as Hne.
  destruct (String.eqb_spec (Rel (below v)) ""); done.
Qed.

Lemma relDirOf_inj v v' :
  In v (visits s root) -> In v' (visits s root) ->
  relDirOf v = relDirOf v' -> dir v = dir v'.
Proof.
  intros Hv Hv' E.
  destruct (visit_paths v Hv) as (-> & R & P & S).
  destruct (visit_paths v' Hv') as (-> & R' & P' & S').
  rewrite R, R' in E. by rewrite (Rel_inj s _ _ P P' S S' E).
Qed.
End visits_paths.

(** *** One package for a directory and a language *)

Lemma NoDup_fmap_via {A B C} (f : A -> B) (g : A -> C) (l : list A) :
  NoDup (f <$> l) ->
  (forall a b, In a l -> In b l -> g a = g b -> f a = f b) ->
  NoDup (g <$> l).
Proof.
  induction l as [|a l IH]; intros Hnd Hinj; [constructor|].
  rewrite fmap_cons in *. apply NoDup_cons in Hnd as [Hnotin Hnd].
  apply NoDup_cons. split.
  - intros Hin. apply Hnotin. apply list_elem_of_fmap in Hin as (b & Hb & Hin).
    apply list_elem_of_fmap. exists b. split; [|done].
    apply Hinj; [by left|right; by apply list_elem_of_In|done].
  - apply IH; [done|]. intros x y Hx Hy. apply Hinj; by right.
Qed.

Lemma NoDup_fmap_In {A B} (f : A -> B) (l : list A) a b :
  NoDup (f <$> l) -> In a l -> In b l -> f a = f b -> a = b.
Proof.
  induction l as [|x l IH]; intros Hnd Ha Hb E; [destruct Ha|].
  rewrite fmap_cons in Hnd. apply NoDup_cons in Hnd as [Hnotin Hnd].
  destruct Ha as [->|Ha], Hb as [->|Hb]; [done| | |by apply IH].
  - exfalso. apply Hnotin. rewrite E. apply list_elem_of_fmap. exists b.
    split; [done|by apply list_elem_of_In].
  - exfalso. apply Hnotin. rewrite <- E. apply list_elem_of_fmap. exists a.
    split; [done|by apply list_elem_of_In].
Qed.

Lemma omap_keys_NoDup {V P : Type} (final : V -> option P) (g : P -> string)
  (L : list (string * V)) :
  NoDup L.*1 ->
  (forall d v p, In (d, v) L -> final v = Some p -> g p = d) ->
  NoDup (g <$> omap final L.*2).
Proof.
  induction L as [|[d v] L IH]; intros Hnd Hkey; [constructor|].
  rewrite fmap_cons in Hnd. apply NoDup_cons in Hnd as [Hnotin Hnd]. simpl in Hnotin.
  assert (IH' : NoDup (g <$> omap final L.*2)).
  { apply IH; [done|]. intros d' v' p Hin. apply Hkey. by right. }
  change (omap final ((d, v) :: L).*2)
    with (match final v with Some y => y :: omap final L.*2 | None => omap final L.*2 end).
  destruct (final v) as [p|] eqn:E; [|done].
  rewrite fmap_cons. apply NoDup_cons. split; [|done].
  rewrite (Hkey d v p (or_introl eq_refl) E).
  intros Hin. apply Hnotin. apply list_elem_of_fmap in Hin as (q & Hq & Hin).
  apply list_elem_of_In, In_omap in Hin as (v' & Hv' & Hf).
  apply list_elem_of_In, list_elem_of_fmap in Hv' as ([d' v''] & -> & Hin').
  apply list_elem_of_fmap. exists (d', v''). split; [|done]. simpl.
  rewrite Hq. eapply Hkey; [right; by apply list_elem_of_In|done].
Qed.

Section unique.
Context (s : Scanner.t) (root : list fs.node).

Lemma attach_path tests libs bins dp pkg :
  Package.Path (attach tests libs bins dp pkg) = Package.Path pkg.
Proof. unfold attach. destruct (dirPackages.targets dp); reflexivity. Qed.

Lemma creditTests_path pkg : Package.Path (creditTests pkg) = Package.Path pkg.
Proof. unfold creditTests. destruct (0 <? _); reflexivity. Qed.

Lemma final_path d dp :
  dirMap (walked s root) !! d = Some dp ->
  (forall P, finalGo dp = Some P -> Package.Path P = d)
  /\ (forall P, finalPython dp = Some P -> Package.Path P = d)
  /\ (forall P, finalRust dp = Some P -> Package.Path P = d).
Proof.
  intros Hd.
  destruct (entry_facts s root d dp Hd) as (_ & _ & _ & Hg & Hp & Hr).
  pose proof (slot_fold isGo isGoTest LangGo (inDir d (visits s root))) as Sg.
  pose proof (slot_fold isPython isPythonTest LangPython (inDir d (visits s root))) as Sp.
  pose proof (slot_fold isRust (fun _ => false) LangRust (inDir d (visits s root))) as Sr.
  rewrite <- Hg in Sg. rewrite <- Hp in Sp. rewrite <- Hr in Sr.
  unfold finalGo, finalPython, finalRust.
  split; [|split]; intros P.
  - destruct (dirPackages.goPkg dp) as [pkg|]; [|discriminate]. intros [= <-].
    rewrite attach_path. destruct Sg as ((v0 & Hv0 & _ & -> & _) & _).
    by apply inDir_In in Hv0 as [_ ?].
  - destruct (dirPackages.pythonPkg dp) as [pkg|]; [|discriminate]. intros [= <-].
    rewrite attach_path. destruct Sp as ((v0 & Hv0 & _ & -> & _) & _).
    by apply inDir_In in Hv0 as [_ ?].
  - destruct (dirPackages.rustPkg dp) as [pkg|]; [|discriminate]. intros [= <-].
    assert (Package.Path pkg = d) as Hpath.
    { destruct Sr as ((v0 & Hv0 & _ & -> & _) & _). by apply inDir_In in Hv0 as [_ ?]. }
    destruct (dirPackages.targets dp); rewrite ?creditTests_path, attach_path; done.
Qed.

Lemma paths_NoDup (final : dirPackages.t -> option Package.t) dps pkgs :
  dps ≡ₚ (map_to_list (dirMap (walked s root))).*2 ->
  pkgs ≡ₚ omap final dps ->
  (forall d dp P, dirMap (walked s root) !! d = Some dp ->
                  final dp = Some P -> Package.Path P = d) ->
  NoDup (Package.Path <$> pkgs).
Proof.
  intros Hdps Hp Hkey. rewrite Hp, Hdps.
  apply omap_keys_NoDup; [apply NoDup_fst_map_to_list|].
  intros d v p Hin. apply Hkey. by apply elem_of_map_to_list, list_elem_of_In.
Qed.

Lemma scan_paths_NoDup res :
  ScanReturns s root res ->
  NoDup (Package.Path <$> ScanResult.GoPackages res)
  /\ NoDup (Package.Path <$> ScanResult.PythonPackages res)
  /\ NoDup (Package.Path <$> ScanResult.RustPackages res).
Proof.
  intros Hres.
  destruct (ScanReturns_inv s root res Hres) as (dps & Hdps & _ & Hgo & Hpy & Hru & _).
  split; [|split].
  - apply (paths_NoDup finalGo dps); [done..|].
    intros d dp P Hd. by destruct (final_path d dp Hd) as (H & _ & _); apply H.
  - apply (paths_NoDup finalPython dps); [done..|].
    intros d dp P Hd. by destruct (final_path d dp Hd) as (_ & H & _); apply H.
  - apply (paths_NoDup finalRust dps); [done..|].
    intros d dp P Hd. by destruct (final_path d dp Hd) as (_ & _ & H); apply H.
Qed.

(** The file that made a package. *)
Lemma package_visit res P :
  ScanReturns s root res -> In P (allPackages res) ->
  exists v, In v (visits s root) /\ dir v = Package.Path P
            /\ relDirOf v = Package.RelPath P.
Proof.
  intros Hres Hin. unfold allPackages in Hin. rewrite !in_app_iff in Hin.
  assert (Hgen : forall sel test lang tests libs bins P0,
             describes s root sel test lang tests libs bins P0 ->
             exists v, In v (visits s root) /\ dir v = Package.Path P0
                       /\ relDirOf v = Package.RelPath P0).
  { intros sel test lang tests libs bins P0 ((v0 & Hv0 & _ & Hr) & _).
    exists v0. apply inDir_In in Hv0 as [? ?]. done. }
  destruct Hin as [Hin|[Hin|Hin]].
  - eapply Hgen. by eapply go_package.
  - eapply Hgen. by eapply python_package.
  - destruct (rust_package s root res P Hres Hin) as (P0 & HP0 & Hpath & ->).
    destruct (Hgen _ _ _ _ _ _ _ HP0) as (v & Hv & Hd & Hr). exists v.
    split; [done|]. rewrite <- Hpath. split; [done|]. rewrite Hr.
    unfold creditTests.
    destruct (targetsOf s root P0), (0 <? Package.TestTargetCount P0); reflexivity.
Qed.

Hypothesis Hnames : forallb dirNamesProper root = true.

Lemma relPath_determines_path res P P' :
  ScanReturns s root res -> In P (allPackages res) -> In P' (allPackages res) ->
  Package.RelPath P = Package.RelPath P' -> Package.Path P = Package.Path P'.
Proof.
  intros Hres HP HP' E.
  destruct (package_visit res P Hres HP) as (v & Hv & <- & Hr).
  destruct (package_visit res P' Hres HP') as (v' & Hv' & <- & Hr').
  apply (relDirOf_inj s root Hnames); [done..|]. by rewrite Hr, Hr'.
Qed.

Lemma scan_relPaths_NoDup res :
  ScanReturns s root res ->
  NoDup (Package.RelPath <$> ScanResult.GoPackages res)
  /\ NoDup (Package.RelPath <$> ScanResult.PythonPackages res)
  /\ NoDup (Package.RelPath <$> ScanResult.RustPackages res).
Proof.
  intros Hres. destruct (scan_paths_NoDup res Hres) as (N1 & N2 & N3).
  split; [|split].
  - apply (NoDup_fmap_via Package.Path); [done|]. intros a b Ha Hb.
    apply (relPath_determines_path res); [done|..]; unfold allPackages;
      rewrite !in_app_iff; auto.
  - apply (NoDup_fmap_via Package.Path); [done|]. intros a b Ha Hb.
    apply (relPath_determines_path res); [done|..]; unfold allPackages;
      rewrite !in_app_iff; auto.
  - apply (NoDup_fmap_via Package.Path); [done|]. intros a b Ha Hb.
    apply (relPath_determines_path res); [done|..]; unfold allPackages;
      rewrite !in_app_iff; auto.
Qed.
End unique.

(** *** The order of the package lists and the result of a scan *)

Lemma ScanReturns_sorted s root res :
  ScanReturns s root res ->
  StronglySorted byRelPath (ScanResult.GoPackages res)
  /\ StronglySorted byRelPath (ScanResult.PythonPackages res)
  /\ StronglySorted byRelPath (ScanResult.RustPackages res).
Proof.
  intros (dps & go & py & rust & Hdps & [_ Sgo] & [_ Spy] & [_ Sru] & ->). simpl.
  done.
Qed.

Lemma lessRelPath_true a b :
  lessRelPath a b = true
  <-> String.le (Package.RelPath a) (Package.RelPath b)
      /\ Package.RelPath a <> Package.RelPath b.
Proof.
  unfold lessRelPath. split.
  - intros H. split.
    + destruct (total String.le (Package.RelPath a) (Package.RelPath b)) as [?|Hle]; [done|].
      apply ltb_false_iff in Hle. congruence.
    + intros E. rewrite E in H.
      assert (String.ltb (Package.RelPath b) (Package.RelPath b) = false) as H'
        by (by apply ltb_false_iff). congruence.
  - intros [Hle Hne]. destruct (String.ltb _ _) eqn:E; [done|].
    apply ltb_false_iff in E. destruct Hne. by apply (anti_symm String.le).
Qed.

Lemma sorted_strict l :
  StronglySorted byRelPath l -> NoDup (Package.RelPath <$> l) -> strictlyAscending l.
Proof.
  induction 1 as [|a l Hs IH Hall]; intros Hnd; [constructor|].
  rewrite fmap_cons in Hnd. apply NoDup_cons in Hnd as [Hnotin Hnd].
  constructor; [by apply IH|].
  apply Forall_forall. intros b Hb. rewrite Forall_forall in Hall.
  apply lessRelPath_true. split; [apply (proj1 (byRelPath_iff a b)); by apply Hall|].
  intros E. apply Hnotin. rewrite E. apply list_elem_of_fmap. by exists b.
Qed.

Lemma sorted_perm_unique {A} (R : relation A) (l1 l2 : list A) :
  (forall a b, In a l1 -> In b l1 -> R a b -> R b a -> a = b) ->
  StronglySorted R l1 -> StronglySorted R l2 -> l1 ≡ₚ l2 -> l1 = l2.
Proof.
  revert l2. induction l1 as [|a l1 IH]; intros l2 Hanti S1 S2 Hp.
  - by apply Permutation_nil_l in Hp.
  - destruct l2 as [|b l2]; [by apply Permutation_nil_r in Hp|].
    apply StronglySorted_inv in S1 as [S1 F1]. apply StronglySorted_inv in S2 as [S2 F2].
    rewrite List.Forall_forall in F1, F2.
    assert (a = b) as <-.
    { assert (In a (b :: l2)) as Ha by (apply (Permutation_in _ Hp); by left).
      assert (In b (a :: l1)) as Hb
        by (apply (Permutation_in _ (Permutation_sym Hp)); by left).
      destruct Ha as [->|Ha]; [done|]. destruct Hb as [->|Hb]; [done|].
      apply Hanti; [by left|by right|by apply F1|by apply F2]. }
    f_equal. apply IH; [|done|done|by apply Permutation_cons_inv in Hp].
    intros x y Hx Hy. apply Hanti; by right.
Qed.

Lemma packages_unique l1 l2 :
  NoDup (Package.RelPath <$> l1) ->
  StronglySorted byRelPath l1 -> StronglySorted byRelPath l2 -> l1 ≡ₚ l2 -> l1 = l2.
Proof.
  intros Hnd. apply sorted_perm_unique. intros a b Ha Hb Hab Hba.
  apply (NoDup_fmap_In Package.RelPath l1); [done..|].
  apply byRelPath_iff in Hab, Hba. by apply (anti_symm String.le).
Qed.

Lemma ScanResult_eq (r1 r2 : ScanResult.t) :
  ScanResult.RepoPath r1 = ScanResult.RepoPath r2 ->
  ScanResult.GoPackages r1 = ScanResult.GoPackages r2 ->
  ScanResult.PythonPackages r1 = ScanResult.PythonPackages r2 ->
  ScanResult.RustPackages r1 = ScanResult.RustPackages r2 ->
  ScanResult.TotalBUILDs r1 = ScanResult.TotalBUILDs r2 ->
  ScanResult.TotalGoFiles r1 = ScanResult.TotalGoFiles r2 ->
  ScanResult.TotalGoTests r1 = ScanResult.TotalGoTests r2 ->
  ScanResult.TotalGoTestRules r1 = ScanResult.TotalGoTestRules r2 ->
  ScanResult.TotalPythonFiles r1 = ScanResult.TotalPythonFiles r2 ->
  ScanResult.TotalPythonTests r1 = ScanResult.TotalPythonTests r2 ->
  ScanResult.TotalPyTestRules r1 = ScanResult.TotalPyTestRules r2 ->
  ScanResult.TotalRustFiles r1 = ScanResult.TotalRustFiles r2 ->
  ScanResult.TotalRustTests r1 = ScanResult.TotalRustTests r2 ->
  ScanResult.TotalRustTestRules r1 = ScanResult.TotalRustTestRules r2 ->
  r1 = r2.
Proof. destruct r1, r2; simpl; intros; subst; reflexivity. Qed.

Lemma scan_unique s root res res' :
  forallb dirNamesProper root = true ->
  ScanReturns s root res -> ScanReturns s root res' -> res = res'.
Proof.
  intros Hnames H H'.
  destruct (scan_relPaths_NoDup s root Hnames res H) as (N1 & N2 & N3).
  destruct (ScanReturns_sorted s root res H) as (S1 & S2 & S3).
  destruct (ScanReturns_sorted s root res' H') as (S1' & S2' & S3').
  destruct (ScanReturns_inv s root res H)
    as (dps & Hdps & _ & Hgo & Hpy & Hru & I1 & I2 & I3 & I4 & I5 & I6 & I7 & I8).
  destruct (ScanReturns_inv s root res' H')
    as (dps' & Hdps' & _ & Hgo' & Hpy' & Hru' & J1 & J2 & J3 & J4 & J5 & J6 & J7 & J8).
  destruct (ScanReturns_rules s root res H)
    as (dq & Hdq & _ & _ & _ & K1 & K2 & K3).
  destruct (ScanReturns_rules s root res' H')
    as (dq' & Hdq' & _ & _ & _ & K1' & K2' & K3').
  assert (Hpp : dps ≡ₚ dps') by (by rewrite Hdps, Hdps').
  assert (Hqq : dq ≡ₚ dq') by (by rewrite Hdq, Hdq').
  apply ScanResult_eq; try congruence.
  - apply packages_unique; [done..|]. by rewrite Hgo, Hgo', Hpp.
  - apply packages_unique; [done..|]. by rewrite Hpy, Hpy', Hpp.
  - apply packages_unique; [done..|]. by rewrite Hru, Hru', Hpp.
  - rewrite K1, K1'. by apply sumZ_perm.
  - rewrite K2, K2'. by apply sumZ_perm.
  - rewrite I8, J8. by apply sumZ_perm.
  - rewrite K3, K3'. by apply sumZ_perm.
Qed.

(** *** A repository whose own directory is excluded *)

Lemma walked_excluded_root s root :
  skipDir s (filepath.Base (Scanner.repoPath s)) = true -> walked s root = newState s.
Proof. intros H. unfold walked, Walk, walkFn. by rewrite H. Qed.

Lemma Slice_nil {A} (less : A -> A -> bool) l : sort.Slice less [] l -> l = [].
Proof. intros [Hp _]. by apply Permutation_nil_l in Hp. Qed.

Lemma scan_excluded_root s root res :
  skipDir s (filepath.Base (Scanner.repoPath s)) = true ->
  ScanReturns s root res -> res = ScanResult.new (Scanner.repoPath s).
Proof.
  intros Hskip (dps & go & py & rust & Hdps & Hgo & Hpy & Hru & ->).
  rewrite walked_excluded_root in * by done. simpl in Hdps.
  rewrite map_to_list_empty in Hdps. apply Permutation_nil_r in Hdps. subst dps.
  simpl in *. apply Slice_nil in Hgo, Hpy, Hru. subst. reflexivity.
Qed.

(** *** The path of a package and its relative path *)

Lemma segments_Rel s bl :
  Forall (fun n => n <> "" /\ noSeparator n = true) bl ->
  Forall (fun n => skipDir s n = false) bl ->
  segments (Rel bl) = bl.
Proof.
  intros Hp Hs. unfold segments. destruct bl as [|a bl]; [reflexivity|].
  destruct (String.eqb_spec (Rel (a :: bl)) ".") as [E|_].
  - exfalso. assert (Rel (a :: bl) = Rel []) as E' by exact E.
    by apply (Rel_inj s) in E'.
  - unfold Rel. apply Split_Join; [done|]. eapply Forall_impl; [exact Hp|]. by intros ? [_ ?].
Qed.

Lemma package_path_segments s root res P :
  forallb dirNamesProper root = true ->
  ScanReturns s root res -> In P (allPackages res) ->
  Package.Path P
  = dirOf (filepath.Clean (Scanner.repoPath s)) (segments (Package.RelPath P))
  /\ Forall (fun n => n <> "" /\ noSeparator n = true /\ skipDir s n = false)
       (segments (Package.RelPath P)).
Proof.
  intros Hnames Hres HP.
  destruct (package_visit s root res P Hres HP) as (v & Hv & <- & <-).
  destruct (visit_paths s root Hnames v Hv) as (-> & -> & Hp & Hs).
  rewrite (segments_Rel s) by done. split; [done|].
  apply Forall_forall. intros n Hn. rewrite Forall_forall in Hp, Hs.
  destruct (Hp n Hn). split; [done|]. split; [done|]. by apply Hs.
Qed.

(** *** No file is counted twice *)

Lemma suffixes_exclusive f :
  (strings.HasSuffix f ".go" = true -> strings.HasSuffix f ".py" = false
                                       /\ strings.HasSuffix f ".rs" = false)
  /\ (strings.HasSuffix f ".py" = true -> strings.HasSuffix f ".rs" = false).
Proof.
  unfold strings.HasSuffix. simpl String.length.
  destruct (3 <=? String.length f)%nat; simpl; [|done].
  split.
  - intros H%String.eqb_eq. rewrite H. done.
  - intros H%String.eqb_eq. rewrite H. done.
Qed.

Lemma manifest_no_source v :
  isManifest v = true -> isGo v = false /\ isPython v = false /\ isRust v = false.
Proof.
  unfold isManifest, isBuildFile, isGo, isPython, isRust.
  intros [H|H]%orb_true_iff; apply String.eqb_eq in H; rewrite H; done.
Qed.

Lemma counted_once v :
  (if isManifest v then 1 else 0)
  + (if selSource isGo isGoTest v then 1 else 0)
  + (if selTest isGo isGoTest v then 1 else 0)
  + (if selSource isPython isPythonTest v then 1 else 0)
  + (if selTest isPython isPythonTest v then 1 else 0)
  + (if isRust v then 1 else 0)
  = (if isCounted v then 1 else 0).
Proof.
  unfold isCounted, selSource, selTest.
  destruct (isManifest v) eqn:M.
  - destruct (manifest_no_source v M) as (-> & -> & ->). reflexivity.
  - destruct (suffixes_exclusive (filename v)) as [H1 H2].
    fold (isGo v) (isPython v) (isRust v) in H1, H2.
    destruct (isGo v) eqn:G.
    + destruct (H1 eq_refl) as [-> ->]. destruct (isGoTest v); reflexivity.
    + destruct (isPython v) eqn:Py.
      * rewrite (H2 eq_refl). destruct (isPythonTest v); reflexivity.
      * destruct (isRust v); reflexivity.
Qed.

Lemma scan_counts_once s root res :
  ScanReturns s root res ->
  ScanResult.TotalBUILDs res + ScanResult.TotalGoFiles res + ScanResult.TotalGoTests res
  + ScanResult.TotalPythonFiles res + ScanResult.TotalPythonTests res
  + ScanResult.TotalRustFiles res
  = countIf isCounted (visits s root).
Proof.
  intros Hres.
  destruct (ScanReturns_inv s root res Hres)
    as (dps & _ & _ & _ & _ & _ & _ & -> & -> & -> & -> & -> & -> & _).
  induction (visits s root) as [|v vs IH]; [reflexivity|].
  rewrite !countIf_cons, <- IH, <- (counted_once v). lia.
Qed.

(** * [parseBuildFile]: lines and patterns *)

(** *** The lines of a BUILD file *)

Lemma append_cons (x : ascii) (a b : string) : String x a +:+ b = String x (a +:+ b).
Proof. reflexivity. Qed.

Lemma append_nil_l (b : string) : "" +:+ b = b.
Proof. reflexivity. Qed.

Lemma string_app_assoc (a b c : string) : (a +:+ b) +:+ c = a +:+ (b +:+ c).
Proof. induction a as [|x a IH]; [done|]. rewrite !append_cons. by f_equal. Qed.

Lemma string_app_nil_r (a : string) : a +:+ "" = a.
Proof. induction a as [|x a IH]; [done|]. rewrite append_cons. by f_equal. Qed.

Lemma joinLines_from (acc : string) lines :
  foldl (fun content line => content +:+ line +:+ String "010"%char EmptyString) acc lines
  = acc +:+ foldr (fun line text => line +:+ String "010" text) EmptyString lines.
Proof.
  revert acc. induction lines as [|l ls IH]; intros acc; cbn [foldl foldr].
  - by rewrite string_app_nil_r.
  - rewrite IH, !string_app_assoc. reflexivity.
Qed.

Lemma joinLines_cons l ls :
  joinLines (l :: ls) = l +:+ String "010" (joinLines ls).
Proof.
  unfold joinLines. rewrite !joinLines_from. reflexivity.
Qed.

Lemma joinLines_snoc ls l :
  joinLines (ls ++ [l]) = joinLines ls +:+ l +:+ String "010" EmptyString.
Proof. unfold joinLines. by rewrite foldl_snoc. Qed.

(** Reading a line up to its line feed. *)
Lemma scanLines_line line : forall rline n rest,
  noNewline line = true ->
  n + Z.of_nat (String.length line) < bufio.MaxScanTokenSize ->
  bufio.scanLines rline n (line +:+ String "010" rest)
  = (bufio.dropCR (String.rev_app line rline) :: fst (bufio.scanLines "" 0 rest),
     snd (bufio.scanLines "" 0 rest)).
Proof.
  induction line as [|c line IH]; intros rline n rest Hnl Hlen.
  - rewrite append_nil_l. simpl. by destruct (bufio.scanLines "" 0 rest).
  - simpl in Hnl. apply andb_true_iff in Hnl as [Hc Hnl]. apply negb_true_iff in Hc.
    rewrite append_cons. cbn [bufio.scanLines]. rewrite Hc.
    assert ((bufio.MaxScanTokenSize <=? n + 1) = false) as ->.
    { apply Z.leb_gt. cbn [String.length] in Hlen. lia. }
    rewrite IH; [reflexivity|done|]. cbn [String.length] in Hlen. lia.
Qed.

(** Reading a last line that has no line feed. *)
Lemma scanLines_last line : forall rline n,
  noNewline line = true ->
  n + Z.of_nat (String.length line) < bufio.MaxScanTokenSize -> 0 <= n ->
  bufio.scanLines rline n line
  = (if n + Z.of_nat (String.length line) =? 0 then []
     else [bufio.dropCR (String.rev_app line rline)], false).
Proof.
  induction line as [|c line IH]; intros rline n Hnl Hlen Hn.
  - simpl. by rewrite Z.add_0_r.
  - simpl in Hnl. apply andb_true_iff in Hnl as [Hc Hnl]. apply negb_true_iff in Hc.
    cbn [bufio.scanLines]. rewrite Hc.
    assert ((bufio.MaxScanTokenSize <=? n + 1) = false) as ->.
    { apply Z.leb_gt. cbn [String.length] in Hlen. lia. }
    rewrite IH; [|done|cbn [String.length] in Hlen; lia|lia].
    cbn [String.length String.rev_app].
    replace (n + 1 + Z.of_nat (String.length line))
      with (n + Z.of_nat (S (String.length line))) by lia.
    reflexivity.
Qed.

Lemma rev_app_involutive (s : string) : String.rev (String.rev_app s "") = s.
Proof. unfold String.rev. apply (rev_app_rev_app s ""). Qed.

Lemma rev_app_snoc (s : string) (c : ascii) (acc : string) :
  String.rev_app (s +:+ String c "") acc = String c (String.rev_app s acc).
Proof.
  revert acc. induction s as [|x s IH]; intros acc; [done|].
  rewrite append_cons. cbn [String.rev_app]. apply IH.
Qed.

Lemma string_snoc_cases (s : string) :
  s = "" \/ exists s' c, s = s' +:+ String c "".
Proof.
  induction s as [|x s IH]; [by left|]. right.
  destruct IH as [->|(s' & c & ->)].
  - by exists "", x.
  - by exists (String x s'), c.
Qed.

Lemma endsWithCR_snoc (s : string) (c : ascii) :
  endsWithCR (s +:+ String c "") = Ascii.eqb c "013".
Proof.
  induction s as [|x s IH]; [reflexivity|].
  rewrite append_cons. cbn [endsWithCR]. rewrite IH.
  destruct (s +:+ String c "") eqn:E; [|done]. by destruct s.
Qed.

Lemma dropCR_plain line :
  endsWithCR line = false -> bufio.dropCR (String.rev_app line "") = line.
Proof.
  intros H. destruct (string_snoc_cases line) as [->|(s & c & ->)]; [reflexivity|].
  rewrite endsWithCR_snoc in H. rewrite rev_app_snoc. unfold bufio.dropCR.
  assert (String.rev (String c (String.rev_app s "")) = s +:+ String c "") as Hrev.
  { rewrite <- (rev_app_snoc s c ""). apply rev_app_involutive. }
  destruct c as [[] [] [] [] [] [] [] []]; try exact Hrev. discriminate.
Qed.

Lemma dropCR_CR line :
  bufio.dropCR (String.rev_app (line +:+ String "013" "") "") = line.
Proof. rewrite rev_app_snoc. simpl. apply rev_app_involutive. Qed.

Lemma scanLines_joinLines lines :
  Forall plainLine lines -> bufio.scanLines "" 0 (joinLines lines) = (lines, false).
Proof.
  induction 1 as [|l ls (Hnl & Hcr & Hlen) _ IH]; [reflexivity|].
  rewrite joinLines_cons, scanLines_line by (done || lia).
  rewrite IH, dropCR_plain by done. reflexivity.
Qed.

Lemma joinLines_cons_app l ls tail :
  joinLines (l :: ls) +:+ tail = l +:+ String "010" (joinLines ls +:+ tail).
Proof. by rewrite joinLines_cons, string_app_assoc, append_cons. Qed.

Lemma scanLines_joinLines_last lines last :
  Forall plainLine lines -> plainLine last -> last <> "" ->
  bufio.scanLines "" 0 (joinLines lines +:+ last) = (lines ++ [last], false).
Proof.
  intros Hall (Hnl & Hcr & Hlen) Hne.
  induction Hall as [|l ls (Hnl' & Hcr' & Hlen') _ IH].
  - change (joinLines []) with "". rewrite append_nil_l, scanLines_last by (done || lia).
    rewrite dropCR_plain by done.
    destruct last; [done|]. reflexivity.
  - rewrite joinLines_cons_app, scanLines_line by (done || lia).
    rewrite IH, dropCR_plain by done. reflexivity.
Qed.

Lemma noNewline_app a b : noNewline (a +:+ b) = noNewline a && noNewline b.
Proof.
  induction a as [|x a IH]; [reflexivity|].
  rewrite append_cons. cbn [noNewline]. by rewrite IH, andb_assoc.
Qed.

Lemma length_app_string (a b : string) :
  String.length (a +:+ b) = (String.length a + String.length b)%nat.
Proof. induction a as [|x a IH]; [reflexivity|]. rewrite append_cons. simpl. by rewrite IH. Qed.

Lemma scanLines_joinCRLF lines :
  Forall plainLine lines ->
  Forall (fun l => Z.of_nat (String.length l) + 1 < bufio.MaxScanTokenSize) lines ->
  bufio.scanLines "" 0 (joinCRLF lines) = (lines, false).
Proof.
  induction 1 as [|l ls (Hnl & Hcr & _) _ IH]; intros Hlen; [reflexivity|].
  apply Forall_cons in Hlen as [Hl Hlen].
  cbn [joinCRLF foldr]. fold (joinCRLF ls).
  change (l +:+ String "013" (String "010" (joinCRLF ls)))
    with (l +:+ (String "013" "" +:+ String "010" (joinCRLF ls))).
  rewrite <- string_app_assoc, scanLines_line.
  - rewrite IH, dropCR_CR by done. reflexivity.
  - rewrite noNewline_app, Hnl. reflexivity.
  - rewrite length_app_string. simpl String.length. lia.
Qed.

(** *** A line too long for the buffer *)

Lemma scanLines_long long : forall rline n rest,
  noNewline long = true -> n < bufio.MaxScanTokenSize ->
  bufio.MaxScanTokenSize <= n + Z.of_nat (String.length long) ->
  snd (bufio.scanLines rline n (long +:+ rest)) = true.
Proof.
  induction long as [|c long IH]; intros rline n rest Hnl Hn Hlen.
  - simpl in Hlen. lia.
  - simpl in Hnl. apply andb_true_iff in Hnl as [Hc Hnl]. apply negb_true_iff in Hc.
    rewrite append_cons. cbn [bufio.scanLines]. rewrite Hc.
    destruct (Z.leb_spec bufio.MaxScanTokenSize (n + 1)); [reflexivity|].
    apply IH; [done|done|]. cbn [String.length] in Hlen. lia.
Qed.

Lemma scanLines_error_later l : forall rline n rest,
  noNewline l = true -> snd (bufio.scanLines "" 0 rest) = true ->
  snd (bufio.scanLines rline n (l +:+ String "010" rest)) = true.
Proof.
  induction l as [|c l IH]; intros rline n rest Hnl Hrest.
  - rewrite append_nil_l. simpl. by destruct (bufio.scanLines "" 0 rest).
  - simpl in Hnl. apply andb_true_iff in Hnl as [Hc Hnl]. apply negb_true_iff in Hc.
    rewrite append_cons. cbn [bufio.scanLines]. rewrite Hc.
    destruct (bufio.MaxScanTokenSize <=? n + 1); [reflexivity|]. by apply IH.
Qed.

Lemma scanLines_long_line lines long rest :
  Forall (fun l => noNewline l = true) lines ->
  noNewline long = true ->
  bufio.MaxScanTokenSize <= Z.of_nat (String.length long) ->
  snd (bufio.scanLines "" 0 (joinLines lines +:+ long +:+ rest)) = true.
Proof.
  intros Hall Hnl Hlen. induction Hall as [|l ls Hl _ IH].
  - change (joinLines []) with "". rewrite append_nil_l.
    apply scanLines_long; [done|reflexivity|lia].
  - rewrite joinLines_cons_app. by apply scanLines_error_later.
Qed.

(** *** What the patterns of the scanner match *)

Section matcher.
Import regexp.

Lemma matchHere_Spaces_cons p prev d s :
  matchHere (Spaces :: p) prev (String d s)
  = if isSpace d then
      match matchHere (Spaces :: p) (Some d) s with
      | Some n => Some (S n)
      | None => matchHere p prev (String d s)
      end
    else matchHere p prev (String d s).
Proof. reflexivity. Qed.

Lemma matchHere_Spaces_nil p prev :
  matchHere (Spaces :: p) prev "" = matchHere p prev "".
Proof. reflexivity. Qed.

Lemma matchHere_Byte c p prev s :
  matchHere (Byte c :: p) prev s
  = match s with
    | String d s' => if Ascii.eqb c d then S <$> matchHere p (Some d) s' else None
    | EmptyString => None
    end.
Proof. reflexivity. Qed.

Lemma spaces_sound p s : forall prev n,
  matchHere (Spaces :: p) prev s = Some n ->
  exists ws s' prev' m,
    s = ws +:+ s' /\ allSpace ws = true /\ matchHere p prev' s' = Some m
    /\ n = (String.length ws + m)%nat.
Proof.
  induction s as [|d s IH]; intros prev n H.
  - rewrite matchHere_Spaces_nil in H. by exists "", "", prev, n.
  - rewrite matchHere_Spaces_cons in H.
    destruct (isSpace d) eqn:Hd;
      [destruct (matchHere (Spaces :: p) (Some d) s) as [k|] eqn:E|].
    + injection H as <-. destruct (IH _ _ E) as (ws & s' & prev' & m & -> & Hws & Hm & ->).
      exists (String d ws), s', prev', m. rewrite append_cons. simpl. by rewrite Hd, Hws.
    + by exists "", (String d s), prev, n.
    + by exists "", (String d s), prev, n.
Qed.

Lemma bytes_sound name p : forall s prev n,
  matchHere (map Byte (list_ascii_of_string name) ++ p) prev s = Some n ->
  exists s' prev' m,
    s = name +:+ s' /\ matchHere p prev' s' = Some m
    /\ n = (String.length name + m)%nat.
Proof.
  induction name as [|c name IH]; intros s prev n H.
  - by exists s, prev, n.
  - cbn [list_ascii_of_string map app] in H. rewrite matchHere_Byte in H.
    destruct s as [|d s]; [discriminate|].
    destruct (Ascii.eqb_spec c d) as [<-|]; [|discriminate].
    destruct (matchHere _ (Some c) s) as [k|] eqn:E; [|discriminate].
    injection H as <-. destruct (IH _ _ _ E) as (s' & prev' & m & -> & Hm & ->).
    exists s', prev', m. by rewrite append_cons.
Qed.

Lemma rule_sound name prev s n :
  matchHere (rule name) prev s = Some n ->
  atLineStart prev = true /\ ruleAt name s n.
Proof.
  unfold rule. cbn [app]. intros H.
  change (matchHere (BeginLine :: ?p) prev s)
    with (if atLineStart prev then matchHere p prev s else None) in H.
  destruct (atLineStart prev); [|discriminate]. split; [done|].
  apply spaces_sound in H as (ws & s1 & prev1 & m1 & -> & Hws & H & ->).
  apply bytes_sound in H as (s2 & prev2 & m2 & -> & H & ->).
  apply spaces_sound in H as (ws' & s3 & prev3 & m3 & -> & Hws' & H & ->).
  rewrite matchHere_Byte in H. destruct s3 as [|d rest]; [discriminate|].
  destruct (Ascii.eqb_spec "("%char d) as [<-|]; [|discriminate].
  injection H as <-. exists ws, ws', rest. repeat split; try done. lia.
Qed.

(** The other direction. *)
Lemma spaces_complete p ws s m :
  allSpace ws = true -> startsNonSpace s = true ->
  (forall prev, matchHere p prev s = Some m) ->
  forall prev, matchHere (Spaces :: p) prev (ws +:+ s) = Some (String.length ws + m)%nat.
Proof.
  intros Hws Hs Hm. induction ws as [|d ws IH]; intros prev.
  - rewrite append_nil_l. destruct s as [|c s]; [discriminate|].
    rewrite matchHere_Spaces_cons. simpl in Hs. apply negb_true_iff in Hs.
    rewrite Hs. apply Hm.
  - simpl in Hws. apply andb_true_iff in Hws as [Hd Hws].
    rewrite append_cons, matchHere_Spaces_cons, Hd, IH by done. reflexivity.
Qed.

Lemma bytes_complete name p s m :
  (forall prev, matchHere p prev s = Some m) ->
  forall prev,
    matchHere (map Byte (list_ascii_of_string name) ++ p) prev (name +:+ s)
    = Some (String.length name + m)%nat.
Proof.
  intros Hm. induction name as [|c name IH]; intros prev; [apply Hm|].
  cbn [list_ascii_of_string map app]. rewrite append_cons, matchHere_Byte.
  rewrite Ascii.eqb_refl, IH. reflexivity.
Qed.

Lemma startsNonSpace_app a b :
  startsNonSpace a = true -> startsNonSpace (a +:+ b) = true.
Proof. destruct a; [discriminate|]. by rewrite append_cons. Qed.

Lemma rule_complete name prev s n :
  startsNonSpace name = true -> atLineStart prev = true ->
  ruleAt name s n -> matchHere (rule name) prev s = Some n.
Proof.
  intros Hname Hprev (ws & ws' & rest & -> & Hws & Hws' & ->).
  unfold rule. cbn [app].
  change (matchHere (BeginLine :: ?p) prev ?t)
    with (if atLineStart prev then matchHere p prev t else None).
  rewrite Hprev.
  rewrite (spaces_complete _ ws _ (String.length name + (String.length ws' + 1))%nat);
    [f_equal; lia|done|by apply startsNonSpace_app|].
  apply bytes_complete.
  apply (spaces_complete _ ws' _ 1%nat); [done|reflexivity|].
  intros prev'. rewrite matchHere_Byte. reflexivity.
Qed.
End matcher.

(** * The calculator: the report of a scan *)

(** *** The languages of a report *)

Lemma calculateLanguages_languages now res :
  Report.Languages (calculateLanguages now res)
  = List.filter (hasPackages res) ["go"; "python"; "rust"].
Proof.
  unfold calculateLanguages, calculateRust, calculatePython, calculateGo, hasPackages,
    languagePackages.
  simpl List.filter.
  destruct (ScanResult.GoPackages res), (ScanResult.PythonPackages res),
    (ScanResult.RustPackages res); reflexivity.
Qed.

Lemma calculateLanguages_summaries now res lang :
  Report.LanguageSummaries (calculateLanguages now res) !! lang
  = if hasPackages res lang
    then Some (calculateLanguageSummary lang (languagePackages res lang))
    else None.
Proof.
  unfold calculateLanguages, calculateRust, calculatePython, calculateGo, hasPackages,
    languagePackages.
  destruct (String.eqb_spec lang "go") as [->|Hgo];
    [|destruct (String.eqb_spec lang "python") as [->|Hpy];
      [|destruct (String.eqb_spec lang "rust") as [->|Hru]]];
    destruct (ScanResult.GoPackages res), (ScanResult.PythonPackages res),
      (ScanResult.RustPackages res); simpl;
    rewrite ?lookup_insert_ne by done; rewrite ?lookup_insert_eq, ?lookup_empty;
    reflexivity.
Qed.

Lemma calculateLanguages_packages now res :
  let report := calculateLanguages now res in
  Report.GoPackages report = packageInfo "go" <$> ScanResult.GoPackages res
  /\ Report.PythonPackages report = packageInfo "python" <$> ScanResult.PythonPackages res
  /\ Report.RustPackages report = packageInfo "rust" <$> ScanResult.RustPackages res
  /\ Report.Packages report = Report.GoPackages report
  /\ Report.SpeedComparison report = None
  /\ Report.RepoPath report = ScanResult.RepoPath res
  /\ Report.Timestamp report = now.
Proof.
  unfold calculateLanguages, calculateRust, calculatePython, calculateGo.
  destruct (ScanResult.GoPackages res), (ScanResult.PythonPackages res),
    (ScanResult.RustPackages res); simpl; repeat split; reflexivity.
Qed.

(** *** The totals of a language summary *)

Lemma countPackage_totals sm l :
  let sm' := foldl countPackage sm l in
  LanguageSummary.TotalSourceFiles sm'
  = LanguageSummary.TotalSourceFiles sm + sumZ Package.SourceFileCount l
  /\ LanguageSummary.TotalTestFiles sm'
     = LanguageSummary.TotalTestFiles sm + sumZ Package.TestFileCount l
  /\ LanguageSummary.TotalTestTargets sm'
     = LanguageSummary.TotalTestTargets sm + sumZ Package.TestTargetCount l.
Proof.
  revert sm. induction l as [|p l IH]; intros sm.
  - simpl. repeat split; lia.
  - simpl foldl. destruct (IH (countPackage sm p)) as (H1 & H2 & H3).
    cbv zeta. rewrite H1, H2, H3, !sumZ_cons. unfold countPackage.
    destruct (Package.HasBuildFile p), (Package.HasTestFiles p); simpl;
      repeat split; lia.
Qed.

Lemma summary_totals lang packages :
  let sm := calculateLanguageSummary lang packages in
  LanguageSummary.TotalSourceFiles sm = sumZ Package.SourceFileCount packages
  /\ LanguageSummary.TotalTestFiles sm = sumZ Package.TestFileCount packages
  /\ LanguageSummary.TotalTestTargets sm = sumZ Package.TestTargetCount packages.
Proof.
  unfold calculateLanguageSummary.
  destruct (countPackage_totals
              (LanguageSummary.mk lang Float64.zero Float64.zero Float64.zero
                 (Z.of_nat (length packages)) 0 0 0 0 0) packages) as (H1 & H2 & H3).
  set (s0 := foldl countPackage _ packages) in *. simpl in H1, H2, H3.
  destruct (0 <? LanguageSummary.TotalPackages s0); simpl;
    destruct (0 <? _); simpl; rewrite H1, H2, H3; done.
Qed.

Lemma scan_rust_tests s root res :
  ScanReturns s root res ->
  ScanResult.TotalRustTests res = sumZ Package.TestFileCount (ScanResult.RustPackages res).
Proof.
  intros Hres.
  destruct (ScanReturns_inv s root res Hres)
    as (dps & _ & Hdps & _ & _ & Hru & _ & _ & _ & _ & _ & _ & _ & Htot).
  rewrite Htot, (sumZ_perm _ _ _ Hru). symmetry. apply (rust_credit_sum s root).
  intros dp Hin. by apply Hdps.
Qed.

Lemma scanTotals_sums s root res lang :
  ScanReturns s root res ->
  In lang ["go"; "python"; "rust"] ->
  scanTotals res lang
  = (sumZ Package.SourceFileCount (languagePackages res lang),
     sumZ Package.TestFileCount (languagePackages res lang),
     sumZ Package.TestTargetCount (languagePackages res lang)).
Proof.
  intros Hres Hin.
  destruct (scan_file_totals s root res Hres) as (F1 & F2 & F3 & F4 & F5).
  destruct (scan_rule_totals s root res Hres) as (R1 & R2 & R3).
  pose proof (scan_rust_tests s root res Hres) as F6.
  unfold scanTotals, languagePackages. simpl in Hin.
  destruct Hin as [<-|[<-|[<-|[]]]]; simpl; congruence.
Qed.

Lemma report_summary_totals s root now res report lang sm :
  ScanReturns s root res -> CalculateReturns now res report ->
  Report.LanguageSummaries report !! lang = Some sm ->
  (LanguageSummary.TotalSourceFiles sm, LanguageSummary.TotalTestFiles sm,
   LanguageSummary.TotalTestTargets sm) = scanTotals res lang
  /\ LanguageSummary.Language sm = lang
  /\ LanguageSummary.TotalPackages sm = Z.of_nat (length (languagePackages res lang))
  /\ 0 < LanguageSummary.TotalPackages sm.
Proof.
  intros Hres (bd & _ & ->) Hl. simpl in Hl.
  rewrite calculateLanguages_summaries in Hl.
  unfold hasPackages in Hl.
  destruct (languagePackages res lang) as [|p l] eqn:E; [discriminate|].
  injection Hl as <-.
  assert (Hin : In lang ["go"; "python"; "rust"]).
  { unfold languagePackages in E.
    destruct (String.eqb_spec lang "go") as [->|]; [simpl; tauto|].
    destruct (String.eqb_spec lang "python") as [->|]; [simpl; tauto|].
    destruct (String.eqb_spec lang "rust") as [->|]; [simpl; tauto|]. discriminate. }
  rewrite (scanTotals_sums s root res lang Hres Hin), E.
  destruct (summary_totals lang (p :: l)) as (H1 & H2 & H3).
  destruct (calculateLanguageSummary_fields lang (p :: l)) as (HL & HT & _).
  rewrite H1, H2, H3, HL, HT. repeat split.
Qed.

(** *** The legacy summary *)

Lemma calculateLanguages_legacy now res :
  Report.Summary (calculateLanguages now res)
  = match ScanResult.GoPackages res with
    | [] => Summary.zero
    | _ =>
        let sm := calculateLanguageSummary "go" (ScanResult.GoPackages res) in
        Summary.mk (LanguageSummary.BazelizationPct sm) (LanguageSummary.TestCoveragePct sm)
          (LanguageSummary.BazelizedTestsPct sm) (LanguageSummary.TotalPackages sm)
          (ScanResult.TotalBUILDs res) (LanguageSummary.TotalTestFiles sm)
          (LanguageSummary.TotalSourceFiles sm) (LanguageSummary.PackagesWithBuild sm)
          (LanguageSummary.PackagesWithTests sm) (LanguageSummary.TotalTestTargets sm)
    end.
Proof.
  unfold calculateLanguages, calculateRust, calculatePython, calculateGo.
  destruct (ScanResult.GoPackages res), (ScanResult.PythonPackages res),
    (ScanResult.RustPackages res); reflexivity.
Qed.

Lemma legacy_summary s root now res report :
  ScanReturns s root res -> CalculateReturns now res report ->
  let sm := Report.Summary report in
  let packages := ScanResult.GoPackages res in
  Summary.TotalPackages sm = Z.of_nat (length packages)
  /\ Summary.TotalGoFiles sm = ScanResult.TotalGoFiles res
  /\ Summary.TotalTestFiles sm = ScanResult.TotalGoTests res
  /\ Summary.TotalGoTestTargets sm = ScanResult.TotalGoTestRules res
  /\ Summary.PackagesWithBuild sm = countIf Package.HasBuildFile packages
  /\ Summary.PackagesWithTests sm = countIf Package.HasTestFiles packages
  /\ (forall go, Report.LanguageSummaries report !! "go" = Some go ->
        Summary.BazelizationPct sm = LanguageSummary.BazelizationPct go
        /\ Summary.TestCoveragePct sm = LanguageSummary.TestCoveragePct go
        /\ Summary.BazelizedTestsPct sm = LanguageSummary.BazelizedTestsPct go)
  /\ (Report.LanguageSummaries report !! "go" = None -> sm = Summary.zero).
Proof.
  intros Hres (bd & _ & ->). simpl Report.Summary. simpl Report.LanguageSummaries.
  cbv zeta. rewrite calculateLanguages_legacy, calculateLanguages_go.
  destruct (scan_file_totals s root res Hres) as (F1 & F2 & _).
  destruct (scan_rule_totals s root res Hres) as (R1 & _).
  rewrite F1, F2, R1.
  destruct (ScanResult.GoPackages res) as [|p l] eqn:E.
  - split; [reflexivity|]. split; [reflexivity|]. split; [reflexivity|].
    split; [reflexivity|]. split; [reflexivity|]. split; [reflexivity|].
    split; [intros go [=]|done].
  - destruct (summary_totals "go" (p :: l)) as (H1 & H2 & H3).
    destruct (calculateLanguageSummary_fields "go" (p :: l)) as (_ & HT & HB & HW & _).
    cbv zeta. cbn [Summary.TotalPackages Summary.TotalGoFiles Summary.TotalTestFiles
      Summary.TotalGoTestTargets Summary.PackagesWithBuild Summary.PackagesWithTests
      Summary.BazelizationPct Summary.TestCoveragePct Summary.BazelizedTestsPct].
    rewrite H1, H2, H3, HT, HB, HW.
    split; [reflexivity|]. split; [reflexivity|]. split; [reflexivity|].
    split; [reflexivity|]. split; [reflexivity|]. split; [reflexivity|].
    split; [|intros [=]]. intros go [= <-]. done.
Qed.

(** *** The flags of the directory breakdown *)

Section breakdown_flags.
Import DirectoryMetrics.

Lemma withPercentages_counts dm :
  BazelizedPackages (withPercentages dm) = BazelizedPackages dm
  /\ PackagesWithTests (withPercentages dm) = PackagesWithTests dm
  /\ Name (withPercentages dm) = Name dm.
Proof. unfold withPercentages. destruct (0 <? TotalPackages dm); done. Qed.

Lemma sumZ_fmap {A B} (f : B -> Z) (g : A -> B) l :
  sumZ f (g <$> l) = sumZ (fun a => f (g a)) l.
Proof. induction l as [|a l IH]; [done|]. by rewrite fmap_cons, !sumZ_cons, IH. Qed.

Lemma breakdownRun_flags packages encounter result :
  breakdownRun packages encounter result ->
  sumZ BazelizedPackages result = countIf Package.HasBuildFile packages
  /\ sumZ PackagesWithTests result = countIf Package.HasTestFiles packages
  /\ (forall dm, In dm result ->
        BazelizedPackages dm = countIf Package.HasBuildFile (members (Name dm) packages)
        /\ PackagesWithTests dm
           = countIf Package.HasTestFiles (members (Name dm) packages)).
Proof.
  intros Hrun. pose proof Hrun as [Henc [Hperm _]].
  split; [|split].
  - rewrite <- (sumZ_perm _ _ _ Hperm), sumZ_fmap.
    rewrite (sumZ_ext_In _ BazelizedPackages) by (intros; apply withPercentages_counts).
    rewrite (sumZ_perm _ _ _ Henc), groups_upd.
    rewrite (keyed_sum topDir (fun p => new (topDir p)) addMember BazelizedPackages
               (fun p => if Package.HasBuildFile p then 1 else 0)).
    + rewrite map_to_list_empty, sumZ_countIf. reflexivity.
    + reflexivity.
    + intros v a. unfold addMember.
      destruct (Package.HasBuildFile a), (Package.HasTestFiles a); simpl; lia.
  - rewrite <- (sumZ_perm _ _ _ Hperm), sumZ_fmap.
    rewrite (sumZ_ext_In _ PackagesWithTests) by (intros; apply withPercentages_counts).
    rewrite (sumZ_perm _ _ _ Henc), groups_upd.
    rewrite (keyed_sum topDir (fun p => new (topDir p)) addMember PackagesWithTests
               (fun p => if Package.HasTestFiles p then 1 else 0)).
    + rewrite map_to_list_empty, sumZ_countIf. reflexivity.
    + reflexivity.
    + intros v a. unfold addMember.
      destruct (Package.HasBuildFile a), (Package.HasTestFiles a); simpl; lia.
  - intros dm Hin.
    destruct (breakdownRun_entries _ _ _ _ Hrun Hin) as (dm0 & Hl & ->).
    destruct (withPercentages_counts dm0) as (-> & -> & ->).
    destruct (groups_lookup _ _ _ Hl) as (_ & _ & _ & H1 & H2 & _). done.
Qed.
End breakdown_flags.

(** *** The first segment of a cleaned path *)

Lemma clean_step_plain out segs :
  Forall plainElement segs ->
  foldl (filepath.clean_step false) out segs = rev segs ++ out.
Proof.
  intros H. revert out. induction H as [|e segs (He & _ & Hd & Hdd) _ IH]; intros out.
  - reflexivity.
  - simpl foldl. rewrite IH. unfold filepath.clean_step.
    apply String.eqb_neq in He, Hd, Hdd. rewrite He, Hd, Hdd. simpl.
    by rewrite <- app_assoc.
Qed.

Lemma Join_plain_head e rest :
  e <> "" -> exists c r, strings.Join (e :: rest) "/" = String c r
                         /\ exists e', e = String c e'.
Proof.
  intros He. destruct e as [|c e']; [done|].
  destruct rest as [|e2 rest].
  - exists c, e'. split; [reflexivity|by eexists].
  - eexists c, _. split; [|by eexists].
    change (strings.Join (String c e' :: e2 :: rest) "/")
      with (String c e' +:+ "/" +:+ strings.Join (e2 :: rest) "/").
    apply append_cons.
Qed.

Lemma Clean_plain segs :
  segs <> [] -> Forall plainElement segs ->
  filepath.Clean (strings.Join segs "/") = strings.Join segs "/".
Proof.
  intros Hne Hall. destruct segs as [|e rest]; [done|].
  pose proof (Forall_inv Hall) as (He & Hsep & _).
  destruct (Join_plain_head e rest He) as (c & r & Hj & e' & ->).
  assert (Hc : c <> "/"%char).
  { simpl in Hsep. apply andb_true_iff in Hsep as [Hc _].
    apply negb_true_iff, Ascii.eqb_neq in Hc. done. }
  assert (Hpre : strings.HasPrefix (strings.Join (String c e' :: rest) "/") "/" = false).
  { rewrite Hj. unfold strings.HasPrefix.
    change (String.prefix "/" (String c r))
      with (if ascii_dec "/" c then String.prefix "" r else false).
    destruct (ascii_dec "/" c); [by subst|done]. }
  assert (Hnon : String.eqb (strings.Join (String c e' :: rest) "/") "" = false).
  { rewrite Hj. reflexivity. }
  unfold filepath.Clean. rewrite Hnon, Hpre.
  rewrite Split_Join; [|done|by eapply Forall_impl; [exact Hall|]; intros ? (_ & ? & _)].
  rewrite clean_step_plain, app_nil_r, rev_involutive by done.
  rewrite Hnon. reflexivity.
Qed.

Lemma HasPrefix_dot n :
  strings.HasPrefix n "." = false -> n <> "." /\ n <> "..".
Proof. intros H. split; intros ->; discriminate. Qed.

Lemma getTopLevelDir_segments segs :
  Forall plainElement segs ->
  (let t := getTopLevelDir (Rel segs) in
   if String.eqb t "" || String.eqb t "." then "(root)" else t) = groupLabel segs.
Proof.
  intros Hall. destruct segs as [|e rest]; [reflexivity|].
  unfold Rel, getTopLevelDir. rewrite Clean_plain by done.
  rewrite Split_Join; [|done|by eapply Forall_impl; [exact Hall|]; intros ? (_ & ? & _)].
  cbv zeta. pose proof (Forall_inv Hall) as (He & _ & Hd & _).
  apply String.eqb_neq in He, Hd. rewrite He, Hd. reflexivity.
Qed.

Lemma scan_groupLabel s root res P :
  forallb dirNamesProper root = true ->
  ScanReturns s root res -> In P (allPackages res) ->
  topDir P = groupLabel (segments (Package.RelPath P)).
Proof.
  intros Hnames Hres HP. unfold topDir.
  destruct (package_visit s root res P Hres HP) as (v & Hv & _ & <-).
  destruct (visit_paths s root Hnames v Hv) as (_ & -> & Hp & Hs).
  rewrite (segments_Rel s) by done.
  apply getTopLevelDir_segments.
  apply Forall_forall. intros n Hn. rewrite Forall_forall in Hp, Hs.
  destruct (Hp n Hn) as [H1 H2]. specialize (Hs n Hn).
  unfold skipDir in Hs. apply orb_false_iff in Hs as [Hs _].
  apply orb_false_iff in Hs as [Hs _]. apply HasPrefix_dot in Hs as [? ?]. done.
Qed.

(** *** The labels of the groups *)

Lemma noSeparator_rev_app cur acc :
  noSeparator cur = true -> noSeparator acc = true ->
  noSeparator (String.rev_app cur acc) = true.
Proof.
  revert acc. induction cur as [|c cur IH]; intros acc Hc Ha; simpl in *; [done|].
  apply andb_true_iff in Hc as [H1 H2]. apply IH; [done|]. simpl. by rewrite H1, Ha.
Qed.

Lemma split_go_noSep cur s :
  noSeparator cur = true ->
  Forall (fun n => noSeparator n = true) (strings.split_go filepath.Separator cur s).
Proof.
  revert cur. induction s as [|c s IH]; intros cur Hcur; simpl.
  - constructor; [|constructor]. by apply noSeparator_rev_app.
  - destruct (Ascii.eqb c filepath.Separator) eqn:E.
    + constructor; [by apply noSeparator_rev_app|]. by apply IH.
    + apply IH. simpl. by rewrite E.
Qed.

Lemma getTopLevelDir_noSeparator path : noSeparator (getTopLevelDir path) = true.
Proof.
  unfold getTopLevelDir, strings.Split.
  pose proof (split_go_noSep "" (filepath.Clean path) eq_refl) as H.
  destruct (strings.split_go _ _ _); [reflexivity|]. by apply Forall_inv in H.
Qed.

Lemma topDir_label p :
  topDir p <> "" /\ topDir p <> "." /\ noSeparator (topDir p) = true.
Proof.
  unfold topDir. pose proof (getTopLevelDir_noSeparator (Package.RelPath p)) as H.
  destruct (String.eqb_spec (getTopLevelDir (Package.RelPath p)) "") as [E|E];
    [done|].
  destruct (String.eqb_spec (getTopLevelDir (Package.RelPath p)) ".") as [E'|E'];
    done.
Qed.

(** * The benchmark runner *)

Import benchmark.

(** *** The selection sort of [selectCandidates] *)

Lemma minIndex_spec fuel (l : list Package.t) m j :
  (m < length l)%nat -> (length l - j <= fuel)%nat ->
  exists m' b,
    minIndex fuel l m j = Some m'
    /\ (m' = m \/ (j <= m')%nat)
    /\ l !! m' = Some b
    /\ (forall x, l !! m = Some x -> Package.TestFileCount b <= Package.TestFileCount x)
    /\ (forall k x, (j <= k)%nat -> l !! k = Some x ->
          Package.TestFileCount b <= Package.TestFileCount x).
Proof.
  revert m j. induction fuel as [|fuel IH]; intros m j Hm Hf.
  - destruct (lookup_lt_is_Some_2 l m Hm) as [b Hb].
    exists m, b. simpl. assert ((j <? length l)%nat = false) as ->
      by (apply Nat.ltb_ge; lia).
    split; [done|]. split; [by left|]. split; [done|]. split.
    + intros x Hx. assert (x = b) as -> by congruence. lia.
    + intros k x Hk Hx. apply lookup_lt_Some in Hx. lia.
  - simpl. destruct (Nat.ltb_spec j (length l)) as [Hj|Hj].
    + destruct (lookup_lt_is_Some_2 l j Hj) as [cj Hcj].
      destruct (lookup_lt_is_Some_2 l m Hm) as [cm Hcm].
      rewrite Hcj, Hcm. simpl.
      destruct (Z.ltb_spec (Package.TestFileCount cj) (Package.TestFileCount cm)) as [Hlt|Hge].
      * destruct (IH j (S j) Hj ltac:(lia)) as (m' & b & E & Hor & Hb & H1 & H2).
        exists m', b. split; [done|]. split; [right; lia|]. split; [done|].
        specialize (H1 _ Hcj). split.
        -- intros x Hx. assert (x = cm) as -> by congruence. lia.
        -- intros k x Hk Hx. destruct (decide (k = j)) as [->|Hne].
           ++ assert (x = cj) as -> by congruence. done.
           ++ apply (H2 k); [lia|done].
      * destruct (IH m (S j) Hm ltac:(lia)) as (m' & b & E & Hor & Hb & H1 & H2).
        exists m', b. split; [done|]. split; [destruct Hor; [by left|right; lia]|].
        split; [done|]. split; [intros x Hx; apply H1; congruence|].
        intros k x Hk Hx. destruct (decide (k = j)) as [->|Hne].
        -- assert (x = cj) as -> by congruence. specialize (H1 _ Hcm). lia.
        -- apply (H2 k); [lia|done].
    + destruct (lookup_lt_is_Some_2 l m Hm) as [b Hb].
      exists m, b. split; [done|]. split; [by left|]. split; [done|]. split.
      * intros x Hx. assert (x = b) as -> by congruence. lia.
      * intros k x Hk Hx. apply lookup_lt_Some in Hx. lia.
Qed.

Lemma insert_swap_perm {A} (rest : list A) k a b :
  rest !! k = Some b -> b :: <[k := a]> rest ≡ₚ a :: rest.
Proof.
  revert k. induction rest as [|x rest IH]; intros k Hk; [done|].
  destruct k as [|k]; simpl in *.
  - injection Hk as ->. apply perm_swap.
  - rewrite perm_swap, (IH _ Hk). apply perm_swap.
Qed.

Lemma swap_spec (l : list Package.t) i m b :
  (i <= m)%nat -> (i < length l)%nat -> l !! m = Some b ->
  exists a rest rest',
    l = take i l ++ a :: rest
    /\ swap l i m = Some (take i l ++ b :: rest')
    /\ b :: rest' ≡ₚ a :: rest.
Proof.
  intros Him Hi Hb.
  destruct (lookup_lt_is_Some_2 l i Hi) as [a Ha].
  pose proof (take_drop_middle l i a Ha) as Hl.
  unfold swap. rewrite Ha, Hb. simpl.
  destruct (decide (m = i)) as [->|Hne].
  - assert (a = b) as <- by congruence.
    exists a, (drop (S i) l), (drop (S i) l). split; [done|]. split; [|done].
    rewrite list_insert_insert_eq, list_insert_id by done. by rewrite Hl.
  - exists a, (drop (S i) l), (<[(m - S i)%nat := a]> (drop (S i) l)).
    split; [done|].
    assert (Hlen : length (take i l) = i) by (rewrite length_take; lia).
    assert (Hd : drop (S i) l !! (m - S i)%nat = Some b).
    { rewrite lookup_drop. replace (S i + (m - S i))%nat with m by lia. done. }
    split; [|by apply insert_swap_perm].
    f_equal. rewrite <- Hl at 1.
    rewrite insert_app_r_alt by lia. rewrite Hlen, Nat.sub_diag. simpl.
    rewrite insert_app_r_alt by lia. rewrite Hlen.
    replace (m - i)%nat with (S (m - S i)) by lia. reflexivity.
Qed.

Lemma smallestFirst_step (l : list Package.t) i a b rest rest' :
  length (take i l) = i ->
  l = take i l ++ a :: rest ->
  b :: rest' ≡ₚ a :: rest ->
  (forall x, In x (a :: rest) -> Package.TestFileCount b <= Package.TestFileCount x) ->
  smallestFirst i l ->
  smallestFirst (S i) (take i l ++ b :: rest').
Proof.
  intros Hlen Hl Hperm Hmin Hinv i' j x y Hi' Hij Hx Hy.
  assert (Hy' : (i <= j)%nat -> In y (a :: rest)).
  { intros Hj. rewrite lookup_app_r in Hy by lia.
    apply list_elem_of_lookup_2, list_elem_of_In in Hy.
    by apply (Permutation_in _ Hperm). }
  destruct (decide (i' = i)) as [->|Hne].
  - rewrite lookup_app_r, Hlen, Nat.sub_diag in Hx by lia. injection Hx as <-.
    apply Hmin, Hy'. lia.
  - assert (Hlt : (i' < i)%nat) by lia.
    rewrite lookup_app_l in Hx by lia.
    assert (Hx' : l !! i' = Some x).
    { rewrite Hl, lookup_app_l by lia. done. }
    destruct (decide (j < i)%nat) as [Hj|Hj].
    + rewrite lookup_app_l in Hy by lia.
      apply (Hinv i' j); [done|done|done|]. rewrite Hl, lookup_app_l by lia. done.
    + specialize (Hy' ltac:(lia)). apply list_elem_of_In, list_elem_of_lookup_1 in Hy' as [k Hk].
      apply (Hinv i' (i + k)%nat); [done|lia|done|].
      rewrite Hl, lookup_app_r by lia. rewrite Hlen.
      replace (i + k - i)%nat with k by lia. done.
Qed.

Lemma selectionSort_spec fuel maxTests (l : list Package.t) i :
  (length l - 1 - i <= fuel)%nat ->
  smallestFirst i l ->
  exists l' k,
    selectionSort fuel maxTests l i = Some l'
    /\ l' ≡ₚ l
    /\ smallestFirst k l'
    /\ (Z.of_nat (length l) - 1 <= Z.of_nat k \/ maxTests <= Z.of_nat k).
Proof.
  revert l i. induction fuel as [|fuel IH]; intros l i Hf Hinv.
  - exists l, i. simpl.
    assert ((Z.of_nat i <? Z.of_nat (length l) - 1) = false) as ->
      by (apply Z.ltb_ge; lia).
    simpl. split; [done|]. split; [done|]. split; [done|]. left. lia.
  - simpl.
    destruct (Z.ltb_spec (Z.of_nat i) (Z.of_nat (length l) - 1)) as [H1|H1];
      [destruct (Z.ltb_spec (Z.of_nat i) maxTests) as [H2|H2]|]; simpl.
    + assert (Hi : (i < length l)%nat) by lia.
      destruct (minIndex_spec (length l) l i (S i) Hi ltac:(lia))
        as (m & b & -> & Hor & Hb & M1 & M2).
      simpl.
      assert (Him : (i <= m)%nat) by (destruct Hor; lia).
      destruct (swap_spec l i m b Him Hi Hb) as (a & rest & rest' & Hl & -> & Hperm).
      simpl.
      assert (Hlen : length (take i l) = i) by (rewrite length_take; lia).
      assert (Hpl : take i l ++ b :: rest' ≡ₚ l).
      { rewrite Hl at 2. by rewrite Hperm. }
      assert (Hmin : forall x, In x (a :: rest) ->
                Package.TestFileCount b <= Package.TestFileCount x).
      { intros x Hx. apply list_elem_of_In, list_elem_of_lookup_1 in Hx as [k Hk].
        assert (Hk' : l !! (i + k)%nat = Some x).
        { rewrite Hl, lookup_app_r by lia. rewrite Hlen.
          replace (i + k - i)%nat with k by lia. done. }
        destruct k as [|k].
        - apply M1. by rewrite Nat.add_0_r in Hk'.
        - apply (M2 (i + S k)%nat); [lia|done]. }
      pose proof (smallestFirst_step l i a b rest rest' Hlen Hl Hperm Hmin Hinv) as Hinv'.
      pose proof (Permutation_length Hpl) as Hlen'.
      destruct (IH (take i l ++ b :: rest') (S i) ltac:(lia) Hinv')
        as (l' & k & E & Hp & Hk & Hex).
      exists l', k. split; [done|]. split; [by rewrite Hp|]. split; [done|].
      rewrite Hlen' in Hex. done.
    + exists l, i. split; [done|]. split; [done|]. split; [done|]. by right.
    + exists l, i. split; [done|]. split; [done|]. split; [done|]. by left.
Qed.

Lemma smallestFirst_all n k (l : list Package.t) :
  smallestFirst k l ->
  (Z.of_nat (length l) - 1 <= Z.of_nat k \/ Z.of_nat n <= Z.of_nat k) ->
  smallestFirst n l.
Proof.
  intros Hk Hor i j a b Hi Hij Ha Hb.
  apply (Hk i j); try done.
  apply lookup_lt_Some in Hb. lia.
Qed.

Lemma NewRunner_maxTests repoPath res maxTests :
  0 < Runner.maxTests (NewRunner repoPath res maxTests)
  /\ (0 < maxTests -> Runner.maxTests (NewRunner repoPath res maxTests) = maxTests)
  /\ (maxTests <= 0 -> Runner.maxTests (NewRunner repoPath res maxTests) = 5).
Proof.
  unfold NewRunner. simpl. destruct (Z.leb_spec maxTests 0); repeat split; lia.
Qed.

Lemma selectCandidates_spec (r : Runner.t) :
  exists candidates,
    selectCandidates r = Some candidates
    /\ candidates ≡ₚ List.filter isCandidate (ScanResult.GoPackages (Runner.scanResult r))
    /\ smallestFirst (Z.to_nat (Runner.maxTests r)) candidates.
Proof.
  unfold selectCandidates.
  set (l := List.filter isCandidate _).
  destruct (selectionSort_spec (length l) (Runner.maxTests r) l 0 ltac:(lia))
    as (l' & k & E & Hp & Hk & Hex).
  { intros i j a b Hi. lia. }
  exists l'. split; [done|]. split; [done|].
  apply (smallestFirst_all _ k); [done|].
  rewrite (Permutation_length Hp). destruct Hex; [by left|right; lia].
Qed.

Lemma smallestFirst_take n (l : list Package.t) :
  smallestFirst n l ->
  StronglySorted fewerTests (take n l)
  /\ (forall a b, In a (take n l) -> In b (drop n l) -> fewerTests a b).
Proof.
  intros H. split.
  - revert n H. induction l as [|x l IH]; intros n H.
    + rewrite take_nil. constructor.
    + destruct n as [|n]; [constructor|]. simpl. constructor.
      * apply IH. intros i j a b Hi Hij Ha Hb.
        apply (H (S i) (S j)); [lia|lia|done|done].
      * apply Forall_forall. intros y Hy.
        apply list_elem_of_lookup_1 in Hy as [k Hk].
        apply lookup_take_Some in Hk as [Hk _].
        apply (H 0%nat (S k)); [lia|lia|done|done].
  - intros a b Ha Hb.
    apply list_elem_of_In, list_elem_of_lookup_1 in Ha as [i Hi].
    apply list_elem_of_In, list_elem_of_lookup_1 in Hb as [j Hj].
    apply lookup_take_Some in Hi as [Hi Hlt].
    rewrite lookup_drop in Hj.
    apply (H i (n + j)%nat); [done|lia|done|done].
Qed.

Lemma isCandidate_iff p :
  isCandidate p = true
  <-> Package.HasTestFiles p = true /\ 0 < Package.TestTargetCount p
      /\ 0 < Package.TestFileCount p <= 20.
Proof.
  unfold isCandidate. rewrite !andb_true_iff, !Z.ltb_lt, Z.leb_le. tauto.
Qed.

(** *** [filepath.Dir] shortens a path *)

Lemma dirPrefix_prefix path : exists tail, path = dirPrefix path +:+ tail.
Proof.
  induction path as [|c rest [tail IH]].
  - by exists "".
  - simpl. destruct (dirPrefix rest) as [|d p] eqn:E.
    + destruct (Ascii.eqb c filepath.Separator).
      * exists rest. reflexivity.
      * exists (String c rest). reflexivity.
    + exists tail. rewrite append_cons. by f_equal.
Qed.

Lemma dirPrefix_ends path :
  dirPrefix path = "" \/ exists q, dirPrefix path = q +:+ "/".
Proof.
  induction path as [|c rest IH]; [by left|].
  simpl. destruct (dirPrefix rest) as [|d p] eqn:E.
  - destruct (Ascii.eqb_spec c filepath.Separator) as [->|_]; [|by left].
    right. by exists "".
  - right. destruct IH as [IH|[q IH]]; [done|].
    exists (String c q). rewrite append_cons. by f_equal.
Qed.

Lemma length_rev_app (s acc : string) :
  String.length (String.rev_app s acc) = (String.length s + String.length acc)%nat.
Proof.
  revert acc. induction s as [|c s IH]; intros acc; [reflexivity|].
  simpl. rewrite IH. simpl. lia.
Qed.

Lemma pathWeight_cons e l :
  pathWeight (e :: l)
  = if String.eqb e "" then pathWeight l else (String.length e + 1 + pathWeight l)%nat.
Proof. reflexivity. Qed.

Lemma pathWeight_le e l :
  (pathWeight (e :: l) <= String.length e + 1 + pathWeight l)%nat.
Proof. rewrite pathWeight_cons. destruct (String.eqb e ""); lia. Qed.

Lemma pathWeight_app l1 l2 : pathWeight (l1 ++ l2) = (pathWeight l1 + pathWeight l2)%nat.
Proof.
  induction l1 as [|e l1 IH]; [reflexivity|].
  rewrite <- app_comm_cons, !pathWeight_cons, IH. destruct (String.eqb e ""); lia.
Qed.

Lemma pathWeight_rev l : pathWeight (rev l) = pathWeight l.
Proof.
  induction l as [|e l IH]; [reflexivity|].
  simpl rev. rewrite pathWeight_app, IH, !pathWeight_cons. simpl pathWeight.
  destruct (String.eqb e ""); lia.
Qed.

(** The elements of a path that ends with a separator: the last one is
    empty. *)
Lemma pathWeight_split_trailing cur q :
  (pathWeight (strings.split_go filepath.Separator cur (q +:+ "/"))
   <= String.length cur + String.length q + 1)%nat.
Proof.
  revert cur. induction q as [|c q IH]; intros cur.
  - change (strings.split_go filepath.Separator cur ("" +:+ "/"))
      with [String.rev cur; ""].
    etransitivity; [apply pathWeight_le|]. unfold String.rev.
    rewrite length_rev_app. simpl. lia.
  - rewrite append_cons. cbn [strings.split_go].
    destruct (Ascii.eqb c filepath.Separator).
    + etransitivity; [apply pathWeight_le|]. unfold String.rev.
      rewrite length_rev_app. specialize (IH ""). simpl in *. lia.
    + specialize (IH (String c cur)). simpl in *. lia.
Qed.

Lemma clean_step_weight rooted out e :
  (pathWeight (filepath.clean_step rooted out e) <= pathWeight out + pathWeight [e])%nat.
Proof.
  unfold filepath.clean_step. rewrite (pathWeight_cons e []). simpl pathWeight at 3.
  destruct (String.eqb_spec e "") as [->|He]; [simpl; lia|].
  destruct (String.eqb_spec e ".") as [->|Hd]; [simpl; lia|]. simpl orb. cbv iota.
  destruct (String.eqb_spec e "..") as [->|Hdd].
  - destruct out as [|top out'].
    + destruct rooted; simpl; lia.
    + destruct (String.eqb_spec top "..") as [->|_].
      * simpl. lia.
      * rewrite (pathWeight_cons top). destruct (String.eqb top ""); lia.
  - rewrite pathWeight_cons. apply String.eqb_neq in He. rewrite He. lia.
Qed.

Lemma clean_fold_weight rooted out elems :
  (pathWeight (foldl (filepath.clean_step rooted) out elems)
   <= pathWeight out + pathWeight elems)%nat.
Proof.
  revert out. induction elems as [|e elems IH]; intros out; [simpl; lia|].
  simpl foldl. etransitivity; [apply IH|].
  pose proof (clean_step_weight rooted out e) as H.
  rewrite (pathWeight_cons e elems). rewrite (pathWeight_cons e []) in H.
  simpl pathWeight in H. destruct (String.eqb e ""); lia.
Qed.

(** What [clean_step] keeps is not empty. *)
Lemma clean_step_nonempty rooted out e :
  Forall (fun x => x <> "") out ->
  Forall (fun x => x <> "") (filepath.clean_step rooted out e).
Proof.
  intros Hout. unfold filepath.clean_step.
  destruct (String.eqb_spec e "") as [->|He]; [done|].
  destruct (String.eqb_spec e ".") as [->|Hd]; [done|]. simpl orb. cbv iota.
  destruct (String.eqb_spec e "..") as [->|Hdd].
  - destruct out as [|top out'].
    + destruct rooted; repeat constructor. done.
    + destruct (String.eqb top ".."); [by constructor|]. by apply Forall_inv_tail in Hout.
  - by constructor.
Qed.

Lemma clean_fold_nonempty rooted out elems :
  Forall (fun x => x <> "") out ->
  Forall (fun x => x <> "") (foldl (filepath.clean_step rooted) out elems).
Proof.
  revert out. induction elems as [|e elems IH]; intros out Hout; [done|].
  simpl. by apply IH, clean_step_nonempty.
Qed.

Lemma Join_length elems :
  Forall (fun x => x <> "") elems -> elems <> [] ->
  (String.length (strings.Join elems "/") + 1 = pathWeight elems)%nat.
Proof.
  induction 1 as [|e rest He Hrest IH]; intros Hne; [done|].
  rewrite pathWeight_cons. apply String.eqb_neq in He. rewrite He.
  destruct rest as [|e' rest'].
  - simpl. lia.
  - change (strings.Join (e :: e' :: rest') "/")
      with (e +:+ "/" +:+ strings.Join (e' :: rest') "/").
    rewrite !length_app_string. simpl String.length at 2.
    specialize (IH ltac:(done)). lia.
Qed.

Lemma Clean_body rooted (p : string) :
  let out := rev (foldl (filepath.clean_step rooted) [] (strings.Split p filepath.Separator)) in
  (pathWeight out <= pathWeight (strings.Split p filepath.Separator))%nat
  /\ (out = [] /\ strings.Join out "/" = ""
      \/ out <> [] /\ (String.length (strings.Join out "/") + 1 = pathWeight out)%nat).
Proof.
  intros out. split.
  - unfold out. rewrite pathWeight_rev. apply (clean_fold_weight rooted []).
  - assert (Hne : Forall (fun x => x <> "") out).
    { apply Forall_rev. by apply clean_fold_nonempty. }
    destruct out as [|x l] eqn:E; [by left|]. right. split; [done|].
    by apply Join_length.
Qed.

Lemma Clean_shorter q :
  q <> "" ->
  (String.length (filepath.Clean (q +:+ "/")) < String.length (q +:+ "/"))%nat.
Proof.
  intros Hq. destruct q as [|c q']; [done|]. clear Hq.
  rewrite length_app_string. simpl String.length.
  unfold filepath.Clean. rewrite append_cons.
  change (String.eqb (String c (q' +:+ "/")) "") with false. cbv iota zeta.
  set (p := String c (q' +:+ "/")).
  destruct (Ascii.eqb_spec c filepath.Separator) as [->|Hc].
  - assert (strings.HasPrefix p "/" = true) as ->.
    { unfold strings.HasPrefix, p.
      change (String.prefix "/" (String filepath.Separator (q' +:+ "/")))
        with (if ascii_dec "/" "/" then String.prefix "" (q' +:+ "/") else false).
      destruct (ascii_dec "/" "/"); [|done]. by destruct (q' +:+ "/"). }
    destruct (Clean_body true p) as [Hw Hbody]. cbv zeta in Hw, Hbody.
    set (out := rev _) in *.
    assert (Hsplit : (pathWeight (strings.Split p filepath.Separator)
                      <= String.length q' + 1)%nat).
    { unfold strings.Split, p. cbn [strings.split_go].
      change (Ascii.eqb filepath.Separator filepath.Separator) with true. cbv iota.
      etransitivity; [|apply (pathWeight_split_trailing "" q')].
      rewrite pathWeight_cons. reflexivity. }
    rewrite append_cons, append_nil_l. simpl String.length.
    destruct Hbody as [[_ ->]|[_ Hb]]; simpl String.length; lia.
  - assert (strings.HasPrefix p "/" = false) as ->.
    { unfold strings.HasPrefix, p.
      change (String.prefix "/" (String c (q' +:+ "/")))
        with (if ascii_dec "/" c then String.prefix "" (q' +:+ "/") else false).
      destruct (ascii_dec "/" c); [by subst|done]. }
    destruct (Clean_body false p) as [Hw Hbody]. cbv zeta in Hw, Hbody.
    set (out := rev _) in *.
    assert (Hsplit : (pathWeight (strings.Split p filepath.Separator)
                      <= String.length q' + 2)%nat).
    { unfold strings.Split, p.
      pose proof (pathWeight_split_trailing "" (String c q')) as H.
      rewrite append_cons in H. simpl String.length in H. lia. }
    destruct Hbody as [[_ ->]|[Hr Hb]].
    + simpl. lia.
    + destruct (String.eqb_spec (strings.Join out "/") "") as [E|_]; simpl; lia.
Qed.

Lemma Dir_shrinks dir :
  Dir dir = dir \/ (String.length (Dir dir) < String.length dir)%nat \/ Dir dir = ".".
Proof.
  unfold Dir. destruct (dirPrefix_prefix dir) as [tail Ht].
  destruct (dirPrefix_ends dir) as [E|[q E]].
  - rewrite E. right. right. reflexivity.
  - rewrite E in *. destruct q as [|c q].
    + change (filepath.Clean ("" +:+ "/")) with "/".
      destruct tail as [|t tail]; [left; by rewrite Ht|].
      right. left. rewrite Ht. simpl. lia.
    + right. left. pose proof (Clean_shorter (String c q) ltac:(done)) as H.
      pose proof (f_equal String.length Ht) as Hl.
      rewrite length_app_string in Hl. lia.
Qed.

Lemma Dir_dot : Dir "." = ".".
Proof. reflexivity. Qed.

(** *** [findGoModDir] *)

Lemma findGoModDirFrom_returns fuel stat repoPath dir :
  (String.length dir + 2 <= fuel)%nat \/ (dir = "." /\ (1 <= fuel)%nat) ->
  is_Some (findGoModDirFrom fuel stat repoPath dir).
Proof.
  revert dir. induction fuel as [|fuel IH]; intros dir Hf; [lia|].
  cbn [findGoModDirFrom]. destruct (stat _); [by eexists|].
  destruct (String.eqb_spec (Dir dir) dir) as [E|Hne]; [by eexists|]. simpl orb.
  destruct (negb _); [by eexists|].
  apply IH. destruct Hf as [Hf|[-> _]]; [|by rewrite Dir_dot in Hne].
  destruct (Dir_shrinks dir) as [?|[Hlt| ->]]; [done|left; lia|right].
  split; [done|]. lia.
Qed.

Lemma ancestor_succ n dir : ancestor n (Dir dir) = ancestor (S n) dir.
Proof. unfold ancestor. by rewrite Nat.iter_succ_r. Qed.

Lemma findGoModDirFrom_found fuel stat repoPath dir d :
  findGoModDirFrom fuel stat repoPath dir = Some d -> d <> "" ->
  stat (Join [d; "go.mod"]) = true
  /\ exists n,
       d = ancestor n dir
       /\ ((0 < n)%nat -> strings.HasPrefix d repoPath = true)
       /\ (forall m, (m < n)%nat -> stat (Join [ancestor m dir; "go.mod"]) = false).
Proof.
  revert dir. induction fuel as [|fuel IH]; intros dir; [done|].
  cbn [findGoModDirFrom]. destruct (stat (Join [dir; "go.mod"])) eqn:Es.
  - intros H _. assert (d = dir) as -> by congruence.
    split; [done|]. exists 0%nat. split; [done|]. split; intros; lia.
  - destruct (String.eqb (Dir dir) dir || negb (strings.HasPrefix (Dir dir) repoPath)) eqn:Estop.
    + intros H Hd. congruence.
    + intros Hfind Hd. apply orb_false_iff in Estop as [_ Hpre].
      apply negb_false_iff in Hpre.
      destruct (IH _ Hfind Hd) as (Hs & n & -> & Hn & Hm). split; [done|].
      exists (S n). rewrite ancestor_succ. split; [done|]. split.
      * intros _. destruct n as [|n]; [done|]. rewrite <- ancestor_succ. apply Hn. lia.
      * intros m Hlt. destruct m as [|m]; [done|].
        rewrite <- ancestor_succ. apply Hm. lia.
Qed.

(** *** [Run] *)

Section runner.
Context {W : Type} (stat : string -> W -> bool).
Context (exec : command -> W -> W * (Z * option string)).

Lemma findGoModDir_returns r (f : string -> bool) pkgPath :
  is_Some (findGoModDir r f pkgPath).
Proof. apply findGoModDirFrom_returns. left. lia. Qed.

Lemma benchmarkPackage_ok r pkg (st : state W) :
  exists st' b,
    benchmarkPackage stat exec r pkg st = Some (st', (Some b, None))
    /\ PackageBenchmark.Path b = Package.RelPath pkg.
Proof.
  unfold benchmarkPackage, runGoTest, cleanBazelCache, runBazelTest, run.
  destruct (findGoModDir_returns r (fun path => stat path (world st)) (Package.Path pkg))
    as [goModDir ->]. simpl.
  destruct (exec (GoTest _ _) _) as [w1 [t1 e1]]. simpl.
  destruct (exec (BazelClean _) _) as [w2 [t2 e2]]. simpl.
  destruct (exec (BazelTest _ _) _) as [w3 [t3 e3]]. simpl.
  destruct e3; simpl;
    destruct (exec (BazelTest _ _) _) as [w4 [t4 e4]]; simpl;
    destruct e4; simpl; eexists _, _; split; reflexivity.
Qed.

Lemma benchmarkStep_fold r candidates (st : state W) packages :
  exists st' packages',
    foldl (benchmarkStep stat exec r) (Some (st, packages)) candidates
    = Some (st', packages ++ packages')
    /\ PackageBenchmark.Path <$> packages' = Package.RelPath <$> candidates.
Proof.
  revert st packages. induction candidates as [|pkg l IH]; intros st packages.
  - exists st, []. simpl. by rewrite app_nil_r.
  - change (foldl (benchmarkStep stat exec r) (Some (st, packages)) (pkg :: l))
      with (foldl (benchmarkStep stat exec r)
              (benchmarkStep stat exec r (Some (st, packages)) pkg) l).
    destruct (benchmarkPackage_ok r pkg st) as (st1 & b & E & Hb).
    assert (benchmarkStep stat exec r (Some (st, packages)) pkg
            = Some (st1, packages ++ [b])) as ->.
    { unfold benchmarkStep. simpl. rewrite E. reflexivity. }
    destruct (IH st1 (packages ++ [b])) as (st' & packages' & -> & Hp).
    exists st', (b :: packages'). rewrite <- app_assoc. split; [done|].
    rewrite !fmap_cons, Hb, Hp. done.
Qed.

Lemma Run_spec r (st : state W) :
  0 <= Runner.maxTests r ->
  exists candidates st' report,
    selectCandidates r = Some candidates
    /\ Run stat exec r st = Some (st', (report, None))
    /\ PackageBenchmark.Path <$> SpeedReport.Packages report
       = Package.RelPath <$> take (Z.to_nat (Runner.maxTests r)) candidates.
Proof.
  intros Hmax. destruct (selectCandidates_spec r) as (candidates & E & _).
  exists candidates. unfold Run. rewrite E. simpl.
  destruct (Nat.eqb_spec (length candidates) 0) as [Hz|Hnz].
  - apply nil_length_inv in Hz. subst candidates.
    exists st, (SpeedReport.mk []). simpl. by rewrite take_nil.
  - destruct (Z.ltb_spec (Runner.maxTests r) (Z.of_nat (length candidates))) as [Hlt|Hge].
    + assert ((Runner.maxTests r <? 0) = false) as -> by (apply Z.ltb_ge; lia).
      simpl.
      destruct (benchmarkStep_fold r (take (Z.to_nat (Runner.maxTests r)) candidates) st [])
        as (st' & packages & -> & Hp).
      simpl. exists st', (SpeedReport.mk packages). done.
    + simpl.
      destruct (benchmarkStep_fold r candidates st []) as (st' & packages & -> & Hp).
      simpl. exists st', (SpeedReport.mk packages). split; [done|]. split; [done|].
      rewrite take_ge by lia. done.
Qed.
End runner.

(** *** The candidates of a scan *)

Lemma scan_candidate s root res p :
  ScanReturns s root res -> In p (ScanResult.GoPackages res) ->
  (isCandidate p = true
   <-> 0 < Package.TestTargetCount p /\ 1 <= Package.TestFileCount p <= 20)
  /\ (isCandidate p = true -> Package.HasBuildFile p = true).
Proof.
  intros Hres Hin.
  assert (HP : In p (allPackages res)) by (unfold allPackages; apply in_app_iff; by left).
  destruct (package_wellCounted s root res p Hres HP)
    as (Ht & _ & _ & _ & H1 & H2 & H3 & Hb).
  rewrite isCandidate_iff. split; [split|].
  - intros (_ & ? & ?). lia.
  - intros (? & ?). split; [apply Ht; lia|]. lia.
  - intros (_ & ? & _). apply Hb. lia.
Qed.

(** * Further properties of the scanner *)

(** X1: every package of a scan has consistent counts: the flag of test
    files is set exactly when the count of test files is positive, no count
    is negative, the package has at least one file of its language or a
    credited test, and target counts above 0 come with a BUILD file. The
    packages of each list carry the language of the list. *)
Theorem scan_packages_well_counted (s : Scanner.t) (root : list fs.node)
  (res : ScanResult.t) :
  ScanReturns s root res ->
  Forall wellCounted (allPackages res) /\ languageTags res.
Proof.
  intros Hres. split.
  - apply List.Forall_forall. intros P HP. by eapply package_wellCounted.
  - split; [|split]; apply List.Forall_forall; intros P HP.
    + by destruct (go_package s root res P Hres HP) as (_ & ? & _).
    + by destruct (python_package s root res P Hres HP) as (_ & ? & _).
    + destruct (rust_package s root res P Hres HP) as (P0 & (_ & HL & _) & _ & ->).
      destruct (targetsOf s root P0); [|done]. unfold creditTests.
      destruct (0 <? Package.TestTargetCount P0); done.
Qed.

Lemma scan_packages_well_counted_witness :
  let s := NewScanner "/repo" in
  let res := Scan s repo_mixed in
  (ScanReturns s repo_mixed res
   /\ allPackages res
      = [Package.mk "/repo/api" "api" LangGo true true 1 2 1 1 0;
         Package.mk "/repo/cli" "cli" LangGo true true 1 1 1 0 0;
         Package.mk "/repo/py" "py" LangPython true true 1 1 1 0 0;
         Package.mk "/repo/rs" "rs" LangRust true true 1 1 1 0 0])
  /\ Forall wellCounted (allPackages res) /\ languageTags res.
Proof.
  intros s res. split.
  - split; [apply Scan_returns|]. vm_compute. reflexivity.
  - exact (scan_packages_well_counted s repo_mixed res (Scan_returns s repo_mixed)).
Defined.

Lemma sumZ_at_least {A} (f g : A -> Z) (l : list A) :
  Forall (fun a => 1 <= f a + g a) l ->
  Z.of_nat (length l) <= sumZ f l + sumZ g l.
Proof.
  induction 1 as [|a l Ha _ IH]; [done|].
  rewrite !sumZ_cons. simpl length. lia.
Qed.

(** X2: the file totals of a scan are the sums of the file counts of its
    packages: a Go or Python file is counted in a total exactly when it is
    counted in a package of its language, and every Rust file is counted as
    a source file. Every Go or Python package holds a file, so these totals
    are at least the numbers of packages. *)
Theorem scan_file_totals_are_package_sums (s : Scanner.t) (root : list fs.node)
  (res : ScanResult.t) :
  ScanReturns s root res ->
  ScanResult.TotalGoFiles res = sumZ Package.SourceFileCount (ScanResult.GoPackages res)
  /\ ScanResult.TotalGoTests res = sumZ Package.TestFileCount (ScanResult.GoPackages res)
  /\ ScanResult.TotalPythonFiles res
     = sumZ Package.SourceFileCount (ScanResult.PythonPackages res)
  /\ ScanResult.TotalPythonTests res
     = sumZ Package.TestFileCount (ScanResult.PythonPackages res)
  /\ ScanResult.TotalRustFiles res
     = sumZ Package.SourceFileCount (ScanResult.RustPackages res)
  /\ Z.of_nat (length (ScanResult.GoPackages res))
     <= ScanResult.TotalGoFiles res + ScanResult.TotalGoTests res
  /\ Z.of_nat (length (ScanResult.PythonPackages res))
     <= ScanResult.TotalPythonFiles res + ScanResult.TotalPythonTests res.
Proof.
  intros Hres.
  destruct (scan_file_totals s root res Hres) as (F1 & F2 & F3 & F4 & F5).
  assert (Hwell : forall P, In P (allPackages res) ->
            1 <= Package.SourceFileCount P + Package.TestFileCount P).
  { intros P HP. by destruct (package_wellCounted s root res P Hres HP) as (_ & _ & _ & ? & _). }
  split; [done|]. split; [done|]. split; [done|]. split; [done|]. split; [done|].
  rewrite F1, F2, F3, F4. split; apply sumZ_at_least, List.Forall_forall;
    intros P HP; apply Hwell; unfold allPackages; rewrite !in_app_iff; tauto.
Qed.

Lemma scan_file_totals_are_package_sums_witness :
  let s := NewScanner "/repo" in
  let res := Scan s repo_mixed in
  (ScanReturns s repo_mixed res
   /\ ScanResult.TotalGoFiles res = 2 /\ ScanResult.TotalGoTests res = 3)
  /\ ScanResult.TotalGoFiles res = sumZ Package.SourceFileCount (ScanResult.GoPackages res)
  /\ ScanResult.TotalGoTests res = sumZ Package.TestFileCount (ScanResult.GoPackages res)
  /\ ScanResult.TotalPythonFiles res
     = sumZ Package.SourceFileCount (ScanResult.PythonPackages res)
  /\ ScanResult.TotalPythonTests res
     = sumZ Package.TestFileCount (ScanResult.PythonPackages res)
  /\ ScanResult.TotalRustFiles res
     = sumZ Package.SourceFileCount (ScanResult.RustPackages res)
  /\ Z.of_nat (length (ScanResult.GoPackages res))
     <= ScanResult.TotalGoFiles res + ScanResult.TotalGoTests res
  /\ Z.of_nat (length (ScanResult.PythonPackages res))
     <= ScanResult.TotalPythonFiles res + ScanResult.TotalPythonTests res.
Proof.
  intros s res. split.
  - split; [apply Scan_returns|]. vm_compute. split; reflexivity.
  - exact (scan_file_totals_are_package_sums s repo_mixed res (Scan_returns s repo_mixed)).
Defined.

(** X3: the three totals of test rules are the sums of the test-target
    counts of the packages of the language: the [go_test] rules of a BUILD
    file count in [TotalGoTestRules] only when the directory has a Go
    package, and a BUILD file that does not parse adds nothing. None of the
    totals is negative. *)
Theorem scan_rule_totals_are_package_sums (s : Scanner.t) (root : list fs.node)
  (res : ScanResult.t) :
  ScanReturns s root res ->
  ScanResult.TotalGoTestRules res
  = sumZ Package.TestTargetCount (ScanResult.GoPackages res)
  /\ ScanResult.TotalPyTestRules res
     = sumZ Package.TestTargetCount (ScanResult.PythonPackages res)
  /\ ScanResult.TotalRustTestRules res
     = sumZ Package.TestTargetCount (ScanResult.RustPackages res)
  /\ 0 <= ScanResult.TotalGoTestRules res
  /\ 0 <= ScanResult.TotalPyTestRules res
  /\ 0 <= ScanResult.TotalRustTestRules res.
Proof.
  intros Hres. destruct (scan_rule_totals s root res Hres) as (R1 & R2 & R3).
  assert (Hwell : forall P, In P (allPackages res) -> 0 <= Package.TestTargetCount P).
  { intros P HP.
    by destruct (package_wellCounted s root res P Hres HP) as (_ & _ & _ & _ & ? & _). }
  assert (Hsum : forall l : list Package.t,
            (forall P, In P l -> In P (allPackages res)) ->
            0 <= sumZ Package.TestTargetCount l).
  { induction l as [|P l IH]; intros Hl; [done|]. rewrite sumZ_cons.
    assert (0 <= Package.TestTargetCount P) by (apply Hwell, Hl; by left).
    assert (0 <= sumZ Package.TestTargetCount l) by (apply IH; intros; apply Hl; by right).
    lia. }
  split; [done|]. split; [done|]. split; [done|]. rewrite R1, R2, R3.
  split; [|split]; apply Hsum; intros P HP; unfold allPackages; rewrite !in_app_iff; tauto.
Qed.

Lemma scan_rule_totals_are_package_sums_witness :
  let s := NewScanner "/repo" in
  let res := Scan s repo_python_only in
  (ScanReturns s repo_python_only res /\ ScanResult.TotalGoTestRules res = 0)
  /\ ScanResult.TotalGoTestRules res
     = sumZ Package.TestTargetCount (ScanResult.GoPackages res)
  /\ ScanResult.TotalPyTestRules res
     = sumZ Package.TestTargetCount (ScanResult.PythonPackages res)
  /\ ScanResult.TotalRustTestRules res
     = sumZ Package.TestTargetCount (ScanResult.RustPackages res)
  /\ 0 <= ScanResult.TotalGoTestRules res
  /\ 0 <= ScanResult.TotalPyTestRules res
  /\ 0 <= ScanResult.TotalRustTestRules res.
Proof.
  intros s res. split.
  - split; [apply Scan_returns|]. vm_compute. reflexivity.
  - exact (scan_rule_totals_are_package_sums s repo_python_only res
             (Scan_returns s repo_python_only)).
Defined.

(** X4: no file is counted twice: the BUILD files, the Go and Python source
    and test files and the Rust files the scan counts are as many as the
    files the walk visits that are a BUILD file or end in [.go], [.py] or
    [.rs]. *)
Theorem scan_counts_each_file_once (s : Scanner.t) (root : list fs.node)
  (res : ScanResult.t) :
  ScanReturns s root res ->
  ScanResult.TotalBUILDs res + ScanResult.TotalGoFiles res + ScanResult.TotalGoTests res
  + ScanResult.TotalPythonFiles res + ScanResult.TotalPythonTests res
  + ScanResult.TotalRustFiles res
  = countIf isCounted (visits s root)
  /\ countIf isCounted (visits s root) <= Z.of_nat (length (visits s root)).
Proof.
  intros Hres. split; [by apply scan_counts_once|]. apply countIf_le_length.
Qed.

Lemma scan_counts_each_file_once_witness :
  let s := NewScanner "/repo" in
  let res := Scan s repo_mixed in
  (ScanReturns s repo_mixed res /\ Z.of_nat (length (visits s repo_mixed)) = 12)
  /\ ScanResult.TotalBUILDs res + ScanResult.TotalGoFiles res + ScanResult.TotalGoTests res
     + ScanResult.TotalPythonFiles res + ScanResult.TotalPythonTests res
     + ScanResult.TotalRustFiles res
     = countIf isCounted (visits s repo_mixed)
  /\ countIf isCounted (visits s repo_mixed) <= Z.of_nat (length (visits s repo_mixed)).
Proof.
  intros s res. split.
  - split; [apply Scan_returns|]. vm_compute. reflexivity.
  - exact (scan_counts_each_file_once s repo_mixed res (Scan_returns s repo_mixed)).
Defined.

(** X5: no two packages of a language share a directory: the paths of each
    list are distinct. When the directory names of the tree are names (not
    empty, no separator), the relative paths are distinct as well, and
    packages with the same relative path are in the same directory. *)
Theorem scan_packages_are_distinct (s : Scanner.t) (root : list fs.node)
  (res : ScanResult.t) :
  ScanReturns s root res ->
  (NoDup (Package.Path <$> ScanResult.GoPackages res)
   /\ NoDup (Package.Path <$> ScanResult.PythonPackages res)
   /\ NoDup (Package.Path <$> ScanResult.RustPackages res))
  /\ (forallb dirNamesProper root = true ->
      NoDup (Package.RelPath <$> ScanResult.GoPackages res)
      /\ NoDup (Package.RelPath <$> ScanResult.PythonPackages res)
      /\ NoDup (Package.RelPath <$> ScanResult.RustPackages res)
      /\ (forall P P', In P (allPackages res) -> In P' (allPackages res) ->
            Package.RelPath P = Package.RelPath P' -> Package.Path P = Package.Path P')).
Proof.
  intros Hres. split; [by apply (scan_paths_NoDup s root)|].
  intros Hnames. destruct (scan_relPaths_NoDup s root Hnames res Hres) as (N1 & N2 & N3).
  split; [done|]. split; [done|]. split; [done|].
  intros P P' HP HP' E. by apply (relPath_determines_path s root Hnames res).
Qed.

Lemma scan_packages_are_distinct_witness :
  let s := NewScanner "/repo" in
  let res := Scan s repo_breakdown in
  (ScanReturns s repo_breakdown res
   /\ forallb dirNamesProper repo_breakdown = true
   /\ Package.RelPath <$> ScanResult.GoPackages res
      = ["."; "lib"; "svc"; "svc/api"; "svc/db"])
  /\ (NoDup (Package.Path <$> ScanResult.GoPackages res)
      /\ NoDup (Package.Path <$> ScanResult.PythonPackages res)
      /\ NoDup (Package.Path <$> ScanResult.RustPackages res))
  /\ (forallb dirNamesProper repo_breakdown = true ->
      NoDup (Package.RelPath <$> ScanResult.GoPackages res)
      /\ NoDup (Package.RelPath <$> ScanResult.PythonPackages res)
      /\ NoDup (Package.RelPath <$> ScanResult.RustPackages res)
      /\ (forall P P', In P (allPackages res) -> In P' (allPackages res) ->
            Package.RelPath P = Package.RelPath P' -> Package.Path P = Package.Path P')).
Proof.
  intros s res. split.
  - split; [apply Scan_returns|]. vm_compute. split; reflexivity.
  - exact (scan_packages_are_distinct s repo_breakdown res (Scan_returns s repo_breakdown)).
Defined.

(** X6: each package list of a scan is in strictly ascending byte order of
    the relative paths, when the directory names of the tree are names. *)
Theorem scan_lists_strictly_ascending (s : Scanner.t) (root : list fs.node)
  (res : ScanResult.t) :
  forallb dirNamesProper root = true ->
  ScanReturns s root res ->
  strictlyAscending (ScanResult.GoPackages res)
  /\ strictlyAscending (ScanResult.PythonPackages res)
  /\ strictlyAscending (ScanResult.RustPackages res).
Proof.
  intros Hnames Hres.
  destruct (scan_relPaths_NoDup s root Hnames res Hres) as (N1 & N2 & N3).
  destruct (ScanReturns_sorted s root res Hres) as (S1 & S2 & S3).
  split; [|split]; by apply sorted_strict.
Qed.

Lemma scan_lists_strictly_ascending_witness :
  let s := NewScanner "/repo" in
  let res := Scan s repo_breakdown in
  (forallb dirNamesProper repo_breakdown = true /\ ScanReturns s repo_breakdown res)
  /\ strictlyAscending (ScanResult.GoPackages res)
  /\ strictlyAscending (ScanResult.PythonPackages res)
  /\ strictlyAscending (ScanResult.RustPackages res).
Proof.
  intros s res. split.
  - split; [vm_compute; reflexivity|apply Scan_returns].
  - apply (scan_lists_strictly_ascending s repo_breakdown res).
    + vm_compute. reflexivity.
    + apply Scan_returns.
Defined.

(** X7: the result of a scan is determined by the tree: the order in which
    the directory map is ranged over and the choices of the unstable sort do
    not show in it, when the directory names of the tree are names. The
    computed run is that result. *)
Theorem scan_result_is_determined (s : Scanner.t) (root : list fs.node)
  (res res' : ScanResult.t) :
  forallb dirNamesProper root = true ->
  ScanReturns s root res -> ScanReturns s root res' ->
  res = res' /\ res = Scan s root.
Proof.
  intros Hnames H H'. split; [by apply (scan_unique s root)|].
  apply (scan_unique s root); [done|done|apply Scan_returns].
Qed.

Lemma scan_result_is_determined_witness :
  let s := NewScanner "/repo" in
  let res := Scan s repo_mixed in
  (forallb dirNamesProper repo_mixed = true /\ ScanReturns s repo_mixed res)
  /\ res = res /\ res = Scan s repo_mixed.
Proof.
  intros s res. split.
  - split; [vm_compute; reflexivity|apply Scan_returns].
  - apply (scan_result_is_determined s repo_mixed res res).
    + vm_compute. reflexivity.
    + apply Scan_returns.
    + apply Scan_returns.
Defined.

(** X8: when the last element of the repository path is itself a name the
    walk skips (it starts with a dot or with [bazel-], or is on the list),
    the walk leaves the root at once and the scan is empty: no package,
    every total 0, whatever the tree holds. *)
Theorem scan_of_excluded_root_is_empty (s : Scanner.t) (root : list fs.node)
  (res : ScanResult.t) :
  skipDir s (filepath.Base (Scanner.repoPath s)) = true ->
  ScanReturns s root res ->
  res = ScanResult.new (Scanner.repoPath s) /\ allPackages res = [].
Proof.
  intros Hskip Hres. pose proof (scan_excluded_root s root res Hskip Hres) as ->.
  done.
Qed.

Lemma scan_of_excluded_root_is_empty_witness :
  let s := NewScanner "/work/bazel-metrics" in
  let res := Scan s repo_mixed in
  (skipDir s (filepath.Base (Scanner.repoPath s)) = true
   /\ ScanReturns s repo_mixed res)
  /\ res = ScanResult.new (Scanner.repoPath s) /\ allPackages res = [].
Proof.
  intros s res. split.
  - split; [vm_compute; reflexivity|apply Scan_returns].
  - apply (scan_of_excluded_root_is_empty s repo_mixed res).
    + vm_compute. reflexivity.
    + apply Scan_returns.
Defined.

(** X9: the path of a package is the cleaned repository path
    ([filepath.Clean] of the path the scanner was given) joined with the
    segments of its relative path, [.] standing for no segment; the segments
    are names of directories the walk does not skip. *)
Theorem package_path_follows_relative_path (s : Scanner.t) (root : list fs.node)
  (res : ScanResult.t) (P : Package.t) :
  forallb dirNamesProper root = true ->
  ScanReturns s root res -> In P (allPackages res) ->
  Package.Path P
  = dirOf (filepath.Clean (Scanner.repoPath s)) (segments (Package.RelPath P))
  /\ Package.RelPath P = Rel (segments (Package.RelPath P))
  /\ Forall (fun n => n <> "" /\ noSeparator n = true /\ skipDir s n = false)
       (segments (Package.RelPath P)).
Proof.
  intros Hnames Hres HP.
  destruct (package_path_segments s root res P Hnames Hres HP) as [H1 H2].
  split; [done|]. split; [|done].
  destruct (package_visit s root res P Hres HP) as (v & Hv & _ & <-).
  destruct (visit_paths s root Hnames v Hv) as (_ & -> & Hp & Hs).
  by rewrite (segments_Rel s).
Qed.

(** A repository given with a trailing separator. *)
Lemma package_path_follows_relative_path_witness :
  let s := NewScanner "/repo/" in
  let res := Scan s repo_breakdown in
  let P := Package.mk "/repo/svc/api" "svc/api" LangGo true false 1 0 0 0 0 in
  (forallb dirNamesProper repo_breakdown = true
   /\ ScanReturns s repo_breakdown res /\ In P (allPackages res)
   /\ filepath.Clean (Scanner.repoPath s) = "/repo"
   /\ segments (Package.RelPath P) = ["svc"; "api"])
  /\ Package.Path P
     = dirOf (filepath.Clean (Scanner.repoPath s)) (segments (Package.RelPath P))
  /\ Package.RelPath P = Rel (segments (Package.RelPath P))
  /\ Forall (fun n => n <> "" /\ noSeparator n = true /\ skipDir s n = false)
       (segments (Package.RelPath P)).
Proof.
  intros s res P. split.
  - split; [vm_compute; reflexivity|]. split; [apply Scan_returns|].
    split; [vm_compute; tauto|]. split; vm_compute; reflexivity.
  - apply (package_path_follows_relative_path s repo_breakdown res P).
    + vm_compute. reflexivity.
    + apply Scan_returns.
    + vm_compute. tauto.
Defined.

(** * Further properties of [parseBuildFile] *)

(** X10: a BUILD file of lines that end in a line feed is counted as it
    stands, without error. The same lines with Windows line ends (carriage
    return and line feed) give the same counts, and so does a file whose
    last line has no line end. *)
Theorem build_file_line_ends_do_not_matter (s : Scanner.t) (lines : list string) :
  Forall plainLine lines ->
  parseBuildFile s (fs.Bytes (joinLines lines))
  = (Some (countTargets s (joinLines lines)), None)
  /\ (Forall (fun l => Z.of_nat (String.length l) + 1 < bufio.MaxScanTokenSize) lines ->
      parseBuildFile s (fs.Bytes (joinCRLF lines))
      = parseBuildFile s (fs.Bytes (joinLines lines)))
  /\ (forall last, plainLine last -> last <> "" ->
      parseBuildFile s (fs.Bytes (joinLines lines +:+ last))
      = parseBuildFile s (fs.Bytes (joinLines (lines ++ [last])))).
Proof.
  intros Hlines. unfold parseBuildFile.
  rewrite (scanLines_joinLines lines Hlines). split; [done|]. split.
  - intros Hlen. by rewrite (scanLines_joinCRLF lines Hlines Hlen).
  - intros last Hlast Hne.
    rewrite (scanLines_joinLines_last lines last Hlines Hlast Hne).
    rewrite (scanLines_joinLines (lines ++ [last])); [done|].
    apply Forall_app. split; [done|]. by constructor.
Qed.

Lemma build_file_line_ends_do_not_matter_witness :
  let s := NewScanner "/repo" in
  let lines := ["go_test("; "  name = 1,"; ")"] in
  (Forall plainLine lines
   /\ buildTargets.goTests (countTargets s (joinLines lines)) = 1)
  /\ parseBuildFile s (fs.Bytes (joinLines lines))
     = (Some (countTargets s (joinLines lines)), None)
  /\ (Forall (fun l => Z.of_nat (String.length l) + 1 < bufio.MaxScanTokenSize) lines ->
      parseBuildFile s (fs.Bytes (joinCRLF lines))
      = parseBuildFile s (fs.Bytes (joinLines lines)))
  /\ (forall last, plainLine last -> last <> "" ->
      parseBuildFile s (fs.Bytes (joinLines lines +:+ last))
      = parseBuildFile s (fs.Bytes (joinLines (lines ++ [last])))).
Proof.
  intros s lines.
  assert (H : Forall plainLine lines).
  { repeat (constructor; [vm_compute; repeat split; reflexivity|]). constructor. }
  split.
  - split; [exact H|]. vm_compute. reflexivity.
  - exact (build_file_line_ends_do_not_matter s lines H).
Defined.

(** X11: a BUILD file with a line of [MaxScanTokenSize] (65536) bytes or
    more does not parse: [parseBuildFile] returns the scanner's error, and
    the walk records no targets for the file. *)
Theorem build_file_with_long_line_fails (s : Scanner.t) (lines : list string)
  (long rest : string) (v : visit) :
  Forall (fun l => noNewline l = true) lines ->
  noNewline long = true ->
  bufio.MaxScanTokenSize <= Z.of_nat (String.length long) ->
  content v = fs.Bytes (joinLines lines +:+ long +:+ rest) ->
  snd (parseBuildFile s (content v)) = Some ErrTooLong
  /\ parsed s v = None.
Proof.
  intros Hlines Hlong Hlen Hv.
  pose proof (scanLines_long_line lines long rest Hlines Hlong Hlen) as H.
  unfold parsed. rewrite Hv. unfold parseBuildFile.
  destruct (bufio.scanLines "" 0 (joinLines lines +:+ long +:+ rest)) as [ls e].
  simpl in H. subst e. done.
Qed.

Lemma build_file_with_long_line_fails_witness :
  let s := NewScanner "/repo" in
  let long := replicateByte (Z.to_nat 65536) "a" in
  let v := mkVisit "/repo" [] "BUILD" (fs.Bytes (joinLines ["go_test("] +:+ long +:+ "")) in
  (Forall (fun l => noNewline l = true) ["go_test("]
   /\ noNewline long = true
   /\ bufio.MaxScanTokenSize <= Z.of_nat (String.length long))
  /\ snd (parseBuildFile s (content v)) = Some ErrTooLong
  /\ parsed s v = None.
Proof.
  intros s long v.
  assert (H1 : Forall (fun l => noNewline l = true) ["go_test("])
    by (repeat constructor).
  assert (H2 : noNewline long = true) by (vm_compute; reflexivity).
  assert (H3 : bufio.MaxScanTokenSize <= Z.of_nat (String.length long))
    by (vm_compute; discriminate).
  split; [exact (conj H1 (conj H2 H3))|].
  exact (build_file_with_long_line_fails s ["go_test("] long "" v H1 H2 H3 eq_refl).
Defined.

(** X12: what the patterns of [NewScanner] match: [(?m)^\s*NAME\s*\(]
    matches at a position exactly when the position is at the start of the
    text or behind a line feed and the text there reads white space, the
    name, white space and an opening parenthesis; the match ends with the
    parenthesis. *)
Theorem rule_pattern_matches (name : string) (prev : option ascii) (s : string)
  (n : nat) :
  startsNonSpace name = true ->
  regexp.matchHere (regexp.rule name) prev s = Some n
  <-> regexp.atLineStart prev = true /\ ruleAt name s n.
Proof.
  intros Hname. split.
  - apply rule_sound.
  - intros [Hl Hr]. by apply rule_complete.
Qed.

Lemma rule_pattern_matches_witness :
  startsNonSpace "go_test" = true
  /\ (regexp.matchHere (regexp.rule "go_test") (Some "010"%char) "  go_test (x" = Some 11%nat
      <-> regexp.atLineStart (Some "010"%char) = true /\ ruleAt "go_test" "  go_test (x" 11).
Proof.
  split; [reflexivity|].
  apply (rule_pattern_matches "go_test" (Some "010"%char) "  go_test (x" 11). reflexivity.
Defined.

(** * Further properties of the calculator *)

Lemma hasPackages_known res lang :
  hasPackages res lang = true -> In lang ["go"; "python"; "rust"].
Proof.
  unfold hasPackages, languagePackages.
  destruct (String.eqb_spec lang "go") as [->|]; [simpl; tauto|].
  destruct (String.eqb_spec lang "python") as [->|]; [simpl; tauto|].
  destruct (String.eqb_spec lang "rust") as [->|]; [simpl; tauto|]. discriminate.
Qed.

(** X13: the languages of a report are those with at least one package, in
    the order go, python, rust, and the report has a summary for exactly
    these languages: the summary [calculateLanguageSummary] computes from
    the packages of the language. *)
Theorem report_languages_have_packages
  (now : string) (res : ScanResult.t) (report : Report.t) :
  CalculateReturns now res report ->
  Report.Languages report = List.filter (hasPackages res) ["go"; "python"; "rust"]
  /\ (forall lang,
        Report.LanguageSummaries report !! lang
        = if hasPackages res lang
          then Some (calculateLanguageSummary lang (languagePackages res lang))
          else None)
  /\ (forall lang,
        In lang (Report.Languages report)
        <-> is_Some (Report.LanguageSummaries report !! lang)).
Proof.
  intros (bd & _ & ->).
  change (Report.Languages (Report.set_DirectoryBreakdown bd (calculateLanguages now res)))
    with (Report.Languages (calculateLanguages now res)).
  change (Report.LanguageSummaries
            (Report.set_DirectoryBreakdown bd (calculateLanguages now res)))
    with (Report.LanguageSummaries (calculateLanguages now res)).
  split; [apply calculateLanguages_languages|].
  split; [apply calculateLanguages_summaries|].
  intros lang.
  rewrite (calculateLanguages_languages now res), (calculateLanguages_summaries now res lang).
  rewrite List.filter_In. split.
  - intros [_ ->]. by eexists.
  - destruct (hasPackages res lang) eqn:E; [|by intros [? [=]]].
    intros _. split; [exact (hasPackages_known res lang E)|done].
Qed.

Lemma report_languages_have_packages_witness :
  let now := "2026-01-01T00:00:00Z" in
  let res := Scan (NewScanner "/repo") repo_rust in
  let report := Calculate now res in
  (CalculateReturns now res report /\ Report.Languages report = ["rust"])
  /\ Report.Languages report = List.filter (hasPackages res) ["go"; "python"; "rust"]
  /\ (forall lang,
        Report.LanguageSummaries report !! lang
        = if hasPackages res lang
          then Some (calculateLanguageSummary lang (languagePackages res lang))
          else None)
  /\ (forall lang,
        In lang (Report.Languages report)
        <-> is_Some (Report.LanguageSummaries report !! lang)).
Proof.
  intros now res report. split.
  - split; [apply Calculate_returns|]. vm_compute. reflexivity.
  - exact (report_languages_have_packages now res report (Calculate_returns now res)).
Defined.

Lemma StronglySorted_fmap {A B} (R : B -> B -> Prop) (f : A -> B) l :
  StronglySorted (fun a b => R (f a) (f b)) l -> StronglySorted R (f <$> l).
Proof.
  induction 1 as [|a l _ IH Hall]; [constructor|].
  rewrite fmap_cons. constructor; [done|]. by apply Forall_fmap.
Qed.

(** X14: the package lists of the report of a scan repeat the lists of the
    scan, package by package and in the same order, with the relative path
    as the path; so each list is in strictly ascending order of the paths.
    The combined list [Packages] holds the Go packages only, and no speed
    comparison is set. *)
Theorem report_package_lists_follow_scan
  (s : Scanner.t) (root : list fs.node) (now : string) (res : ScanResult.t)
  (report : Report.t) :
  forallb dirNamesProper root = true ->
  ScanReturns s root res -> CalculateReturns now res report ->
  Report.GoPackages report = packageInfo "go" <$> ScanResult.GoPackages res
  /\ Report.PythonPackages report = packageInfo "python" <$> ScanResult.PythonPackages res
  /\ Report.RustPackages report = packageInfo "rust" <$> ScanResult.RustPackages res
  /\ Report.Packages report = Report.GoPackages report
  /\ Report.SpeedComparison report = None
  /\ ascendingPaths (Report.GoPackages report)
  /\ ascendingPaths (Report.PythonPackages report)
  /\ ascendingPaths (Report.RustPackages report).
Proof.
  intros Hnames Hres (bd & _ & ->).
  destruct (calculateLanguages_packages now res) as (H1 & H2 & H3 & H4 & H5 & _).
  destruct (scan_relPaths_NoDup s root Hnames res Hres) as (N1 & N2 & N3).
  destruct (ScanReturns_sorted s root res Hres) as (S1 & S2 & S3).
  simpl Report.GoPackages. simpl Report.PythonPackages. simpl Report.RustPackages.
  simpl Report.Packages. simpl Report.SpeedComparison.
  split; [done|]. split; [done|]. split; [done|]. split; [done|]. split; [done|].
  rewrite H1, H2, H3. unfold ascendingPaths.
  split; [|split]; apply StronglySorted_fmap; by apply sorted_strict.
Qed.

Lemma report_package_lists_follow_scan_witness :
  let s := NewScanner "/repo" in
  let now := "2026-01-01T00:00:00Z" in
  let res := Scan s repo_mixed in
  let report := Calculate now res in
  (forallb dirNamesProper repo_mixed = true
   /\ ScanReturns s repo_mixed res /\ CalculateReturns now res report
   /\ PackageInfo.Path <$> Report.Packages report = ["api"; "cli"])
  /\ Report.GoPackages report = packageInfo "go" <$> ScanResult.GoPackages res
  /\ Report.PythonPackages report = packageInfo "python" <$> ScanResult.PythonPackages res
  /\ Report.RustPackages report = packageInfo "rust" <$> ScanResult.RustPackages res
  /\ Report.Packages report = Report.GoPackages report
  /\ Report.SpeedComparison report = None
  /\ ascendingPaths (Report.GoPackages report)
  /\ ascendingPaths (Report.PythonPackages report)
  /\ ascendingPaths (Report.RustPackages report).
Proof.
  intros s now res report. split.
  - split; [vm_compute; reflexivity|]. split; [apply Scan_returns|].
    split; [apply Calculate_returns|]. vm_compute. reflexivity.
  - apply (report_package_lists_follow_scan s repo_mixed now res report).
    + vm_compute. reflexivity.
    + apply Scan_returns.
    + apply Calculate_returns.
Defined.

(** X15: the totals of every language summary of the report of a scan are
    the totals the scan kept for the language: source files, test files and
    test rules. The summary names its language and counts at least one
    package. *)
Theorem summary_totals_are_scan_totals
  (s : Scanner.t) (root : list fs.node) (now : string) (res : ScanResult.t)
  (report : Report.t) (lang : string) (summary : LanguageSummary.t) :
  ScanReturns s root res -> CalculateReturns now res report ->
  Report.LanguageSummaries report !! lang = Some summary ->
  (LanguageSummary.TotalSourceFiles summary, LanguageSummary.TotalTestFiles summary,
   LanguageSummary.TotalTestTargets summary) = scanTotals res lang
  /\ LanguageSummary.Language summary = lang
  /\ LanguageSummary.TotalPackages summary
     = Z.of_nat (length (languagePackages res lang))
  /\ 0 < LanguageSummary.TotalPackages summary.
Proof.
  intros Hres Hrep Hl. by apply (report_summary_totals s root now res report).
Qed.

Lemma summary_totals_are_scan_totals_witness :
  let s := NewScanner "/repo" in
  let now := "2026-01-01T00:00:00Z" in
  let res := Scan s repo_mixed in
  let report := Calculate now res in
  let summary := calculateLanguageSummary "go" (ScanResult.GoPackages res) in
  (ScanReturns s repo_mixed res /\ CalculateReturns now res report
   /\ Report.LanguageSummaries report !! "go" = Some summary
   /\ scanTotals res "go" = (2, 3, 2))
  /\ (LanguageSummary.TotalSourceFiles summary, LanguageSummary.TotalTestFiles summary,
      LanguageSummary.TotalTestTargets summary) = scanTotals res "go"
  /\ LanguageSummary.Language summary = "go"
  /\ LanguageSummary.TotalPackages summary
     = Z.of_nat (length (languagePackages res "go"))
  /\ 0 < LanguageSummary.TotalPackages summary.
Proof.
  intros s now res report summary.
  assert (H : Report.LanguageSummaries report !! "go" = Some summary)
    by (vm_compute; reflexivity).
  split.
  - split; [apply Scan_returns|]. split; [apply Calculate_returns|].
    split; [exact H|]. vm_compute. reflexivity.
  - exact (summary_totals_are_scan_totals s repo_mixed now res report "go" summary
             (Scan_returns s repo_mixed) (Calculate_returns now res) H).
Defined.

(** X16: the legacy summary of the report of a scan is the Go summary: its
    counts are the Go figures of the scan, also when the scan found no Go
    package and the summary is left at its zero value (all of these figures
    are 0 then), and its percentages are those of the Go summary. *)
Theorem legacy_summary_is_go_summary
  (s : Scanner.t) (root : list fs.node) (now : string) (res : ScanResult.t)
  (report : Report.t) :
  ScanReturns s root res -> CalculateReturns now res report ->
  let sm := Report.Summary report in
  let packages := ScanResult.GoPackages res in
  Summary.TotalPackages sm = Z.of_nat (length packages)
  /\ Summary.TotalGoFiles sm = ScanResult.TotalGoFiles res
  /\ Summary.TotalTestFiles sm = ScanResult.TotalGoTests res
  /\ Summary.TotalGoTestTargets sm = ScanResult.TotalGoTestRules res
  /\ Summary.PackagesWithBuild sm = countIf Package.HasBuildFile packages
  /\ Summary.PackagesWithTests sm = countIf Package.HasTestFiles packages
  /\ (forall go, Report.LanguageSummaries report !! "go" = Some go ->
        Summary.BazelizationPct sm = LanguageSummary.BazelizationPct go
        /\ Summary.TestCoveragePct sm = LanguageSummary.TestCoveragePct go
        /\ Summary.BazelizedTestsPct sm = LanguageSummary.BazelizedTestsPct go)
  /\ (Report.LanguageSummaries report !! "go" = None -> sm = Summary.zero).
Proof.
  intros Hres Hrep. exact (legacy_summary s root now res report Hres Hrep).
Qed.

Lemma legacy_summary_is_go_summary_witness :
  let s := NewScanner "/repo" in
  let now := "2026-01-01T00:00:00Z" in
  let res := Scan s repo_python_only in
  let report := Calculate now res in
  let sm := Report.Summary report in
  let packages := ScanResult.GoPackages res in
  (ScanReturns s repo_python_only res /\ CalculateReturns now res report
   /\ packages = [] /\ ScanResult.TotalPythonFiles res = 1)
  /\ Summary.TotalPackages sm = Z.of_nat (length packages)
  /\ Summary.TotalGoFiles sm = ScanResult.TotalGoFiles res
  /\ Summary.TotalTestFiles sm = ScanResult.TotalGoTests res
  /\ Summary.TotalGoTestTargets sm = ScanResult.TotalGoTestRules res
  /\ Summary.PackagesWithBuild sm = countIf Package.HasBuildFile packages
  /\ Summary.PackagesWithTests sm = countIf Package.HasTestFiles packages
  /\ (forall go, Report.LanguageSummaries report !! "go" = Some go ->
        Summary.BazelizationPct sm = LanguageSummary.BazelizationPct go
        /\ Summary.TestCoveragePct sm = LanguageSummary.TestCoveragePct go
        /\ Summary.BazelizedTestsPct sm = LanguageSummary.BazelizedTestsPct go)
  /\ (Report.LanguageSummaries report !! "go" = None -> sm = Summary.zero).
Proof.
  intros s now res report sm packages. split.
  - split; [apply Scan_returns|]. split; [apply Calculate_returns|].
    vm_compute. split; reflexivity.
  - exact (legacy_summary_is_go_summary s repo_python_only now res report
             (Scan_returns s repo_python_only) (Calculate_returns now res)).
Defined.

(** X17: the entries of the directory breakdown split the Go packages with a
    BUILD file and those with test files as they split the packages: each
    entry counts the flagged packages of its group, and over the entries the
    counts add up to the figures of the Go summary. *)
Theorem breakdown_flags_partition_go_packages
  (now : string) (res : ScanResult.t) (report : Report.t) :
  CalculateReturns now res report ->
  let packages := ScanResult.GoPackages res in
  let go := calculateLanguageSummary "go" packages in
  sumZ DirectoryMetrics.BazelizedPackages (Report.DirectoryBreakdown report)
  = LanguageSummary.PackagesWithBuild go
  /\ sumZ DirectoryMetrics.PackagesWithTests (Report.DirectoryBreakdown report)
     = LanguageSummary.PackagesWithTests go
  /\ (forall dm, In dm (Report.DirectoryBreakdown report) ->
        DirectoryMetrics.BazelizedPackages dm
        = countIf Package.HasBuildFile (members (DirectoryMetrics.Name dm) packages)
        /\ DirectoryMetrics.PackagesWithTests dm
           = countIf Package.HasTestFiles (members (DirectoryMetrics.Name dm) packages)).
Proof.
  intros (bd & (enc & Hrun) & ->) packages go. simpl Report.DirectoryBreakdown.
  destruct (breakdownRun_flags _ _ _ Hrun) as (H1 & H2 & H3).
  destruct (calculateLanguageSummary_fields "go" packages) as (_ & _ & HB & HW & _).
  fold go in HB, HW. rewrite HB, HW. done.
Qed.

Lemma breakdown_flags_partition_go_packages_witness :
  let now := "2026-01-01T00:00:00Z" in
  let res := Scan (NewScanner "/repo") repo_breakdown in
  let report := Calculate now res in
  let packages := ScanResult.GoPackages res in
  let go := calculateLanguageSummary "go" packages in
  (CalculateReturns now res report
   /\ DirectoryMetrics.BazelizedPackages <$> Report.DirectoryBreakdown report = [1; 0; 0]
   /\ DirectoryMetrics.PackagesWithTests <$> Report.DirectoryBreakdown report = [1; 0; 0])
  /\ sumZ DirectoryMetrics.BazelizedPackages (Report.DirectoryBreakdown report)
     = LanguageSummary.PackagesWithBuild go
  /\ sumZ DirectoryMetrics.PackagesWithTests (Report.DirectoryBreakdown report)
     = LanguageSummary.PackagesWithTests go
  /\ (forall dm, In dm (Report.DirectoryBreakdown report) ->
        DirectoryMetrics.BazelizedPackages dm
        = countIf Package.HasBuildFile (members (DirectoryMetrics.Name dm) packages)
        /\ DirectoryMetrics.PackagesWithTests dm
           = countIf Package.HasTestFiles (members (DirectoryMetrics.Name dm) packages)).
Proof.
  intros now res report packages go. split.
  - split; [apply Calculate_returns|]. vm_compute. split; reflexivity.
  - exact (breakdown_flags_partition_go_packages now res report (Calculate_returns now res)).
Defined.

(** X18: the name of an entry of the directory breakdown is never empty,
    never [.], and holds no separator. For the packages of a scan the name
    is the first segment of the relative path, and [(root)] for the package
    of the repository root: [filepath.Clean] changes nothing in these paths. *)
Theorem breakdown_names_are_first_segments
  (s : Scanner.t) (root : list fs.node) (now : string) (res : ScanResult.t)
  (report : Report.t) :
  forallb dirNamesProper root = true ->
  ScanReturns s root res -> CalculateReturns now res report ->
  (forall dm, In dm (Report.DirectoryBreakdown report) ->
     DirectoryMetrics.Name dm <> "" /\ DirectoryMetrics.Name dm <> "."
     /\ noSeparator (DirectoryMetrics.Name dm) = true
     /\ exists P, In P (ScanResult.GoPackages res)
                  /\ DirectoryMetrics.Name dm = groupLabel (segments (Package.RelPath P)))
  /\ (forall P, In P (allPackages res) ->
        topDir P = groupLabel (segments (Package.RelPath P))).
Proof.
  intros Hnames Hres (bd & (enc & Hrun) & ->). simpl Report.DirectoryBreakdown.
  assert (Hlabel : forall P, In P (allPackages res) ->
            topDir P = groupLabel (segments (Package.RelPath P))).
  { intros P HP. by apply (scan_groupLabel s root res). }
  split; [|exact Hlabel]. intros dm Hin.
  destruct (breakdownRun_entries _ _ _ _ Hrun Hin) as (dm0 & Hl & ->).
  destruct (withPercentages_counts dm0) as (_ & _ & ->).
  destruct (groups_lookup _ _ _ Hl) as (Hne & _).
  destruct (members (DirectoryMetrics.Name dm0) (ScanResult.GoPackages res))
    as [|P l] eqn:E; [done|].
  assert (HP : In P (members (DirectoryMetrics.Name dm0) (ScanResult.GoPackages res)))
    by (rewrite E; by left).
  apply List.filter_In in HP as [HP Hk]. apply String.eqb_eq in Hk.
  destruct (topDir_label P) as (T1 & T2 & T3). rewrite Hk in T1, T2, T3.
  split; [done|]. split; [done|]. split; [done|]. exists P. split; [done|].
  rewrite <- Hk. apply Hlabel. unfold allPackages. apply in_app_iff. by left.
Qed.

Lemma breakdown_names_are_first_segments_witness :
  let s := NewScanner "/repo" in
  let now := "2026-01-01T00:00:00Z" in
  let res := Scan s repo_breakdown in
  let report := Calculate now res in
  (forallb dirNamesProper repo_breakdown = true
   /\ ScanReturns s repo_breakdown res /\ CalculateReturns now res report
   /\ DirectoryMetrics.Name <$> Report.DirectoryBreakdown report = ["svc"; "(root)"; "lib"])
  /\ (forall dm, In dm (Report.DirectoryBreakdown report) ->
      DirectoryMetrics.Name dm <> "" /\ DirectoryMetrics.Name dm <> "."
      /\ noSeparator (DirectoryMetrics.Name dm) = true
      /\ exists P, In P (ScanResult.GoPackages res)
                   /\ DirectoryMetrics.Name dm = groupLabel (segments (Package.RelPath P)))
  /\ (forall P, In P (allPackages res) ->
        topDir P = groupLabel (segments (Package.RelPath P))).
Proof.
  intros s now res report. split.
  - split; [vm_compute; reflexivity|]. split; [apply Scan_returns|].
    split; [apply Calculate_returns|]. vm_compute. reflexivity.
  - apply (breakdown_names_are_first_segments s repo_breakdown now res report).
    + vm_compute. reflexivity.
    + apply Scan_returns.
    + apply Calculate_returns.
Defined.

Lemma bazelizedTests_percentage lang packages :
  Z.of_nat (length packages) < 2 ^ 53 ->
  percentageOf (LanguageSummary.BazelizedTestsPct (calculateLanguageSummary lang packages))
    (countIf hasBazelizedTests packages) (countIf Package.HasTestFiles packages).
Proof.
  intros Hlen.
  destruct (calculateLanguageSummary_fields lang packages) as (_ & _ & _ & _ & _ & _ & ->).
  apply percentageOf_guarded.
  - split; [apply countIf_nonneg|]. apply countIf_mono.
    intros p. unfold hasBazelizedTests. by intros [? _]%andb_true_iff.
  - pose proof (countIf_le_length Package.HasTestFiles packages). lia.
Qed.

(** X19: the bazelized-tests percentage of every language summary of a
    report, and the three percentages of the legacy summary, lie between 0
    and 100 and are no NaN; the package lists have fewer than 2^53 elements. *)
Theorem report_percentages_in_range
  (now : string) (res : ScanResult.t) (report : Report.t) :
  Z.of_nat (length (ScanResult.GoPackages res)) < 2 ^ 53 ->
  Z.of_nat (length (ScanResult.PythonPackages res)) < 2 ^ 53 ->
  Z.of_nat (length (ScanResult.RustPackages res)) < 2 ^ 53 ->
  CalculateReturns now res report ->
  (forall lang summary,
     Report.LanguageSummaries report !! lang = Some summary ->
     inRange (LanguageSummary.BazelizedTestsPct summary))
  /\ inRange (Summary.BazelizationPct (Report.Summary report))
  /\ inRange (Summary.TestCoveragePct (Report.Summary report))
  /\ inRange (Summary.BazelizedTestsPct (Report.Summary report)).
Proof.
  intros Hgo Hpy Hru (bd & _ & ->).
  change (Report.LanguageSummaries
            (Report.set_DirectoryBreakdown bd (calculateLanguages now res)))
    with (Report.LanguageSummaries (calculateLanguages now res)).
  change (Report.Summary (Report.set_DirectoryBreakdown bd (calculateLanguages now res)))
    with (Report.Summary (calculateLanguages now res)).
  split.
  - intros lang summary Hl.
    apply calculateLanguages_lookup in Hl as (name & pk & Hin & -> & _ & ->).
    assert (Z.of_nat (length pk) < 2 ^ 53) as Hlen.
    { simpl in Hin. destruct Hin as [[= <- <-]|[[= <- <-]|[[= <- <-]|[]]]]; done. }
    by destruct (bazelizedTests_percentage name pk Hlen) as (_ & ? & _).
  - rewrite calculateLanguages_legacy.
    destruct (ScanResult.GoPackages res) as [|p l] eqn:E.
    + split; [|split]; apply inRange_zero.
    + cbv zeta. cbn [Summary.BazelizationPct Summary.TestCoveragePct Summary.BazelizedTestsPct].
      destruct (summary_percentages "go" (p :: l) Hgo) as [(_ & H1 & _) (_ & H2 & _)].
      destruct (bazelizedTests_percentage "go" (p :: l) Hgo) as (_ & H3 & _).
      done.
Qed.

Lemma report_percentages_in_range_witness :
  let now := "2026-01-01T00:00:00Z" in
  let res := Scan (NewScanner "/repo") repo_mixed in
  let report := Calculate now res in
  (Z.of_nat (length (ScanResult.GoPackages res)) < 2 ^ 53
   /\ Z.of_nat (length (ScanResult.PythonPackages res)) < 2 ^ 53
   /\ Z.of_nat (length (ScanResult.RustPackages res)) < 2 ^ 53
   /\ CalculateReturns now res report
   /\ Summary.BazelizedTestsPct (Report.Summary report) = 100%float)
  /\ (forall lang summary,
        Report.LanguageSummaries report !! lang = Some summary ->
        inRange (LanguageSummary.BazelizedTestsPct summary))
  /\ inRange (Summary.BazelizationPct (Report.Summary report))
  /\ inRange (Summary.TestCoveragePct (Report.Summary report))
  /\ inRange (Summary.BazelizedTestsPct (Report.Summary report)).
Proof.
  intros now res report.
  assert (H1 : Z.of_nat (length (ScanResult.GoPackages res)) < 2 ^ 53)
    by (vm_compute; reflexivity).
  assert (H2 : Z.of_nat (length (ScanResult.PythonPackages res)) < 2 ^ 53)
    by (vm_compute; reflexivity).
  assert (H3 : Z.of_nat (length (ScanResult.RustPackages res)) < 2 ^ 53)
    by (vm_compute; reflexivity).
  split.
  - split; [exact H1|]. split; [exact H2|]. split; [exact H3|].
    split; [apply Calculate_returns|]. vm_compute. reflexivity.
  - exact (report_percentages_in_range now res report H1 H2 H3 (Calculate_returns now res)).
Defined.

(** * Properties of the benchmark runner *)

(** X20: [selectCandidates] returns: no index of its selection sort is out
    of range. The candidates are the Go packages with test files, a positive
    count of test targets and from 1 to 20 test files, each as often as it
    stands in the list of the scan. *)
Theorem candidates_are_the_eligible_packages (r : Runner.t) :
  exists candidates,
    selectCandidates r = Some candidates
    /\ candidates ≡ₚ List.filter isCandidate (ScanResult.GoPackages (Runner.scanResult r))
    /\ (forall p, In p candidates
          <-> In p (ScanResult.GoPackages (Runner.scanResult r))
              /\ Package.HasTestFiles p = true /\ 0 < Package.TestTargetCount p
              /\ 0 < Package.TestFileCount p <= 20).
Proof.
  destruct (selectCandidates_spec r) as (candidates & E & Hp & _).
  exists candidates. split; [done|]. split; [done|]. intros p.
  rewrite <- isCandidate_iff, <- List.filter_In. split; apply Permutation_in; [done|].
  by symmetry.
Qed.

(** X21: the first [maxTests] candidates are in ascending order of their
    counts of test files, and none of the candidates behind them has fewer
    test files than one of them: the runner benchmarks the packages with the
    fewest test files. *)
Theorem candidates_smallest_first (r : Runner.t) (candidates : list Package.t) :
  selectCandidates r = Some candidates ->
  let n := Z.to_nat (Runner.maxTests r) in
  StronglySorted fewerTests (take n candidates)
  /\ (forall a b, In a (take n candidates) -> In b (drop n candidates) -> fewerTests a b).
Proof.
  intros E n. destruct (selectCandidates_spec r) as (candidates' & E' & _ & Hs).
  assert (candidates' = candidates) as -> by congruence.
  by apply smallestFirst_take.
Qed.

Lemma candidates_smallest_first_witness :
  let res := Scan (NewScanner "/repo") repo_mixed in
  let r := NewRunner "/repo" res 1 in
  let api := Package.mk "/repo/api" "api" LangGo true true 1 2 1 1 0 in
  let cli := Package.mk "/repo/cli" "cli" LangGo true true 1 1 1 0 0 in
  let n := Z.to_nat (Runner.maxTests r) in
  (ScanResult.GoPackages res = [api; cli] /\ selectCandidates r = Some [cli; api])
  /\ StronglySorted fewerTests (take n [cli; api])
  /\ (forall a b, In a (take n [cli; api]) -> In b (drop n [cli; api]) -> fewerTests a b).
Proof.
  intros res r api cli n.
  assert (H : selectCandidates r = Some [cli; api]) by (vm_compute; reflexivity).
  split.
  - split; [vm_compute; reflexivity|exact H].
  - exact (candidates_smallest_first r [cli; api] H).
Defined.

(** X22: [Run] on a runner of [NewRunner] never fails and never skips a
    package, whatever the commands and the file system do: the limit is
    positive (5 when none is given), and the report holds one entry for each
    of the first [maxTests] candidates, in their order, under the relative
    path of the package; with no candidate the report is empty. *)
Theorem run_reports_the_first_candidates {W : Type}
  (stat : string -> W -> bool) (exec : command -> W -> W * (Z * option string))
  (repoPath : string) (res : ScanResult.t) (maxTests : Z) (st : state W) :
  let r := NewRunner repoPath res maxTests in
  0 < Runner.maxTests r
  /\ (0 < maxTests -> Runner.maxTests r = maxTests)
  /\ (maxTests <= 0 -> Runner.maxTests r = 5)
  /\ exists candidates st' report,
       selectCandidates r = Some candidates
       /\ Run stat exec r st = Some (st', (report, None))
       /\ PackageBenchmark.Path <$> SpeedReport.Packages report
          = Package.RelPath <$> take (Z.to_nat (Runner.maxTests r)) candidates
       /\ Z.of_nat (length (SpeedReport.Packages report))
          = Z.min (Runner.maxTests r) (Z.of_nat (length candidates)).
Proof.
  intros r. destruct (NewRunner_maxTests repoPath res maxTests) as (Hpos & H1 & H2).
  fold r in Hpos, H1, H2. split; [done|]. split; [done|]. split; [done|].
  destruct (Run_spec stat exec r st ltac:(lia)) as (candidates & st' & report & E & HR & HP).
  exists candidates, st', report. split; [done|]. split; [done|]. split; [done|].
  apply (f_equal length) in HP. rewrite !length_fmap, length_take in HP. lia.
Qed.

(** X23: among the Go packages of a scan the candidates are the packages
    with a positive count of test targets and from 1 to 20 test files (the
    flag of test files follows from the count), and every candidate has a
    BUILD file. *)
Theorem scan_candidates_have_build_files (s : Scanner.t) (root : list fs.node)
  (res : ScanResult.t) (p : Package.t) :
  ScanReturns s root res -> In p (ScanResult.GoPackages res) ->
  (isCandidate p = true
   <-> 0 < Package.TestTargetCount p /\ 1 <= Package.TestFileCount p <= 20)
  /\ (isCandidate p = true -> Package.HasBuildFile p = true).
Proof.
  intros Hres Hin. by apply (scan_candidate s root res).
Qed.

Lemma scan_candidates_have_build_files_witness :
  let s := NewScanner "/repo" in
  let res := Scan s repo_mixed in
  let p := Package.mk "/repo/api" "api" LangGo true true 1 2 1 1 0 in
  (ScanReturns s repo_mixed res /\ In p (ScanResult.GoPackages res))
  /\ (isCandidate p = true
      <-> 0 < Package.TestTargetCount p /\ 1 <= Package.TestFileCount p <= 20)
  /\ (isCandidate p = true -> Package.HasBuildFile p = true).
Proof.
  intros s res p.
  assert (H : In p (ScanResult.GoPackages res)) by (vm_compute; tauto).
  split.
  - split; [apply Scan_returns|exact H].
  - exact (scan_candidates_have_build_files s repo_mixed res p (Scan_returns s repo_mixed) H).
Defined.

(** X24: [findGoModDir] returns: its loop ends. What it returns is the empty
    string or the nearest directory with a [go.mod] among the directory of
    the package and the directories above it, and the search goes up only
    through directories that have the repository path as a prefix. *)
Theorem go_mod_dir_is_nearest (r : Runner.t) (stat : string -> bool)
  (pkgPath : string) :
  exists d,
    findGoModDir r stat pkgPath = Some d
    /\ (d <> "" ->
        stat (Join [d; "go.mod"]) = true
        /\ exists n,
             d = ancestor n pkgPath
             /\ ((0 < n)%nat -> strings.HasPrefix d (Runner.repoPath r) = true)
             /\ (forall m, (m < n)%nat ->
                   stat (Join [ancestor m pkgPath; "go.mod"]) = false)).
Proof.
  destruct (findGoModDir_returns r stat pkgPath) as [d E]. exists d.
  split; [done|]. intros Hd. by apply (findGoModDirFrom_found _ _ _ _ _ E).
Qed.

(** With a [go.mod] in [/repo] only, the search from [/repo/svc/api] ends
    in [/repo]; with none it ends above [/repo], with the empty string. *)
Example go_mod_dir_of_a_package :
  let r := NewRunner "/repo" (ScanResult.new "/repo") 0 in
  findGoModDir r (fun path => String.eqb path "/repo/go.mod") "/repo/svc/api"
  = Some "/repo"
  /\ findGoModDir r (fun _ => false) "/repo/svc/api" = Some ""
  /\ ancestor 3 "/repo/svc/api" = "/".
Proof. vm_compute. repeat split; reflexivity. Qed.
